(** * Two-stage rocket design engine: a shallow embedding of the physics,
      optimizer and performance-analysis modules, with the properties the
      design specification states about them.

    Python floats are idealised as real numbers ([R]); every Python operation
    that can raise ([/], [math.log], [math.sqrt], [**], dictionary lookup) is
    embedded as a function into the result type [Py.result], so that the
    exceptions of the source are part of the model. *)

From Stdlib Require Import Reals Lra Psatz String Ascii List Bool ZArith Lia.
From Stdlib Require Import DecimalString DecimalZ.
Import ListNotations.
Open Scope R_scope.

(* ===================================================================== *)
(** ** Python primitives *)
(* ===================================================================== *)

Module Py.

(** The exceptions the embedded code can raise. *)
Inductive exn : Type :=
| ZeroDivisionError
| ValueError
| KeyError
| IndexError
| TypeError
| AttributeError.

(** Outcome of a Python expression or call: a value or a raised exception. *)
Inductive result (A : Type) : Type :=
| Ok (a : A)
| Raise (e : exn).
Arguments Ok {A} a.
Arguments Raise {A} e.

Definition bind {A B : Type} (c : result A) (k : A -> result B) : result B :=
  match c with
  | Ok a => k a
  | Raise e => Raise e
  end.

(** [a / b] on floats: ZeroDivisionError when the divisor is zero. *)
Definition truediv (a b : R) : result R :=
  if Req_dec_T b 0 then Raise ZeroDivisionError else Ok (a / b).

(** [math.log(x)]: ValueError (math domain error) unless [x > 0]. *)
Definition math_log (x : R) : result R :=
  if Rlt_dec 0 x then Ok (ln x) else Raise ValueError.

(** [math.sqrt(x)]: ValueError (math domain error) when [x < 0]. *)
Definition math_sqrt (x : R) : result R :=
  if Rle_dec 0 x then Ok (sqrt x) else Raise ValueError.

(** [x ** y] on floats.  A positive base gives [exp (y * ln x)]; a zero base
    gives 1, 0 or ZeroDivisionError according to the sign of the exponent; a
    negative base with an integral exponent gives the integer power.  A
    negative base with a fractional exponent evaluates to a complex number in
    Python 3; complex values are outside this model, and TypeError (what the
    first [math] function applied to one raises) is recorded in its place.
    The embedded code only ever calls [**] with the positive bases
    [2 / (gamma + 1)] and [1 / 20] of the catalog propellants. *)
Definition float_pow (x y : R) : result R :=
  if Rlt_dec 0 x then Ok (Rpower x y)
  else if Req_dec_T x 0 then
    if Req_dec_T y 0 then Ok 1
    else if Rlt_dec 0 y then Ok 0
    else Raise ZeroDivisionError
  else if Req_dec_T (IZR (Zfloor y)) y then Ok (powerRZ x (Zfloor y))
  else Raise TypeError.

(** [math.radians(d)]. *)
Definition math_radians (d : R) : R := d * PI / 180.

(** [math.copysign(x, y)] (the sign of a zero [y] is taken as positive). *)
Definition math_copysign (x y : R) : R :=
  if Rlt_dec y 0 then - Rabs x else Rabs x.

(** [max(a, b)] and [min(a, b)] on floats. *)
Definition max (a b : R) : R := if Rlt_dec a b then b else a.
Definition min (a b : R) : R := if Rlt_dec b a then b else a.

(** [str(n)] for an integer. *)
Definition str_of_Z (n : Z) : string :=
  NilEmpty.string_of_int (Z.to_int n).

(** Rounding to the nearest integer, ties to even, as float formatting
    rounds. *)
Definition round_half_even (x : R) : Z :=
  let f := Zfloor x in
  let d := x - IZR f in
  if Rlt_dec d 0.5 then f
  else if Rlt_dec 0.5 d then (f + 1)%Z
  else if Z.even f then f else (f + 1)%Z.

(** [f"{x:.0f}"]: fixed-point formatting with no decimals.  A negative
    number that rounds to zero keeps its sign. *)
Definition format_0f (x : R) : string :=
  let z := round_half_even x in
  if Rlt_dec x 0 then
    if (z =? 0)%Z then "-0"%string else str_of_Z z
  else str_of_Z z.

(** [c.lower()] on an ASCII character. *)
Definition lower_ascii (c : ascii) : ascii :=
  let n := N_of_ascii c in
  if (65 <=? n)%N && (n <=? 90)%N then ascii_of_N (n + 32) else c.

(** [s.lower()] on an ASCII string. *)
Fixpoint lower (s : string) : string :=
  match s with
  | EmptyString => EmptyString
  | String c t => String (lower_ascii c) (lower t)
  end.

(** [needle in hay] on strings: substring test. *)
Fixpoint str_in (needle hay : string) : bool :=
  if String.prefix needle hay then true
  else match hay with
       | EmptyString => false
       | String _ t => str_in needle t
       end.

(** [d[k]] on a dictionary with string keys, kept as an association list in
    insertion order: KeyError when the key is absent. *)
Fixpoint getitem {V : Type} (d : list (string * V)) (k : string) : result V :=
  match d with
  | [] => Raise KeyError
  | (k', v) :: rest => if String.eqb k k' then Ok v else getitem rest k
  end.

(** [k in d] on such a dictionary. *)
Fixpoint contains {V : Type} (d : list (string * V)) (k : string) : bool :=
  match d with
  | [] => false
  | (k', _) :: rest => if String.eqb k k' then true else contains rest k
  end.

(** [d[k] = v] on such a dictionary: an existing key keeps its place and
    gets the new value, a new key goes to the end. *)
Fixpoint setitem {V : Type} (d : list (string * V)) (k : string) (v : V)
  : list (string * V) :=
  match d with
  | [] => [(k, v)]
  | (k', v') :: rest =>
      if String.eqb k k' then (k', v) :: rest
      else (k', v') :: setitem rest k v
  end.

(** A dictionary value that is a float or a string. *)
Inductive value : Type :=
| Float (x : R)
| Str (s : string).

(** [math.pow(x, y)]: as [x ** y] on floats, but a negative base with a
    fractional exponent is a ValueError (math domain error) instead of a
    complex number, and so is a zero base with a negative exponent. *)
Definition math_pow (x y : R) : result R :=
  if Rlt_dec 0 x then Ok (Rpower x y)
  else if Req_dec_T x 0 then
    if Req_dec_T y 0 then Ok 1
    else if Rlt_dec 0 y then Ok 0
    else Raise ValueError
  else if Req_dec_T (IZR (Zfloor y)) y then Ok (powerRZ x (Zfloor y))
  else Raise ValueError.

End Py.

Import Py.

Declare Scope py_scope.
Delimit Scope py_scope with py.
Notation "x <- c ;; k" := (Py.bind c (fun x => k))
  (at level 61, c at next level, right associativity) : py_scope.
Open Scope py_scope.

(* ===================================================================== *)
(** ** rocket_physics.py *)
(* ===================================================================== *)

Module rocket_physics.

(** Physical constants. *)
Definition GRAVITY : R := 9.81.
Definition EARTH_RADIUS : R := 6371000.
Definition SEA_LEVEL_PRESSURE : R := 101325.

(** One entry of [PROPELLANT_COMBINATIONS]. *)
Record Propellant : Type := mkPropellant {
  name : string;
  isp_vac : R;
  isp_sl : R;
  density : R;
  mixture_ratio : option R;
  chamber_temp : R;
  chamber_pressure : R;
  gamma : R
}.

Definition LOX_LH2 : Propellant :=
  mkPropellant "Liquid Oxygen/Liquid Hydrogen" 450 370 360 (Some 5.5)
               3200 6.9e6 1.26.

Definition LOX_RP1 : Propellant :=
  mkPropellant "Liquid Oxygen/RP-1" 340 280 1030 (Some 2.56)
               3670 7.6e6 1.22.

Definition HTPB : Propellant :=
  mkPropellant "HTPB Solid Propellant" 280 250 1700 None
               3400 6.2e6 1.18.

Definition PROPELLANT_COMBINATIONS : list (string * Propellant) :=
  [ ("LOX/LH2"%string, LOX_LH2);
    ("LOX/RP1"%string, LOX_RP1);
    ("HTPB"%string, HTPB) ].

Module Stage.

(** The attributes of a [Stage] object. *)
Record t : Type := mk {
  name : string;
  dry_mass : R;
  propellant_mass : R;
  thrust_sl : R;
  thrust_vac : R;
  burn_time : R;
  diameter : R;
  length : R;
  propellant : Propellant;
  mass_ratio : R;
  total_mass : R;
  propellant_flow_rate : R;
  throat_area : R;
  throat_diameter : R;
  expansion_ratio : R;
  exit_area : R;
  exit_diameter : R;
  nozzle_length : R
}.

(** Assignment of the six nozzle attributes, everything else unchanged. *)
Definition set_nozzle (self : t)
           (At Dt eps Ae De Ln : R) : t :=
  mk (name self) (dry_mass self) (propellant_mass self) (thrust_sl self)
     (thrust_vac self) (burn_time self) (diameter self) (length self)
     (propellant self) (mass_ratio self) (total_mass self)
     (propellant_flow_rate self) At Dt eps Ae De Ln.

(** [Stage._calculate_thrust_coefficient]. *)
Definition _calculate_thrust_coefficient
           (expansion_ratio gamma : R) : result R :=
  q1 <- truediv (2 * gamma ^ 2) (gamma - 1) ;;
  term1 <- math_sqrt q1 ;;
  b2 <- truediv 2 (gamma + 1) ;;
  e2 <- truediv (gamma + 1) (gamma - 1) ;;
  term2 <- float_pow b2 e2 ;;
  b3 <- truediv 1 expansion_ratio ;;
  p3 <- float_pow b3 (gamma - 1) ;;
  q3 <- truediv p3 gamma ;;
  let term3 := 1 - q3 in
  s3 <- math_sqrt term3 ;;
  let Cf := term1 * term2 * s3 in
  Ok (Cf * 0.98).

(** [Stage._calculate_optimal_expansion_ratio] (the [gamma] argument is
    not used by the source either). *)
Definition _calculate_optimal_expansion_ratio (self : t) (gamma : R) : R :=
  let n := lower (name self) in
  if str_in "first" n || str_in "booster" n then 10
  else if str_in "second" n then 40
  else if str_in "third" n || str_in "upper" n then 80
  else 25.

(** [Stage._calculate_engine_parameters]: recomputes the nozzle attributes
    of [self] from its thrust, name and propellant. *)
Definition _calculate_engine_parameters (self : t) : result t :=
  let pc := chamber_pressure (propellant self) in
  let gamma := gamma (propellant self) in
  let expansion_ratio0 := 20 in
  Cf <- _calculate_thrust_coefficient expansion_ratio0 gamma ;;
  throat_area <- truediv (thrust_vac self) (Cf * pc) ;;
  qt <- truediv throat_area PI ;;
  st <- math_sqrt qt ;;
  let throat_diameter := 2 * st in
  let expansion_ratio := _calculate_optimal_expansion_ratio self gamma in
  let exit_area := throat_area * expansion_ratio in
  qe <- truediv exit_area PI ;;
  se <- math_sqrt qe ;;
  let exit_diameter := 2 * se in
  conical_length <- truediv (exit_diameter - throat_diameter)
                            (2 * tan (math_radians 15)) ;;
  let nozzle_length := 0.8 * conical_length in
  Ok (set_nozzle self throat_area throat_diameter expansion_ratio
                 exit_area exit_diameter nozzle_length).

(** [Stage.__init__].  The nozzle attributes do not exist before
    [_calculate_engine_parameters] assigns them; they are 0 in the record
    passed to it, and it reads none of them. *)
Definition __init__ (name : string)
           (dry_mass propellant_mass thrust_sl thrust_vac
            burn_time diameter length : R)
           (propellant_type : string) : result t :=
  propellant <-
    (if contains PROPELLANT_COMBINATIONS propellant_type
     then getitem PROPELLANT_COMBINATIONS propellant_type
     else getitem PROPELLANT_COMBINATIONS "LOX/LH2") ;;
  mass_ratio <- truediv (dry_mass + propellant_mass) dry_mass ;;
  let total_mass := dry_mass + propellant_mass in
  propellant_flow_rate <-
    (if Rlt_dec 0 burn_time then truediv propellant_mass burn_time
     else Ok 0) ;;
  _calculate_engine_parameters
    (mk name dry_mass propellant_mass thrust_sl thrust_vac burn_time
        diameter length propellant mass_ratio total_mass
        propellant_flow_rate 0 0 0 0 0 0).

(** [Stage.get_delta_v]. *)
Definition get_delta_v (self : t) : result R :=
  let isp := isp_vac (propellant self) in
  let g0 := GRAVITY in
  let mass_ratio := mass_ratio self in
  l <- math_log mass_ratio ;;
  let delta_v := isp * g0 * l in
  Ok delta_v.

(** [Stage.get_nozzle_parameters]: the dictionary handed to the CAD
    scripts. *)
Definition get_nozzle_parameters (self : t) : list (string * value) :=
  [ ("throat_diameter"%string, Float (throat_diameter self));
    ("exit_diameter"%string, Float (exit_diameter self));
    ("length"%string, Float (nozzle_length self));
    ("shape"%string, Str "bell") ].

End Stage.

Module MultiStageRocket.

(** The attributes of a [MultiStageRocket]; [stages] runs from the
    liftoff stage (index 0) upwards. *)
Record t : Type := mk {
  name : string;
  payload_mass : R;
  stages : list Stage.t
}.

(** [MultiStageRocket.__init__]; [stages if stages else []] is the given
    list either way. *)
Definition __init__ (name : string) (payload_mass : R)
           (stages : list Stage.t) : t :=
  mk name payload_mass stages.

(** [MultiStageRocket.add_stage]: append at the top of the stack. *)
Definition add_stage (self : t) (stage : Stage.t) : t :=
  mk (name self) (payload_mass self) (stages self ++ [stage]).

(** [MultiStageRocket.get_total_mass]. *)
Definition get_total_mass (self : t) : R :=
  fold_left (fun total stage => total + Stage.total_mass stage)
            (stages self) (payload_mass self).

(** One iteration of the loop of [get_total_delta_v], on the pair of
    loop variables [(delta_v, current_mass)]. *)
Definition delta_v_step (acc : R * R) (stage : Stage.t) : result (R * R) :=
  let '(delta_v, current_mass) := acc in
  let stage_start_mass := current_mass in
  let current_mass :=
    current_mass - (Stage.propellant_mass stage + Stage.dry_mass stage) in
  let isp := isp_vac (Stage.propellant stage) in
  q <- truediv stage_start_mass current_mass ;;
  l <- math_log q ;;
  Ok (delta_v + GRAVITY * isp * l, current_mass).

(** The [for stage in self.stages] loop of [get_total_delta_v]. *)
Fixpoint delta_v_loop (acc : R * R) (stages : list Stage.t)
  : result (R * R) :=
  match stages with
  | [] => Ok acc
  | stage :: rest =>
      acc' <- delta_v_step acc stage ;;
      delta_v_loop acc' rest
  end.

(** [MultiStageRocket.get_total_delta_v]. *)
Definition get_total_delta_v (self : t) : result R :=
  let delta_v := 0 in
  let current_mass := get_total_mass self in
  acc <- delta_v_loop (delta_v, current_mass) (stages self) ;;
  Ok (fst acc).

(** [MultiStageRocket.get_height]. *)
Definition get_height (self : t) : R :=
  let height :=
    fold_left (fun height stage => height + Stage.length stage)
              (stages self) 0 in
  height + 0.1 * height.

(** The [for i, stage in enumerate(self.stages)] loop of
    [get_mass_fractions], from index [i] on. *)
Fixpoint mass_fractions_loop (total_mass : R) (i : nat)
         (stages : list Stage.t) (fractions : list (string * R))
  : result (list (string * R)) :=
  match stages with
  | [] => Ok fractions
  | stage :: rest =>
      d <- truediv (Stage.dry_mass stage) total_mass ;;
      let fractions :=
        setitem fractions
                ("stage_" ++ str_of_Z (Z.of_nat (i + 1)) ++ "_dry")%string d in
      p <- truediv (Stage.propellant_mass stage) total_mass ;;
      let fractions :=
        setitem fractions
                ("stage_" ++ str_of_Z (Z.of_nat (i + 1)) ++ "_propellant")%string
                p in
      mass_fractions_loop total_mass (S i) rest fractions
  end.

(** [MultiStageRocket.get_mass_fractions]. *)
Definition get_mass_fractions (self : t) : result (list (string * R)) :=
  let total_mass := get_total_mass self in
  payload_fraction <- truediv (payload_mass self) total_mass ;;
  let fractions := [("payload"%string, payload_fraction)] in
  mass_fractions_loop total_mass 0 (stages self) fractions.

End MultiStageRocket.

(** [create_realistic_two_stage_rocket]. *)
Definition create_realistic_two_stage_rocket
  : result MultiStageRocket.t :=
  first_stage <-
    Stage.__init__ "First Stage" 25000 385000 7600000 8200000 162
                   3.7 41.2 "LOX/RP1" ;;
  second_stage <-
    Stage.__init__ "Second Stage" 4000 90000 0 934000 397
                   3.7 12.6 "LOX/RP1" ;;
  let rocket := MultiStageRocket.__init__ "Realistic Two-Stage" 15000 [] in
  let rocket := MultiStageRocket.add_stage rocket first_stage in
  let rocket := MultiStageRocket.add_stage rocket second_stage in
  Ok rocket.

End rocket_physics.

(* ===================================================================== *)
(** ** rocket_optimizer.py *)
(* ===================================================================== *)

Module rocket_optimizer.

Import rocket_physics.

(** What the optimizer prints, with the numbers it formats kept as reals. *)
Inductive output : Type :=
| Warning_twr_too_low (twr : R)
| Print_delta_v (delta_v : R)
| Print_twr (twr : R)
| Print_gravity_losses (gravity_loss : R)
| Print_drag_losses (drag_loss : R)
| Print_effective_delta_v (effective_delta_v : R)
| Print_initial_configuration (num_stages : Z) (max_altitude_km : R).

Module RocketOptimizer.

(** The attributes of a [RocketOptimizer].  [stages] and the stage list
    of [rocket] are one list object in the source; [rocket] is [None]
    until [_initialize_rocket] has built it. *)
Record t : Type := mk {
  target_altitude : R;
  payload_mass : R;
  propellant_type : string;
  num_stages : Z;
  initial_diameter : R;
  safety_factor : R;
  stages : list Stage.t;
  rocket : option MultiStageRocket.t;
  max_altitude : R
}.

(** The tables [self.stage_l_to_d] and [self.stage_pmf] set by
    [__init__]; an absent key is KeyError. *)
Definition stage_l_to_d (n : Z) : result (list R) :=
  if (n =? 1)%Z then Ok [8.0]
  else if (n =? 2)%Z then Ok [10.0; 3.5]
  else if (n =? 3)%Z then Ok [8.0; 5.0; 3.0]
  else Raise KeyError.

Definition stage_pmf (n : Z) : result (list R) :=
  if (n =? 1)%Z then Ok [0.85]
  else if (n =? 2)%Z then Ok [0.88; 0.84]
  else if (n =? 3)%Z then Ok [0.90; 0.86; 0.82]
  else Raise KeyError.

(** [self.min_wall_thickness]. *)
Definition min_wall_thickness (d : R) : R := Py.max 0.002 (0.004 * d).

(** The local table [stage_mass_fractions] of [_initialize_rocket]. *)
Definition stage_mass_fractions (n : Z) : result (list R) :=
  if (n =? 1)%Z then Ok [1.0]
  else if (n =? 2)%Z then Ok [0.80; 0.20]
  else if (n =? 3)%Z then Ok [0.75; 0.20; 0.05]
  else Raise KeyError.

(** The local table [stage_propellants] of [_initialize_rocket]. *)
Definition stage_propellants (n : Z) : result (list string) :=
  if (n =? 1)%Z then Ok ["LOX/RP1"%string]
  else if (n =? 2)%Z then Ok ["LOX/RP1"%string; "LOX/LH2"%string]
  else if (n =? 3)%Z
       then Ok ["LOX/RP1"%string; "LOX/LH2"%string; "LOX/LH2"%string]
  else Raise KeyError.

(** [l[i]] for an index [i >= 0]. *)
Definition index {A : Type} (l : list A) (i : nat) : result A :=
  match nth_error l i with
  | Some a => Ok a
  | None => Raise IndexError
  end.

(** [str(n)] for a natural number. *)
Definition str_of_nat (n : nat) : string :=
  NilEmpty.string_of_uint (Nat.to_uint n).

(** The body of the [for i in range(self.num_stages)] loop of
    [_initialize_rocket]: the stage built at index [i]. *)
Definition initial_stage (target_altitude total_mass_estimate : R)
           (num_stages : Z) (i : nat) : result Stage.t :=
  let base_diameter :=
    if Rlt_dec target_altitude 100000 then 1.5
    else if Rlt_dec target_altitude 400000 then 3.7
    else 8.4 in
  let diameter_factor :=
    match i with O => 1.0 | S O => 0.9 | _ => 0.8 end in
  let diameter := base_diameter * diameter_factor in
  fractions <- stage_mass_fractions num_stages ;;
  fraction <- index fractions i ;;
  let stage_mass := total_mass_estimate * fraction in
  let propellant_fraction :=
    match i with O => 0.93 | S O => 0.90 | _ => 0.88 end in
  let propellant_mass := stage_mass * propellant_fraction in
  let dry_mass := stage_mass - propellant_mass in
  let base_l_to_d :=
    match i with O => 10.0 | S O => 5.0 | _ => 3.0 end in
  let length := diameter * base_l_to_d in
  propellants <- stage_propellants num_stages ;;
  propellant <- index propellants i ;;
  let thrust_sl :=
    match i with O => 1.4 * stage_mass * GRAVITY | _ => 0 end in
  let thrust_vac :=
    match i with
    | O => 1.6 * stage_mass * GRAVITY
    | _ => 0.9 * stage_mass * GRAVITY
    end in
  let isp_vac :=
    if String.eqb propellant "LOX/RP1" then 340 else 450 in
  burn_time <-
    (if Rlt_dec 0 propellant_mass then
       if Rlt_dec 0 thrust_vac then
         mdot <- truediv thrust_vac (isp_vac * GRAVITY) ;;
         truediv propellant_mass mdot
       else Ok 200
     else Ok 200) ;;
  let stage_name := ("Stage " ++ str_of_nat (i + 1))%string in
  Stage.__init__ stage_name dry_mass propellant_mass thrust_sl thrust_vac
                 burn_time diameter length propellant.

(** The loop itself: stages are built and appended in index order, and
    the first exception leaves the loop. *)
Fixpoint initial_stages (target_altitude total_mass_estimate : R)
         (num_stages : Z) (indices : list nat) (stages : list Stage.t)
  : result (list Stage.t) :=
  match indices with
  | [] => Ok stages
  | i :: rest =>
      stage <- initial_stage target_altitude total_mass_estimate
                             num_stages i ;;
      initial_stages target_altitude total_mass_estimate num_stages rest
                     (stages ++ [stage])
  end.

(** [RocketOptimizer._estimate_altitude]: the estimate and what was
    printed on the way. *)
Definition _estimate_altitude (self : t) : result (R * list output) :=
  rocket <- match rocket self with
            | Some r => Ok r
            | None => Raise AttributeError
            end ;;
  delta_v <- MultiStageRocket.get_total_delta_v rocket ;;
  let initial_mass := MultiStageRocket.get_total_mass rocket in
  let first_stage_thrust_sl :=
    match stages self with
    | s0 :: _ => Stage.thrust_sl s0
    | [] => 0
    end in
  twr <- truediv first_stage_thrust_sl (initial_mass * GRAVITY) ;;
  if Rlt_dec twr 1.2 then
    Ok (0, [Warning_twr_too_low twr])
  else
    q <- truediv 1.5 twr ;;
    let gravity_loss := 1500 * q in
    s0 <- index (stages self) 0 ;;
    let diameter := Stage.diameter s0 in
    let length := MultiStageRocket.get_height rocket in
    fineness_ratio <- truediv length diameter ;;
    qf <- truediv 3.0 fineness_ratio ;;
    let drag_loss := 300 * qf * (diameter / 3.0) in
    let effective_delta_v := delta_v - gravity_loss - drag_loss in
    let printed :=
      [ Print_delta_v delta_v; Print_twr twr;
        Print_gravity_losses gravity_loss; Print_drag_losses drag_loss;
        Print_effective_delta_v effective_delta_v ] in
    if Rle_dec effective_delta_v 0 then
      Ok (0, printed)
    else if Rlt_dec effective_delta_v 7800 then
      let max_altitude := effective_delta_v ^ 2 / (2 * GRAVITY) in
      let correction_factor := 0.85 in
      Ok (max_altitude * correction_factor, printed)
    else
      let mu := GRAVITY * EARTH_RADIUS ^ 2 in
      let orbital_velocity := effective_delta_v in
      orbital_radius <- truediv mu (orbital_velocity ^ 2) ;;
      let altitude := orbital_radius - EARTH_RADIUS in
      Ok (Py.max 0 altitude, printed).


(** [RocketOptimizer._initialize_rocket]. *)
Definition _initialize_rocket (self : t) : result (t * list output) :=
  let initial_mass_ratio :=
    if Rlt_dec (target_altitude self) 100000 then 20
    else if Rlt_dec (target_altitude self) 400000 then 30
    else 50 in
  let total_mass_estimate := payload_mass self * initial_mass_ratio in
  stages <- initial_stages (target_altitude self) total_mass_estimate
                           (num_stages self)
                           (seq 0 (Z.to_nat (num_stages self))) [] ;;
  let rocket :=
    MultiStageRocket.__init__
      (str_of_Z (num_stages self) ++ "-Stage to "
         ++ format_0f (target_altitude self / 1000) ++ " km")%string
      (payload_mass self) stages in
  let self := mk (target_altitude self) (payload_mass self)
                 (propellant_type self) (num_stages self)
                 (initial_diameter self) (safety_factor self)
                 stages (Some rocket) (max_altitude self) in
  est <- _estimate_altitude self ;;
  let '(max_altitude, printed) := est in
  let self := mk (target_altitude self) (payload_mass self)
                 (propellant_type self) (num_stages self)
                 (initial_diameter self) (safety_factor self)
                 (stages) (Some rocket) max_altitude in
  Ok (self,
      printed ++ [Print_initial_configuration (num_stages self)
                                              (max_altitude / 1000)]).

(** [RocketOptimizer.__init__]. *)
Definition __init__ (target_altitude payload_mass : R)
           (propellant_type : string) (stages : Z)
           (initial_diameter safety_factor : R)
  : result (t * list output) :=
  _initialize_rocket
    (mk target_altitude payload_mass propellant_type stages
        initial_diameter safety_factor [] None 0).

(** The tank pressure chosen at the head of [_calculate_wall_thickness]. *)
Definition tank_pressure (stage : Stage.t) : R :=
  if str_in "LOX" (rocket_physics.name (Stage.propellant stage))
  then 3.0e5 else 2.0e5.

(** [RocketOptimizer._calculate_wall_thickness], for an index
    [stage_index >= 0]. *)
Definition _calculate_wall_thickness (self : t) (stage_index : nat)
  : result R :=
  stage <- index (stages self) stage_index ;;
  let tank_pressure := tank_pressure stage in
  let external_pressure :=
    match stage_index with O => 101325 | _ => 0 end in
  let delta_p := tank_pressure - external_pressure in
  let max_accel := 5.0 * GRAVITY in
  let stage_mass_above :=
    fold_left (fun m s => m + Stage.total_mass s)
              (firstn stage_index (stages self)) (payload_mass self) in
  let accel_force := stage_mass_above * max_accel in
  let cross_area := PI * (Stage.diameter stage ^ 2) / 4 in
  accel_stress <- truediv accel_force cross_area ;;
  let yield_strength := 270e6 in
  allowable <- truediv yield_strength (safety_factor self) ;;
  min_thickness_pressure <-
    truediv (delta_p * Stage.diameter stage / 2) allowable ;;
  allowable' <- truediv yield_strength (safety_factor self) ;;
  min_thickness_accel <-
    truediv (accel_stress * (Stage.diameter stage / 2)) allowable' ;;
  let min_thickness := Py.max min_thickness_pressure min_thickness_accel in
  let practical_min := min_wall_thickness (Stage.diameter stage) in
  Ok (Py.max min_thickness practical_min).

(** *** Mutation of the design *)

(** [l[i] = a] for an index inside the list. *)
Fixpoint list_set {A : Type} (l : list A) (i : nat) (a : A) : list A :=
  match l, i with
  | [], _ => []
  | _ :: rest, O => a :: rest
  | x :: rest, S i' => x :: list_set rest i' a
  end.

(** [self.stages] and the stage list of [self.rocket] are one list object
    (see [_initialize_rocket]), so a stage mutated through [self.stages] is
    the stage the rocket sees: the model writes the new list to both. *)
Definition set_stages (self : t) (new_stages : list Stage.t) : t :=
  mk (target_altitude self) (payload_mass self) (propellant_type self)
     (num_stages self) (initial_diameter self) (safety_factor self)
     new_stages
     (match rocket self with
      | Some r =>
          Some (MultiStageRocket.mk (MultiStageRocket.name r)
                                    (MultiStageRocket.payload_mass r)
                                    new_stages)
      | None => None
      end)
     (max_altitude self).

(** The assignment [self.max_altitude = v]. *)
Definition set_max_altitude (self : t) (v : R) : t :=
  mk (target_altitude self) (payload_mass self) (propellant_type self)
     (num_stages self) (initial_diameter self) (safety_factor self)
     (stages self) (rocket self) v.

(** Assignment of the mass and thrust attributes of a stage. *)
Definition set_masses (stage : Stage.t)
           (dry_mass propellant_mass total_mass mass_ratio
            propellant_flow_rate thrust_vac thrust_sl : R) : Stage.t :=
  Stage.mk (Stage.name stage) dry_mass propellant_mass thrust_sl thrust_vac
           (Stage.burn_time stage) (Stage.diameter stage) (Stage.length stage)
           (Stage.propellant stage) mass_ratio total_mass propellant_flow_rate
           (Stage.throat_area stage) (Stage.throat_diameter stage)
           (Stage.expansion_ratio stage) (Stage.exit_area stage)
           (Stage.exit_diameter stage) (Stage.nozzle_length stage).

(** Assignment of [stage.diameter] and of [stage.length]. *)
Definition set_diameter (stage : Stage.t) (v : R) : Stage.t :=
  Stage.mk (Stage.name stage) (Stage.dry_mass stage)
           (Stage.propellant_mass stage) (Stage.thrust_sl stage)
           (Stage.thrust_vac stage) (Stage.burn_time stage) v
           (Stage.length stage) (Stage.propellant stage)
           (Stage.mass_ratio stage) (Stage.total_mass stage)
           (Stage.propellant_flow_rate stage)
           (Stage.throat_area stage) (Stage.throat_diameter stage)
           (Stage.expansion_ratio stage) (Stage.exit_area stage)
           (Stage.exit_diameter stage) (Stage.nozzle_length stage).

Definition set_length (stage : Stage.t) (v : R) : Stage.t :=
  Stage.mk (Stage.name stage) (Stage.dry_mass stage)
           (Stage.propellant_mass stage) (Stage.thrust_sl stage)
           (Stage.thrust_vac stage) (Stage.burn_time stage)
           (Stage.diameter stage) v (Stage.propellant stage)
           (Stage.mass_ratio stage) (Stage.total_mass stage)
           (Stage.propellant_flow_rate stage)
           (Stage.throat_area stage) (Stage.throat_diameter stage)
           (Stage.expansion_ratio stage) (Stage.exit_area stage)
           (Stage.exit_diameter stage) (Stage.nozzle_length stage).

(** Assignment of [stage.thrust_vac] and [stage.thrust_sl]. *)
Definition set_thrust (stage : Stage.t) (thrust_vac thrust_sl : R)
  : Stage.t :=
  set_masses stage (Stage.dry_mass stage) (Stage.propellant_mass stage)
             (Stage.total_mass stage) (Stage.mass_ratio stage)
             (Stage.propellant_flow_rate stage) thrust_vac thrust_sl.

(** [RocketOptimizer._update_stage_mass], for an index [stage_index >= 0];
    an argument left at its default [None] is [None] here. *)
Definition _update_stage_mass (self : t) (stage_index : nat)
           (new_propellant_mass new_dry_mass : option R) : result t :=
  stage <- index (stages self) stage_index ;;
  let propellant_mass :=
    match new_propellant_mass with
    | Some v => Py.max 100 v
    | None => Stage.propellant_mass stage
    end in
  let dry_mass :=
    match new_dry_mass with
    | Some v => Py.max 100 v
    | None => Stage.dry_mass stage
    end in
  let total_mass := dry_mass + propellant_mass in
  mass_ratio <-
    (if Rlt_dec 0 dry_mass then truediv total_mass dry_mass else Ok 1) ;;
  engine <-
    (if Rlt_dec 0 propellant_mass then
       propellant_flow_rate <-
         (if Rlt_dec 0 (Stage.burn_time stage)
          then truediv propellant_mass (Stage.burn_time stage)
          else Ok 0) ;;
       let thrust_vac :=
         propellant_flow_rate * isp_vac (Stage.propellant stage) * GRAVITY in
       let thrust_sl :=
         match stage_index with
         | O => propellant_flow_rate * isp_sl (Stage.propellant stage)
                * GRAVITY
         | _ => 0
         end in
       Ok (propellant_flow_rate, thrust_vac, thrust_sl)
     else Ok (Stage.propellant_flow_rate stage, Stage.thrust_vac stage,
              Stage.thrust_sl stage)) ;;
  let '(propellant_flow_rate, thrust_vac, thrust_sl) := engine in
  stage <- Stage._calculate_engine_parameters
             (set_masses stage dry_mass propellant_mass total_mass mass_ratio
                         propellant_flow_rate thrust_vac thrust_sl) ;;
  Ok (set_stages self (list_set (stages self) stage_index stage)).

(** [RocketOptimizer._adjust_stage_geometry], for an index
    [stage_index >= 0]. *)
Definition _adjust_stage_geometry (self : t) (stage_index : nat)
           (new_diameter new_length : option R) : result t :=
  stage <- index (stages self) stage_index ;;
  stage <- match new_diameter with
           | Some d =>
               Stage._calculate_engine_parameters
                 (set_diameter stage (Py.max 0.5 d))
           | None => Ok stage
           end ;;
  let stage := match new_length with
               | Some l => set_length stage (Py.max 1.0 l)
               | None => stage
               end in
  Ok (set_stages self (list_set (stages self) stage_index stage)).

(** The body of the loop of [_adjust_structural_mass] at index [i]. *)
Definition structural_mass_step (self : t) (i : nat) : result t :=
  stage <- index (stages self) i ;;
  wall_thickness <- _calculate_wall_thickness self i ;;
  let tank_height := Stage.length stage * 0.8 in
  let tank_surface_area := 2 * PI * (Stage.diameter stage / 2) * tank_height in
  let material_density := 2700 in
  let tank_mass := tank_surface_area * wall_thickness * material_density in
  let engine_mass_fraction := match i with O => 0.03 | _ => 0.02 end in
  let engine_mass := Stage.propellant_mass stage * engine_mass_fraction in
  let avionics_mass_fraction := 0.01 in
  let avionics_mass := Stage.total_mass stage * avionics_mass_fraction in
  let structural_mass_fraction := match i with O => 0.04 | _ => 0.03 end in
  let structural_mass := Stage.dry_mass stage * structural_mass_fraction in
  let new_dry_mass :=
    tank_mass + engine_mass + avionics_mass + structural_mass in
  let margin := 1.08 in
  let new_dry_mass := new_dry_mass * margin in
  _update_stage_mass self i None (Some new_dry_mass).

(** A loop [for i, stage in enumerate(self.stages)] whose body mutates the
    stages but not the list: the body is run at the given indices in turn. *)
Fixpoint for_each_stage (body : t -> nat -> result t) (indices : list nat)
         (self : t) : result t :=
  match indices with
  | [] => Ok self
  | i :: rest =>
      self <- body self i ;;
      for_each_stage body rest self
  end.

(** [RocketOptimizer._adjust_structural_mass]. *)
Definition _adjust_structural_mass (self : t) : result t :=
  for_each_stage structural_mass_step
                 (seq 0 (List.length (stages self))) self.

(** *** The length-to-diameter table *)

(** [self.stage_l_to_d] as the dictionary [__init__] creates; the entries of
    its lists are overwritten by [_adjust_geometry]. *)
Definition initial_stage_l_to_d : list (Z * list R) :=
  [ (1%Z, [8.0]); (2%Z, [10.0; 3.5]); (3%Z, [8.0; 5.0; 3.0]) ].

(** [d[k]] on a dictionary with integer keys. *)
Fixpoint getitem_int {V : Type} (d : list (Z * V)) (k : Z) : result V :=
  match d with
  | [] => Raise KeyError
  | (k', v) :: rest => if (k =? k')%Z then Ok v else getitem_int rest k
  end.

(** [d[k][i] = a] on the table: the list under [k] is changed in place. *)
Fixpoint table_set (d : list (Z * list R)) (k : Z) (i : nat) (a : R)
  : list (Z * list R) :=
  match d with
  | [] => []
  | (k', row) :: rest =>
      if (k =? k')%Z then (k', list_set row i a) :: rest
      else (k', row) :: table_set rest k i a
  end.

(** The body of the loop of [_adjust_geometry] at index [i], on the
    optimizer and its length-to-diameter table. *)
Definition adjust_geometry_step (error_ratio : R)
           (state : t * list (Z * list R)) (i : nat)
  : result (t * list (Z * list R)) :=
  let '(self, l_to_d) := state in
  stage <- index (stages self) i ;;
  row <- getitem_int l_to_d (num_stages self) ;;
  current <- index row i ;;
  let new_l_to_d :=
    if Rlt_dec 0 error_ratio then current * 0.95 else current * 1.05 in
  let new_l_to_d := Py.max 3.0 (Py.min 12.0 new_l_to_d) in
  let volume :=
    PI * (Stage.diameter stage / 2) ^ 2 * Stage.length stage in
  new_length <- math_pow (volume * new_l_to_d * 4 / PI) (1 / 3) ;;
  new_diameter <- truediv new_length new_l_to_d ;;
  self <- _adjust_stage_geometry self i (Some new_diameter)
                                 (Some new_length) ;;
  row' <- getitem_int l_to_d (num_stages self) ;;
  _ <- index row' i ;;
  Ok (self, table_set l_to_d (num_stages self) i new_l_to_d).

(** The loop of [_adjust_geometry]. *)
Fixpoint adjust_geometry_loop (error_ratio : R) (indices : list nat)
         (state : t * list (Z * list R))
  : result (t * list (Z * list R)) :=
  match indices with
  | [] => Ok state
  | i :: rest =>
      state <- adjust_geometry_step error_ratio state i ;;
      adjust_geometry_loop error_ratio rest state
  end.

(** [RocketOptimizer._adjust_geometry]. *)
Definition _adjust_geometry (self : t) (l_to_d : list (Z * list R))
           (error_ratio : R) : result (t * list (Z * list R)) :=
  adjust_geometry_loop error_ratio (seq 0 (List.length (stages self)))
                       (self, l_to_d).

(** *** The optimization run *)

(** What the optimization run prints, one constructor for each [print]
    statement and the numbers it formats kept as reals; the fifteen lines
    printed for a stage by [_print_final_design] are one constructor that
    carries the stage and its index. *)
Inductive run_output : Type :=
| Estimate (o : output)
| Print_optimizing (target_km : R)
| Print_iteration (i iterations : nat)
| Print_current_altitude (km : R)
| Print_target_altitude (km : R)
| Print_error (percent : R)
| Print_target_achieved
| Print_performing_mass_optimization
| Print_reduced (stage_number : nat) (percent altitude_km : R)
| Print_banner
| Print_final_heading (target_km : R)
| Print_rocket_name (name : string)
| Print_total_mass (kg : R)
| Print_height (m : R)
| Print_final_delta_v (delta_v : R)
| Print_max_altitude (km : R)
| Print_mass_fractions_heading
| Print_payload_fraction (percent : R)
| Print_stage_information_heading
| Print_stage (i : nat) (stage : Stage.t).

(** One entry of [self.optimization_history]. *)
Record history_entry : Type := mkHistoryEntry {
  iteration : nat;
  altitude : R;
  entry_total_mass : R;
  delta_v : R;
  entry_stages : list (R * R)     (* dry_mass, propellant_mass *)
}.

(** The optimizer together with the attributes the record [t] does not
    hold, [stage_l_to_d] and [optimization_history], and with what has been
    printed so far. *)
Record run : Type := mkRun {
  opt : t;
  l_to_d : list (Z * list R);
  optimization_history : list history_entry;
  printed : list run_output
}.

(** The state right after [__init__] returned [self] having printed [out]. *)
Definition constructed (self : t) (out : list output) : run :=
  mkRun self initial_stage_l_to_d [] (map Estimate out).

(** [self.rocket], which is [None] before [_initialize_rocket]. *)
Definition the_rocket (self : t) : result MultiStageRocket.t :=
  match rocket self with
  | Some r => Ok r
  | None => Raise AttributeError
  end.

(** The inner loop [for j in range(max_iterations)] of [_optimize_mass] for
    stage [i], with [count] iterations left. *)
Fixpoint reduce_propellant (count : nat) (i : nat) (self : t)
         (out : list run_output) : result (t * list run_output) :=
  match count with
  | O => Ok (self, out)
  | S count' =>
      stage <- index (stages self) i ;;
      let reduction_step := 0.02 in
      let current_propellant := Stage.propellant_mass stage in
      let new_propellant := current_propellant * (1 - reduction_step) in
      self <- _update_stage_mass self i (Some new_propellant) None ;;
      est <- _estimate_altitude self ;;
      let '(new_altitude, estimate_out) := est in
      let out := (out ++ map Estimate estimate_out)%list in
      stage <- index (stages self) i ;;
      if Rlt_dec new_altitude (target_altitude self * 0.95) then
        self <- _update_stage_mass self i (Some current_propellant) None ;;
        Ok (self, out)
      else if Rlt_dec 10 (Stage.mass_ratio stage) then
        self <- _update_stage_mass self i (Some current_propellant) None ;;
        Ok (self, out)
      else
        let out :=
          (out ++ [Print_reduced (i + 1) (reduction_step * 100)
                                 (new_altitude / 1000)])%list in
        reduce_propellant count' i (set_max_altitude self new_altitude) out
  end.

(** The outer loop of [_optimize_mass]. *)
Fixpoint optimize_mass_loop (indices : list nat) (self : t)
         (out : list run_output) : result (t * list run_output) :=
  match indices with
  | [] => Ok (self, out)
  | i :: rest =>
      let max_iterations := 10%nat in
      r <- reduce_propellant max_iterations i self out ;;
      let '(self, out) := r in
      optimize_mass_loop rest self out
  end.

(** [RocketOptimizer._optimize_mass]. *)
Definition _optimize_mass (self : t) (out : list run_output)
  : result (t * list run_output) :=
  let out := (out ++ [Print_performing_mass_optimization])%list in
  r <- optimize_mass_loop (seq 0 (List.length (stages self))) self out ;;
  let '(self, out) := r in
  self <- _adjust_structural_mass self ;;
  est <- _estimate_altitude self ;;
  let '(max_altitude, estimate_out) := est in
  Ok (set_max_altitude self max_altitude,
      (out ++ map Estimate estimate_out)%list).

(** [RocketOptimizer._print_final_design]. *)
Definition _print_final_design (self : t) : result (list run_output) :=
  rocket <- the_rocket self ;;
  delta_v <- MultiStageRocket.get_total_delta_v rocket ;;
  mass_fractions <- MultiStageRocket.get_mass_fractions rocket ;;
  payload_fraction <- getitem mass_fractions "payload" ;;
  Ok ([ Print_banner; Print_final_heading (target_altitude self / 1000);
        Print_banner;
        Print_rocket_name (MultiStageRocket.name rocket);
        Print_total_mass (MultiStageRocket.get_total_mass rocket);
        Print_height (MultiStageRocket.get_height rocket);
        Print_final_delta_v delta_v;
        Print_max_altitude (max_altitude self / 1000);
        Print_mass_fractions_heading;
        Print_payload_fraction (payload_fraction * 100);
        Print_stage_information_heading ]
      ++ map (fun p => Print_stage (fst p) (snd p))
             (combine (seq 0 (List.length (stages self))) (stages self))
      ++ [Print_banner])%list.

(** The body of the loop [for j, stage in enumerate(self.stages)] of
    [optimize_to_altitude] at index [j]. *)
Definition adjust_propellant_step
           (altitude_error error_ratio adjustment_factor : R)
           (self : t) (j : nat) : result t :=
  stage <- index (stages self) j ;;
  let stage_factor := match j with O => 1.0 | S O => 0.5 | _ => 0.2 end in
  let propellant_adjustment :=
    Stage.propellant_mass stage * error_ratio * adjustment_factor
    * stage_factor in
  if Rlt_dec 0 altitude_error then
    let new_propellant := Stage.propellant_mass stage + propellant_adjustment in
    self <- _update_stage_mass self j (Some new_propellant) None ;;
    if Rlt_dec 0.2 error_ratio then
      stage <- index (stages self) j ;;
      let thrust_vac := Stage.thrust_vac stage * 1.1 in
      let thrust_sl :=
        match j with
        | O => Stage.thrust_sl stage * 1.1
        | _ => Stage.thrust_sl stage
        end in
      Ok (set_stages self
            (list_set (stages self) j (set_thrust stage thrust_vac thrust_sl)))
    else Ok self
  else
    let new_propellant := Stage.propellant_mass stage + propellant_adjustment in
    _update_stage_mass self j (Some new_propellant) None.

(** The dictionary appended to [self.optimization_history]. *)
Definition record_state (i : nat) (self : t) : result history_entry :=
  rocket <- the_rocket self ;;
  let total_mass := MultiStageRocket.get_total_mass rocket in
  delta_v <- MultiStageRocket.get_total_delta_v rocket ;;
  Ok (mkHistoryEntry i (max_altitude self) total_mass delta_v
        (map (fun s => (Stage.dry_mass s, Stage.propellant_mass s))
             (stages self))).

(** The loop [for i in range(1, iterations+1)] of [optimize_to_altitude],
    at the values of [i] still to come. *)
Fixpoint optimize_loop (iterations : nat) (adjustment_factor : R)
         (remaining : list nat) (state : run) : result run :=
  match remaining with
  | [] => Ok state
  | i :: rest =>
      let self := opt state in
      let out := (printed state ++ [Print_iteration i iterations])%list in
      let altitude_error := target_altitude self - max_altitude self in
      error_ratio <- truediv altitude_error (target_altitude self) ;;
      let out :=
        (out ++ [ Print_current_altitude (max_altitude self / 1000);
                  Print_target_altitude (target_altitude self / 1000);
                  Print_error (error_ratio * 100) ])%list in
      if Rlt_dec (Rabs error_ratio) 0.05 then
        r <- _optimize_mass self (out ++ [Print_target_achieved])%list ;;
        let '(self, out) := r in
        Ok (mkRun self (l_to_d state) (optimization_history state) out)
      else
        self <- for_each_stage
                  (adjust_propellant_step altitude_error error_ratio
                                          adjustment_factor)
                  (seq 0 (List.length (stages self))) self ;;
        self <- _adjust_structural_mass self ;;
        g <- (if (i mod 3 =? 0)%nat
              then _adjust_geometry self (l_to_d state) error_ratio
              else Ok (self, l_to_d state)) ;;
        let '(self, table) := g in
        est <- _estimate_altitude self ;;
        let '(max_altitude, estimate_out) := est in
        let self := set_max_altitude self max_altitude in
        entry <- record_state i self ;;
        optimize_loop iterations adjustment_factor rest
          (mkRun self table
                 (optimization_history state ++ [entry])%list
                 (out ++ map Estimate estimate_out)%list)
  end.

(** [RocketOptimizer.optimize_to_altitude]: the rocket returned and the
    state the run leaves. *)
Definition optimize_to_altitude (state : run)
           (iterations : nat) (adjustment_factor : R)
  : result (MultiStageRocket.t * run) :=
  let self := opt state in
  let out :=
    (printed state ++ [Print_optimizing (target_altitude self / 1000)])%list in
  entry <- record_state 0 self ;;
  state <- optimize_loop iterations adjustment_factor (seq 1 iterations)
             (mkRun self (l_to_d state)
                    (optimization_history state ++ [entry])%list out) ;;
  self <- _adjust_structural_mass (opt state) ;;
  final_out <- _print_final_design self ;;
  rocket <- the_rocket self ;;
  Ok (rocket,
      mkRun self (l_to_d state) (optimization_history state)
            (printed state ++ final_out)%list).

End RocketOptimizer.

End rocket_optimizer.

(* ===================================================================== *)
(** ** src/performance_analysis.py *)
(* ===================================================================== *)

Module performance_analysis.

(** The dictionary returned by [analyze_trajectory]. *)
Record Trajectory : Type := mkTrajectory {
  time : list R;
  altitude : list R;
  velocity : list R;
  acceleration : list R;
  mach : list R;
  dynamic_pressure : list R;
  thrust : list R;
  mass : list R;
  drag : list R;
  apogee : R;
  apogee_time : R;
  max_velocity : R;
  max_velocity_time : R;
  max_acceleration : R;
  max_acceleration_time : R;
  max_q : R;
  max_q_time : R
}.

(** The dictionary returned by [calculate_maximum_payload]. *)
Record PayloadInfo : Type := mkPayloadInfo {
  max_payload : R;
  altitude_with_max_payload : R;
  info_target_altitude : R;
  altitude_difference : R
}.

(** The dictionary returned by [analyze_flow_properties], its nested
    dictionaries for the chamber, the throat and the exit written out key by
    key. *)
Record Flow : Type := mkFlow {
  flow_chamber_pressure : R;
  flow_chamber_temperature : R;
  flow_chamber_velocity : R;
  flow_throat_pressure : R;
  flow_throat_temperature : R;
  flow_throat_mach : R;
  flow_throat_velocity : R;
  flow_mass_flow_rate : R;
  flow_exit_pressure : R;
  flow_exit_temperature : R;
  flow_exit_mach : R;
  flow_exit_velocity : R
}.

Module RocketPerformanceAnalyzer.

(** The attributes of a [RocketPerformanceAnalyzer].  Dictionaries with
    numeric values are association lists; [trajectory_data] is [None]
    while it is the empty dictionary. *)
Record t : Type := mk {
  rocket_config : list (string * R);
  engine_config : list (string * list (string * R));
  propulsion_config : list (string * R);
  g0 : R;
  R_air : R;
  R_steam : R;
  gamma_steam : R;
  p0 : R;
  T0 : R;
  rho0 : R;
  dry_mass : R;
  propellant_mass : R;
  burn_time : R;
  total_mass : R;
  chamber_pressure : R;
  chamber_temperature : R;
  throat_diameter : R;
  exit_diameter : R;
  throat_area : R;
  exit_area : R;
  expansion_ratio : R;
  trajectory_data : option Trajectory;
  performance_metrics : list (string * R)
}.

(** [RocketPerformanceAnalyzer._calculate_dry_mass]. *)
Definition _calculate_dry_mass : R :=
  let stage_1_mass := 200 in
  let stage_2_mass := 100 in
  let payload_mass := 50 in
  let structure_mass := 150 in
  stage_1_mass + stage_2_mass + payload_mass + structure_mass.

(** [RocketPerformanceAnalyzer.__init__]. *)
Definition __init__ (rocket_config : list (string * R))
           (engine_config : list (string * list (string * R)))
           (propulsion_config : list (string * R))
  : result t :=
  let dry_mass := _calculate_dry_mass in
  propellant_mass <- getitem propulsion_config "propellant_mass" ;;
  burn_time <- getitem propulsion_config "burn_duration" ;;
  let total_mass := dry_mass + propellant_mass in
  initial_pressure <- getitem propulsion_config "initial_pressure" ;;
  let chamber_pressure := initial_pressure * 1e6 in
  chamber_temperature <- getitem propulsion_config "initial_temperature" ;;
  nozzle <- getitem engine_config "nozzle" ;;
  throat_diameter_mm <- getitem nozzle "throat_diameter" ;;
  let throat_diameter := throat_diameter_mm / 1000 in
  nozzle' <- getitem engine_config "nozzle" ;;
  exit_diameter_mm <- getitem nozzle' "exit_diameter" ;;
  let exit_diameter := exit_diameter_mm / 1000 in
  let throat_area := PI * (throat_diameter / 2) ^ 2 in
  let exit_area := PI * (exit_diameter / 2) ^ 2 in
  expansion_ratio <- truediv exit_area throat_area ;;
  Ok (mk rocket_config engine_config propulsion_config
         9.81 287.05 461.5 1.3 101325 288.15 1.225
         dry_mass propellant_mass burn_time total_mass
         chamber_pressure chamber_temperature throat_diameter
         exit_diameter throat_area exit_area expansion_ratio
         None []).

(** The assignments [self.dry_mass = v] and [self.trajectory_data = v]. *)
Definition set_dry_mass (self : t) (v : R) : t :=
  mk (rocket_config self) (engine_config self) (propulsion_config self)
     (g0 self) (R_air self) (R_steam self) (gamma_steam self)
     (p0 self) (T0 self) (rho0 self)
     v (propellant_mass self) (burn_time self) (total_mass self)
     (chamber_pressure self) (chamber_temperature self)
     (throat_diameter self) (exit_diameter self) (throat_area self)
     (exit_area self) (expansion_ratio self)
     (trajectory_data self) (performance_metrics self).

Definition set_trajectory_data (self : t) (v : Trajectory) : t :=
  mk (rocket_config self) (engine_config self) (propulsion_config self)
     (g0 self) (R_air self) (R_steam self) (gamma_steam self)
     (p0 self) (T0 self) (rho0 self)
     (dry_mass self) (propellant_mass self) (burn_time self)
     (total_mass self)
     (chamber_pressure self) (chamber_temperature self)
     (throat_diameter self) (exit_diameter self) (throat_area self)
     (exit_area self) (expansion_ratio self)
     (Some v) (performance_metrics self).

(** The assignment [self.performance_metrics[k] = v]. *)
Definition set_performance_metric (self : t) (k : string) (v : R) : t :=
  mk (rocket_config self) (engine_config self) (propulsion_config self)
     (g0 self) (R_air self) (R_steam self) (gamma_steam self)
     (p0 self) (T0 self) (rho0 self)
     (dry_mass self) (propellant_mass self) (burn_time self)
     (total_mass self)
     (chamber_pressure self) (chamber_temperature self)
     (throat_diameter self) (exit_diameter self) (throat_area self)
     (exit_area self) (expansion_ratio self)
     (trajectory_data self) (setitem (performance_metrics self) k v).

(** [RocketPerformanceAnalyzer.analyze_flow_properties]: the dictionary it
    returns (which it also keeps as [self.flow_properties], an attribute
    nothing embedded here reads) and the analyzer with the three performance
    metrics stored. *)
Definition analyze_flow_properties (self : t) : result (Flow * t) :=
  let gamma := gamma_steam self in
  b1 <- truediv 2 (gamma + 1) ;;
  e1 <- truediv gamma (gamma - 1) ;;
  p_ratio_throat <- float_pow b1 e1 ;;
  t_ratio_throat <- truediv 2 (gamma + 1) ;;
  let throat_pressure := chamber_pressure self * p_ratio_throat in
  let throat_temperature := chamber_temperature self * t_ratio_throat in
  a_throat <- math_sqrt (gamma * R_steam self * throat_temperature) ;;
  q2 <- truediv gamma (R_steam self) ;;
  s2 <- math_sqrt q2 ;;
  e2 <- truediv (gamma + 1) (2 * (gamma - 1)) ;;
  p2 <- float_pow ((gamma + 1) / 2) (- e2) ;;
  let constant_term := s2 * p2 in
  s3 <- math_sqrt (chamber_temperature self) ;;
  q3 <- truediv (chamber_pressure self * throat_area self) s3 ;;
  let mass_flow_rate := q3 * constant_term in
  q4 <- truediv 2 (gamma - 1) ;;
  e4 <- truediv (gamma - 1) gamma ;;
  p4 <- float_pow (expansion_ratio self) e4 ;;
  M_exit_approx <- math_sqrt (q4 * (p4 - 1)) ;;
  e5 <- truediv (- gamma) (gamma - 1) ;;
  p_ratio_exit <-
    float_pow (1 + (gamma - 1) / 2 * M_exit_approx ^ 2) e5 ;;
  t_ratio_exit <-
    float_pow (1 + (gamma - 1) / 2 * M_exit_approx ^ 2) (-1) ;;
  let exit_pressure := chamber_pressure self * p_ratio_exit in
  let exit_temperature := chamber_temperature self * t_ratio_exit in
  a_exit <- math_sqrt (gamma * R_steam self * exit_temperature) ;;
  let exit_velocity := a_exit * M_exit_approx in
  let flow :=
    mkFlow (chamber_pressure self) (chamber_temperature self) 0
           throat_pressure throat_temperature 1.0 a_throat
           mass_flow_rate
           exit_pressure exit_temperature M_exit_approx exit_velocity in
  let p_ambient := p0 self in
  let thrust :=
    mass_flow_rate * exit_velocity
    + (exit_pressure - p_ambient) * exit_area self in
  isp <- truediv thrust (mass_flow_rate * g0 self) ;;
  let self := set_performance_metric self "thrust" thrust in
  let self := set_performance_metric self "specific_impulse" isp in
  let self := set_performance_metric self "exhaust_velocity" exit_velocity in
  Ok (flow, self).

(** *** The closures of [analyze_trajectory] *)

(** [thrust_function]. *)
Definition thrust_function (self : t) (t : R) : result R :=
  if Rle_dec t (burn_time self)
  then getitem (performance_metrics self) "thrust"
  else Ok 0.0.

(** [mass_function]. *)
Definition mass_function (self : t) (t : R) : result R :=
  let wet_mass := total_mass self in
  if Rle_dec t (burn_time self) then
    rate <- truediv (propellant_mass self) (burn_time self) ;;
    Ok (wet_mass - rate * t)
  else Ok (dry_mass self).

(** [atmospheric_properties]: (pressure, density, temperature). *)
Definition atmospheric_properties (self : t) (altitude : R)
  : result (R * R * R) :=
  if Rlt_dec altitude 0 then Ok (p0 self, rho0 self, T0 self)
  else
    let h_p := 7500 in
    let h_rho := 7000 in
    let pressure := p0 self * exp (- altitude / h_p) in
    let density := rho0 self * exp (- altitude / h_rho) in
    temperature <- truediv pressure (density * R_air self) ;;
    Ok (pressure, density, temperature).

(** [drag_coefficient]. *)
Definition drag_coefficient (mach : R) : R :=
  if Rlt_dec mach 0.8 then 0.2
  else if Rlt_dec mach 1.2 then 0.2 + 0.4 * (mach - 0.8) / 0.4
  else 0.6 - 0.1 * Py.min (mach - 1.2) 3 / 3.

(** [drag_force]. *)
Definition drag_force (self : t) (altitude velocity : R) : result R :=
  atm <- atmospheric_properties self altitude ;;
  let '(_, density, temperature) := atm in
  speed_of_sound <- math_sqrt (1.4 * R_air self * temperature) ;;
  mach <- (if Rlt_dec 0 speed_of_sound
           then truediv (Rabs velocity) speed_of_sound
           else Ok 0) ;;
  max_diameter <- getitem (rocket_config self) "max_diameter" ;;
  let diameter := max_diameter / 1000 in
  let reference_area := PI * (diameter / 2) ^ 2 in
  let cd := drag_coefficient mach in
  let drag := 0.5 * density * velocity ^ 2 * cd * reference_area in
  Ok (- math_copysign drag velocity).

(** [dynamics]: the right-hand side [(velocity, acceleration)] of the
    equations of motion at time [t] and state [y = (altitude, velocity)]. *)
Definition dynamics (self : t) (t : R) (y : R * R) : result (R * R) :=
  let '(altitude, velocity) := y in
  mass <- mass_function self t ;;
  thrust <- thrust_function self t ;;
  let r_earth := 6371000 in
  q <- truediv r_earth (r_earth + altitude) ;;
  let gravity := g0 self * q ^ 2 in
  drag <- drag_force self altitude velocity ;;
  a <- truediv (thrust + drag) mass ;;
  let acceleration := a - gravity in
  Ok (velocity, acceleration).

Section Solver.

(** [scipy.integrate.solve_ivp] and the numpy post-processing of its
    samples are external to the repository.  They are left abstract:
    from the closures over [self], the initial state and the time
    limit they produce the trajectory dictionary, or raise. *)
Variable solve_and_summarise :
  (R -> R * R -> result (R * R)) ->      (* dynamics *)
  (R -> result R) ->                     (* mass_function *)
  (R -> result R) ->                     (* thrust_function *)
  (R -> R -> result R) ->                (* drag_force *)
  (R -> result (R * R * R)) ->           (* atmospheric_properties *)
  R -> R ->                              (* g0, R_air *)
  R * R -> R ->                          (* y0, max_time *)
  result Trajectory.

(** [RocketPerformanceAnalyzer.analyze_trajectory]: the trajectory and
    the analyzer after [self.trajectory_data = trajectory]. *)
Definition analyze_trajectory (self : t)
           (initial_altitude initial_velocity max_time : R)
  : result (Trajectory * t) :=
  trajectory <-
    solve_and_summarise (dynamics self) (mass_function self)
      (thrust_function self) (drag_force self)
      (atmospheric_properties self) (g0 self) (R_air self)
      (initial_altitude, initial_velocity) max_time ;;
  Ok (trajectory, set_trajectory_data self trajectory).

(** The [while step >= min_step] loop of [calculate_maximum_payload] on
    its variables [step], [current_payload], [current_altitude] and
    [self].  [fuel] bounds the number of iterations; [None] means the
    bound was reached with the loop still running. *)
Fixpoint payload_search (fuel : nat) (maximize_payload : bool)
         (target_altitude altitude_range original_dry_mass min_step : R)
         (step current_payload current_altitude : R) (self : t)
  : option (result (R * R * t)) :=
  match fuel with
  | O => None
  | S fuel' =>
      if Rle_dec min_step step then
        let test_payload := current_payload + step in
        let self :=
          set_dry_mass self
            (original_dry_mass - current_payload + test_payload) in
        match analyze_trajectory self 0 0 500 with
        | Raise e => Some (Raise e)
        | Ok (trajectory, self) =>
            let test_altitude := apogee trajectory in
            if maximize_payload then
              if Rle_dec target_altitude test_altitude then
                payload_search fuel' maximize_payload target_altitude
                  altitude_range original_dry_mass min_step
                  step test_payload test_altitude self
              else
                payload_search fuel' maximize_payload target_altitude
                  altitude_range original_dry_mass min_step
                  (step / 2) current_payload current_altitude self
            else
              if Rle_dec (Rabs (test_altitude - target_altitude))
                         altitude_range then
                Some (Ok (test_payload, test_altitude, self))
              else if Rlt_dec target_altitude test_altitude then
                payload_search fuel' maximize_payload target_altitude
                  altitude_range original_dry_mass min_step
                  step test_payload test_altitude self
              else
                payload_search fuel' maximize_payload target_altitude
                  altitude_range original_dry_mass min_step
                  (step / 2) current_payload current_altitude self
        end
      else Some (Ok (current_payload, current_altitude, self))
  end.

(** [RocketPerformanceAnalyzer.calculate_maximum_payload]: the returned
    dictionary and the analyzer as the call leaves it. *)
Definition calculate_maximum_payload (fuel : nat) (self : t)
           (target_altitude altitude_range : option R)
  : option (result (PayloadInfo * t)) :=
  let current_payload := 50 in
  let original_dry_mass := dry_mass self in
  let step := 25 in
  let min_step := 0.1 in
  let self := set_dry_mass self original_dry_mass in
  match analyze_trajectory self 0 0 500 with
  | Raise e => Some (Raise e)
  | Ok (trajectory, self) =>
      let current_altitude := apogee trajectory in
      let '(target_altitude, maximize_payload) :=
        match target_altitude with
        | None =>
            let min_acceptable_altitude := 1000 in
            (min_acceptable_altitude, true)
        | Some a => (a, false)
        end in
      let altitude_range :=
        match altitude_range with
        | None => target_altitude * 0.05
        | Some r => r
        end in
      match payload_search fuel maximize_payload target_altitude
              altitude_range original_dry_mass min_step
              step current_payload current_altitude self with
      | None => None
      | Some (Raise e) => Some (Raise e)
      | Some (Ok (current_payload, current_altitude, self)) =>
          let self := set_dry_mass self original_dry_mass in
          let payload_info :=
            mkPayloadInfo current_payload current_altitude
              target_altitude (current_altitude - target_altitude) in
          Some (Ok (payload_info, self))
      end
  end.

End Solver.

End RocketPerformanceAnalyzer.

End performance_analysis.

(* ===================================================================== *)
(** ** Closed forms and predicates used to state the properties *)
(* ===================================================================== *)

Module Spec.

Import rocket_physics.

(** The catalog entry a propellant type resolves to: its own entry when it
    is a key of the catalog, the LOX/LH2 entry otherwise. *)
Definition resolved_propellant (propellant_type : string) : Propellant :=
  if String.eqb propellant_type "LOX/LH2" then LOX_LH2
  else if String.eqb propellant_type "LOX/RP1" then LOX_RP1
  else if String.eqb propellant_type "HTPB" then HTPB
  else LOX_LH2.

(** The thrust coefficient as one expression in the expansion ratio and
    the ratio of specific heats, divergence correction included. *)
Definition thrust_coefficient (expansion_ratio gamma : R) : R :=
  sqrt (2 * gamma ^ 2 / (gamma - 1))
  * Rpower (2 / (gamma + 1)) ((gamma + 1) / (gamma - 1))
  * sqrt (1 - Rpower (1 / expansion_ratio) (gamma - 1) / gamma)
  * 0.98.

(** The expansion ratio picked from the role words in a stage name. *)
Definition role_expansion_ratio (name : string) : R :=
  let n := lower name in
  if str_in "first" n || str_in "booster" n then 10
  else if str_in "second" n then 40
  else if str_in "third" n || str_in "upper" n then 80
  else 25.

(** The stage object a successful construction yields, attribute by
    attribute, for the propellant entry [p]. *)
Definition built_stage (name : string)
           (dry_mass propellant_mass thrust_sl thrust_vac
            burn_time diameter length : R) (p : Propellant) : Stage.t :=
  let throat_area :=
    thrust_vac / (thrust_coefficient 20 (gamma p) * chamber_pressure p) in
  let throat_diameter := 2 * sqrt (throat_area / PI) in
  let expansion_ratio := role_expansion_ratio name in
  let exit_area := throat_area * expansion_ratio in
  let exit_diameter := 2 * sqrt (exit_area / PI) in
  Stage.mk name dry_mass propellant_mass thrust_sl thrust_vac burn_time
           diameter length p
           ((dry_mass + propellant_mass) / dry_mass)
           (dry_mass + propellant_mass)
           (if Rlt_dec 0 burn_time then propellant_mass / burn_time else 0)
           throat_area throat_diameter expansion_ratio exit_area
           exit_diameter
           (0.8 * ((exit_diameter - throat_diameter)
                   / (2 * tan (math_radians 15)))).

(** The two stages [create_realistic_two_stage_rocket] builds. *)
Definition falcon_first : Stage.t :=
  built_stage "First Stage" 25000 385000 7600000 8200000 162 3.7 41.2 LOX_RP1.

Definition falcon_second : Stage.t :=
  built_stage "Second Stage" 4000 90000 0 934000 397 3.7 12.6 LOX_RP1.

(** Mass bookkeeping a stage must satisfy: positive dry mass, no negative
    propellant, and a [total_mass] attribute that is their sum. *)
Definition stage_masses_ok (s : Stage.t) : Prop :=
  0 < Stage.dry_mass s /\
  0 <= Stage.propellant_mass s /\
  Stage.total_mass s = Stage.dry_mass s + Stage.propellant_mass s.

(** The propellant of a stage is an entry of the catalog. *)
Definition stage_propellant_ok (s : Stage.t) : Prop :=
  In (Stage.propellant s) (map snd PROPELLANT_COMBINATIONS).

(** The actual mass of the vehicle while the stages [stages] are still
    attached: the payload plus every one of them, dry and wet. *)
Fixpoint vehicle_mass (payload : R) (stages : list Stage.t) : R :=
  match stages with
  | [] => payload
  | s :: rest =>
      Stage.dry_mass s + Stage.propellant_mass s + vehicle_mass payload rest
  end.

(** The loop of [get_total_delta_v] as a closed recursion: stages are taken
    in burn order; the running vehicle mass drops by the stage's propellant
    and by its dry mass, and the stage contributes the logarithm of the
    running mass before over the running mass after both, so the logarithm
    spans burn and separation together. *)
Fixpoint staged_walk (running_mass : R) (stages : list Stage.t) : R :=
  match stages with
  | [] => 0
  | s :: rest =>
      let after_burn := running_mass - Stage.propellant_mass s in
      let after_separation := after_burn - Stage.dry_mass s in
      GRAVITY * isp_vac (Stage.propellant s)
        * ln (running_mass / after_separation)
      + staged_walk after_separation rest
  end.

(** The walk in the words of the specification: stages are taken in burn
    order; the rocket equation with the stage's vacuum Isp is applied to the
    running vehicle mass before and after the stage's burn, over which the
    mass drops by the propellant; the dry mass is dropped at separation,
    after the burn, and leaves the logarithm alone. *)
Fixpoint rocket_equation_walk (running_mass : R) (stages : list Stage.t) : R :=
  match stages with
  | [] => 0
  | s :: rest =>
      let after_burn := running_mass - Stage.propellant_mass s in
      let after_separation := after_burn - Stage.dry_mass s in
      GRAVITY * isp_vac (Stage.propellant s)
        * ln (running_mass / after_burn)
      + rocket_equation_walk after_separation rest
  end.

(** The same sum without a running variable: each stage contributes the
    logarithm of the vehicle mass with it attached over the vehicle mass
    once it is gone. *)
Fixpoint staged_delta_v (payload : R) (stages : list Stage.t) : R :=
  match stages with
  | [] => 0
  | s :: rest =>
      GRAVITY * isp_vac (Stage.propellant s)
        * ln (vehicle_mass payload (s :: rest) / vehicle_mass payload rest)
      + staged_delta_v payload rest
  end.

(** The naive sum: every stage's own [get_delta_v], added up. *)
Fixpoint naive_sum_delta_v (stages : list Stage.t) : result R :=
  match stages with
  | [] => Ok 0
  | s :: rest =>
      dv <- Stage.get_delta_v s ;;
      total <- naive_sum_delta_v rest ;;
      Ok (dv + total)
  end.

(** The vehicle flown as one stage: the propellant of every stage is
    burned, in burn order and at that stage's vacuum Isp, but nothing is
    ever dropped, so dry masses and payload ride along to burnout. *)
Fixpoint unstaged_walk (running_mass : R) (stages : list Stage.t) : R :=
  match stages with
  | [] => 0
  | s :: rest =>
      let after_burn := running_mass - Stage.propellant_mass s in
      GRAVITY * isp_vac (Stage.propellant s)
        * ln (running_mass / after_burn)
      + unstaged_walk after_burn rest
  end.

Definition unstaged_delta_v (payload : R) (stages : list Stage.t) : R :=
  unstaged_walk (vehicle_mass payload stages) stages.

(** Sums of the dry and of the propellant masses of a stack. *)
Definition total_dry (stages : list Stage.t) : R :=
  fold_right (fun s acc => Stage.dry_mass s + acc) 0 stages.

Definition total_propellant (stages : list Stage.t) : R :=
  fold_right (fun s acc => Stage.propellant_mass s + acc) 0 stages.

(** The whole vehicle as a single [Stage] object burning propellant [p]:
    its dry mass is the payload plus every dry mass, its propellant the sum
    of all propellant. *)
Definition whole_vehicle_stage (payload : R) (stages : list Stage.t)
           (p : Propellant) : Stage.t :=
  built_stage "Whole vehicle" (payload + total_dry stages)
              (total_propellant stages) 0 0 0 0 0 p.

(** The sea-level thrust [_estimate_altitude] reads for the liftoff stage. *)
Definition first_stage_thrust_sl (o : rocket_optimizer.RocketOptimizer.t)
  : R :=
  match rocket_optimizer.RocketOptimizer.stages o with
  | s0 :: _ => Stage.thrust_sl s0
  | [] => 0
  end.

(** The thrust-to-weight ratio at liftoff as [_estimate_altitude] forms it. *)
Definition liftoff_twr (o : rocket_optimizer.RocketOptimizer.t)
           (r : MultiStageRocket.t) : R :=
  first_stage_thrust_sl o / (MultiStageRocket.get_total_mass r * GRAVITY).

(** A single-stage configuration of 10 t at liftoff whose sea-level thrust of
    88290 N gives a thrust-to-weight ratio of 0.9. *)
Definition underpowered_stage : Stage.t :=
  built_stage "Stage 1" 1000 8000 88290 100000 200 1.5 15 LOX_RP1.

Definition underpowered_rocket : MultiStageRocket.t :=
  MultiStageRocket.mk "1-Stage to 100 km" 1000 [underpowered_stage].

Definition underpowered_optimizer : rocket_optimizer.RocketOptimizer.t :=
  rocket_optimizer.RocketOptimizer.mk
    100000 1000 "LOX/LH2" 1 3.0 1.2
    [underpowered_stage] (Some underpowered_rocket) 0.

(** The constants [RocketPerformanceAnalyzer.__init__] assigns and nothing
    reassigns. *)
Definition standard_constants
           (a : performance_analysis.RocketPerformanceAnalyzer.t) : Prop :=
  performance_analysis.RocketPerformanceAnalyzer.g0 a = 9.81
  /\ performance_analysis.RocketPerformanceAnalyzer.R_air a = 287.05
  /\ performance_analysis.RocketPerformanceAnalyzer.p0 a = 101325
  /\ performance_analysis.RocketPerformanceAnalyzer.T0 a = 288.15
  /\ performance_analysis.RocketPerformanceAnalyzer.rho0 a = 1.225.

(** An analyzer as [__init__] leaves it for a 300 mm rocket with 100 kg of
    propellant burned in 10 s, after a thrust of 8000 N has been recorded in
    its performance metrics. *)
Definition demo_analyzer : performance_analysis.RocketPerformanceAnalyzer.t :=
  performance_analysis.RocketPerformanceAnalyzer.mk
    [("max_diameter"%string, 300)]
    [("nozzle"%string,
      [("throat_diameter"%string, 20); ("exit_diameter"%string, 60)])]
    [("propellant_mass"%string, 100); ("burn_duration"%string, 10);
     ("initial_pressure"%string, 2); ("initial_temperature"%string, 500)]
    9.81 287.05 461.5 1.3 101325 288.15 1.225
    performance_analysis.RocketPerformanceAnalyzer._calculate_dry_mass
    100 10
    (performance_analysis.RocketPerformanceAnalyzer._calculate_dry_mass + 100)
    (2 * 1e6) 500 (20 / 1000) (60 / 1000)
    (PI * (20 / 1000 / 2) ^ 2) (PI * (60 / 1000 / 2) ^ 2)
    (PI * (60 / 1000 / 2) ^ 2 / (PI * (20 / 1000 / 2) ^ 2))
    None
    [("thrust"%string, 8000)].

(** The trajectory of a vehicle that reaches the apogee [h] at time 0 and
    records a single sample there. *)
Definition flat_trajectory (h : R) : performance_analysis.Trajectory :=
  performance_analysis.mkTrajectory
    [0] [h] [0] [0] [0] [0] [0] [0] [0] h 0 0 0 0 0 0 0.

(** A stand-in for the integrator under which the apogee falls linearly
    with the mass the vehicle is left with after burnout: 2100 m less two
    metres per kilogram. *)
Definition heavier_is_lower
           (dynamics : R -> R * R -> result (R * R))
           (mass_function thrust_function : R -> result R)
           (drag_force : R -> R -> result R)
           (atmospheric_properties : R -> result (R * R * R))
           (g0 R_air : R) (y0 : R * R) (max_time : R)
  : result performance_analysis.Trajectory :=
  m <- mass_function (max_time + 1) ;;
  Ok (flat_trajectory (2100 - 2 * m)).

(** The key under which [get_mass_fractions] stores a fraction of the stage
    at index [i]; [suffix] is "_dry" or "_propellant". *)
Definition fraction_key (i : nat) (suffix : string) : string :=
  ("stage_" ++ str_of_Z (Z.of_nat (i + 1)) ++ suffix)%string.

(** The entries [get_mass_fractions] writes for the stages from index [i]
    on, in the order it writes them. *)
Fixpoint fraction_entries (total_mass : R) (i : nat) (stages : list Stage.t)
  : list (string * R) :=
  match stages with
  | [] => []
  | s :: rest =>
      (fraction_key i "_dry", Stage.dry_mass s / total_mass)
      :: (fraction_key i "_propellant", Stage.propellant_mass s / total_mass)
      :: fraction_entries total_mass (S i) rest
  end.

(** The last character of a string. *)
Fixpoint last_char (s : string) : option ascii :=
  match s with
  | EmptyString => None
  | String c EmptyString => Some c
  | String _ t => last_char t
  end.

(** The sum of the values of a dictionary of floats. *)
Definition sum_values (d : list (string * R)) : R :=
  fold_right (fun kv acc => snd kv + acc) 0 d.

(** The [total_mass] attribute of a stage is the sum of its two masses. *)
Definition total_mass_consistent (s : Stage.t) : Prop :=
  Stage.total_mass s = Stage.dry_mass s + Stage.propellant_mass s.

(** Every key of [d] is "payload" or the key of a stage below index [i]. *)
Definition keys_below (i : nat) (d : list (string * R)) : Prop :=
  forall k,
    contains d k = true ->
    k = "payload"%string
    \/ exists j suffix,
         (j < i)%nat
         /\ (suffix = "_dry"%string \/ suffix = "_propellant"%string)
         /\ k = fraction_key j suffix.

(** The mass [_update_stage_mass] leaves in an attribute: the argument
    raised to 100 kg when one is given, the old value otherwise. *)
Definition updated_mass (new : option R) (old : R) : R :=
  match new with
  | Some v => Py.max 100 v
  | None => old
  end.

(** A stage the optimizer can work on: sound mass bookkeeping, a catalog
    propellant, no negative vacuum thrust, positive diameter and length. *)
Definition stage_sound (s : Stage.t) : Prop :=
  stage_masses_ok s
  /\ stage_propellant_ok s
  /\ 0 <= Stage.thrust_vac s
  /\ 0 < Stage.diameter s
  /\ 0 < Stage.length s.

(** An optimizer whose rocket shares its stage list and payload, with a
    positive payload, a safety factor that is not 0, at least one stage and
    sound stages only. *)
Definition optimizer_sound (o : rocket_optimizer.RocketOptimizer.t) : Prop :=
  0 < rocket_optimizer.RocketOptimizer.payload_mass o
  /\ rocket_optimizer.RocketOptimizer.safety_factor o <> 0
  /\ (exists name,
        rocket_optimizer.RocketOptimizer.rocket o
        = Some (MultiStageRocket.mk
                  name (rocket_optimizer.RocketOptimizer.payload_mass o)
                  (rocket_optimizer.RocketOptimizer.stages o)))
  /\ rocket_optimizer.RocketOptimizer.stages o <> []
  /\ Forall stage_sound (rocket_optimizer.RocketOptimizer.stages o).

(** Two optimizers that differ in their stages and altitude estimate at
    most, and have as many stages. *)
Definition same_settings (o o' : rocket_optimizer.RocketOptimizer.t) : Prop :=
  rocket_optimizer.RocketOptimizer.target_altitude o'
  = rocket_optimizer.RocketOptimizer.target_altitude o
  /\ rocket_optimizer.RocketOptimizer.payload_mass o'
     = rocket_optimizer.RocketOptimizer.payload_mass o
  /\ rocket_optimizer.RocketOptimizer.num_stages o'
     = rocket_optimizer.RocketOptimizer.num_stages o
  /\ rocket_optimizer.RocketOptimizer.safety_factor o'
     = rocket_optimizer.RocketOptimizer.safety_factor o
  /\ List.length (rocket_optimizer.RocketOptimizer.stages o')
     = List.length (rocket_optimizer.RocketOptimizer.stages o).

(** The length-to-diameter table has a row for the stage count of [o] with
    an entry for each of its stages. *)
Definition table_ready (table : list (Z * list R))
           (o : rocket_optimizer.RocketOptimizer.t) : Prop :=
  exists row,
    rocket_optimizer.RocketOptimizer.getitem_int
      table (rocket_optimizer.RocketOptimizer.num_stages o) = Ok row
    /\ (List.length (rocket_optimizer.RocketOptimizer.stages o)
        <= List.length row)%nat.

(** The volume [_adjust_geometry] computes for a stage. *)
Definition stage_volume (s : Stage.t) : R :=
  PI * (Stage.diameter s / 2) ^ 2 * Stage.length s.

(** What the structural pass keeps of a stage: everything but its dry mass
    and what is derived from it. *)
Definition restructured (s s' : Stage.t) : Prop :=
  Stage.propellant_mass s' = Stage.propellant_mass s
  /\ Stage.diameter s' = Stage.diameter s
  /\ Stage.length s' = Stage.length s
  /\ Stage.name s' = Stage.name s
  /\ Stage.propellant s' = Stage.propellant s.

(** The length-to-diameter ratio [_adjust_geometry] moves a stage to: 5 %
    down when more altitude is needed, 5 % up otherwise, kept within 3 and
    12. *)
Definition adjusted_l_to_d (error_ratio current : R) : R :=
  Py.max 3.0 (Py.min 12.0 (if Rlt_dec 0 error_ratio then current * 0.95
                           else current * 1.05)).

(** The length [_adjust_geometry] computes for a stage and a ratio. *)
Definition adjusted_length (stage : Stage.t) (l_to_d : R) : R :=
  Rpower (stage_volume stage * l_to_d * 4 / PI) (1 / 3).

(** The geometry [_adjust_geometry] gives a stage whose table entry was
    [current], everything else being kept. *)
Definition regeometried (error_ratio current : R) (stage stage' : Stage.t)
  : Prop :=
  let l_to_d := adjusted_l_to_d error_ratio current in
  let new_length := adjusted_length stage l_to_d in
  Stage.diameter stage' = Py.max 0.5 (new_length / l_to_d)
  /\ Stage.length stage' = Py.max 1.0 new_length
  /\ Stage.dry_mass stage' = Stage.dry_mass stage
  /\ Stage.propellant_mass stage' = Stage.propellant_mass stage
  /\ Stage.total_mass stage' = Stage.total_mass stage.

(** A single-stage configuration of 10 t at liftoff whose sea-level thrust of
    150 kN gives a thrust-to-weight ratio above 1.5. *)
Definition capable_stage : Stage.t :=
  built_stage "Stage 1" 1000 8000 150000 160000 200 1.5 15 LOX_RP1.

Definition capable_optimizer : rocket_optimizer.RocketOptimizer.t :=
  rocket_optimizer.RocketOptimizer.mk
    100000 1000 "LOX/LH2" 1 3.0 1.2
    [capable_stage]
    (Some (MultiStageRocket.mk "1-Stage to 100 km" 1000 [capable_stage])) 0.

(** The underpowered design with a second stage stacked on it. *)
Definition stacked_optimizer : rocket_optimizer.RocketOptimizer.t :=
  rocket_optimizer.RocketOptimizer.mk
    100000 1000 "LOX/LH2" 2 3.0 1.2
    [underpowered_stage; capable_stage]
    (Some (MultiStageRocket.mk "2-Stage to 100 km" 1000
                               [underpowered_stage; capable_stage])) 0.

(** The analyzer [__init__] returns for the seven configuration values it
    reads. *)
Definition constructed_analyzer
           (rocket_config : list (string * R))
           (engine_config : list (string * list (string * R)))
           (propulsion_config : list (string * R))
           (propellant_mass burn_duration initial_pressure
            initial_temperature throat_diameter exit_diameter : R)
  : performance_analysis.RocketPerformanceAnalyzer.t :=
  performance_analysis.RocketPerformanceAnalyzer.mk
    rocket_config engine_config propulsion_config
    9.81 287.05 461.5 1.3 101325 288.15 1.225
    performance_analysis.RocketPerformanceAnalyzer._calculate_dry_mass
    propellant_mass burn_duration
    (performance_analysis.RocketPerformanceAnalyzer._calculate_dry_mass
     + propellant_mass)
    (initial_pressure * 1e6) initial_temperature
    (throat_diameter / 1000) (exit_diameter / 1000)
    (PI * (throat_diameter / 1000 / 2) ^ 2)
    (PI * (exit_diameter / 1000 / 2) ^ 2)
    (PI * (exit_diameter / 1000 / 2) ^ 2
     / (PI * (throat_diameter / 1000 / 2) ^ 2))
    None [].

(** The seven configuration values [__init__] reads are present. *)
Definition configured
           (engine_config : list (string * list (string * R)))
           (propulsion_config : list (string * R))
           (propellant_mass burn_duration initial_pressure
            initial_temperature throat_diameter exit_diameter : R) : Prop :=
  getitem propulsion_config "propellant_mass" = Ok propellant_mass
  /\ getitem propulsion_config "burn_duration" = Ok burn_duration
  /\ getitem propulsion_config "initial_pressure" = Ok initial_pressure
  /\ getitem propulsion_config "initial_temperature" = Ok initial_temperature
  /\ exists nozzle,
       getitem engine_config "nozzle" = Ok nozzle
       /\ getitem nozzle "throat_diameter" = Ok throat_diameter
       /\ getitem nozzle "exit_diameter" = Ok exit_diameter.

(** What the trajectory analysis reads of an analyzer whose dry mass has
    just been assigned: every attribute but the dry mass and the stored
    trajectory. *)
Definition vehicle (a : performance_analysis.RocketPerformanceAnalyzer.t)
  : performance_analysis.RocketPerformanceAnalyzer.t :=
  performance_analysis.RocketPerformanceAnalyzer.mk
    (performance_analysis.RocketPerformanceAnalyzer.rocket_config a)
    (performance_analysis.RocketPerformanceAnalyzer.engine_config a)
    (performance_analysis.RocketPerformanceAnalyzer.propulsion_config a)
    (performance_analysis.RocketPerformanceAnalyzer.g0 a)
    (performance_analysis.RocketPerformanceAnalyzer.R_air a)
    (performance_analysis.RocketPerformanceAnalyzer.R_steam a)
    (performance_analysis.RocketPerformanceAnalyzer.gamma_steam a)
    (performance_analysis.RocketPerformanceAnalyzer.p0 a)
    (performance_analysis.RocketPerformanceAnalyzer.T0 a)
    (performance_analysis.RocketPerformanceAnalyzer.rho0 a)
    0
    (performance_analysis.RocketPerformanceAnalyzer.propellant_mass a)
    (performance_analysis.RocketPerformanceAnalyzer.burn_time a)
    (performance_analysis.RocketPerformanceAnalyzer.total_mass a)
    (performance_analysis.RocketPerformanceAnalyzer.chamber_pressure a)
    (performance_analysis.RocketPerformanceAnalyzer.chamber_temperature a)
    (performance_analysis.RocketPerformanceAnalyzer.throat_diameter a)
    (performance_analysis.RocketPerformanceAnalyzer.exit_diameter a)
    (performance_analysis.RocketPerformanceAnalyzer.throat_area a)
    (performance_analysis.RocketPerformanceAnalyzer.exit_area a)
    (performance_analysis.RocketPerformanceAnalyzer.expansion_ratio a)
    None
    (performance_analysis.RocketPerformanceAnalyzer.performance_metrics a).

(** The trajectory analysis [calculate_maximum_payload] runs for a tested
    dry mass, on what it reads of the analyzer. *)
Definition flight
           (solve : (R -> R * R -> result (R * R)) ->
                    (R -> result R) -> (R -> result R) ->
                    (R -> R -> result R) -> (R -> result (R * R * R)) ->
                    R -> R -> R * R -> R ->
                    result performance_analysis.Trajectory)
           (a : performance_analysis.RocketPerformanceAnalyzer.t)
           (tested_dry_mass : R)
  : result performance_analysis.Trajectory :=
  match performance_analysis.RocketPerformanceAnalyzer.analyze_trajectory
          solve
          (performance_analysis.RocketPerformanceAnalyzer.set_dry_mass
             (vehicle a) tested_dry_mass) 0 0 500 with
  | Ok (trajectory, _) => Ok trajectory
  | Raise e => Raise e
  end.

(** The search keeps the heavier payload it has just tested: in the search
    for the maximum when the apogee is not below the target, in the search
    for a target altitude when the apogee is above the band around it. *)
Definition step_accepted (maximize_payload : bool)
           (target_altitude altitude_range test_altitude : R) : Prop :=
  if maximize_payload then target_altitude <= test_altitude
  else ~ Rabs (test_altitude - target_altitude) <= altitude_range
       /\ target_altitude < test_altitude.

End Spec.

(* ===================================================================== *)
(** ** Facts about the Python primitives *)
(* ===================================================================== *)

Section Primitives.

Lemma truediv_ok (a b : R) : b <> 0 -> truediv a b = Ok (a / b).
Proof.
  intros Hb. unfold truediv.
  destruct (Req_dec_T b 0) as [E | _]; [contradiction | reflexivity].
Qed.

Lemma truediv_zero (a : R) : truediv a 0 = Raise ZeroDivisionError.
Proof.
  unfold truediv.
  destruct (Req_dec_T 0 0) as [_ | N]; [reflexivity | now elim N].
Qed.

Lemma math_log_ok (x : R) : 0 < x -> math_log x = Ok (ln x).
Proof.
  intros Hx. unfold math_log.
  destruct (Rlt_dec 0 x) as [_ | N]; [reflexivity | contradiction].
Qed.

Lemma math_log_domain_error (x : R) :
  x <= 0 -> math_log x = Raise ValueError.
Proof.
  intros Hx. unfold math_log.
  destruct (Rlt_dec 0 x) as [P | _]; [lra | reflexivity].
Qed.

Lemma math_sqrt_ok (x : R) : 0 <= x -> math_sqrt x = Ok (sqrt x).
Proof.
  intros Hx. unfold math_sqrt.
  destruct (Rle_dec 0 x) as [_ | N]; [reflexivity | contradiction].
Qed.

Lemma math_sqrt_domain_error (x : R) :
  x < 0 -> math_sqrt x = Raise ValueError.
Proof.
  intros Hx. unfold math_sqrt.
  destruct (Rle_dec 0 x) as [P | _]; [lra | reflexivity].
Qed.

Lemma float_pow_pos (x y : R) : 0 < x -> float_pow x y = Ok (Rpower x y).
Proof.
  intros Hx. unfold float_pow.
  destruct (Rlt_dec 0 x) as [_ | N]; [reflexivity | contradiction].
Qed.

Lemma Rpower_pos (x y : R) : 0 < Rpower x y.
Proof. unfold Rpower. apply exp_pos. Qed.

(** A base in (0, 1] raised to a non-negative power stays at most 1. *)
Lemma Rpower_le_1 (x y : R) : 0 < x <= 1 -> 0 <= y -> Rpower x y <= 1.
Proof.
  intros [Hx0 Hx1] Hy. unfold Rpower.
  assert (Hln : ln x <= 0).
  { destruct Hx1 as [Hlt | Heq].
    - left. rewrite <- ln_1. now apply ln_increasing.
    - rewrite Heq, ln_1. lra. }
  assert (Hprod : y * ln x <= 0) by nra.
  destruct Hprod as [Hlt | Heq].
  - left. rewrite <- exp_0. now apply exp_increasing.
  - rewrite Heq, exp_0. lra.
Qed.

Lemma tan_15_degrees_pos : 0 < tan (math_radians 15).
Proof.
  unfold math_radians. pose proof PI_RGT_0 as Hpi.
  apply tan_gt_0; lra.
Qed.

End Primitives.

(* ===================================================================== *)
(** ** Stage construction and nozzle sizing *)
(* ===================================================================== *)

Section StageFacts.

Import rocket_physics.
Import Spec.

(** Every catalog entry has a ratio of specific heats above 1 and positive
    chamber pressure and vacuum Isp. *)
Lemma catalog_entry_sane (p : Propellant) :
  In p (map snd PROPELLANT_COMBINATIONS) ->
  1 < gamma p /\ 0 < chamber_pressure p /\ 0 < isp_vac p.
Proof.
  simpl. intros [E | [E | [E | []]]]; subst p; simpl; repeat split; lra.
Qed.

Lemma resolved_propellant_in_catalog (propellant_type : string) :
  In (resolved_propellant propellant_type)
     (map snd PROPELLANT_COMBINATIONS).
Proof.
  unfold resolved_propellant. simpl.
  destruct (String.eqb propellant_type "LOX/LH2"); [now left |].
  destruct (String.eqb propellant_type "LOX/RP1"); [now right; left |].
  destruct (String.eqb propellant_type "HTPB"); [now right; right; left |].
  now left.
Qed.

(** The propellant lookup of [Stage.__init__] never raises. *)
Lemma propellant_lookup (propellant_type : string) :
  (if contains PROPELLANT_COMBINATIONS propellant_type
   then getitem PROPELLANT_COMBINATIONS propellant_type
   else getitem PROPELLANT_COMBINATIONS "LOX/LH2")
  = Ok (resolved_propellant propellant_type).
Proof.
  unfold resolved_propellant. simpl.
  destruct (String.eqb propellant_type "LOX/LH2"); [reflexivity |].
  destruct (String.eqb propellant_type "LOX/RP1"); [reflexivity |].
  destruct (String.eqb propellant_type "HTPB"); reflexivity.
Qed.

(** The third factor under the root stays strictly between 0 and 1. *)
Lemma expansion_term_pos (expansion_ratio gamma : R) :
  1 <= expansion_ratio -> 1 < gamma ->
  0 < 1 - Rpower (1 / expansion_ratio) (gamma - 1) / gamma.
Proof.
  intros He Hg.
  assert (Hb : 0 < 1 / expansion_ratio <= 1).
  { split.
    - apply Rdiv_lt_0_compat; lra.
    - apply Rmult_le_reg_r with expansion_ratio; [lra |].
      unfold Rdiv. rewrite Rmult_assoc, Rinv_l by lra. lra. }
  pose proof (Rpower_le_1 (1 / expansion_ratio) (gamma - 1) Hb) as Hle.
  pose proof (Rpower_pos (1 / expansion_ratio) (gamma - 1)) as Hpos.
  assert (Hq : Rpower (1 / expansion_ratio) (gamma - 1) / gamma < 1).
  { apply Rmult_lt_reg_r with gamma; [lra |].
    unfold Rdiv. rewrite Rmult_assoc, Rinv_l by lra. lra. }
  lra.
Qed.

(** [_calculate_thrust_coefficient] returns the closed form, and it is
    positive, whenever the expansion ratio is at least 1 and gamma > 1. *)
Lemma thrust_coefficient_ok (expansion_ratio gamma : R) :
  1 <= expansion_ratio -> 1 < gamma ->
  Stage._calculate_thrust_coefficient expansion_ratio gamma
    = Ok (thrust_coefficient expansion_ratio gamma)
  /\ 0 < thrust_coefficient expansion_ratio gamma.
Proof.
  intros He Hg.
  pose proof (expansion_term_pos _ _ He Hg) as H3.
  assert (H1 : 0 < 2 * gamma ^ 2 / (gamma - 1)).
  { apply Rdiv_lt_0_compat; nra. }
  assert (H2 : 0 < 2 / (gamma + 1)).
  { apply Rdiv_lt_0_compat; lra. }
  assert (Hb3 : 0 < 1 / expansion_ratio).
  { apply Rdiv_lt_0_compat; lra. }
  split.
  - unfold Stage._calculate_thrust_coefficient.
    rewrite (truediv_ok _ (gamma - 1)) by lra. cbn [bind].
    rewrite math_sqrt_ok by lra. cbn [bind].
    rewrite (truediv_ok _ (gamma + 1)) by lra. cbn [bind].
    rewrite (truediv_ok _ (gamma - 1)) by lra. cbn [bind].
    rewrite float_pow_pos by assumption. cbn [bind].
    rewrite (truediv_ok _ expansion_ratio) by lra. cbn [bind].
    rewrite float_pow_pos by assumption. cbn [bind].
    rewrite (truediv_ok _ gamma) by lra. cbn [bind].
    rewrite math_sqrt_ok by lra. cbn [bind].
    reflexivity.
  - unfold thrust_coefficient.
    apply Rmult_lt_0_compat; [| lra].
    apply Rmult_lt_0_compat; [| now apply sqrt_lt_R0].
    apply Rmult_lt_0_compat; [now apply sqrt_lt_R0 | apply Rpower_pos].
Qed.

(** Nozzle sizing succeeds on every stage with a catalog propellant and a
    non-negative vacuum thrust, and assigns the closed-form values. *)
Lemma engine_parameters_ok (self : Stage.t) :
  In (Stage.propellant self) (map snd PROPELLANT_COMBINATIONS) ->
  0 <= Stage.thrust_vac self ->
  let p := Stage.propellant self in
  let throat_area :=
    Stage.thrust_vac self
    / (thrust_coefficient 20 (gamma p) * chamber_pressure p) in
  let expansion_ratio := role_expansion_ratio (Stage.name self) in
  let throat_diameter := 2 * sqrt (throat_area / PI) in
  let exit_diameter := 2 * sqrt (throat_area * expansion_ratio / PI) in
  Stage._calculate_engine_parameters self
  = Ok (Stage.set_nozzle self throat_area throat_diameter expansion_ratio
          (throat_area * expansion_ratio) exit_diameter
          (0.8 * ((exit_diameter - throat_diameter)
                  / (2 * tan (math_radians 15))))).
Proof.
  intros Hin Htv p throat_area expansion_ratio throat_diameter exit_diameter.
  destruct (catalog_entry_sane _ Hin) as (Hg & Hpc & _).
  destruct (thrust_coefficient_ok 20 (gamma p)) as [Hcf Hcfpos];
    [lra | exact Hg |].
  pose proof PI_RGT_0 as Hpi.
  pose proof tan_15_degrees_pos as Htan.
  assert (Hden : 0 < thrust_coefficient 20 (gamma p) * chamber_pressure p).
  { now apply Rmult_lt_0_compat. }
  assert (Hta : 0 <= throat_area).
  { unfold throat_area. apply Rmult_le_pos; [exact Htv |].
    left. now apply Rinv_0_lt_compat. }
  assert (Heps : 0 < expansion_ratio).
  { unfold expansion_ratio, role_expansion_ratio.
    repeat match goal with |- context [if ?b then _ else _] =>
                             destruct b end; lra. }
  assert (Hea : 0 <= throat_area * expansion_ratio) by nra.
  unfold Stage._calculate_engine_parameters.
  fold p. rewrite Hcf. cbn [bind].
  rewrite (truediv_ok (Stage.thrust_vac self)) by lra. cbn [bind].
  fold throat_area.
  rewrite (truediv_ok throat_area PI) by lra. cbn [bind].
  rewrite math_sqrt_ok
    by (apply Rmult_le_pos; [exact Hta | left; now apply Rinv_0_lt_compat]).
  cbn [bind].
  change (Stage._calculate_optimal_expansion_ratio self (gamma p))
    with expansion_ratio.
  rewrite (truediv_ok (throat_area * expansion_ratio) PI) by lra.
  cbn [bind].
  rewrite math_sqrt_ok
    by (apply Rmult_le_pos; [exact Hea | left; now apply Rinv_0_lt_compat]).
  cbn [bind].
  rewrite truediv_ok by lra. cbn [bind].
  reflexivity.
Qed.

(** Construction succeeds, with the closed-form attributes, as soon as the
    dry mass is not zero and the vacuum thrust is not negative. *)
Lemma Stage_init_ok (name : string)
      (dry_mass propellant_mass thrust_sl thrust_vac
       burn_time diameter length : R) (propellant_type : string) :
  dry_mass <> 0 -> 0 <= thrust_vac ->
  Stage.__init__ name dry_mass propellant_mass thrust_sl thrust_vac
                 burn_time diameter length propellant_type
  = Ok (built_stage name dry_mass propellant_mass thrust_sl thrust_vac
                    burn_time diameter length
                    (resolved_propellant propellant_type)).
Proof.
  intros Hdry Htv. unfold Stage.__init__.
  rewrite propellant_lookup. cbn [bind].
  rewrite truediv_ok by exact Hdry. cbn [bind].
  assert (Hflow :
    (if Rlt_dec 0 burn_time then truediv propellant_mass burn_time else Ok 0)
    = Ok (if Rlt_dec 0 burn_time then propellant_mass / burn_time else 0)).
  { destruct (Rlt_dec 0 burn_time); [apply truediv_ok; lra | reflexivity]. }
  rewrite Hflow. cbn [bind].
  rewrite engine_parameters_ok.
  - reflexivity.
  - apply resolved_propellant_in_catalog.
  - exact Htv.
Qed.

(** A zero dry mass makes construction raise ZeroDivisionError. *)
Lemma Stage_init_zero_dry_mass (name : string)
      (propellant_mass thrust_sl thrust_vac
       burn_time diameter length : R) (propellant_type : string) :
  Stage.__init__ name 0 propellant_mass thrust_sl thrust_vac
                 burn_time diameter length propellant_type
  = Raise ZeroDivisionError.
Proof.
  unfold Stage.__init__.
  rewrite propellant_lookup. cbn [bind].
  rewrite truediv_zero. reflexivity.
Qed.

(** A negative vacuum thrust makes construction raise ValueError: the
    throat area is negative and its square root is taken. *)
Lemma Stage_init_negative_thrust (name : string)
      (dry_mass propellant_mass thrust_sl thrust_vac
       burn_time diameter length : R) (propellant_type : string) :
  dry_mass <> 0 -> thrust_vac < 0 ->
  Stage.__init__ name dry_mass propellant_mass thrust_sl thrust_vac
                 burn_time diameter length propellant_type
  = Raise ValueError.
Proof.
  intros Hdry Htv. unfold Stage.__init__.
  rewrite propellant_lookup. cbn [bind].
  rewrite truediv_ok by exact Hdry. cbn [bind].
  assert (Hflow : exists f,
    (if Rlt_dec 0 burn_time then truediv propellant_mass burn_time else Ok 0)
    = Ok f).
  { destruct (Rlt_dec 0 burn_time); eexists;
      [apply truediv_ok; lra | reflexivity]. }
  destruct Hflow as [f Hf]. rewrite Hf. cbn [bind].
  set (p := resolved_propellant propellant_type).
  destruct (catalog_entry_sane p (resolved_propellant_in_catalog _))
    as (Hg & Hpc & _).
  destruct (thrust_coefficient_ok 20 (gamma p)) as [Hcf Hcfpos];
    [lra | exact Hg |].
  pose proof PI_RGT_0 as Hpi.
  assert (Hden : 0 < thrust_coefficient 20 (gamma p) * chamber_pressure p).
  { now apply Rmult_lt_0_compat. }
  unfold Stage._calculate_engine_parameters. cbn [Stage.propellant].
  rewrite Hcf. cbn [bind Stage.thrust_vac].
  rewrite (truediv_ok thrust_vac) by lra. cbn [bind].
  rewrite (truediv_ok _ PI) by lra. cbn [bind].
  rewrite math_sqrt_domain_error; [reflexivity |].
  assert (Hta :
    thrust_vac / (thrust_coefficient 20 (gamma p) * chamber_pressure p) < 0).
  { unfold Rdiv. rewrite <- (Rmult_0_l
      (/ (thrust_coefficient 20 (gamma p) * chamber_pressure p))).
    apply Rmult_lt_compat_r; [now apply Rinv_0_lt_compat | exact Htv]. }
  unfold Rdiv at 1.
  rewrite <- (Rmult_0_l (/ PI)).
  apply Rmult_lt_compat_r; [now apply Rinv_0_lt_compat | exact Hta].
Qed.

End StageFacts.

(* ===================================================================== *)
(** ** Properties of a single stage *)
(* ===================================================================== *)

Section StageProperties.

Import rocket_physics.
Import Spec.
Import rocket_optimizer.

Lemma bind_ok_inv {A B : Type} (c : result A) (k : A -> result B) (b : B) :
  bind c k = Ok b -> exists a, c = Ok a /\ k a = Ok b.
Proof.
  destruct c as [a | e]; simpl; intros H; [eauto | discriminate].
Qed.

(** Whatever [_calculate_engine_parameters] returns differs from its
    argument in the nozzle attributes only. *)
Lemma engine_parameters_frame (self s' : Stage.t) :
  Stage._calculate_engine_parameters self = Ok s' ->
  Stage.propellant s' = Stage.propellant self
  /\ Stage.mass_ratio s' = Stage.mass_ratio self
  /\ Stage.name s' = Stage.name self.
Proof.
  unfold Stage._calculate_engine_parameters. intros H.
  repeat (apply bind_ok_inv in H; destruct H as (? & _ & H)).
  injection H as <-. repeat split.
Qed.

(** A constructed stage carries the catalog entry its propellant type
    resolves to. *)
Lemma Stage_init_propellant (name : string)
      (dry_mass propellant_mass thrust_sl thrust_vac
       burn_time diameter length : R) (propellant_type : string)
      (s : Stage.t) :
  Stage.__init__ name dry_mass propellant_mass thrust_sl thrust_vac
                 burn_time diameter length propellant_type = Ok s ->
  Stage.propellant s = resolved_propellant propellant_type.
Proof.
  unfold Stage.__init__. rewrite propellant_lookup. cbn [bind]. intros H.
  apply bind_ok_inv in H. destruct H as (mr & _ & H).
  apply bind_ok_inv in H. destruct H as (fr & _ & H).
  apply engine_parameters_frame in H. now destruct H as (-> & _).
Qed.

(** For a positive mass ratio [get_delta_v] is the Tsiolkovsky value. *)
Lemma get_delta_v_tsiolkovsky (s : Stage.t) :
  0 < Stage.mass_ratio s ->
  Stage.get_delta_v s
  = Ok (isp_vac (Stage.propellant s) * GRAVITY * ln (Stage.mass_ratio s)).
Proof.
  intros H. unfold Stage.get_delta_v. now rewrite math_log_ok.
Qed.

(** C2, as the code has it.  A stage whose mass ratio is zero or negative
    makes [get_delta_v] raise ValueError (the domain error of [math.log]);
    no guard turns the undefined logarithm into 0. *)
Theorem get_delta_v_nonpositive_ratio_raises (s : Stage.t) :
  Stage.mass_ratio s <= 0 ->
  Stage.get_delta_v s = Raise ValueError.
Proof.
  intros H. unfold Stage.get_delta_v.
  now rewrite math_log_domain_error.
Qed.

Lemma get_delta_v_nonpositive_ratio_raises_witness :
  Stage.mass_ratio (built_stage "Stage" 1 (-2) 0 0 10 1 1 LOX_LH2) <= 0
  /\ Stage.get_delta_v (built_stage "Stage" 1 (-2) 0 0 10 1 1 LOX_LH2)
     = Raise ValueError.
Proof.
  assert (H : Stage.mass_ratio
                (built_stage "Stage" 1 (-2) 0 0 10 1 1 LOX_LH2) <= 0).
  { simpl. lra. }
  split; [exact H |].
  apply (get_delta_v_nonpositive_ratio_raises _ H).
Defined.

(** C2 fails as stated: the stage constructed with dry mass 1 and
    propellant mass -2 has mass ratio -1, and [get_delta_v] does not
    return 0 on it but raises. *)
Lemma get_delta_v_guard_counterexample :
  exists s,
    Stage.__init__ "Stage" 1 (-2) 0 0 10 1 1 "LOX/LH2" = Ok s
    /\ Stage.mass_ratio s <= 0
    /\ Stage.get_delta_v s = Raise ValueError
    /\ Stage.get_delta_v s <> Ok 0.
Proof.
  eexists. split; [apply Stage_init_ok; lra |].
  assert (H : Stage.mass_ratio
                (built_stage "Stage" 1 (-2) 0 0 10 1 1
                             (resolved_propellant "LOX/LH2")) <= 0).
  { simpl. lra. }
  split; [exact H |].
  unfold Stage.get_delta_v. rewrite math_log_domain_error by exact H.
  split; [reflexivity | discriminate].
Qed.

(** C3, evaluated on the code.  The test that selects the tank pressure
    looks for the letters LOX in the display name of the propellant, and no
    catalog entry has them there; so a stage constructed with type LOX/LH2
    or LOX/RP1 is sized with 2e5 Pa, not with 3e5 Pa. *)
Theorem lox_stage_tank_pressure (name : string)
        (dry_mass propellant_mass thrust_sl thrust_vac
         burn_time diameter length : R) (propellant_type : string)
        (s : Stage.t) :
  propellant_type = "LOX/LH2"%string \/ propellant_type = "LOX/RP1"%string ->
  Stage.__init__ name dry_mass propellant_mass thrust_sl thrust_vac
                 burn_time diameter length propellant_type = Ok s ->
  RocketOptimizer.tank_pressure s = 2.0e5
  /\ RocketOptimizer.tank_pressure s <> 3.0e5.
Proof.
  intros Hpt Hinit.
  apply Stage_init_propellant in Hinit.
  assert (E : RocketOptimizer.tank_pressure s = 2.0e5).
  { unfold RocketOptimizer.tank_pressure. rewrite Hinit.
    destruct Hpt as [-> | ->]; reflexivity. }
  split; [exact E | rewrite E; lra].
Qed.

Lemma lox_stage_tank_pressure_witness :
  RocketOptimizer.tank_pressure
    (built_stage "First Stage" 25000 385000 7600000 8200000 162 3.7 41.2
                 LOX_RP1) = 2.0e5
  /\ RocketOptimizer.tank_pressure
       (built_stage "First Stage" 25000 385000 7600000 8200000 162 3.7 41.2
                    LOX_RP1) <> 3.0e5.
Proof.
  apply (lox_stage_tank_pressure "First Stage" 25000 385000 7600000 8200000
                                 162 3.7 41.2 "LOX/RP1").
  - right. reflexivity.
  - apply Stage_init_ok; lra.
Defined.

(** The pressure is 2e5 Pa for every catalog propellant, oxygen-bearing or
    not: the 3e5 branch is never taken. *)
Lemma tank_pressure_catalog (s : Stage.t) :
  stage_propellant_ok s -> RocketOptimizer.tank_pressure s = 2.0e5.
Proof.
  unfold stage_propellant_ok, RocketOptimizer.tank_pressure. simpl.
  intros [E | [E | [E | []]]]; rewrite <- E; reflexivity.
Qed.



(** The thrust coefficient grows strictly with the expansion ratio. *)
Lemma thrust_coefficient_increasing (e1 e2 gamma : R) :
  1 <= e1 -> e1 < e2 -> 1 < gamma ->
  thrust_coefficient e1 gamma < thrust_coefficient e2 gamma.
Proof.
intros H1 H12 Hg.
pose proof (expansion_term_pos e1 gamma H1 Hg) as T1.
assert (Hinv : 0 < 1 / e2 < 1 / e1).
{ split.
  - apply Rdiv_lt_0_compat; lra.
  - unfold Rdiv. rewrite !Rmult_1_l. apply Rinv_lt_contravar; nra. }
assert (Hpow : Rpower (1 / e2) (gamma - 1) < Rpower (1 / e1) (gamma - 1)).
{ apply Rlt_Rpower_l; [lra | exact Hinv]. }
assert (Hterm : 1 - Rpower (1 / e1) (gamma - 1) / gamma
                < 1 - Rpower (1 / e2) (gamma - 1) / gamma).
{ apply Rplus_lt_compat_l, Ropp_lt_contravar.
  unfold Rdiv. apply Rmult_lt_compat_r; [apply Rinv_0_lt_compat; lra |].
  exact Hpow. }
assert (Hsqrt : sqrt (1 - Rpower (1 / e1) (gamma - 1) / gamma)
                < sqrt (1 - Rpower (1 / e2) (gamma - 1) / gamma)).
{ apply sqrt_lt_1_alt. lra. }
assert (Hfront : 0 < sqrt (2 * gamma ^ 2 / (gamma - 1))
                     * Rpower (2 / (gamma + 1)) ((gamma + 1) / (gamma - 1))).
{ apply Rmult_lt_0_compat; [| apply Rpower_pos].
  apply sqrt_lt_R0, Rdiv_lt_0_compat; nra. }
unfold thrust_coefficient.
apply Rmult_lt_compat_r; [lra |].
apply Rmult_lt_compat_l; assumption.
Qed.

(** C4, as the code has it.  On every stage with a catalog propellant and a
    non-negative vacuum thrust, nozzle sizing succeeds; the thrust coefficient
    it uses is computed from gamma at the fixed expansion ratio 20, whatever
    ratio is then chosen for the stage, with the 0.98 divergence factor; the
    throat area is thrust_vac / (Cf * chamber_pressure); the expansion ratio
    is chosen from the lower-cased stage name by the first rule that applies:
    10 when it contains "first" or "booster", 40 when it contains "second",
    80 when it contains "third" or "upper", 25 otherwise; and the exit area
    is the throat area times that chosen ratio. *)
Theorem nozzle_sizing_fixed_guess_cf (self : Stage.t) :
  stage_propellant_ok self -> 0 <= Stage.thrust_vac self ->
  exists s' Cf,
    Stage._calculate_engine_parameters self = Ok s'
    /\ Stage._calculate_thrust_coefficient 20 (gamma (Stage.propellant self))
       = Ok Cf
    /\ Cf = sqrt (2 * gamma (Stage.propellant self) ^ 2
                  / (gamma (Stage.propellant self) - 1))
            * Rpower (2 / (gamma (Stage.propellant self) + 1))
                     ((gamma (Stage.propellant self) + 1)
                      / (gamma (Stage.propellant self) - 1))
            * sqrt (1 - Rpower (1 / 20) (gamma (Stage.propellant self) - 1)
                        / gamma (Stage.propellant self))
            * 0.98
    /\ Stage.throat_area s'
       = Stage.thrust_vac self
         / (Cf * chamber_pressure (Stage.propellant self))
    /\ Stage.expansion_ratio s'
       = Stage._calculate_optimal_expansion_ratio
           self (gamma (Stage.propellant self))
    /\ (Stage.expansion_ratio s' = 10 \/ Stage.expansion_ratio s' = 40
        \/ Stage.expansion_ratio s' = 80 \/ Stage.expansion_ratio s' = 25)
    /\ Stage.expansion_ratio s' = role_expansion_ratio (Stage.name self)
    /\ (let n := lower (Stage.name self) in
        (str_in "first" n = true \/ str_in "booster" n = true ->
         Stage.expansion_ratio s' = 10)
        /\ (str_in "first" n = false -> str_in "booster" n = false ->
            str_in "second" n = true ->
            Stage.expansion_ratio s' = 40)
        /\ (str_in "first" n = false -> str_in "booster" n = false ->
            str_in "second" n = false ->
            str_in "third" n = true \/ str_in "upper" n = true ->
            Stage.expansion_ratio s' = 80)
        /\ (str_in "first" n = false -> str_in "booster" n = false ->
            str_in "second" n = false ->
            str_in "third" n = false -> str_in "upper" n = false ->
            Stage.expansion_ratio s' = 25))
    /\ Stage.exit_area s' = Stage.throat_area s' * Stage.expansion_ratio s'.
Proof.
intros Hin Htv.
destruct (catalog_entry_sane _ Hin) as (Hg & _ & _).
destruct (thrust_coefficient_ok 20 (gamma (Stage.propellant self)))
  as [Hcf _]; [lra | exact Hg |].
eexists. exists (thrust_coefficient 20 (gamma (Stage.propellant self))).
split; [apply engine_parameters_ok; assumption |].
split; [exact Hcf |].
split; [reflexivity |].
split; [reflexivity |].
split; [reflexivity |].
split.
{ cbn [Stage.expansion_ratio Stage.set_nozzle].
  unfold role_expansion_ratio.
  destruct (str_in "first" (lower (Stage.name self))
            || str_in "booster" (lower (Stage.name self))); [now left |].
  destruct (str_in "second" (lower (Stage.name self)));
    [now right; left |].
  destruct (str_in "third" (lower (Stage.name self))
            || str_in "upper" (lower (Stage.name self)));
    [now right; right; left | now right; right; right]. }
split; [reflexivity |].
split; [| reflexivity].
cbn [Stage.expansion_ratio Stage.set_nozzle].
unfold role_expansion_ratio. cbv zeta.
destruct (str_in "first" (lower (Stage.name self)));
  destruct (str_in "booster" (lower (Stage.name self)));
  destruct (str_in "second" (lower (Stage.name self)));
  destruct (str_in "third" (lower (Stage.name self)));
  destruct (str_in "upper" (lower (Stage.name self)));
  cbn [orb]; repeat split; intros;
  repeat match goal with
         | H : _ \/ _ |- _ => destruct H
         end;
  try reflexivity; discriminate.
Qed.

Lemma nozzle_sizing_fixed_guess_cf_witness :
  exists s' Cf,
    Stage._calculate_engine_parameters
      (built_stage "First Stage" 25000 385000 7600000 8200000 162 3.7 41.2
                   LOX_RP1) = Ok s'
    /\ Stage._calculate_thrust_coefficient 20 1.22 = Ok Cf
    /\ Stage.throat_area s' = 8200000 / (Cf * 7.6e6)
    /\ Stage.expansion_ratio s' = 10
    /\ Stage.exit_area s' = Stage.throat_area s' * Stage.expansion_ratio s'.
Proof.
destruct (nozzle_sizing_fixed_guess_cf
            (built_stage "First Stage" 25000 385000 7600000 8200000 162
                         3.7 41.2 LOX_RP1))
  as (s' & Cf & H1 & H2 & _ & H4 & _ & _ & _ & (Hfirst & _) & H7).
- unfold stage_propellant_ok. simpl. right. left. reflexivity.
- simpl. lra.
- exists s', Cf.
  split; [exact H1 |]. split; [exact H2 |]. split; [exact H4 |].
  split; [| exact H7].
  apply Hfirst. left. reflexivity.
Defined.

(** C4 fails as stated.  The first stage of the realistic two-stage rocket is
    given the expansion ratio 10, but its throat area is not
    thrust_vac / (Cf * chamber_pressure) for the thrust coefficient at that
    chosen ratio. *)
Lemma nozzle_cf_chosen_ratio_counterexample :
  exists s Cf_chosen,
    Stage.__init__ "First Stage" 25000 385000 7600000 8200000 162 3.7 41.2
                   "LOX/RP1" = Ok s
    /\ Stage.expansion_ratio s = 10
    /\ Stage._calculate_thrust_coefficient
         (Stage.expansion_ratio s) (gamma (Stage.propellant s))
       = Ok Cf_chosen
    /\ Stage.throat_area s
       <> Stage.thrust_vac s
          / (Cf_chosen * chamber_pressure (Stage.propellant s)).
Proof.
destruct (thrust_coefficient_ok 10 1.22) as [Hcf10 Hpos10]; [lra | lra |].
destruct (thrust_coefficient_ok 20 1.22) as [_ Hpos20]; [lra | lra |].
pose proof (thrust_coefficient_increasing 10 20 1.22) as Hinc.
eexists. exists (thrust_coefficient 10 1.22).
split; [apply Stage_init_ok; lra |].
split; [reflexivity |].
split; [exact Hcf10 |].
cbn [Stage.throat_area Stage.thrust_vac Stage.propellant built_stage
     resolved_propellant String.eqb Ascii.eqb Bool.eqb LOX_RP1
     gamma chamber_pressure].
intros Heq.
assert (Hlt : thrust_coefficient 10 1.22 < thrust_coefficient 20 1.22)
  by (apply Hinc; lra).
assert (Hd10 : 0 < thrust_coefficient 10 1.22 * 7.6e6) by nra.
assert (Hd20 : 0 < thrust_coefficient 20 1.22 * 7.6e6) by nra.
apply (f_equal (fun x => x * (thrust_coefficient 10 1.22 * 7.6e6)
                          * (thrust_coefficient 20 1.22 * 7.6e6))) in Heq.
field_simplify in Heq; [| lra | lra].
nra.
Qed.



Lemma resolved_propellant_unknown (propellant_type : string) :
  ~ In propellant_type (map fst PROPELLANT_COMBINATIONS) ->
  resolved_propellant propellant_type = LOX_LH2.
Proof.
intros Hnot. unfold resolved_propellant.
destruct (String.eqb_spec propellant_type "LOX/LH2"); [reflexivity |].
destruct (String.eqb_spec propellant_type "LOX/RP1") as [E | _].
{ exfalso. apply Hnot. simpl. right. left. now symmetry. }
destruct (String.eqb_spec propellant_type "HTPB") as [E | _].
{ exfalso. apply Hnot. simpl. right. right. left. now symmetry. }
reflexivity.
Qed.

(** C10.  A propellant type that is not a key of the catalog does not make
    construction fail.  The call behaves exactly as the same call with
    "LOX/LH2"; and whenever the numeric arguments allow a stage to be built at
    all (dry mass not zero, vacuum thrust not negative) it returns a stage
    whose propellant is the LOX/LH2 entry, whose delta-v is computed with the
    LOX/LH2 vacuum Isp of 450 s, whose flow rate is propellant mass over burn
    time, and whose nozzle is sized with the LOX/LH2 gamma 1.26 and chamber
    pressure 6.9e6 Pa. *)
Theorem unknown_propellant_defaults_to_lox_lh2
        (name : string)
        (dry_mass propellant_mass thrust_sl thrust_vac
         burn_time diameter length : R) (propellant_type : string) :
  ~ In propellant_type (map fst PROPELLANT_COMBINATIONS) ->
  Stage.__init__ name dry_mass propellant_mass thrust_sl thrust_vac
                 burn_time diameter length propellant_type
  = Stage.__init__ name dry_mass propellant_mass thrust_sl thrust_vac
                   burn_time diameter length "LOX/LH2"
  /\ (dry_mass <> 0 -> 0 <= thrust_vac ->
      exists s,
        Stage.__init__ name dry_mass propellant_mass thrust_sl thrust_vac
                       burn_time diameter length propellant_type = Ok s
        /\ Stage.propellant s = LOX_LH2
        /\ Stage.get_delta_v s
           = (l <- math_log ((dry_mass + propellant_mass) / dry_mass) ;;
              Ok (450 * GRAVITY * l))
        /\ Stage.propellant_flow_rate s
           = (if Rlt_dec 0 burn_time then propellant_mass / burn_time else 0)
        /\ Stage.throat_area s
           = thrust_vac / (thrust_coefficient 20 1.26 * 6.9e6)
        /\ Stage.exit_area s
           = Stage.throat_area s * role_expansion_ratio name
        /\ Stage.throat_diameter s = 2 * sqrt (Stage.throat_area s / PI)
        /\ Stage.exit_diameter s = 2 * sqrt (Stage.exit_area s / PI)).
Proof.
intros Hnot.
pose proof (resolved_propellant_unknown _ Hnot) as Hres.
split.
- unfold Stage.__init__. rewrite !propellant_lookup, Hres. reflexivity.
- intros Hdry Htv.
  exists (built_stage name dry_mass propellant_mass thrust_sl thrust_vac
                      burn_time diameter length LOX_LH2).
  split; [rewrite <- Hres; now apply Stage_init_ok |].
  repeat split.
Qed.

Lemma unknown_propellant_defaults_to_lox_lh2_witness :
  exists s,
    Stage.__init__ "Upper Stage" 4000 90000 0 934000 397 3.7 12.6 "Methalox"
    = Ok s
    /\ Stage.propellant s = LOX_LH2
    /\ Stage.get_delta_v s
       = (l <- math_log ((4000 + 90000) / 4000) ;; Ok (450 * GRAVITY * l)).
Proof.
assert (Hnot : ~ In "Methalox"%string (map fst PROPELLANT_COMBINATIONS)).
{ simpl. intros [E | [E | [E | []]]]; discriminate E. }
assert (Hdry : 4000 <> 0) by lra.
assert (Htv : 0 <= 934000) by lra.
destruct (proj2 (unknown_propellant_defaults_to_lox_lh2
                   "Upper Stage" 4000 90000 0 934000 397 3.7 12.6
                   "Methalox" Hnot) Hdry Htv)
  as (s & H1 & H2 & H3 & _).
exists s. repeat split; assumption.
Defined.

End StageProperties.

(* ===================================================================== *)
(** ** Whole-vehicle mass and delta-v *)
(* ===================================================================== *)

Section RocketFacts.

Import rocket_physics.
Import Spec.

Lemma vehicle_mass_shift (a x : R) (stages : list Stage.t) :
  vehicle_mass (a + x) stages = x + vehicle_mass a stages.
Proof.
induction stages as [| s rest IH]; simpl; [lra | rewrite IH; lra].
Qed.

Lemma vehicle_mass_pos (payload : R) (stages : list Stage.t) :
  0 < payload -> Forall stage_masses_ok stages ->
  0 < vehicle_mass payload stages.
Proof.
intros Hp Hok. induction Hok as [| s rest (Hd & Hpm & _) _ IH]; simpl; lra.
Qed.

(** The accumulation of [get_total_mass] adds up to the vehicle mass. *)
Lemma total_mass_fold (stages : list Stage.t) (a : R) :
  Forall stage_masses_ok stages ->
  fold_left (fun total stage => total + Stage.total_mass stage) stages a
  = vehicle_mass a stages.
Proof.
intros Hok. revert a.
induction Hok as [| s rest (_ & _ & Ht) _ IH]; intros a; simpl;
  [reflexivity |].
rewrite IH, Ht, vehicle_mass_shift. lra.
Qed.

Lemma get_total_mass_vehicle (r : MultiStageRocket.t) :
  Forall stage_masses_ok (MultiStageRocket.stages r) ->
  MultiStageRocket.get_total_mass r
  = vehicle_mass (MultiStageRocket.payload_mass r) (MultiStageRocket.stages r).
Proof. apply total_mass_fold. Qed.

(** The loop of [get_total_delta_v], started with the running mass equal to
    the vehicle mass, never raises; it ends with the payload as running mass
    and has added the staged sum to the accumulator. *)
Lemma delta_v_loop_staged (payload : R) (stages : list Stage.t) :
  0 < payload -> Forall stage_masses_ok stages ->
  forall dv : R,
    MultiStageRocket.delta_v_loop (dv, vehicle_mass payload stages) stages
    = Ok (dv + staged_delta_v payload stages, payload).
Proof.
intros Hp Hok.
induction Hok as [| s rest Hs Hrest IH]; intros dv.
- simpl. now rewrite Rplus_0_r.
- pose proof (vehicle_mass_pos payload rest Hp Hrest) as Hpos.
  destruct Hs as (Hd & Hpm & _).
  cbn [MultiStageRocket.delta_v_loop MultiStageRocket.delta_v_step].
  assert (Hnext :
    vehicle_mass payload (s :: rest)
    - (Stage.propellant_mass s + Stage.dry_mass s)
    = vehicle_mass payload rest) by (simpl; lra).
  rewrite Hnext.
  rewrite truediv_ok by lra. cbn [bind].
  rewrite math_log_ok.
  + cbn [bind]. rewrite IH.
    cbn [staged_delta_v]. f_equal. f_equal. lra.
  + apply Rdiv_lt_0_compat; [simpl; lra | exact Hpos].
Qed.

(** The running-mass walk of the loop and the closed sum agree. *)
Lemma staged_walk_closed (payload : R) (stages : list Stage.t) :
  staged_walk (vehicle_mass payload stages) stages
  = staged_delta_v payload stages.
Proof.
induction stages as [| s rest IH]; [reflexivity |].
cbn [staged_walk staged_delta_v].
assert (Hnext :
  vehicle_mass payload (s :: rest) - Stage.propellant_mass s
  - Stage.dry_mass s = vehicle_mass payload rest) by (simpl; lra).
rewrite Hnext, IH. reflexivity.
Qed.

Lemma get_total_delta_v_staged (r : MultiStageRocket.t) :
  0 < MultiStageRocket.payload_mass r ->
  Forall stage_masses_ok (MultiStageRocket.stages r) ->
  MultiStageRocket.get_total_delta_v r
  = Ok (staged_delta_v (MultiStageRocket.payload_mass r)
                       (MultiStageRocket.stages r)).
Proof.
intros Hp Hok. unfold MultiStageRocket.get_total_delta_v.
rewrite get_total_mass_vehicle by exact Hok.
rewrite delta_v_loop_staged by assumption.
cbn [bind fst]. now rewrite Rplus_0_l.
Qed.

(** Cross-multiplication for a strict comparison of quotients. *)
Lemma div_lt_cross (a b c d : R) :
  0 < b -> 0 < d -> a * d < c * b -> a / b < c / d.
Proof.
intros Hb Hd H.
apply Rmult_lt_reg_r with (b * d); [nra |].
replace (a / b * (b * d)) with (a * d) by (field; lra).
replace (c / d * (b * d)) with (c * b) by (field; lra).
exact H.
Qed.

(** Burning the same propellant without dropping anything gains less than
    the staged sum, from any running mass at least the vehicle mass; strictly
    less as soon as there is one stage. *)
Lemma unstaged_walk_below_staged (payload : R) (stages : list Stage.t) :
  0 < payload ->
  Forall stage_masses_ok stages -> Forall stage_propellant_ok stages ->
  forall N : R,
    vehicle_mass payload stages <= N ->
    unstaged_walk N stages <= staged_delta_v payload stages
    /\ (stages <> [] -> unstaged_walk N stages < staged_delta_v payload stages).
Proof.
intros Hp Hok. induction Hok as [| s rest Hs Hrest IH]; intros Hcat N HN.
- simpl. split; [lra | intros E; now elim E].
- inversion Hcat as [| ? ? Hs_cat Hrest_cat]; subst.
  destruct Hs as (Hd & Hpm & _).
  destruct (catalog_entry_sane _ Hs_cat) as (_ & _ & Hisp).
  pose proof (vehicle_mass_pos payload rest Hp Hrest) as Hpos.
  simpl in HN.
  destruct (IH Hrest_cat (N - Stage.propellant_mass s)) as [IHle _];
    [lra |].
  assert (Hratio :
    N / (N - Stage.propellant_mass s)
    < vehicle_mass payload (s :: rest) / vehicle_mass payload rest).
  { apply div_lt_cross; [lra | exact Hpos |]. simpl. nra. }
  assert (Hln :
    ln (N / (N - Stage.propellant_mass s))
    < ln (vehicle_mass payload (s :: rest) / vehicle_mass payload rest)).
  { apply ln_increasing; [| exact Hratio].
    apply Rdiv_lt_0_compat; lra. }
  assert (Hk : 0 < GRAVITY * isp_vac (Stage.propellant s)).
  { unfold GRAVITY. nra. }
  assert (Hterm :
    GRAVITY * isp_vac (Stage.propellant s)
      * ln (N / (N - Stage.propellant_mass s))
    < GRAVITY * isp_vac (Stage.propellant s)
      * ln (vehicle_mass payload (s :: rest) / vehicle_mass payload rest)).
  { now apply Rmult_lt_compat_l. }
  cbn [unstaged_walk staged_delta_v].
  split; [| intros _]; lra.
Qed.

(** With one propellant throughout, the unstaged walk telescopes into a
    single application of the rocket equation. *)
Lemma unstaged_walk_uniform (p : Propellant) (stages : list Stage.t) :
  Forall (fun s => Stage.propellant s = p) stages ->
  Forall stage_masses_ok stages ->
  forall N : R,
    total_propellant stages < N ->
    unstaged_walk N stages
    = GRAVITY * isp_vac p * ln (N / (N - total_propellant stages)).
Proof.
intros Hu. induction Hu as [| s rest Hs _ IH]; intros Hok N HN.
- simpl. replace (N / (N - 0)) with 1 by (simpl in HN; field; lra).
  rewrite ln_1. lra.
- inversion Hok as [| ? ? (Hd & Hpm & _) Hrest]; subst.
  assert (Hrest_nonneg : 0 <= total_propellant rest).
  { clear - Hrest. induction Hrest as [| s' r' (_ & Hp' & _) _ IH'];
      simpl; lra. }
  cbn [unstaged_walk total_propellant fold_right] in *.
  fold (total_propellant rest) in *.
  rewrite IH by (assumption || lra).
  rewrite <- Rmult_plus_distr_l, <- ln_mult.
  + f_equal. f_equal. field. split; lra.
  + apply Rdiv_lt_0_compat; lra.
  + apply Rdiv_lt_0_compat; lra.
Qed.

Lemma vehicle_mass_split (payload : R) (stages : list Stage.t) :
  vehicle_mass payload stages
  = payload + total_dry stages + total_propellant stages.
Proof.
induction stages as [| s rest IH]; simpl; [lra |].
fold (total_dry rest). fold (total_propellant rest). rewrite IH. lra.
Qed.

Lemma total_dry_nonneg (stages : list Stage.t) :
  Forall stage_masses_ok stages -> 0 <= total_dry stages.
Proof.
intros H. induction H as [| s r (Hd & _ & _) _ IH]; simpl; [lra |].
fold (total_dry r). lra.
Qed.

Lemma total_propellant_nonneg (stages : list Stage.t) :
  Forall stage_masses_ok stages -> 0 <= total_propellant stages.
Proof.
intros H. induction H as [| s r (_ & Hp & _) _ IH]; simpl; [lra |].
fold (total_propellant r). lra.
Qed.

(** For a one-propellant vehicle the unstaged delta-v is what [get_delta_v]
    returns on the whole vehicle taken as a single [Stage]. *)
Lemma whole_vehicle_delta_v (p : Propellant) (payload : R)
      (stages : list Stage.t) :
  0 < payload ->
  Forall (fun s => Stage.propellant s = p) stages ->
  Forall stage_masses_ok stages ->
  Stage.get_delta_v (whole_vehicle_stage payload stages p)
  = Ok (unstaged_delta_v payload stages).
Proof.
intros Hp Hu Hok.
pose proof (total_dry_nonneg stages Hok) as Hd.
pose proof (total_propellant_nonneg stages Hok) as Hpm.
unfold Stage.get_delta_v, unstaged_delta_v.
cbn [whole_vehicle_stage built_stage Stage.mass_ratio Stage.propellant].
rewrite math_log_ok by (apply Rdiv_lt_0_compat; lra).
cbn [bind].
rewrite (unstaged_walk_uniform p) by
  (try assumption; rewrite vehicle_mass_split; lra).
rewrite vehicle_mass_split.
f_equal.
replace (payload + total_dry stages + total_propellant stages
         - total_propellant stages)
  with (payload + total_dry stages) by lra.
lra.
Qed.

(** A heavier payload lowers the staged sum: every stage then works on a
    larger running mass. *)
Lemma staged_delta_v_payload_decreasing (P P' : R) (stages : list Stage.t) :
  0 < P -> P < P' ->
  Forall stage_masses_ok stages -> Forall stage_propellant_ok stages ->
  staged_delta_v P' stages <= staged_delta_v P stages
  /\ (stages <> [] -> staged_delta_v P' stages < staged_delta_v P stages).
Proof.
intros HP HPP' Hok. induction Hok as [| s rest Hs Hrest IH]; intros Hcat.
- simpl. split; [lra | intros E; now elim E].
- inversion Hcat as [| ? ? Hs_cat Hrest_cat]; subst.
  destruct Hs as (Hd & Hpm & _).
  destruct (catalog_entry_sane _ Hs_cat) as (_ & _ & Hisp).
  destruct (IH Hrest_cat) as [IHle _].
  pose proof (vehicle_mass_pos P rest HP Hrest) as Hm.
  assert (Hshift : vehicle_mass P' rest = (P' - P) + vehicle_mass P rest).
  { rewrite <- vehicle_mass_shift. f_equal. lra. }
  assert (Hratio :
    vehicle_mass P' (s :: rest) / vehicle_mass P' rest
    < vehicle_mass P (s :: rest) / vehicle_mass P rest).
  { apply div_lt_cross; [lra | exact Hm |]. simpl. rewrite Hshift. nra. }
  assert (Hln :
    ln (vehicle_mass P' (s :: rest) / vehicle_mass P' rest)
    < ln (vehicle_mass P (s :: rest) / vehicle_mass P rest)).
  { apply ln_increasing; [| exact Hratio].
    apply Rdiv_lt_0_compat; [simpl |]; lra. }
  assert (Hk : 0 < GRAVITY * isp_vac (Stage.propellant s)).
  { unfold GRAVITY. nra. }
  assert (Hterm :
    GRAVITY * isp_vac (Stage.propellant s)
      * ln (vehicle_mass P' (s :: rest) / vehicle_mass P' rest)
    < GRAVITY * isp_vac (Stage.propellant s)
      * ln (vehicle_mass P (s :: rest) / vehicle_mass P rest)).
  { now apply Rmult_lt_compat_l. }
  cbn [staged_delta_v].
  split; [| intros _]; lra.
Qed.

(** The naive sum does not look at the payload; [get_total_delta_v] returns
    different values for different payloads on the same stack. *)
Lemma get_total_delta_v_depends_on_payload
      (name name' : string) (P P' : R) (stages : list Stage.t) :
  0 < P -> 0 < P' -> P <> P' -> stages <> [] ->
  Forall stage_masses_ok stages -> Forall stage_propellant_ok stages ->
  MultiStageRocket.get_total_delta_v (MultiStageRocket.mk name P stages)
  <> MultiStageRocket.get_total_delta_v (MultiStageRocket.mk name' P' stages).
Proof.
intros HP HP' Hne Hnil Hok Hcat.
rewrite !get_total_delta_v_staged by assumption.
cbn [MultiStageRocket.payload_mass MultiStageRocket.stages].
intros E. injection E as E.
destruct (Rtotal_order P P') as [Hlt | [Heq | Hgt]]; [| contradiction |].
- destruct (staged_delta_v_payload_decreasing P P' stages HP Hlt Hok Hcat)
    as [_ H]. specialize (H Hnil). lra.
- destruct (staged_delta_v_payload_decreasing P' P stages HP' Hgt Hok Hcat)
    as [_ H]. specialize (H Hnil). lra.
Qed.

(** A propellant no better than that of any stage, burned in one go without
    dropping anything, gains no more than the unstaged walk. *)
Lemma unstaged_walk_lower_bound (p : Propellant) (stages : list Stage.t) :
  0 <= isp_vac p ->
  Forall (fun s => isp_vac p <= isp_vac (Stage.propellant s)) stages ->
  Forall stage_masses_ok stages ->
  forall N : R,
    total_propellant stages < N ->
    GRAVITY * isp_vac p * ln (N / (N - total_propellant stages))
    <= unstaged_walk N stages.
Proof.
intros Hp Hle. induction Hle as [| s rest Hs _ IH]; intros Hok N HN.
- simpl. replace (N / (N - 0)) with 1 by (simpl in HN; field; lra).
  rewrite ln_1. lra.
- inversion Hok as [| ? ? (Hd & Hpm & _) Hrest]; subst.
  pose proof (total_propellant_nonneg rest Hrest) as Hrest_nonneg.
  cbn [unstaged_walk total_propellant fold_right] in *.
  fold (total_propellant rest) in *.
  specialize (IH Hrest (N - Stage.propellant_mass s)).
  assert (Hsplit :
    ln (N / (N - (Stage.propellant_mass s + total_propellant rest)))
    = ln (N / (N - Stage.propellant_mass s))
      + ln ((N - Stage.propellant_mass s)
            / (N - Stage.propellant_mass s - total_propellant rest))).
  { rewrite <- ln_mult.
    - f_equal. field. split; lra.
    - apply Rdiv_lt_0_compat; lra.
    - apply Rdiv_lt_0_compat; lra. }
  assert (Hfirst : 0 <= ln (N / (N - Stage.propellant_mass s))).
  { rewrite <- ln_1.
    assert (Hge : 1 <= N / (N - Stage.propellant_mass s)).
    { apply Rmult_le_reg_r with (N - Stage.propellant_mass s); [lra |].
      unfold Rdiv. rewrite Rmult_assoc, Rinv_l by lra. lra. }
    destruct Hge as [Hlt | Heq].
    - left. apply ln_increasing; lra.
    - rewrite <- Heq. lra. }
  rewrite Hsplit.
  assert (Hg : 0 < GRAVITY) by (unfold GRAVITY; lra).
  assert (Hscale :
    GRAVITY * isp_vac p * ln (N / (N - Stage.propellant_mass s))
    <= GRAVITY * isp_vac (Stage.propellant s)
       * ln (N / (N - Stage.propellant_mass s))).
  { apply Rmult_le_compat_r; [exact Hfirst |].
    apply Rmult_le_compat_l; lra. }
  specialize (IH ltac:(lra)). lra.
Qed.

(** [get_delta_v] of the whole vehicle taken as one stage with such a
    propellant stays at or below the unstaged delta-v. *)
Lemma whole_vehicle_delta_v_bound (p : Propellant) (payload : R)
      (stages : list Stage.t) :
  0 < payload -> 0 <= isp_vac p ->
  Forall (fun s => isp_vac p <= isp_vac (Stage.propellant s)) stages ->
  Forall stage_masses_ok stages ->
  exists single,
    Stage.get_delta_v (whole_vehicle_stage payload stages p) = Ok single
    /\ single <= unstaged_delta_v payload stages.
Proof.
intros Hp Hisp Hle Hok.
pose proof (total_dry_nonneg stages Hok) as Hd.
pose proof (total_propellant_nonneg stages Hok) as Hpm.
unfold Stage.get_delta_v, unstaged_delta_v.
cbn [whole_vehicle_stage built_stage Stage.mass_ratio Stage.propellant].
rewrite math_log_ok by (apply Rdiv_lt_0_compat; lra).
cbn [bind]. eexists. split; [reflexivity |].
pose proof (unstaged_walk_lower_bound p stages Hisp Hle Hok
              (vehicle_mass payload stages)) as Hbound.
rewrite vehicle_mass_split in *.
replace (payload + total_dry stages + total_propellant stages
         - total_propellant stages)
  with (payload + total_dry stages) in Hbound by lra.
specialize (Hbound ltac:(lra)). lra.
Qed.

(** What [Stage.__init__] builds from a positive dry mass, a non-negative
    propellant mass and a non-negative vacuum thrust satisfies the mass
    bookkeeping and carries a catalog propellant. *)
Lemma built_stage_ok (name : string)
      (dry_mass propellant_mass thrust_sl thrust_vac
       burn_time diameter length : R) (propellant_type : string) :
  0 < dry_mass -> 0 <= propellant_mass ->
  stage_masses_ok
    (built_stage name dry_mass propellant_mass thrust_sl thrust_vac
                 burn_time diameter length
                 (resolved_propellant propellant_type))
  /\ stage_propellant_ok
       (built_stage name dry_mass propellant_mass thrust_sl thrust_vac
                    burn_time diameter length
                    (resolved_propellant propellant_type)).
Proof.
intros Hd Hp. split.
- unfold stage_masses_ok. simpl. repeat split; lra.
- apply resolved_propellant_in_catalog.
Qed.

End RocketFacts.

(* ===================================================================== *)
(** ** Properties of the whole-vehicle delta-v *)
(* ===================================================================== *)

Section RocketProperties.

Import rocket_physics.
Import Spec.

Lemma realistic_two_stage_rocket_built :
  create_realistic_two_stage_rocket
  = Ok (MultiStageRocket.mk "Realistic Two-Stage" 15000
                            [falcon_first; falcon_second]).
Proof.
unfold create_realistic_two_stage_rocket.
rewrite !Stage_init_ok by lra. reflexivity.
Qed.

Lemma realistic_stages_masses_ok :
  Forall stage_masses_ok [falcon_first; falcon_second].
Proof.
repeat constructor; simpl; lra.
Qed.

(** On the realistic two-stage rocket the naive sum of the stages' own
    delta-v is larger than what [get_total_delta_v] returns. *)
Lemma realistic_rocket_naive_sum_differs :
  exists v n,
    MultiStageRocket.get_total_delta_v
      (MultiStageRocket.mk "Realistic Two-Stage" 15000
                           [falcon_first; falcon_second]) = Ok v
    /\ naive_sum_delta_v [falcon_first; falcon_second] = Ok n
    /\ v < n.
Proof.
eexists. eexists.
split; [apply get_total_delta_v_staged; [simpl; lra |];
        apply realistic_stages_masses_ok |].
split.
- cbn [naive_sum_delta_v].
  rewrite !get_delta_v_tsiolkovsky by (simpl; lra).
  cbn [bind]. reflexivity.
- cbn [staged_delta_v vehicle_mass falcon_first falcon_second built_stage
       Stage.dry_mass Stage.propellant_mass Stage.propellant Stage.mass_ratio
       LOX_RP1 isp_vac MultiStageRocket.payload_mass MultiStageRocket.stages].
  assert (Hln :
    ln ((25000 + 385000 + (4000 + 90000 + 15000)) / (4000 + 90000 + 15000))
    + ln ((4000 + 90000 + 15000) / 15000)
    < ln ((25000 + 385000) / 25000) + ln ((4000 + 90000) / 4000)).
  { rewrite <- !ln_mult by lra. apply ln_increasing; lra. }
  unfold GRAVITY. lra.
Qed.

(** The rocket equation over the burns alone stays below the value of the
    loop, strictly as soon as there is a stage: the loop's logarithm also
    takes in the dry mass dropped at separation. *)
Lemma rocket_equation_walk_below_staged (payload : R) (stages : list Stage.t) :
  0 < payload ->
  Forall stage_masses_ok stages ->
  Forall stage_propellant_ok stages ->
  rocket_equation_walk (vehicle_mass payload stages) stages
  <= staged_delta_v payload stages
  /\ (stages <> [] ->
      rocket_equation_walk (vehicle_mass payload stages) stages
      < staged_delta_v payload stages).
Proof.
intros Hp Hok. induction Hok as [| s rest Hs Hrest IH]; intros Hcat.
- split; [simpl; lra | intros H; now contradiction H].
- inversion Hcat as [| ? ? Hcs Hcrest]; subst.
  destruct (IH Hcrest) as [IHle _].
  destruct Hs as (Hd & Hpr & _).
  destruct (catalog_entry_sane _ Hcs) as (_ & _ & Hisp).
  assert (HV : 0 < vehicle_mass payload rest)
    by (apply vehicle_mass_pos; assumption).
  assert (Hnext :
    vehicle_mass payload (s :: rest) - Stage.propellant_mass s
    - Stage.dry_mass s = vehicle_mass payload rest) by (simpl; lra).
  cbn [rocket_equation_walk staged_delta_v]. rewrite Hnext.
  assert (Hln :
    ln (vehicle_mass payload (s :: rest)
        / (vehicle_mass payload (s :: rest) - Stage.propellant_mass s))
    < ln (vehicle_mass payload (s :: rest) / vehicle_mass payload rest)).
  { apply ln_increasing.
    - apply Rdiv_lt_0_compat; simpl; lra.
    - apply div_lt_cross; [simpl; lra | exact HV |].
      cbn [vehicle_mass]. nra. }
  assert (Hg : 0 < GRAVITY * isp_vac (Stage.propellant s))
    by (apply Rmult_lt_0_compat; [unfold GRAVITY; lra | exact Hisp]).
  assert (Hhead :
    GRAVITY * isp_vac (Stage.propellant s)
      * ln (vehicle_mass payload (s :: rest)
            / (vehicle_mass payload (s :: rest) - Stage.propellant_mass s))
    < GRAVITY * isp_vac (Stage.propellant s)
      * ln (vehicle_mass payload (s :: rest) / vehicle_mass payload rest))
    by (apply Rmult_lt_compat_l; assumption).
  split; [| intros _]; lra.
Qed.

(** One stage under a payload: the loop's value and the stage's own delta-v
    are the same number exactly when
    payload * propellant = dry * (dry + propellant). *)
Lemma single_stage_naive_sum_coincidence
      (name : string) (payload : R) (s : Stage.t) :
  0 < payload ->
  stage_masses_ok s ->
  stage_propellant_ok s ->
  Stage.mass_ratio s = Stage.total_mass s / Stage.dry_mass s ->
  exists v n,
    MultiStageRocket.get_total_delta_v (MultiStageRocket.mk name payload [s])
    = Ok v
    /\ naive_sum_delta_v [s] = Ok n
    /\ (v = n <->
        payload * Stage.propellant_mass s
        = Stage.dry_mass s * (Stage.dry_mass s + Stage.propellant_mass s)).
Proof.
intros HP Hs Hcat Hratio.
pose proof Hs as (Hd & Hpr & Ht).
destruct (catalog_entry_sane _ Hcat) as (_ & _ & Hisp).
assert (Hr : 0 < Stage.mass_ratio s).
{ rewrite Hratio, Ht. apply Rdiv_lt_0_compat; lra. }
eexists. eexists.
split; [apply get_total_delta_v_staged;
        [exact HP | constructor; [exact Hs | constructor]] |].
split.
{ cbn [naive_sum_delta_v]. rewrite get_delta_v_tsiolkovsky by exact Hr.
  cbn [bind]. reflexivity. }
cbn [staged_delta_v vehicle_mass MultiStageRocket.payload_mass
     MultiStageRocket.stages].
rewrite Hratio, Ht.
set (d := Stage.dry_mass s) in *. set (p := Stage.propellant_mass s) in *.
set (isp := isp_vac (Stage.propellant s)) in *.
assert (HA : 0 < (d + p + payload) / payload)
  by (apply Rdiv_lt_0_compat; lra).
assert (HB : 0 < (d + p) / d) by (apply Rdiv_lt_0_compat; lra).
assert (Hcross :
  (d + p + payload) / payload = (d + p) / d <-> payload * p = d * (d + p)).
{ split; intros H.
  - assert (H' : (d + p + payload) / payload * (payload * d)
                 = (d + p) / d * (payload * d)) by now rewrite H.
    replace ((d + p + payload) / payload * (payload * d))
      with ((d + p + payload) * d) in H' by (field; lra).
    replace ((d + p) / d * (payload * d))
      with ((d + p) * payload) in H' by (field; lra).
    lra.
  - apply Rmult_eq_reg_r with (payload * d); [| nra].
    replace ((d + p + payload) / payload * (payload * d))
      with ((d + p + payload) * d) by (field; lra).
    replace ((d + p) / d * (payload * d))
      with ((d + p) * payload) by (field; lra).
    lra. }
assert (Hg : GRAVITY * isp <> 0).
{ apply Rmult_integral_contrapositive_currified; unfold GRAVITY; lra. }
split; intros H.
- apply Hcross. apply ln_inv; [exact HA | exact HB |].
  apply Rmult_eq_reg_l with (GRAVITY * isp); [lra | exact Hg].
- apply Hcross in H. rewrite H. lra.
Qed.

(** C1 fails as stated.  A rocket with a payload of 2000 kg and one
    constructed stage of 1000 kg dry and 1000 kg propellant has positive
    masses throughout, and [get_total_delta_v] returns exactly the naive sum
    of the stages' own delta-v: both are g0 * isp_vac * ln 2, the vehicle
    going from 4000 kg to 2000 kg and the stage alone from 2000 kg to
    1000 kg. *)
Lemma total_delta_v_naive_sum_counterexample :
  exists s v,
    Stage.__init__ "Stage 1" 1000 1000 0 0 10 1 1 "LOX/LH2" = Ok s
    /\ 0 < Stage.dry_mass s
    /\ 0 < Stage.propellant_mass s
    /\ MultiStageRocket.get_total_delta_v
         (MultiStageRocket.mk "One stage" 2000 [s]) = Ok v
    /\ naive_sum_delta_v [s] = Ok v
    /\ v = GRAVITY * isp_vac (Stage.propellant s) * ln 2.
Proof.
exists (built_stage "Stage 1" 1000 1000 0 0 10 1 1
                    (resolved_propellant "LOX/LH2")),
       (GRAVITY * isp_vac (resolved_propellant "LOX/LH2") * ln 2).
split; [apply Stage_init_ok; lra |].
split; [simpl; lra |].
split; [simpl; lra |].
split; [| split].
- rewrite get_total_delta_v_staged.
  + cbn [staged_delta_v vehicle_mass built_stage Stage.dry_mass
         Stage.propellant_mass Stage.propellant
         MultiStageRocket.payload_mass MultiStageRocket.stages].
    f_equal. replace ((1000 + 1000 + 2000) / 2000) with 2 by lra. lra.
  + simpl; lra.
  + repeat constructor; simpl; lra.
- cbn [naive_sum_delta_v].
  rewrite get_delta_v_tsiolkovsky.
  + cbn [bind built_stage Stage.mass_ratio Stage.propellant]. f_equal.
    replace ((1000 + 1000) / 1000) with 2 by lra. lra.
  + cbn [built_stage Stage.mass_ratio]. lra.
- reflexivity.
Qed.

(** C1, as the code has it.  For a rocket with a positive payload whose
    stages have positive dry mass, non-negative propellant mass and a
    consistent total mass, [get_total_delta_v] walks the stages in burn
    order: starting from the total vehicle mass, the running mass drops by
    the stage's propellant and then by its dry mass, and the stage
    contributes g0 * isp_vac * ln(running mass before / running mass after
    both).  The running mass before a stage is the actual vehicle mass at
    that point (payload plus the stages still attached).  The logarithm
    spans burn and separation together: with catalog propellants and at
    least one stage the value is strictly above the rocket equation applied
    over each burn alone, ln(m / (m - propellant)).  The value depends on
    the payload, which the naive sum of the stages' own delta-v does not
    see: on one and the same stack it is different for every payload mass.
    It can still equal the naive sum: for a single stage the two are equal
    exactly when payload * propellant = dry * (dry + propellant).  On the
    repository's realistic two-stage rocket they differ. *)
Theorem total_delta_v_is_staged_walk :
  (forall r : MultiStageRocket.t,
      0 < MultiStageRocket.payload_mass r ->
      Forall stage_masses_ok (MultiStageRocket.stages r) ->
      MultiStageRocket.get_total_delta_v r
      = Ok (staged_walk (MultiStageRocket.get_total_mass r)
                        (MultiStageRocket.stages r))
      /\ staged_walk (MultiStageRocket.get_total_mass r)
                     (MultiStageRocket.stages r)
         = staged_delta_v (MultiStageRocket.payload_mass r)
                          (MultiStageRocket.stages r))
  /\ (forall r : MultiStageRocket.t,
         0 < MultiStageRocket.payload_mass r ->
         MultiStageRocket.stages r <> [] ->
         Forall stage_masses_ok (MultiStageRocket.stages r) ->
         Forall stage_propellant_ok (MultiStageRocket.stages r) ->
         exists v,
           MultiStageRocket.get_total_delta_v r = Ok v
           /\ rocket_equation_walk (MultiStageRocket.get_total_mass r)
                                   (MultiStageRocket.stages r) < v)
  /\ (forall (r : MultiStageRocket.t) (payload' : R),
         0 < MultiStageRocket.payload_mass r ->
         MultiStageRocket.stages r <> [] ->
         Forall stage_masses_ok (MultiStageRocket.stages r) ->
         Forall stage_propellant_ok (MultiStageRocket.stages r) ->
         0 < payload' -> payload' <> MultiStageRocket.payload_mass r ->
         MultiStageRocket.get_total_delta_v
           (MultiStageRocket.mk (MultiStageRocket.name r) payload'
                                (MultiStageRocket.stages r))
         <> MultiStageRocket.get_total_delta_v r)
  /\ (forall (name : string) (payload : R) (s : Stage.t),
         0 < payload ->
         stage_masses_ok s ->
         stage_propellant_ok s ->
         Stage.mass_ratio s = Stage.total_mass s / Stage.dry_mass s ->
         exists v n,
           MultiStageRocket.get_total_delta_v
             (MultiStageRocket.mk name payload [s]) = Ok v
           /\ naive_sum_delta_v [s] = Ok n
           /\ (v = n <->
               payload * Stage.propellant_mass s
               = Stage.dry_mass s
                 * (Stage.dry_mass s + Stage.propellant_mass s)))
  /\ (exists r v n,
         create_realistic_two_stage_rocket = Ok r
         /\ MultiStageRocket.get_total_delta_v r = Ok v
         /\ naive_sum_delta_v (MultiStageRocket.stages r) = Ok n
         /\ v <> n).
Proof.
split; [| split; [| split; [| split]]].
- intros r Hp Hok.
  rewrite get_total_mass_vehicle by exact Hok.
  rewrite staged_walk_closed.
  split; [now apply get_total_delta_v_staged | reflexivity].
- intros r Hp Hnil Hok Hcat.
  eexists. split; [now apply get_total_delta_v_staged |].
  rewrite get_total_mass_vehicle by exact Hok.
  now apply rocket_equation_walk_below_staged.
- intros [name P stages] P' HP Hnil Hok Hcat HP' Hne.
  cbn [MultiStageRocket.name MultiStageRocket.payload_mass
       MultiStageRocket.stages] in *.
  apply get_total_delta_v_depends_on_payload; assumption.
- intros name payload s HP Hs Hcat Hratio.
  now apply single_stage_naive_sum_coincidence.
- destruct realistic_rocket_naive_sum_differs as (v & n & Hv & Hn & Hlt).
  eexists. exists v, n.
  split; [apply realistic_two_stage_rocket_built |].
  split; [exact Hv |]. split; [exact Hn | lra].
Qed.

Lemma total_delta_v_is_staged_walk_witness :
  MultiStageRocket.get_total_delta_v
    (MultiStageRocket.mk "Realistic Two-Stage" 15000
       [built_stage "First Stage" 25000 385000 7600000 8200000 162 3.7 41.2
                    LOX_RP1;
        built_stage "Second Stage" 4000 90000 0 934000 397 3.7 12.6 LOX_RP1])
  = Ok (GRAVITY * 340
          * ln ((25000 + 385000 + (4000 + 90000 + 15000))
                / (4000 + 90000 + 15000))
        + (GRAVITY * 340 * ln ((4000 + 90000 + 15000) / 15000) + 0)).
Proof.
assert (Hp : 0 < 15000) by lra.
assert (Hok : Forall stage_masses_ok
  [built_stage "First Stage" 25000 385000 7600000 8200000 162 3.7 41.2
               LOX_RP1;
   built_stage "Second Stage" 4000 90000 0 934000 397 3.7 12.6 LOX_RP1]).
{ repeat constructor; simpl; lra. }
destruct (proj1 total_delta_v_is_staged_walk
            (MultiStageRocket.mk "Realistic Two-Stage" 15000 _) Hp Hok)
  as [Hrun Hclosed].
rewrite Hrun, Hclosed. reflexivity.
Defined.

(** C5.  For a rocket with a positive payload and at least one stage (so in
    particular for every rocket of two or more stages), stages having
    positive dry mass, non-negative propellant and a catalog propellant,
    [get_total_delta_v] returns a value that differs from, and is strictly
    above, the delta-v of the same vehicle flown as a single stage, that is
    with all propellant burned while every dry mass and the payload are kept
    to burnout.  That single-stage value is exactly [get_delta_v] of the
    whole vehicle built as one [Stage] when the stages share one propellant,
    and [get_delta_v] of the whole vehicle as one [Stage] stays below the
    staged value for any catalog propellant whose vacuum Isp does not exceed
    that of any stage. *)
Theorem staging_strictly_helps (r : MultiStageRocket.t) :
  0 < MultiStageRocket.payload_mass r ->
  MultiStageRocket.stages r <> [] ->
  Forall stage_masses_ok (MultiStageRocket.stages r) ->
  Forall stage_propellant_ok (MultiStageRocket.stages r) ->
  exists v,
    MultiStageRocket.get_total_delta_v r = Ok v
    /\ unstaged_delta_v (MultiStageRocket.payload_mass r)
                        (MultiStageRocket.stages r) < v
    /\ v <> unstaged_delta_v (MultiStageRocket.payload_mass r)
                             (MultiStageRocket.stages r)
    /\ (forall p,
           Forall (fun s => Stage.propellant s = p)
                  (MultiStageRocket.stages r) ->
           Stage.get_delta_v
             (whole_vehicle_stage (MultiStageRocket.payload_mass r)
                                  (MultiStageRocket.stages r) p)
           = Ok (unstaged_delta_v (MultiStageRocket.payload_mass r)
                                  (MultiStageRocket.stages r)))
    /\ (forall p,
           In p (map snd PROPELLANT_COMBINATIONS) ->
           Forall (fun s => isp_vac p <= isp_vac (Stage.propellant s))
                  (MultiStageRocket.stages r) ->
           exists single,
             Stage.get_delta_v
               (whole_vehicle_stage (MultiStageRocket.payload_mass r)
                                    (MultiStageRocket.stages r) p)
             = Ok single
             /\ single < v /\ single <> v).
Proof.
intros Hp Hne Hok Hcat.
destruct (unstaged_walk_below_staged _ _ Hp Hok Hcat
            (vehicle_mass (MultiStageRocket.payload_mass r)
                          (MultiStageRocket.stages r)))
  as [_ Hlt]; [lra |].
specialize (Hlt Hne). fold (unstaged_delta_v (MultiStageRocket.payload_mass r)
                                              (MultiStageRocket.stages r)) in Hlt.
eexists. split; [now apply get_total_delta_v_staged |].
split; [exact Hlt |]. split; [lra |]. split.
- intros p Hu. now apply whole_vehicle_delta_v.
- intros p Hin Hle.
  destruct (catalog_entry_sane p Hin) as (_ & _ & Hisp).
  destruct (whole_vehicle_delta_v_bound
              p (MultiStageRocket.payload_mass r) (MultiStageRocket.stages r))
    as (single & Hsingle & Hbound); [assumption | lra | assumption .. |].
  exists single. split; [exact Hsingle | split; lra].
Qed.

Lemma staging_strictly_helps_witness :
  exists v,
    MultiStageRocket.get_total_delta_v
      (MultiStageRocket.mk "Realistic Two-Stage" 15000
         [built_stage "First Stage" 25000 385000 7600000 8200000 162 3.7 41.2
                      LOX_RP1;
          built_stage "Second Stage" 4000 90000 0 934000 397 3.7 12.6
                      LOX_RP1]) = Ok v
    /\ unstaged_delta_v 15000
         [built_stage "First Stage" 25000 385000 7600000 8200000 162 3.7 41.2
                      LOX_RP1;
          built_stage "Second Stage" 4000 90000 0 934000 397 3.7 12.6
                      LOX_RP1] < v.
Proof.
assert (Hp : 0 < 15000) by lra.
assert (Hok : Forall stage_masses_ok
  [built_stage "First Stage" 25000 385000 7600000 8200000 162 3.7 41.2
               LOX_RP1;
   built_stage "Second Stage" 4000 90000 0 934000 397 3.7 12.6 LOX_RP1]).
{ repeat constructor; simpl; lra. }
assert (Hcat : Forall stage_propellant_ok
  [built_stage "First Stage" 25000 385000 7600000 8200000 162 3.7 41.2
               LOX_RP1;
   built_stage "Second Stage" 4000 90000 0 934000 397 3.7 12.6 LOX_RP1]).
{ repeat constructor; unfold stage_propellant_ok; simpl; right; left;
    reflexivity. }
assert (Hne :
  [built_stage "First Stage" 25000 385000 7600000 8200000 162 3.7 41.2
               LOX_RP1;
   built_stage "Second Stage" 4000 90000 0 934000 397 3.7 12.6 LOX_RP1]
  <> []) by discriminate.
destruct (staging_strictly_helps
            (MultiStageRocket.mk "Realistic Two-Stage" 15000 _)
            Hp Hne Hok Hcat) as (v & Hv & Hlt & _).
exists v. split; assumption.
Defined.

End RocketProperties.

(* ===================================================================== *)
(** ** The altitude estimate and the construction of the optimizer *)
(* ===================================================================== *)

Section OptimizerProperties.

Import rocket_physics.
Import Spec.
Import rocket_optimizer.

(** C6.  When the liftoff thrust-to-weight ratio of a configuration (positive
    payload, stages with positive dry mass, non-negative propellant and a
    consistent total mass) is below 1.2, [_estimate_altitude] returns exactly
    0, prints the liftoff warning and nothing else, and raises nothing. *)
Theorem low_twr_estimate_is_zero
        (o : RocketOptimizer.t) (r : MultiStageRocket.t) :
  RocketOptimizer.rocket o = Some r ->
  0 < MultiStageRocket.payload_mass r ->
  Forall stage_masses_ok (MultiStageRocket.stages r) ->
  liftoff_twr o r < 1.2 ->
  RocketOptimizer._estimate_altitude o
  = Ok (0, [Warning_twr_too_low (liftoff_twr o r)]).
Proof.
intros Hr Hp Hok Htwr.
unfold RocketOptimizer._estimate_altitude.
rewrite Hr. cbn [bind].
rewrite get_total_delta_v_staged by assumption. cbn [bind].
assert (Hm : 0 < MultiStageRocket.get_total_mass r).
{ rewrite get_total_mass_vehicle by exact Hok.
  now apply vehicle_mass_pos. }
rewrite truediv_ok by (unfold GRAVITY; nra). cbn [bind].
fold (first_stage_thrust_sl o). fold (liftoff_twr o r).
destruct (Rlt_dec (liftoff_twr o r) 1.2) as [_ | N];
  [reflexivity | contradiction].
Qed.

Lemma low_twr_estimate_is_zero_witness :
  liftoff_twr underpowered_optimizer underpowered_rocket = 0.9
  /\ RocketOptimizer._estimate_altitude underpowered_optimizer
     = Ok (0, [Warning_twr_too_low
                 (liftoff_twr underpowered_optimizer underpowered_rocket)]).
Proof.
assert (Htwr : liftoff_twr underpowered_optimizer underpowered_rocket = 0.9).
{ unfold liftoff_twr, first_stage_thrust_sl, MultiStageRocket.get_total_mass,
    GRAVITY. simpl. lra. }
split; [exact Htwr |].
apply (low_twr_estimate_is_zero underpowered_optimizer underpowered_rocket).
- reflexivity.
- simpl. lra.
- repeat constructor; simpl; lra.
- rewrite Htwr. lra.
Defined.

(** *** Construction of the optimizer *)

(** Propellant fraction, mass fraction tables and the like, as the loop of
    [_initialize_rocket] sees them at index [i]. *)
Lemma initial_stage_ok (target tme : R) (n : Z) (i : nat)
      (fs : list R) (f : R) (ps : list string) (ptype : string) :
  RocketOptimizer.stage_mass_fractions n = Ok fs ->
  nth_error fs i = Some f ->
  RocketOptimizer.stage_propellants n = Ok ps ->
  nth_error ps i = Some ptype ->
  0 < tme * f ->
  exists s,
    RocketOptimizer.initial_stage target tme n i = Ok s
    /\ stage_masses_ok s
    /\ Stage.total_mass s = tme * f
    /\ 0 <= Stage.thrust_sl s
    /\ 0 < Stage.diameter s
    /\ 0 < Stage.length s.
Proof.
intros Hfs Hf Hps Hp Hpos.
unfold RocketOptimizer.initial_stage.
rewrite Hfs. cbn [bind]. unfold RocketOptimizer.index at 1.
rewrite Hf. cbn [bind].
rewrite Hps. cbn [bind]. unfold RocketOptimizer.index.
rewrite Hp. cbn [bind].
set (base := if Rlt_dec target 100000 then 1.5
             else if Rlt_dec target 400000 then 3.7 else 8.4).
assert (Hbase : 0 < base).
{ unfold base. destruct (Rlt_dec target 100000); [lra |].
  destruct (Rlt_dec target 400000); lra. }
set (isp := if String.eqb ptype "LOX/RP1" then 340 else 450).
assert (Hisp : 0 < isp).
{ unfold isp. destruct (String.eqb ptype "LOX/RP1"); lra. }
assert (Hg : 0 < isp * GRAVITY) by (unfold GRAVITY; nra).
destruct i as [| [| i]];
  (* liftoff stage, second stage, third stage and above: in each the
     propellant mass and the vacuum thrust are positive, so the burn time
     is computed, and the stage is built *)
  do 2 (match goal with
        | |- context [Rlt_dec 0 ?e] =>
            destruct (Rlt_dec 0 e) as [_ | N];
            [| exfalso; unfold GRAVITY in N; nra]
        end);
  rewrite (truediv_ok _ (isp * GRAVITY)) by lra; cbn [bind];
  (rewrite truediv_ok
     by (apply Rgt_not_eq, Rdiv_lt_0_compat; [unfold GRAVITY; nra | lra]));
  cbn [bind];
  rewrite Stage_init_ok by (unfold GRAVITY; nra);
  (eexists; split; [reflexivity |]);
  unfold stage_masses_ok; simpl;
  repeat split; try (unfold GRAVITY; nra).
Qed.

(** With no mass to distribute, the liftoff stage has dry mass 0 and its
    construction divides by it. *)
Lemma initial_stage_zero_mass (target tme : R) (n : Z)
      (fs : list R) (f : R) (ps : list string) (ptype : string) :
  RocketOptimizer.stage_mass_fractions n = Ok fs ->
  nth_error fs 0 = Some f ->
  RocketOptimizer.stage_propellants n = Ok ps ->
  nth_error ps 0 = Some ptype ->
  tme * f = 0 ->
  RocketOptimizer.initial_stage target tme n 0 = Raise ZeroDivisionError.
Proof.
intros Hfs Hf Hps Hp Hz.
unfold RocketOptimizer.initial_stage.
rewrite Hfs. cbn [bind]. unfold RocketOptimizer.index at 1.
rewrite Hf. cbn [bind].
rewrite Hps. cbn [bind]. unfold RocketOptimizer.index.
rewrite Hp. cbn [bind].
rewrite Hz.
destruct (Rlt_dec 0 (0 * 0.93)) as [P | _]; [exfalso; lra |].
cbn [bind].
replace (0 - 0 * 0.93) with 0 by lra.
apply Stage_init_zero_dry_mass.
Qed.

(** With a negative mass to distribute, the liftoff stage gets a negative
    vacuum thrust and its nozzle sizing takes the root of a negative area. *)
Lemma initial_stage_negative_mass (target tme : R) (n : Z)
      (fs : list R) (f : R) (ps : list string) (ptype : string) :
  RocketOptimizer.stage_mass_fractions n = Ok fs ->
  nth_error fs 0 = Some f ->
  RocketOptimizer.stage_propellants n = Ok ps ->
  nth_error ps 0 = Some ptype ->
  tme * f < 0 ->
  RocketOptimizer.initial_stage target tme n 0 = Raise ValueError.
Proof.
intros Hfs Hf Hps Hp Hneg.
unfold RocketOptimizer.initial_stage.
rewrite Hfs. cbn [bind]. unfold RocketOptimizer.index at 1.
rewrite Hf. cbn [bind].
rewrite Hps. cbn [bind]. unfold RocketOptimizer.index.
rewrite Hp. cbn [bind].
destruct (Rlt_dec 0 (tme * f * 0.93)) as [P | _]; [exfalso; nra |].
cbn [bind].
apply Stage_init_negative_thrust; unfold GRAVITY; nra.
Qed.

(** The tables of [_initialize_rocket] have a liftoff entry for one, two and
    three stages, with a positive mass fraction. *)
Lemma liftoff_tables (n : Z) :
  (1 <= n <= 3)%Z ->
  exists fs f ps ptype,
    RocketOptimizer.stage_mass_fractions n = Ok fs
    /\ nth_error fs 0 = Some f
    /\ RocketOptimizer.stage_propellants n = Ok ps
    /\ nth_error ps 0 = Some ptype
    /\ 0 < f.
Proof.
intros Hn.
assert (Hcases : n = 1%Z \/ n = 2%Z \/ n = 3%Z) by lia.
destruct Hcases as [-> | [-> | ->]];
  do 4 eexists; (repeat split; [reflexivity .. | lra]).
Qed.

(** The initial mass ratio picked from the altitude tier is positive. *)
Lemma initial_mass_ratio_pos (target : R) :
  0 < (if Rlt_dec target 100000 then 20
       else if Rlt_dec target 400000 then 30 else 50).
Proof.
destruct (Rlt_dec target 100000); [lra |].
destruct (Rlt_dec target 400000); lra.
Qed.

(** A zero payload makes the constructor raise ZeroDivisionError. *)
Lemma optimizer_init_zero_payload (target : R) (propellant_type : string)
      (stages : Z) (initial_diameter safety_factor : R) :
  (1 <= stages <= 3)%Z ->
  RocketOptimizer.__init__ target 0 propellant_type stages
                           initial_diameter safety_factor
  = Raise ZeroDivisionError.
Proof.
intros Hn.
destruct (liftoff_tables stages Hn) as (fs & f & ps & pt & H1 & H2 & H3 & H4 & _).
unfold RocketOptimizer.__init__, RocketOptimizer._initialize_rocket.
cbn [RocketOptimizer.target_altitude RocketOptimizer.payload_mass
     RocketOptimizer.num_stages].
assert (Hseq : exists k, Z.to_nat stages = S k).
{ exists (Z.to_nat (stages - 1)). lia. }
destruct Hseq as [k ->].
cbn [seq RocketOptimizer.initial_stages].
rewrite (initial_stage_zero_mass _ _ _ fs f ps pt) by (assumption || lra).
reflexivity.
Qed.

(** A negative payload makes the constructor raise ValueError. *)
Lemma optimizer_init_negative_payload (target payload : R)
      (propellant_type : string)
      (stages : Z) (initial_diameter safety_factor : R) :
  (1 <= stages <= 3)%Z -> payload < 0 ->
  RocketOptimizer.__init__ target payload propellant_type stages
                           initial_diameter safety_factor
  = Raise ValueError.
Proof.
intros Hn Hneg.
destruct (liftoff_tables stages Hn)
  as (fs & f & ps & pt & H1 & H2 & H3 & H4 & Hf).
pose proof (initial_mass_ratio_pos target) as Himr.
unfold RocketOptimizer.__init__, RocketOptimizer._initialize_rocket.
cbn [RocketOptimizer.target_altitude RocketOptimizer.payload_mass
     RocketOptimizer.num_stages].
assert (Hseq : exists k, Z.to_nat stages = S k).
{ exists (Z.to_nat (stages - 1)). lia. }
destruct Hseq as [k ->].
cbn [seq RocketOptimizer.initial_stages].
rewrite (initial_stage_negative_mass _ _ _ fs f ps pt);
  [reflexivity | assumption .. |].
assert (Hprod : payload *
  (if Rlt_dec target 100000 then 20
   else if Rlt_dec target 400000 then 30 else 50) < 0) by nra.
nra.
Qed.

(** On a configuration with a positive payload, sound stage masses, a liftoff
    stage of positive diameter and a positive height, [_estimate_altitude]
    returns on every path. *)
Lemma estimate_altitude_returns
      (o : RocketOptimizer.t) (r : MultiStageRocket.t)
      (s0 : Stage.t) (rest : list Stage.t) :
  RocketOptimizer.rocket o = Some r ->
  RocketOptimizer.stages o = s0 :: rest ->
  0 < MultiStageRocket.payload_mass r ->
  Forall stage_masses_ok (MultiStageRocket.stages r) ->
  0 < Stage.diameter s0 ->
  0 < MultiStageRocket.get_height r ->
  exists res, RocketOptimizer._estimate_altitude o = Ok res.
Proof.
intros Hr Hst Hp Hok Hd Hh.
unfold RocketOptimizer._estimate_altitude.
rewrite Hr, Hst. cbn [bind].
rewrite get_total_delta_v_staged by assumption. cbn [bind].
assert (Hm : 0 < MultiStageRocket.get_total_mass r).
{ rewrite get_total_mass_vehicle by exact Hok.
  now apply vehicle_mass_pos. }
rewrite truediv_ok by (unfold GRAVITY; nra). cbn [bind].
set (twr := Stage.thrust_sl s0
            / (MultiStageRocket.get_total_mass r * GRAVITY)).
destruct (Rlt_dec twr 1.2) as [_ | Htwr]; [eexists; reflexivity |].
rewrite (truediv_ok 1.5 twr) by lra. cbn [bind].
unfold RocketOptimizer.index. cbn [nth_error bind].
rewrite truediv_ok by lra. cbn [bind].
assert (Hfin : 0 < MultiStageRocket.get_height r / Stage.diameter s0)
  by now apply Rdiv_lt_0_compat.
rewrite truediv_ok by lra. cbn [bind].
match goal with
| |- context [Rle_dec ?e 0] => set (effective := e)
end.
destruct (Rle_dec effective 0); [eexists; reflexivity |].
destruct (Rlt_dec effective 7800); [eexists; reflexivity |].
rewrite truediv_ok by nra. cbn [bind].
eexists; reflexivity.
Qed.

(** With a positive payload and one, two or three stages the constructor
    returns an optimizer, whatever the target altitude. *)
Lemma optimizer_init_ok (target payload : R) (propellant_type : string)
      (stages : Z) (initial_diameter safety_factor : R) :
  (1 <= stages <= 3)%Z -> 0 < payload ->
  exists o out,
    RocketOptimizer.__init__ target payload propellant_type stages
                             initial_diameter safety_factor = Ok (o, out)
    /\ RocketOptimizer.target_altitude o = target
    /\ RocketOptimizer.payload_mass o = payload
    /\ Z.of_nat (List.length (RocketOptimizer.stages o)) = stages.
Proof.
intros Hn Hp.
pose proof (initial_mass_ratio_pos target) as Himr.
unfold RocketOptimizer.__init__, RocketOptimizer._initialize_rocket.
cbn [RocketOptimizer.target_altitude RocketOptimizer.payload_mass
     RocketOptimizer.num_stages RocketOptimizer.propellant_type
     RocketOptimizer.initial_diameter RocketOptimizer.safety_factor
     RocketOptimizer.max_altitude].
set (tme := payload * (if Rlt_dec target 100000 then 20
                       else if Rlt_dec target 400000 then 30 else 50)).
assert (Htme : 0 < tme) by (unfold tme; nra).
assert (Hcases : stages = 1%Z \/ stages = 2%Z \/ stages = 3%Z) by lia.
destruct Hcases as [-> | [-> | ->]].
- (* one stage *)
  destruct (initial_stage_ok target tme 1 0 [1.0] 1.0 ["LOX/RP1"%string]
              "LOX/RP1" eq_refl eq_refl eq_refl eq_refl)
    as (s0 & E0 & Hok0 & _ & _ & Hd0 & Hl0); [lra |].
  change (Z.to_nat 1) with 1%nat.
  cbn [seq RocketOptimizer.initial_stages].
  rewrite E0. cbn [bind app].
  match goal with
  | |- context [RocketOptimizer._estimate_altitude ?o] =>
      destruct (estimate_altitude_returns o _ s0 [] eq_refl eq_refl)
        as [[alt printed] Hest]
  end;
    [exact Hp | repeat (apply Forall_cons; [assumption |]); apply Forall_nil
     | exact Hd0
     | unfold MultiStageRocket.get_height; simpl; lra |].
  rewrite Hest. cbn [bind].
  do 2 eexists. split; [reflexivity |]. repeat split.
- (* two stages *)
  destruct (initial_stage_ok target tme 2 0 [0.80; 0.20] 0.80
              ["LOX/RP1"%string; "LOX/LH2"%string]
              "LOX/RP1" eq_refl eq_refl eq_refl eq_refl)
    as (s0 & E0 & Hok0 & _ & _ & Hd0 & Hl0); [lra |].
  destruct (initial_stage_ok target tme 2 1 [0.80; 0.20] 0.20
              ["LOX/RP1"%string; "LOX/LH2"%string]
              "LOX/LH2" eq_refl eq_refl eq_refl eq_refl)
    as (s1 & E1 & Hok1 & _ & _ & Hd1 & Hl1); [lra |].
  change (Z.to_nat 2) with 2%nat.
  cbn [seq RocketOptimizer.initial_stages].
  rewrite E0. cbn [bind app]. rewrite E1. cbn [bind app].
  match goal with
  | |- context [RocketOptimizer._estimate_altitude ?o] =>
      destruct (estimate_altitude_returns o _ s0 [s1] eq_refl eq_refl)
        as [[alt printed] Hest]
  end;
    [exact Hp
     | repeat (apply Forall_cons; [assumption |]); apply Forall_nil
     | exact Hd0
     | unfold MultiStageRocket.get_height; simpl; lra |].
  rewrite Hest. cbn [bind].
  do 2 eexists. split; [reflexivity |]. repeat split.
- (* three stages *)
  destruct (initial_stage_ok target tme 3 0 [0.75; 0.20; 0.05] 0.75
              ["LOX/RP1"%string; "LOX/LH2"%string; "LOX/LH2"%string]
              "LOX/RP1" eq_refl eq_refl eq_refl eq_refl)
    as (s0 & E0 & Hok0 & _ & _ & Hd0 & Hl0); [lra |].
  destruct (initial_stage_ok target tme 3 1 [0.75; 0.20; 0.05] 0.20
              ["LOX/RP1"%string; "LOX/LH2"%string; "LOX/LH2"%string]
              "LOX/LH2" eq_refl eq_refl eq_refl eq_refl)
    as (s1 & E1 & Hok1 & _ & _ & Hd1 & Hl1); [lra |].
  destruct (initial_stage_ok target tme 3 2 [0.75; 0.20; 0.05] 0.05
              ["LOX/RP1"%string; "LOX/LH2"%string; "LOX/LH2"%string]
              "LOX/LH2" eq_refl eq_refl eq_refl eq_refl)
    as (s2 & E2 & Hok2 & _ & _ & Hd2 & Hl2); [lra |].
  change (Z.to_nat 3) with 3%nat.
  cbn [seq RocketOptimizer.initial_stages].
  rewrite E0. cbn [bind app]. rewrite E1. cbn [bind app].
  rewrite E2. cbn [bind app].
  match goal with
  | |- context [RocketOptimizer._estimate_altitude ?o] =>
      destruct (estimate_altitude_returns o _ s0 [s1; s2] eq_refl eq_refl)
        as [[alt printed] Hest]
  end;
    [exact Hp
     | repeat (apply Forall_cons; [assumption |]); apply Forall_nil
     | exact Hd0
     | unfold MultiStageRocket.get_height; simpl; lra |].
  rewrite Hest. cbn [bind].
  do 2 eexists. split; [reflexivity |]. repeat split.
Qed.

(** C7, as the code has it.  The constructor checks neither input.  With one,
    two or three stages: a payload mass of zero makes it raise
    ZeroDivisionError and a negative payload mass ValueError, both out of the
    arithmetic of building the liftoff stage and not out of a check on the
    input; a non-positive target altitude with a positive payload raises
    nothing, and the constructor returns an optimizer holding that target
    altitude. *)
Theorem optimizer_constructor_unchecked_inputs
        (target payload : R) (propellant_type : string)
        (stages : Z) (initial_diameter safety_factor : R) :
  (1 <= stages <= 3)%Z ->
  (payload = 0 ->
   RocketOptimizer.__init__ target payload propellant_type stages
                            initial_diameter safety_factor
   = Raise ZeroDivisionError)
  /\ (payload < 0 ->
      RocketOptimizer.__init__ target payload propellant_type stages
                               initial_diameter safety_factor
      = Raise ValueError)
  /\ (0 < payload -> target <= 0 ->
      exists o out,
        RocketOptimizer.__init__ target payload propellant_type stages
                                 initial_diameter safety_factor = Ok (o, out)
        /\ RocketOptimizer.target_altitude o = target
        /\ RocketOptimizer.payload_mass o = payload
        /\ Z.of_nat (List.length (RocketOptimizer.stages o)) = stages).
Proof.
intros Hn. repeat split.
- intros ->. now apply optimizer_init_zero_payload.
- intros Hneg. now apply optimizer_init_negative_payload.
- intros Hpos _. now apply optimizer_init_ok.
Qed.

Lemma optimizer_constructor_unchecked_inputs_witness :
  RocketOptimizer.__init__ 400000 0 "LOX/LH2" 2 3.0 1.2
  = Raise ZeroDivisionError
  /\ RocketOptimizer.__init__ 400000 (-5) "LOX/LH2" 2 3.0 1.2
     = Raise ValueError
  /\ exists o out,
       RocketOptimizer.__init__ 0 2000 "LOX/LH2" 2 3.0 1.2 = Ok (o, out)
       /\ RocketOptimizer.target_altitude o = 0.
Proof.
assert (Hn : (1 <= 2 <= 3)%Z) by lia.
split; [| split].
- apply (proj1 (optimizer_constructor_unchecked_inputs
                  400000 0 "LOX/LH2" 2 3.0 1.2 Hn)).
  reflexivity.
- apply (proj1 (proj2 (optimizer_constructor_unchecked_inputs
                         400000 (-5) "LOX/LH2" 2 3.0 1.2 Hn))).
  lra.
- assert (Hp : 0 < 2000) by lra.
  assert (Ht : 0 <= 0) by lra.
  destruct (proj2 (proj2 (optimizer_constructor_unchecked_inputs
                            0 2000 "LOX/LH2" 2 3.0 1.2 Hn)) Hp Ht)
    as (o & out & H & Htarget & _).
  exists o, out. split; assumption.
Defined.

(** C7 fails as stated: constructing the optimizer for a target altitude of
    -1000 m with a payload of 2000 kg raises nothing and returns an optimizer
    for that target. *)
Lemma optimizer_negative_altitude_counterexample :
  exists o out,
    RocketOptimizer.__init__ (-1000) 2000 "LOX/LH2" 2 3.0 1.2 = Ok (o, out)
    /\ RocketOptimizer.target_altitude o = -1000
    /\ RocketOptimizer.target_altitude o <= 0.
Proof.
destruct (optimizer_init_ok (-1000) 2000 "LOX/LH2" 2 3.0 1.2)
  as (o & out & H & Ht & _); [lia | lra |].
exists o, out. split; [exact H |]. split; [exact Ht | rewrite Ht; lra].
Qed.

End OptimizerProperties.

(* ===================================================================== *)
(** ** The payload search and the atmosphere below sea level *)
(* ===================================================================== *)

Section AnalysisProperties.

Import performance_analysis.
Import Spec.

(** [analyze_trajectory] leaves the dry mass of the analyzer alone. *)
Lemma analyze_trajectory_dry_mass
      (solve : (R -> R * R -> result (R * R)) ->
               (R -> result R) -> (R -> result R) ->
               (R -> R -> result R) -> (R -> result (R * R * R)) ->
               R -> R -> R * R -> R -> result Trajectory)
      (self self' : RocketPerformanceAnalyzer.t)
      (h0 v0 tmax : R) (trajectory : Trajectory) :
  RocketPerformanceAnalyzer.analyze_trajectory solve self h0 v0 tmax
  = Ok (trajectory, self') ->
  RocketPerformanceAnalyzer.dry_mass self'
  = RocketPerformanceAnalyzer.dry_mass self.
Proof.
unfold RocketPerformanceAnalyzer.analyze_trajectory. intros H.
apply bind_ok_inv in H. destruct H as (tr & _ & H).
injection H as _ <-. reflexivity.
Qed.

(** C8.  Whenever [calculate_maximum_payload] returns (with or without a
    target altitude or a tolerance, whatever the integrator computes and
    however the search ends), the analyzer it leaves behind has the dry mass
    it had on entry. *)
Theorem payload_search_restores_dry_mass
        (solve : (R -> R * R -> result (R * R)) ->
                 (R -> result R) -> (R -> result R) ->
                 (R -> R -> result R) -> (R -> result (R * R * R)) ->
                 R -> R -> R * R -> R -> result Trajectory)
        (fuel : nat) (self self' : RocketPerformanceAnalyzer.t)
        (target_altitude altitude_range : option R) (info : PayloadInfo) :
  RocketPerformanceAnalyzer.calculate_maximum_payload
    solve fuel self target_altitude altitude_range = Some (Ok (info, self')) ->
  RocketPerformanceAnalyzer.dry_mass self'
  = RocketPerformanceAnalyzer.dry_mass self.
Proof.
unfold RocketPerformanceAnalyzer.calculate_maximum_payload.
destruct (RocketPerformanceAnalyzer.analyze_trajectory _ _ _ _ _)
  as [[trajectory self1] | e]; [| discriminate].
destruct target_altitude as [a |];
  (destruct (RocketPerformanceAnalyzer.payload_search _ _ _ _ _ _ _ _ _ _ _)
     as [[[[cp ca] self2] | e] |]; [| discriminate | discriminate]);
  intros H; injection H as _ <-; reflexivity.
Qed.

(** *** A run of the search *)

Lemma heavier_is_lower_analyze (self : RocketPerformanceAnalyzer.t) :
  RocketPerformanceAnalyzer.burn_time self < 501 ->
  RocketPerformanceAnalyzer.analyze_trajectory heavier_is_lower self 0 0 500
  = Ok (flat_trajectory (2100 - 2 * RocketPerformanceAnalyzer.dry_mass self),
        RocketPerformanceAnalyzer.set_trajectory_data self
          (flat_trajectory
             (2100 - 2 * RocketPerformanceAnalyzer.dry_mass self))).
Proof.
intros Hb.
unfold RocketPerformanceAnalyzer.analyze_trajectory, heavier_is_lower,
  RocketPerformanceAnalyzer.mass_function.
destruct (Rle_dec (500 + 1) (RocketPerformanceAnalyzer.burn_time self));
  [exfalso; lra | reflexivity].
Qed.

(** One iteration of the search for a target altitude that finds the
    heavier vehicle short of the band around the target and halves the
    step. *)
Lemma search_halves (fuel : nat)
      (target range original min_step step payload altitude : R)
      (self : RocketPerformanceAnalyzer.t) :
  RocketPerformanceAnalyzer.burn_time self < 501 ->
  min_step <= step ->
  2100 - 2 * (original - payload + (payload + step)) < target - range ->
  0 <= range ->
  RocketPerformanceAnalyzer.payload_search
    heavier_is_lower (S fuel) false target range original min_step
    step payload altitude self
  = RocketPerformanceAnalyzer.payload_search
      heavier_is_lower fuel false target range original min_step
      (step / 2) payload altitude
      (RocketPerformanceAnalyzer.set_trajectory_data
         (RocketPerformanceAnalyzer.set_dry_mass
            self (original - payload + (payload + step)))
         (flat_trajectory
            (2100 - 2 * (original - payload + (payload + step))))).
Proof.
intros Hb Hstep Hshort Hrange.
cbn [RocketPerformanceAnalyzer.payload_search].
destruct (Rle_dec min_step step) as [_ | N]; [| contradiction].
rewrite heavier_is_lower_analyze by exact Hb.
cbn [apogee flat_trajectory RocketPerformanceAnalyzer.dry_mass
     RocketPerformanceAnalyzer.set_dry_mass].
destruct (Rle_dec (Rabs _) range) as [P | _].
{ exfalso. revert P. unfold Rabs. destruct (Rcase_abs _); lra. }
destruct (Rlt_dec target _) as [P | _]; [exfalso; lra | reflexivity].
Qed.

(** One iteration that lands inside the band and leaves the loop. *)
Lemma search_breaks (fuel : nat)
      (target range original min_step step payload altitude : R)
      (self : RocketPerformanceAnalyzer.t) :
  RocketPerformanceAnalyzer.burn_time self < 501 ->
  min_step <= step ->
  target - range <= 2100 - 2 * (original - payload + (payload + step))
    <= target + range ->
  RocketPerformanceAnalyzer.payload_search
    heavier_is_lower (S fuel) false target range original min_step
    step payload altitude self
  = Some (Ok (payload + step,
              2100 - 2 * (original - payload + (payload + step)),
              RocketPerformanceAnalyzer.set_trajectory_data
                (RocketPerformanceAnalyzer.set_dry_mass
                   self (original - payload + (payload + step)))
                (flat_trajectory
                   (2100 - 2 * (original - payload + (payload + step)))))).
Proof.
intros Hb Hstep Hband.
cbn [RocketPerformanceAnalyzer.payload_search].
destruct (Rle_dec min_step step) as [_ | N]; [| contradiction].
rewrite heavier_is_lower_analyze by exact Hb.
cbn [apogee flat_trajectory RocketPerformanceAnalyzer.dry_mass
     RocketPerformanceAnalyzer.set_dry_mass].
destruct (Rle_dec (Rabs _) range) as [_ | N]; [reflexivity |].
exfalso. apply N. unfold Rabs. destruct (Rcase_abs _); lra.
Qed.

(** The loop ends once the step is below the minimum. *)
Lemma search_stops
      (solve : (R -> R * R -> result (R * R)) ->
               (R -> result R) -> (R -> result R) ->
               (R -> R -> result R) -> (R -> result (R * R * R)) ->
               R -> R -> R * R -> R -> result Trajectory)
      (fuel : nat) (maximize : bool)
      (target range original min_step step payload altitude : R)
      (self : RocketPerformanceAnalyzer.t) :
  step < min_step ->
  RocketPerformanceAnalyzer.payload_search
    solve (S fuel) maximize target range original min_step
    step payload altitude self
  = Some (Ok (payload, altitude, self)).
Proof.
intros Hstep. cbn [RocketPerformanceAnalyzer.payload_search].
destruct (Rle_dec min_step step) as [P | _]; [exfalso; lra | reflexivity].
Qed.

(** With the stand-in integrator, the search on the demonstration analyzer
    for 1090 m within 3 m halves the step twice and then stops inside the
    band, at a payload of 56.25 kg. *)
Lemma demo_search_returns :
  exists self',
    RocketPerformanceAnalyzer.calculate_maximum_payload
      heavier_is_lower 3 demo_analyzer (Some 1090) (Some 3)
    = Some (Ok (mkPayloadInfo
                  (50 + 25 / 2 / 2)
                  (2100 - 2 * (500 - 50 + (50 + 25 / 2 / 2)))
                  1090
                  (2100 - 2 * (500 - 50 + (50 + 25 / 2 / 2)) - 1090),
                self')).
Proof.
unfold RocketPerformanceAnalyzer.calculate_maximum_payload.
rewrite heavier_is_lower_analyze by (simpl; lra).
change (RocketPerformanceAnalyzer.dry_mass demo_analyzer)
  with (200 + 100 + 50 + 150).
replace (200 + 100 + 50 + 150) with 500 by lra.
cbv zeta. cbn [apogee flat_trajectory].
rewrite search_halves by (simpl; lra).
rewrite search_halves by (simpl; lra).
rewrite search_breaks by (simpl; lra).
eexists. reflexivity.
Qed.

Lemma payload_search_restores_dry_mass_witness :
  exists info self',
    RocketPerformanceAnalyzer.calculate_maximum_payload
      heavier_is_lower 3 demo_analyzer (Some 1090) (Some 3)
    = Some (Ok (info, self'))
    /\ RocketPerformanceAnalyzer.dry_mass self'
       = RocketPerformanceAnalyzer.dry_mass demo_analyzer.
Proof.
destruct demo_search_returns as [self' Hrun].
eexists. exists self'. split; [exact Hrun |].
exact (payload_search_restores_dry_mass _ _ _ _ _ _ _ Hrun).
Defined.

(** *** The atmosphere and the equations of motion below sea level *)

Lemma atmosphere_below_zero (self : RocketPerformanceAnalyzer.t) (h : R) :
  h < 0 ->
  RocketPerformanceAnalyzer.atmospheric_properties self h
  = Ok (RocketPerformanceAnalyzer.p0 self,
        RocketPerformanceAnalyzer.rho0 self,
        RocketPerformanceAnalyzer.T0 self).
Proof.
intros Hh. unfold RocketPerformanceAnalyzer.atmospheric_properties.
destruct (Rlt_dec h 0) as [_ | N]; [reflexivity | contradiction].
Qed.

(** Below sea level the drag force is computed, with sea-level density and
    temperature, whenever the reference diameter is configured. *)
Lemma drag_force_below_zero (self : RocketPerformanceAnalyzer.t)
      (h v d : R) :
  standard_constants self -> h < 0 ->
  getitem (RocketPerformanceAnalyzer.rocket_config self) "max_diameter"
  = Ok d ->
  exists drag, RocketPerformanceAnalyzer.drag_force self h v = Ok drag.
Proof.
intros (_ & HR & _ & HT & _) Hh Hd.
unfold RocketPerformanceAnalyzer.drag_force.
rewrite atmosphere_below_zero by exact Hh. cbn [bind].
rewrite HR, HT.
rewrite math_sqrt_ok by lra. cbn [bind].
assert (Hsos : 0 < sqrt (1.4 * 287.05 * 288.15))
  by (apply sqrt_lt_R0; lra).
destruct (Rlt_dec 0 (sqrt (1.4 * 287.05 * 288.15))) as [_ | N];
  [| contradiction].
rewrite truediv_ok by lra. cbn [bind].
rewrite Hd. cbn [bind].
eexists. reflexivity.
Qed.

(** C9.  For every altitude below zero the atmosphere model returns the
    sea-level pressure, density and temperature of the analyzer.  With them
    the right-hand side of the equations of motion is computed without an
    exception at negative altitudes above the centre of the Earth, given what
    it needs at any altitude: the constants set by the constructor, a
    configured reference diameter, a thrust and a non-zero mass at the time
    considered. *)
Theorem atmosphere_sea_level_below_zero
        (self : RocketPerformanceAnalyzer.t) (t h v : R) :
  h < 0 ->
  RocketPerformanceAnalyzer.atmospheric_properties self h
  = Ok (RocketPerformanceAnalyzer.p0 self,
        RocketPerformanceAnalyzer.rho0 self,
        RocketPerformanceAnalyzer.T0 self)
  /\ (standard_constants self ->
      - 6371000 < h ->
      (exists m, RocketPerformanceAnalyzer.mass_function self t = Ok m
                 /\ m <> 0) ->
      (exists f, RocketPerformanceAnalyzer.thrust_function self t = Ok f) ->
      (exists d,
          getitem (RocketPerformanceAnalyzer.rocket_config self)
                  "max_diameter" = Ok d) ->
      exists acceleration,
        RocketPerformanceAnalyzer.dynamics self t (h, v)
        = Ok (v, acceleration)).
Proof.
intros Hh. split; [now apply atmosphere_below_zero |].
intros Hc Hdeep (m & Hm & Hm0) (f & Hf) (d & Hd).
destruct (drag_force_below_zero self h v d Hc Hh Hd) as [drag Hdrag].
unfold RocketPerformanceAnalyzer.dynamics.
rewrite Hm. cbn [bind]. rewrite Hf. cbn [bind].
rewrite truediv_ok by lra. cbn [bind].
rewrite Hdrag. cbn [bind].
rewrite truediv_ok by exact Hm0. cbn [bind].
eexists. reflexivity.
Qed.

Lemma demo_analyzer_mass_at_3 :
  RocketPerformanceAnalyzer.mass_function demo_analyzer 3
  = Ok (200 + 100 + 50 + 150 + 100 - 100 / 10 * 3).
Proof.
unfold RocketPerformanceAnalyzer.mass_function.
cbn [demo_analyzer RocketPerformanceAnalyzer.burn_time
     RocketPerformanceAnalyzer.total_mass
     RocketPerformanceAnalyzer.propellant_mass].
destruct (Rle_dec 3 10) as [_ | N]; [| exfalso; lra].
rewrite truediv_ok by lra. reflexivity.
Qed.

Lemma demo_analyzer_thrust_at_3 :
  RocketPerformanceAnalyzer.thrust_function demo_analyzer 3 = Ok 8000.
Proof.
unfold RocketPerformanceAnalyzer.thrust_function.
cbn [demo_analyzer RocketPerformanceAnalyzer.burn_time].
destruct (Rle_dec 3 10) as [_ | N]; [reflexivity | exfalso; lra].
Qed.

Lemma atmosphere_sea_level_below_zero_witness :
  RocketPerformanceAnalyzer.atmospheric_properties demo_analyzer (-0.5)
  = Ok (101325, 1.225, 288.15)
  /\ exists acceleration,
       RocketPerformanceAnalyzer.dynamics demo_analyzer 3 (-0.5, -2)
       = Ok (-2, acceleration).
Proof.
assert (Hh : -0.5 < 0) by lra.
destruct (atmosphere_sea_level_below_zero demo_analyzer 3 (-0.5) (-2) Hh)
  as [Hatm Hdyn].
split; [exact Hatm |].
apply Hdyn.
- repeat split.
- lra.
- eexists. split; [apply demo_analyzer_mass_at_3 | lra].
- eexists. apply demo_analyzer_thrust_at_3.
- eexists. reflexivity.
Defined.

(** The demonstration analyzer is what the constructor returns, but for the
    thrust recorded afterwards. *)
Lemma demo_analyzer_constructed :
  exists a,
    RocketPerformanceAnalyzer.__init__
      (RocketPerformanceAnalyzer.rocket_config demo_analyzer)
      (RocketPerformanceAnalyzer.engine_config demo_analyzer)
      (RocketPerformanceAnalyzer.propulsion_config demo_analyzer) = Ok a
    /\ standard_constants a
    /\ RocketPerformanceAnalyzer.dry_mass a
       = RocketPerformanceAnalyzer.dry_mass demo_analyzer
    /\ RocketPerformanceAnalyzer.total_mass a
       = RocketPerformanceAnalyzer.total_mass demo_analyzer
    /\ RocketPerformanceAnalyzer.burn_time a
       = RocketPerformanceAnalyzer.burn_time demo_analyzer.
Proof.
unfold RocketPerformanceAnalyzer.__init__.
cbn [demo_analyzer RocketPerformanceAnalyzer.rocket_config
     RocketPerformanceAnalyzer.engine_config
     RocketPerformanceAnalyzer.propulsion_config getitem String.eqb
     Ascii.eqb Bool.eqb bind].
pose proof PI_RGT_0 as Hpi.
rewrite truediv_ok by nra. cbn [bind].
eexists. split; [reflexivity |]. repeat split.
Qed.

End AnalysisProperties.

(* ===================================================================== *)
(** ** Further properties of stages and rockets *)
(* ===================================================================== *)

Section PhysicsExtras.

Import rocket_physics.
Import Spec.

(** X1. [Stage.__init__] has exactly three outcomes, decided by the dry mass
    and the vacuum thrust alone: ZeroDivisionError for a zero dry mass,
    ValueError for a negative vacuum thrust, and otherwise the stage with the
    closed-form attributes. *)
Theorem Stage_init_outcome (name : string)
        (dry_mass propellant_mass thrust_sl thrust_vac
         burn_time diameter length : R) (propellant_type : string) :
  Stage.__init__ name dry_mass propellant_mass thrust_sl thrust_vac
                 burn_time diameter length propellant_type
  = if Req_dec_T dry_mass 0 then Raise ZeroDivisionError
    else if Rlt_dec thrust_vac 0 then Raise ValueError
    else Ok (built_stage name dry_mass propellant_mass thrust_sl thrust_vac
                         burn_time diameter length
                         (resolved_propellant propellant_type)).
Proof.
destruct (Req_dec_T dry_mass 0) as [-> | Hdry].
- apply Stage_init_zero_dry_mass.
- destruct (Rlt_dec thrust_vac 0) as [Hneg | Hpos].
  + now apply Stage_init_negative_thrust.
  + apply Stage_init_ok; [exact Hdry | lra].
Qed.

(** X2. A stage built from a positive dry mass and a non-negative propellant
    mass has a mass ratio of at least 1, a total mass that is the sum of the
    two, and a delta-v that is computed and not negative. *)
Theorem constructed_stage_invariants (name : string)
        (dry_mass propellant_mass thrust_sl thrust_vac
         burn_time diameter length : R) (propellant_type : string) :
  0 < dry_mass -> 0 <= propellant_mass -> 0 <= thrust_vac ->
  exists s dv,
    Stage.__init__ name dry_mass propellant_mass thrust_sl thrust_vac
                   burn_time diameter length propellant_type = Ok s
    /\ 1 <= Stage.mass_ratio s
    /\ Stage.total_mass s = Stage.dry_mass s + Stage.propellant_mass s
    /\ Stage.mass_ratio s * Stage.dry_mass s = Stage.total_mass s
    /\ Stage.get_delta_v s = Ok dv
    /\ 0 <= dv.
Proof.
intros Hd Hp Ht.
assert (Hratio : 1 <= (dry_mass + propellant_mass) / dry_mass).
{ apply Rmult_le_reg_r with dry_mass; [exact Hd |].
  unfold Rdiv. rewrite Rmult_assoc, Rinv_l by lra. lra. }
pose proof (catalog_entry_sane _
              (resolved_propellant_in_catalog propellant_type))
  as (_ & _ & Hisp).
do 2 eexists.
split; [apply Stage_init_ok; lra |].
split; [exact Hratio |].
split; [reflexivity |].
split; [simpl; field; lra |].
split; [apply get_delta_v_tsiolkovsky; simpl; lra |].
cbn [Stage.mass_ratio Stage.propellant built_stage].
assert (Hln : 0 <= ln ((dry_mass + propellant_mass) / dry_mass)).
{ rewrite <- ln_1. destruct Hratio as [Hlt | Heq].
  - left. apply ln_increasing; lra.
  - rewrite <- Heq. lra. }
unfold GRAVITY. nra.
Qed.

Lemma constructed_stage_invariants_witness :
  exists s dv,
    Stage.__init__ "Second Stage" 4000 90000 0 934000 397 3.7 12.6 "LOX/RP1"
    = Ok s
    /\ 1 <= Stage.mass_ratio s
    /\ Stage.get_delta_v s = Ok dv
    /\ 0 <= dv.
Proof.
assert (Hd : 0 < 4000) by lra.
assert (Hp : 0 <= 90000) by lra.
assert (Ht : 0 <= 934000) by lra.
destruct (constructed_stage_invariants
            "Second Stage" 4000 90000 0 934000 397 3.7 12.6 "LOX/RP1"
            Hd Hp Ht) as (s & dv & H1 & H2 & _ & _ & H5 & H6).
exists s, dv. repeat split; assumption.
Defined.

(** X3. With everything else equal, more propellant gives strictly more
    delta-v. *)
Theorem delta_v_increases_with_propellant (name : string)
        (dry_mass p1 p2 thrust_sl thrust_vac
         burn_time diameter length : R) (propellant_type : string) :
  0 < dry_mass -> 0 <= p1 -> p1 < p2 -> 0 <= thrust_vac ->
  exists s1 s2 dv1 dv2,
    Stage.__init__ name dry_mass p1 thrust_sl thrust_vac
                   burn_time diameter length propellant_type = Ok s1
    /\ Stage.__init__ name dry_mass p2 thrust_sl thrust_vac
                      burn_time diameter length propellant_type = Ok s2
    /\ Stage.get_delta_v s1 = Ok dv1
    /\ Stage.get_delta_v s2 = Ok dv2
    /\ dv1 < dv2.
Proof.
intros Hd Hp1 Hlt Ht.
pose proof (catalog_entry_sane _
              (resolved_propellant_in_catalog propellant_type))
  as (_ & _ & Hisp).
assert (Hr1 : 0 < (dry_mass + p1) / dry_mass)
  by (apply Rdiv_lt_0_compat; lra).
assert (Hr12 : (dry_mass + p1) / dry_mass < (dry_mass + p2) / dry_mass).
{ unfold Rdiv. apply Rmult_lt_compat_r; [apply Rinv_0_lt_compat |]; lra. }
do 4 eexists.
split; [apply Stage_init_ok; lra |].
split; [apply Stage_init_ok; lra |].
split; [apply get_delta_v_tsiolkovsky; simpl; lra |].
split; [apply get_delta_v_tsiolkovsky; simpl; lra |].
cbn [Stage.mass_ratio Stage.propellant built_stage].
apply Rmult_lt_compat_l; [unfold GRAVITY; nra |].
now apply ln_increasing.
Qed.

Lemma delta_v_increases_with_propellant_witness :
  exists s1 s2 dv1 dv2,
    Stage.__init__ "Second Stage" 4000 90000 0 934000 397 3.7 12.6 "LOX/RP1"
    = Ok s1
    /\ Stage.__init__ "Second Stage" 4000 180000 0 934000 397 3.7 12.6
                      "LOX/RP1" = Ok s2
    /\ Stage.get_delta_v s1 = Ok dv1
    /\ Stage.get_delta_v s2 = Ok dv2
    /\ dv1 < dv2.
Proof.
apply (delta_v_increases_with_propellant
         "Second Stage" 4000 90000 180000 0 934000 397 3.7 12.6 "LOX/RP1");
  lra.
Defined.

(** The expansion ratio picked from a stage name is one of 10, 25, 40, 80. *)
Lemma role_expansion_ratio_ge_10 (name : string) :
  10 <= role_expansion_ratio name.
Proof.
unfold role_expansion_ratio.
repeat match goal with
       | |- context [if ?b then _ else _] => destruct b
       end; lra.
Qed.

(** X4. The nozzle of a constructed stage is geometrically consistent: the
    dictionary for the CAD scripts holds a throat and an exit diameter that
    are the diameters of circles of the throat and exit areas, the exit
    diameter is the throat diameter times the root of the expansion ratio and
    so at least as large, and the length is not negative. *)
Theorem nozzle_geometry_consistent (name : string)
        (dry_mass propellant_mass thrust_sl thrust_vac
         burn_time diameter length : R) (propellant_type : string) :
  dry_mass <> 0 -> 0 <= thrust_vac ->
  exists s dt de ln,
    Stage.__init__ name dry_mass propellant_mass thrust_sl thrust_vac
                   burn_time diameter length propellant_type = Ok s
    /\ Stage.get_nozzle_parameters s
       = [ ("throat_diameter"%string, Float dt);
           ("exit_diameter"%string, Float de);
           ("length"%string, Float ln);
           ("shape"%string, Str "bell") ]
    /\ PI * (dt / 2) ^ 2 = Stage.throat_area s
    /\ PI * (de / 2) ^ 2 = Stage.exit_area s
    /\ Stage.exit_area s = Stage.throat_area s * Stage.expansion_ratio s
    /\ de = sqrt (Stage.expansion_ratio s) * dt
    /\ 0 <= dt <= de
    /\ 0 <= ln.
Proof.
intros Hdry Htv.
set (p := resolved_propellant propellant_type).
destruct (catalog_entry_sane p (resolved_propellant_in_catalog _))
  as (Hg & Hpc & _).
destruct (thrust_coefficient_ok 20 (gamma p)) as [_ Hcf]; [lra | exact Hg |].
pose proof PI_RGT_0 as Hpi.
pose proof tan_15_degrees_pos as Htan.
pose proof (role_expansion_ratio_ge_10 name) as Heps.
set (At := thrust_vac / (thrust_coefficient 20 (gamma p) * chamber_pressure p)).
assert (HAt : 0 <= At).
{ unfold At. apply Rmult_le_pos; [exact Htv |].
  left. apply Rinv_0_lt_compat. now apply Rmult_lt_0_compat. }
assert (Hq : 0 <= At / PI).
{ apply Rmult_le_pos; [exact HAt | left; now apply Rinv_0_lt_compat]. }
assert (Hsplit : sqrt (At * role_expansion_ratio name / PI)
                 = sqrt (role_expansion_ratio name) * sqrt (At / PI)).
{ replace (At * role_expansion_ratio name / PI)
    with (role_expansion_ratio name * (At / PI)) by (field; lra).
  apply sqrt_mult; lra. }
assert (Hroot : 1 <= sqrt (role_expansion_ratio name)).
{ rewrite <- sqrt_1. apply sqrt_le_1; lra. }
pose proof (sqrt_pos (At / PI)) as Hs.
exists (built_stage name dry_mass propellant_mass thrust_sl thrust_vac
                    burn_time diameter length p).
do 3 eexists.
split; [now apply Stage_init_ok |].
split; [reflexivity |].
cbn [Stage.throat_area Stage.exit_area Stage.expansion_ratio
     Stage.throat_diameter Stage.exit_diameter Stage.nozzle_length
     built_stage].
fold At.
split.
{ replace (2 * sqrt (At / PI) / 2) with (sqrt (At / PI)) by lra.
  simpl. rewrite Rmult_1_r, sqrt_sqrt by exact Hq. field. lra. }
split.
{ replace (2 * sqrt (At * role_expansion_ratio name / PI) / 2)
    with (sqrt (At * role_expansion_ratio name / PI)) by lra.
  simpl. rewrite Rmult_1_r, sqrt_sqrt.
  - field. lra.
  - apply Rmult_le_pos; [nra | left; now apply Rinv_0_lt_compat]. }
split; [reflexivity |].
split; [rewrite Hsplit; ring |].
split; [rewrite Hsplit; nra |].
rewrite Hsplit.
apply Rmult_le_pos; [lra |].
apply Rmult_le_pos; [nra | left; apply Rinv_0_lt_compat; lra].
Qed.

Lemma nozzle_geometry_consistent_witness :
  exists s dt de,
    Stage.__init__ "First Stage" 25000 385000 7600000 8200000 162 3.7 41.2
                   "LOX/RP1" = Ok s
    /\ PI * (dt / 2) ^ 2 = Stage.throat_area s
    /\ de = sqrt (Stage.expansion_ratio s) * dt
    /\ 0 <= dt <= de.
Proof.
assert (Hdry : 25000 <> 0) by lra.
assert (Htv : 0 <= 8200000) by lra.
destruct (nozzle_geometry_consistent
            "First Stage" 25000 385000 7600000 8200000 162 3.7 41.2 "LOX/RP1"
            Hdry Htv)
  as (s & dt & de & ln & H1 & _ & H3 & _ & _ & H6 & H7 & _).
exists s, dt, de. repeat split; solve [assumption | apply H7].
Defined.

(** X5. A stage without vacuum thrust gets a nozzle of size zero: throat and
    exit area, both diameters and the length are all 0, and nothing is raised. *)
Theorem zero_thrust_zero_nozzle (name : string)
        (dry_mass propellant_mass thrust_sl
         burn_time diameter length : R) (propellant_type : string) :
  dry_mass <> 0 ->
  exists s,
    Stage.__init__ name dry_mass propellant_mass thrust_sl 0
                   burn_time diameter length propellant_type = Ok s
    /\ Stage.throat_area s = 0
    /\ Stage.exit_area s = 0
    /\ Stage.throat_diameter s = 0
    /\ Stage.exit_diameter s = 0
    /\ Stage.nozzle_length s = 0.
Proof.
intros Hdry.
eexists. split; [apply Stage_init_ok; [exact Hdry | lra] |].
cbn [Stage.throat_area Stage.exit_area Stage.throat_diameter
     Stage.exit_diameter Stage.nozzle_length built_stage].
assert (H0 : forall x, 0 / x = 0) by (intros; unfold Rdiv; ring).
rewrite !H0, Rmult_0_l, !H0, sqrt_0.
repeat split; try ring.
rewrite Rmult_0_r, Rminus_0_r, H0. ring.
Qed.

Lemma zero_thrust_zero_nozzle_witness :
  exists s,
    Stage.__init__ "Stage 2" 400 3600 0 0 200 1.35 6.75 "LOX/LH2" = Ok s
    /\ Stage.throat_area s = 0
    /\ Stage.nozzle_length s = 0.
Proof.
assert (Hdry : 400 <> 0) by lra.
destruct (zero_thrust_zero_nozzle "Stage 2" 400 3600 0 200 1.35 6.75
                                  "LOX/LH2" Hdry)
  as (s & H1 & H2 & _ & _ & _ & H6).
exists s. repeat split; assumption.
Defined.

(** *** Dictionaries *)

Lemma contains_app {V : Type} (d1 d2 : list (string * V)) (k : string) :
  contains (d1 ++ d2) k = contains d1 k || contains d2 k.
Proof.
induction d1 as [| [k' v'] rest IH]; simpl; [reflexivity |].
destruct (String.eqb k k'); [reflexivity | exact IH].
Qed.

(** Storing under a key the dictionary does not have appends the entry. *)
Lemma setitem_fresh {V : Type} (d : list (string * V)) (k : string) (v : V) :
  contains d k = false -> setitem d k v = (d ++ [(k, v)])%list.
Proof.
induction d as [| [k' v'] rest IH]; simpl; [reflexivity |].
destruct (String.eqb k k'); [discriminate |].
intros H. now rewrite IH.
Qed.

Lemma sum_values_app (d1 d2 : list (string * R)) :
  sum_values (d1 ++ d2) = sum_values d1 + sum_values d2.
Proof.
unfold sum_values.
induction d1 as [| kv rest IH]; simpl; [lra | rewrite IH; lra].
Qed.

(** *** The keys of the mass fractions *)

Lemma str_of_Z_injective (a b : Z) : str_of_Z a = str_of_Z b -> a = b.
Proof.
unfold str_of_Z. intros H.
apply Stdlib.Numbers.DecimalZ.to_int_inj.
pose proof (NilEmpty.isi (Z.to_int a)) as Ha.
pose proof (NilEmpty.isi (Z.to_int b)) as Hb.
rewrite H in Ha. rewrite Ha in Hb. now injection Hb.
Qed.

Lemma append_length (s t : string) :
  String.length (s ++ t) = (String.length s + String.length t)%nat.
Proof.
induction s as [| c s IH]; simpl; [reflexivity | now rewrite IH].
Qed.

Lemma append_cancel_r (s s' t : string) :
  (s ++ t = s' ++ t)%string -> s = s'.
Proof.
revert s'. induction s as [| c s IH]; intros [| c' s'] H; simpl in H.
- reflexivity.
- exfalso. apply (f_equal String.length) in H. simpl in H.
  rewrite append_length in H. lia.
- exfalso. apply (f_equal String.length) in H. simpl in H.
  rewrite append_length in H. lia.
- injection H as -> H. f_equal. now apply IH.
Qed.

Lemma last_char_append (s t : string) :
  t <> EmptyString -> last_char (s ++ t) = last_char t.
Proof.
intros Ht. induction s as [| c s IH]; simpl; [reflexivity |].
rewrite IH. destruct (s ++ t)%string eqn:E; [| reflexivity].
destruct s; simpl in E; [contradiction | discriminate].
Qed.

(** Keys of different stages, or of the two masses of one stage, differ. *)
Lemma fraction_key_injective (i j : nat) (s1 s2 : string) :
  (s1 = "_dry" \/ s1 = "_propellant")%string ->
  (s2 = "_dry" \/ s2 = "_propellant")%string ->
  fraction_key i s1 = fraction_key j s2 -> i = j /\ s1 = s2.
Proof.
unfold fraction_key. intros H1 H2 H.
simpl in H. injection H as H.
assert (Hsame : s1 = s2).
{ apply (f_equal last_char) in H.
  destruct H1 as [-> | ->], H2 as [-> | ->]; try reflexivity;
    rewrite !last_char_append in H by discriminate; discriminate. }
subst s2. split; [| reflexivity].
apply append_cancel_r, str_of_Z_injective in H. lia.
Qed.

Lemma fraction_key_not_payload (i : nat) (suffix : string) :
  fraction_key i suffix <> "payload"%string.
Proof. unfold fraction_key. simpl. discriminate. Qed.

Lemma fraction_key_fresh (i : nat) (d : list (string * R)) (suffix : string) :
  keys_below i d ->
  (suffix = "_dry" \/ suffix = "_propellant")%string ->
  contains d (fraction_key i suffix) = false.
Proof.
intros Hinv Hs.
destruct (contains d (fraction_key i suffix)) eqn:E; [| reflexivity].
exfalso. destruct (Hinv _ E) as [Hp | (j & s' & Hj & Hs' & Hk)].
- exact (fraction_key_not_payload _ _ Hp).
- apply fraction_key_injective in Hk; [lia | assumption ..].
Qed.

(** The loop of [get_mass_fractions] appends two entries per stage. *)
Lemma mass_fractions_loop_entries (M : R) (stages : list Stage.t) :
  M <> 0 ->
  forall (i : nat) (d : list (string * R)),
    keys_below i d ->
    MultiStageRocket.mass_fractions_loop M i stages d
    = Ok (d ++ fraction_entries M i stages)%list.
Proof.
intros HM. induction stages as [| s rest IH]; intros i d Hinv.
- simpl. now rewrite app_nil_r.
- cbn [MultiStageRocket.mass_fractions_loop fraction_entries].
  rewrite !truediv_ok by exact HM. cbn [bind].
  fold (fraction_key i "_dry"). fold (fraction_key i "_propellant").
  rewrite (setitem_fresh d) by (apply fraction_key_fresh; auto).
  rewrite setitem_fresh.
  2:{ rewrite contains_app, fraction_key_fresh by auto.
      cbn [contains orb]. destruct (String.eqb_spec (fraction_key i "_propellant")
                                       (fraction_key i "_dry")) as [E | _];
        [| reflexivity].
      apply fraction_key_injective in E; auto. destruct E as [_ E].
      discriminate E. }
  rewrite IH.
  + now rewrite <- !app_assoc.
  + intros k Hk. rewrite !contains_app in Hk.
    apply orb_true_iff in Hk. destruct Hk as [Hk | Hk].
    * apply orb_true_iff in Hk. destruct Hk as [Hk | Hk].
      -- destruct (Hinv k Hk) as [Hp | (j & s' & Hj & Hs' & Hkey)];
           [now left | right].
         exists j, s'. repeat split; [lia | assumption ..].
      -- right. exists i, "_dry"%string. cbn [contains] in Hk.
         destruct (String.eqb_spec k (fraction_key i "_dry")) as [E | _];
           [| discriminate].
         repeat split; [lia | now left | exact E].
    * right. exists i, "_propellant"%string. cbn [contains] in Hk.
      destruct (String.eqb_spec k (fraction_key i "_propellant"))
        as [E | _]; [| discriminate].
      repeat split; [lia | now right | exact E].
Qed.

Lemma sum_fraction_entries (M : R) (stages : list Stage.t) (i : nat) :
  sum_values (fraction_entries M i stages) = vehicle_mass 0 stages / M.
Proof.
revert i. induction stages as [| s rest IH]; intros i.
- unfold sum_values. simpl. unfold Rdiv. ring.
- cbn [fraction_entries vehicle_mass].
  change (sum_values ((fraction_key i "_dry", Stage.dry_mass s / M)
            :: (fraction_key i "_propellant", Stage.propellant_mass s / M)
            :: fraction_entries M (S i) rest))
    with (Stage.dry_mass s / M
          + (Stage.propellant_mass s / M
             + sum_values (fraction_entries M (S i) rest))).
  rewrite IH. unfold Rdiv. ring.
Qed.

Lemma length_fraction_entries (M : R) (stages : list Stage.t) (i : nat) :
  List.length (fraction_entries M i stages) = (2 * List.length stages)%nat.
Proof.
revert i. induction stages as [| s rest IH]; intros i; simpl;
  [reflexivity | rewrite IH; lia].
Qed.

Lemma total_mass_fold_consistent (stages : list Stage.t) (a : R) :
  Forall total_mass_consistent stages ->
  fold_left (fun total stage => total + Stage.total_mass stage) stages a
  = vehicle_mass a stages.
Proof.
intros Hok. revert a.
induction Hok as [| s rest Ht _ IH]; intros a; simpl; [reflexivity |].
rewrite IH, Ht, vehicle_mass_shift. lra.
Qed.

(** X6. [get_mass_fractions] raises ZeroDivisionError when the total mass is
    zero. Otherwise it returns the payload fraction followed by the dry and
    the propellant fraction of every stage in burn order, under keys that do
    not collide; and when the total mass of every stage is the sum of its two
    masses these values add up to 1. *)
Theorem mass_fractions_sum_to_one (r : MultiStageRocket.t) :
  (MultiStageRocket.get_total_mass r = 0 ->
   MultiStageRocket.get_mass_fractions r = Raise ZeroDivisionError)
  /\ (MultiStageRocket.get_total_mass r <> 0 ->
      MultiStageRocket.get_mass_fractions r
      = Ok (("payload"%string,
             MultiStageRocket.payload_mass r
             / MultiStageRocket.get_total_mass r)
            :: fraction_entries (MultiStageRocket.get_total_mass r) 0
                                (MultiStageRocket.stages r))
      /\ (Forall total_mass_consistent (MultiStageRocket.stages r) ->
          sum_values
            (("payload"%string,
              MultiStageRocket.payload_mass r
              / MultiStageRocket.get_total_mass r)
             :: fraction_entries (MultiStageRocket.get_total_mass r) 0
                                 (MultiStageRocket.stages r)) = 1)).
Proof.
split.
- intros H0. unfold MultiStageRocket.get_mass_fractions.
  rewrite H0, truediv_zero. reflexivity.
- intros HM. split.
  + unfold MultiStageRocket.get_mass_fractions.
    rewrite truediv_ok by exact HM. cbn [bind].
    rewrite mass_fractions_loop_entries; [reflexivity | exact HM |].
    intros k Hk. left. simpl in Hk.
    destruct (String.eqb_spec k "payload"); [assumption | discriminate].
  + intros Hok.
    change (sum_values (?kv :: ?d)) with (snd kv + sum_values d).
    rewrite sum_fraction_entries. cbn [snd].
    assert (Hm : MultiStageRocket.get_total_mass r
                 = MultiStageRocket.payload_mass r
                   + vehicle_mass 0 (MultiStageRocket.stages r)).
    { unfold MultiStageRocket.get_total_mass.
      rewrite total_mass_fold_consistent by exact Hok.
      rewrite <- (Rplus_0_l (MultiStageRocket.payload_mass r)) at 1.
      rewrite vehicle_mass_shift. reflexivity. }
    rewrite Hm in *. field. exact HM.
Qed.

Lemma mass_fractions_sum_to_one_witness :
  exists d,
    MultiStageRocket.get_mass_fractions
      (MultiStageRocket.mk "Realistic Two-Stage" 15000
                           [falcon_first; falcon_second]) = Ok d
    /\ sum_values d = 1.
Proof.
pose (r := MultiStageRocket.mk "Realistic Two-Stage" 15000
                               [falcon_first; falcon_second]).
assert (HM : MultiStageRocket.get_total_mass r <> 0).
{ unfold MultiStageRocket.get_total_mass. simpl. lra. }
assert (Hok : Forall total_mass_consistent (MultiStageRocket.stages r)).
{ repeat constructor. }
destruct (proj2 (mass_fractions_sum_to_one r) HM) as [Hd Hsum].
eexists. split; [exact Hd | exact (Hsum Hok)].
Defined.

(** *** Assembling a rocket *)

(** X7. Adding a stage puts it on top of the stack, raises the total mass by
    the total mass of the stage and the height by its length plus the 10
    percent fairing allowance, and leaves the payload alone. *)
Theorem add_stage_composes (r : MultiStageRocket.t) (s : Stage.t) :
  MultiStageRocket.stages (MultiStageRocket.add_stage r s)
  = (MultiStageRocket.stages r ++ [s])%list
  /\ MultiStageRocket.payload_mass (MultiStageRocket.add_stage r s)
     = MultiStageRocket.payload_mass r
  /\ MultiStageRocket.get_total_mass (MultiStageRocket.add_stage r s)
     = MultiStageRocket.get_total_mass r + Stage.total_mass s
  /\ MultiStageRocket.get_height (MultiStageRocket.add_stage r s)
     = MultiStageRocket.get_height r + 1.1 * Stage.length s.
Proof.
unfold MultiStageRocket.get_total_mass, MultiStageRocket.get_height,
  MultiStageRocket.add_stage.
cbn [MultiStageRocket.stages MultiStageRocket.payload_mass].
rewrite !fold_left_app. cbn [fold_left].
repeat split; lra.
Qed.

Lemma vehicle_mass_pos_nonempty (payload : R) (stages : list Stage.t) :
  0 <= payload -> Forall stage_masses_ok stages -> stages <> [] ->
  0 < vehicle_mass payload stages.
Proof.
intros Hp Hok Hne.
destruct Hok as [| s rest (Hd & Hpm & _) Hrest]; [now elim Hne |].
assert (Hrest_nonneg : 0 <= vehicle_mass payload rest).
{ clear - Hp Hrest. induction Hrest as [| s' r' (Hd' & Hp' & _) _ IH];
    simpl; lra. }
simpl. lra.
Qed.

(** Without payload the loop of [get_total_delta_v] ends in a division by
    the zero mass left after the last stage. *)
Lemma delta_v_loop_no_payload (stages : list Stage.t) :
  Forall stage_masses_ok stages -> stages <> [] ->
  forall dv : R,
    MultiStageRocket.delta_v_loop (dv, vehicle_mass 0 stages) stages
    = Raise ZeroDivisionError.
Proof.
intros Hok. induction Hok as [| s rest Hs Hrest IH]; intros Hne dv.
- now elim Hne.
- cbn [MultiStageRocket.delta_v_loop MultiStageRocket.delta_v_step].
  assert (Hnext :
    vehicle_mass 0 (s :: rest)
    - (Stage.propellant_mass s + Stage.dry_mass s)
    = vehicle_mass 0 rest) by (simpl; lra).
  rewrite Hnext.
  destruct rest as [| s' rest'].
  + cbn [vehicle_mass]. rewrite truediv_zero. reflexivity.
  + assert (Hpos : 0 < vehicle_mass 0 (s' :: rest')).
    { apply vehicle_mass_pos_nonempty; [lra | exact Hrest | discriminate]. }
    destruct Hs as (Hd & Hpm & _).
    rewrite truediv_ok by lra. cbn [bind].
    rewrite math_log_ok.
    * cbn [bind]. apply IH. discriminate.
    * apply Rdiv_lt_0_compat; [| exact Hpos].
      change (vehicle_mass 0 (s :: s' :: rest'))
        with (Stage.dry_mass s + Stage.propellant_mass s
              + vehicle_mass 0 (s' :: rest')).
      lra.
Qed.

(** X8. A rocket without stages has a total delta-v of 0; a rocket with stages
    but a payload mass of 0 has none at all: [get_total_delta_v] raises
    ZeroDivisionError. *)
Theorem total_delta_v_edge_cases (name : string) (payload : R)
        (stages : list Stage.t) :
  MultiStageRocket.get_total_delta_v (MultiStageRocket.mk name payload [])
  = Ok 0
  /\ (Forall stage_masses_ok stages -> stages <> [] ->
      MultiStageRocket.get_total_delta_v (MultiStageRocket.mk name 0 stages)
      = Raise ZeroDivisionError).
Proof.
split; [reflexivity |].
intros Hok Hne. unfold MultiStageRocket.get_total_delta_v.
rewrite get_total_mass_vehicle by exact Hok.
cbn [MultiStageRocket.payload_mass MultiStageRocket.stages].
rewrite delta_v_loop_no_payload by assumption. reflexivity.
Qed.

Lemma total_delta_v_edge_cases_witness :
  MultiStageRocket.get_total_delta_v
    (MultiStageRocket.mk "Realistic Two-Stage" 0
                         [falcon_first; falcon_second])
  = Raise ZeroDivisionError.
Proof.
apply (proj2 (total_delta_v_edge_cases "Realistic Two-Stage" 0
                                       [falcon_first; falcon_second])).
- repeat constructor; simpl; lra.
- discriminate.
Defined.

(** X9. On one and the same stack of stages a heavier payload gets strictly
    less total delta-v. *)
Theorem total_delta_v_decreases_with_payload
        (name name' : string) (payload payload' : R)
        (stages : list Stage.t) :
  0 < payload -> payload < payload' -> stages <> [] ->
  Forall stage_masses_ok stages -> Forall stage_propellant_ok stages ->
  exists v v',
    MultiStageRocket.get_total_delta_v
      (MultiStageRocket.mk name payload stages) = Ok v
    /\ MultiStageRocket.get_total_delta_v
         (MultiStageRocket.mk name' payload' stages) = Ok v'
    /\ v' < v.
Proof.
intros Hp Hlt Hne Hok Hcat.
destruct (staged_delta_v_payload_decreasing payload payload' stages
            Hp Hlt Hok Hcat) as [_ H].
do 2 eexists.
split; [apply get_total_delta_v_staged; [simpl; lra | exact Hok] |].
split; [apply get_total_delta_v_staged; [simpl; lra | exact Hok] |].
exact (H Hne).
Qed.

Lemma total_delta_v_decreases_with_payload_witness :
  exists v v',
    MultiStageRocket.get_total_delta_v
      (MultiStageRocket.mk "Realistic Two-Stage" 15000
                           [falcon_first; falcon_second]) = Ok v
    /\ MultiStageRocket.get_total_delta_v
         (MultiStageRocket.mk "Realistic Two-Stage" 20000
                              [falcon_first; falcon_second]) = Ok v'
    /\ v' < v.
Proof.
apply (total_delta_v_decreases_with_payload
         "Realistic Two-Stage" "Realistic Two-Stage" 15000 20000
         [falcon_first; falcon_second]).
- lra.
- lra.
- discriminate.
- repeat constructor; simpl; lra.
- repeat constructor; unfold stage_propellant_ok; simpl; right; left;
    reflexivity.
Defined.

End PhysicsExtras.

(* ===================================================================== *)
(** ** Further properties of the optimizer *)
(* ===================================================================== *)

Section OptimizerExtras.

Import rocket_physics.
Import Spec.
Import rocket_optimizer.

(** Below a thrust-to-weight ratio of 1.2 the estimate is 0 and only the
    warning is printed. *)
Lemma estimate_altitude_low_twr
      (o : RocketOptimizer.t) (r : MultiStageRocket.t) :
  RocketOptimizer.rocket o = Some r ->
  0 < MultiStageRocket.payload_mass r ->
  Forall stage_masses_ok (MultiStageRocket.stages r) ->
  liftoff_twr o r < 1.2 ->
  RocketOptimizer._estimate_altitude o
  = Ok (0, [Warning_twr_too_low (liftoff_twr o r)]).
Proof.
intros Hr Hp Hok Htwr.
unfold RocketOptimizer._estimate_altitude.
rewrite Hr. cbn [bind].
rewrite get_total_delta_v_staged by assumption. cbn [bind].
assert (Hm : 0 < MultiStageRocket.get_total_mass r).
{ rewrite get_total_mass_vehicle by exact Hok.
  now apply vehicle_mass_pos. }
rewrite truediv_ok by (unfold GRAVITY; nra). cbn [bind].
fold (first_stage_thrust_sl o). fold (liftoff_twr o r).
destruct (Rlt_dec (liftoff_twr o r) 1.2) as [_ | N];
  [reflexivity | contradiction].
Qed.

(** X10. Whatever the design, an altitude estimate that is returned lies
    between 0 and the ballistic value at 7800 m/s, 0.85 * 7800^2 / (2 g0),
    which is below 2636 km. *)
Theorem estimate_altitude_bounded
        (o : RocketOptimizer.t) (estimate : R) (out : list output) :
  RocketOptimizer._estimate_altitude o = Ok (estimate, out) ->
  0 <= estimate
  /\ estimate < 0.85 * (7800 ^ 2 / (2 * GRAVITY))
  /\ estimate < 2636000.
Proof.
assert (Hbound : 0.85 * (7800 ^ 2 / (2 * GRAVITY)) < 2636000).
{ unfold GRAVITY. lra. }
unfold RocketOptimizer._estimate_altitude. intros H.
apply bind_ok_inv in H. destruct H as (r & _ & H).
apply bind_ok_inv in H. destruct H as (dv & _ & H).
apply bind_ok_inv in H. destruct H as (twr & _ & H).
destruct (Rlt_dec twr 1.2).
{ injection H as <- _. unfold GRAVITY in *. lra. }
apply bind_ok_inv in H. destruct H as (q & _ & H).
apply bind_ok_inv in H. destruct H as (s0 & _ & H).
apply bind_ok_inv in H. destruct H as (fineness & _ & H).
apply bind_ok_inv in H. destruct H as (qf & _ & H).
match type of H with
| context [Rle_dec ?e 0] => set (v := e) in *
end.
destruct (Rle_dec v 0) as [_ | Hpos].
{ injection H as <- _. unfold GRAVITY in *. lra. }
destruct (Rlt_dec v 7800) as [Hsub | Horb].
- injection H as <- _.
  assert (Hv2 : 0 < v ^ 2 < 7800 ^ 2) by nra.
  unfold GRAVITY in *. split; [| split]; lra.
- apply bind_ok_inv in H. destruct H as (radius & Hradius & H).
  injection H as <- _.
  unfold truediv in Hradius.
  destruct (Req_dec_T (v ^ 2) 0) as [| Hnz]; [discriminate |].
  injection Hradius as <-.
  assert (Hv2 : 7800 ^ 2 <= v ^ 2) by nra.
  assert (Hmu : 0 < GRAVITY * EARTH_RADIUS ^ 2)
    by (unfold GRAVITY, EARTH_RADIUS; lra).
  assert (Hle : GRAVITY * EARTH_RADIUS ^ 2 / v ^ 2
                <= GRAVITY * EARTH_RADIUS ^ 2 / 7800 ^ 2).
  { unfold Rdiv. apply Rmult_le_compat_l; [lra |].
    apply Rinv_le_contravar; lra. }
  assert (Hnum : GRAVITY * EARTH_RADIUS ^ 2 / 7800 ^ 2 - EARTH_RADIUS
                 < 0.85 * (7800 ^ 2 / (2 * GRAVITY))).
  { unfold GRAVITY, EARTH_RADIUS. lra. }
  unfold Py.max. cbn [pow] in *.
  destruct (Rlt_dec 0 _); unfold GRAVITY in *; split; try split; lra.
Qed.

Lemma estimate_altitude_bounded_witness :
  exists estimate out,
    RocketOptimizer._estimate_altitude underpowered_optimizer
    = Ok (estimate, out)
    /\ 0 <= estimate /\ estimate < 2636000.
Proof.
assert (Hrun : RocketOptimizer._estimate_altitude underpowered_optimizer
  = Ok (0, [Warning_twr_too_low
              (liftoff_twr underpowered_optimizer underpowered_rocket)])).
{ apply estimate_altitude_low_twr.
  - reflexivity.
  - simpl. lra.
  - repeat constructor; simpl; lra.
  - unfold liftoff_twr, first_stage_thrust_sl,
      MultiStageRocket.get_total_mass, GRAVITY. simpl. lra. }
destruct (estimate_altitude_bounded _ _ _ Hrun) as (H1 & _ & H3).
do 2 eexists. split; [exact Hrun |]. split; assumption.
Defined.

(** *** The initial design *)

(** The liftoff stage of the initial design, with its sea-level thrust. *)
Lemma initial_liftoff_stage (target tme : R) (n : Z)
      (fs : list R) (f : R) (ps : list string) (ptype : string) :
  RocketOptimizer.stage_mass_fractions n = Ok fs ->
  nth_error fs 0 = Some f ->
  RocketOptimizer.stage_propellants n = Ok ps ->
  nth_error ps 0 = Some ptype ->
  0 < tme * f ->
  exists s,
    RocketOptimizer.initial_stage target tme n 0 = Ok s
    /\ stage_masses_ok s
    /\ Stage.total_mass s = tme * f
    /\ Stage.thrust_sl s = 1.4 * (tme * f) * GRAVITY
    /\ 0 < Stage.diameter s
    /\ 0 < Stage.length s.
Proof.
intros Hfs Hf Hps Hp Hpos.
unfold RocketOptimizer.initial_stage.
rewrite Hfs. cbn [bind]. unfold RocketOptimizer.index at 1.
rewrite Hf. cbn [bind].
rewrite Hps. cbn [bind]. unfold RocketOptimizer.index.
rewrite Hp. cbn [bind].
set (base := if Rlt_dec target 100000 then 1.5
             else if Rlt_dec target 400000 then 3.7 else 8.4).
assert (Hbase : 0 < base).
{ unfold base. destruct (Rlt_dec target 100000); [lra |].
  destruct (Rlt_dec target 400000); lra. }
set (isp := if String.eqb ptype "LOX/RP1" then 340 else 450).
assert (Hisp : 0 < isp).
{ unfold isp. destruct (String.eqb ptype "LOX/RP1"); lra. }
assert (Hg : 0 < isp * GRAVITY) by (unfold GRAVITY; nra).
do 2 (match goal with
      | |- context [Rlt_dec 0 ?e] =>
          destruct (Rlt_dec 0 e) as [_ | N];
          [| exfalso; unfold GRAVITY in N; nra]
      end).
rewrite (truediv_ok _ (isp * GRAVITY)) by lra. cbn [bind].
rewrite truediv_ok
  by (apply Rgt_not_eq, Rdiv_lt_0_compat; [unfold GRAVITY; nra | lra]).
cbn [bind].
rewrite Stage_init_ok by (unfold GRAVITY; nra).
eexists. split; [reflexivity |].
unfold stage_masses_ok.
cbn [built_stage Stage.set_nozzle Stage.dry_mass Stage.propellant_mass
     Stage.total_mass Stage.thrust_sl Stage.diameter Stage.length].
repeat split; try reflexivity; try (unfold GRAVITY; nra).
Qed.

(** The liftoff thrust-to-weight ratio of a design whose liftoff stage has a
    sea-level thrust of 1.4 g0 times [c] of a mass estimate of at least 20
    payloads, with [1.4 c <= 1.12], is below 1.2. *)
Lemma initial_twr_below_threshold (payload tme c rest : R) :
  0 < payload -> 0 < tme -> 0 <= c -> 1.4 * c <= 1.12 ->
  c + rest = 1 ->
  1.4 * (tme * c) * GRAVITY / ((payload + tme * c + tme * rest) * GRAVITY)
  < 1.2.
Proof.
intros Hp Ht Hc Hc' Hsum.
assert (Hden : 0 < (payload + tme * c + tme * rest) * GRAVITY)
  by (unfold GRAVITY; nra).
apply (Rmult_lt_reg_r ((payload + tme * c + tme * rest) * GRAVITY));
  [exact Hden |].
unfold Rdiv. rewrite Rmult_assoc, Rinv_l by lra.
unfold GRAVITY in *. nra.
Qed.

(** X11. A design of two or three stages, as the constructor lays it out for
    any positive payload and any target altitude, fails the liftoff check of
    the altitude estimate (its thrust-to-weight ratio is 1.12 k / (1 + k) for
    the mass ratio k the constructor picked): the constructor prints the
    liftoff warning and returns an optimizer whose estimated altitude is 0. *)
Theorem initial_multistage_design_fails_liftoff_check
        (target payload : R) (propellant_type : string)
        (stages : Z) (initial_diameter safety_factor : R) :
  (2 <= stages <= 3)%Z -> 0 < payload ->
  exists o twr,
    RocketOptimizer.__init__ target payload propellant_type stages
                             initial_diameter safety_factor
    = Ok (o, [Warning_twr_too_low twr;
              Print_initial_configuration stages (0 / 1000)])
    /\ twr < 1.2
    /\ RocketOptimizer.max_altitude o = 0
    /\ Z.of_nat (List.length (RocketOptimizer.stages o)) = stages.
Proof.
intros Hn Hp.
pose proof (initial_mass_ratio_pos target) as Himr.
unfold RocketOptimizer.__init__, RocketOptimizer._initialize_rocket.
cbn [RocketOptimizer.target_altitude RocketOptimizer.payload_mass
     RocketOptimizer.num_stages RocketOptimizer.propellant_type
     RocketOptimizer.initial_diameter RocketOptimizer.safety_factor
     RocketOptimizer.max_altitude].
set (tme := payload * (if Rlt_dec target 100000 then 20
                       else if Rlt_dec target 400000 then 30 else 50)).
assert (Htme : 0 < tme) by (unfold tme; nra).
assert (Hcases : stages = 2%Z \/ stages = 3%Z) by lia.
destruct Hcases as [-> | ->].
- (* two stages *)
  destruct (initial_liftoff_stage target tme 2 [0.80; 0.20] 0.80
              ["LOX/RP1"%string; "LOX/LH2"%string]
              "LOX/RP1" eq_refl eq_refl eq_refl eq_refl)
    as (s0 & E0 & Hok0 & Hm0 & Ht0 & _); [lra |].
  destruct (initial_stage_ok target tme 2 1 [0.80; 0.20] 0.20
              ["LOX/RP1"%string; "LOX/LH2"%string]
              "LOX/LH2" eq_refl eq_refl eq_refl eq_refl)
    as (s1 & E1 & Hok1 & Hm1 & _); [lra |].
  change (Z.to_nat 2) with 2%nat.
  cbn [seq RocketOptimizer.initial_stages].
  rewrite E0. cbn [bind app]. rewrite E1. cbn [bind app].
  match goal with
  | |- context [RocketOptimizer._estimate_altitude ?o] =>
      assert (Htwr : liftoff_twr o
                (MultiStageRocket.__init__
                   (str_of_Z 2 ++ "-Stage to "
                      ++ format_0f (target / 1000) ++ " km")%string
                   payload [s0; s1]) < 1.2);
      [| rewrite (estimate_altitude_low_twr o _ eq_refl Hp
                    ltac:(repeat (apply Forall_cons; [assumption |]);
                          apply Forall_nil) Htwr)]
  end.
  { unfold liftoff_twr, first_stage_thrust_sl,
      MultiStageRocket.get_total_mass.
    cbn [RocketOptimizer.stages MultiStageRocket.__init__
         MultiStageRocket.stages MultiStageRocket.payload_mass fold_left].
    rewrite Ht0, Hm0, Hm1.
    apply initial_twr_below_threshold; lra. }
  cbn [bind app].
  do 2 eexists. split; [reflexivity |].
  split; [exact Htwr |]. split; reflexivity.
- (* three stages *)
  destruct (initial_liftoff_stage target tme 3 [0.75; 0.20; 0.05] 0.75
              ["LOX/RP1"%string; "LOX/LH2"%string; "LOX/LH2"%string]
              "LOX/RP1" eq_refl eq_refl eq_refl eq_refl)
    as (s0 & E0 & Hok0 & Hm0 & Ht0 & _); [lra |].
  destruct (initial_stage_ok target tme 3 1 [0.75; 0.20; 0.05] 0.20
              ["LOX/RP1"%string; "LOX/LH2"%string; "LOX/LH2"%string]
              "LOX/LH2" eq_refl eq_refl eq_refl eq_refl)
    as (s1 & E1 & Hok1 & Hm1 & _); [lra |].
  destruct (initial_stage_ok target tme 3 2 [0.75; 0.20; 0.05] 0.05
              ["LOX/RP1"%string; "LOX/LH2"%string; "LOX/LH2"%string]
              "LOX/LH2" eq_refl eq_refl eq_refl eq_refl)
    as (s2 & E2 & Hok2 & Hm2 & _); [lra |].
  change (Z.to_nat 3) with 3%nat.
  cbn [seq RocketOptimizer.initial_stages].
  rewrite E0. cbn [bind app]. rewrite E1. cbn [bind app].
  rewrite E2. cbn [bind app].
  match goal with
  | |- context [RocketOptimizer._estimate_altitude ?o] =>
      assert (Htwr : liftoff_twr o
                (MultiStageRocket.__init__
                   (str_of_Z 3 ++ "-Stage to "
                      ++ format_0f (target / 1000) ++ " km")%string
                   payload [s0; s1; s2]) < 1.2);
      [| rewrite (estimate_altitude_low_twr o _ eq_refl Hp
                    ltac:(repeat (apply Forall_cons; [assumption |]);
                          apply Forall_nil) Htwr)]
  end.
  { unfold liftoff_twr, first_stage_thrust_sl,
      MultiStageRocket.get_total_mass.
    cbn [RocketOptimizer.stages MultiStageRocket.__init__
         MultiStageRocket.stages MultiStageRocket.payload_mass fold_left].
    rewrite Ht0, Hm0, Hm1, Hm2.
    replace (payload + tme * 0.75 + tme * 0.20 + tme * 0.05)
      with (payload + tme * 0.75 + tme * 0.25) by lra.
    apply initial_twr_below_threshold; lra. }
  cbn [bind app].
  do 2 eexists. split; [reflexivity |].
  split; [exact Htwr |]. split; reflexivity.
Qed.

Lemma initial_multistage_design_fails_liftoff_check_witness :
  exists o twr,
    RocketOptimizer.__init__ 400000 2000 "LOX/LH2" 2 3.0 1.2
    = Ok (o, [Warning_twr_too_low twr;
              Print_initial_configuration 2 (0 / 1000)])
    /\ twr < 1.2
    /\ RocketOptimizer.max_altitude o = 0.
Proof.
destruct (initial_multistage_design_fails_liftoff_check
            400000 2000 "LOX/LH2" 2 3.0 1.2)
  as (o & twr & H & Htwr & Hmax & _); [lia | lra |].
exists o, twr. repeat split; assumption.
Defined.

(** X12. The stage-count table of the constructor has the keys 1, 2 and 3
    only. With four stages or more the constructor raises KeyError at the
    first stage, whatever the payload. With zero stages or fewer the loop body
    never runs: a payload that is not 0 gives an optimizer with no stage, a
    liftoff thrust-to-weight ratio of 0 / (payload g0), the warning and an
    estimate of 0; a payload of 0 raises ZeroDivisionError. *)
Theorem optimizer_stage_count_out_of_table
        (target payload : R) (propellant_type : string)
        (stages : Z) (initial_diameter safety_factor : R) :
  ((4 <= stages)%Z ->
   RocketOptimizer.__init__ target payload propellant_type stages
                            initial_diameter safety_factor
   = Raise KeyError)
  /\ ((stages <= 0)%Z -> payload <> 0 ->
      exists o,
        RocketOptimizer.__init__ target payload propellant_type stages
                                 initial_diameter safety_factor
        = Ok (o, [Warning_twr_too_low (0 / (payload * GRAVITY));
                  Print_initial_configuration stages (0 / 1000)])
        /\ RocketOptimizer.stages o = []
        /\ RocketOptimizer.max_altitude o = 0)
  /\ ((stages <= 0)%Z -> payload = 0 ->
      RocketOptimizer.__init__ target payload propellant_type stages
                               initial_diameter safety_factor
      = Raise ZeroDivisionError).
Proof.
unfold RocketOptimizer.__init__, RocketOptimizer._initialize_rocket.
cbn [RocketOptimizer.target_altitude RocketOptimizer.payload_mass
     RocketOptimizer.num_stages RocketOptimizer.propellant_type
     RocketOptimizer.initial_diameter RocketOptimizer.safety_factor
     RocketOptimizer.max_altitude].
split; [| split].
- intros Hn.
  assert (Hseq : exists k, Z.to_nat stages = S k).
  { exists (Z.to_nat (stages - 1)). lia. }
  destruct Hseq as [k ->].
  cbn [seq RocketOptimizer.initial_stages].
  unfold RocketOptimizer.initial_stage,
    RocketOptimizer.stage_mass_fractions.
  destruct (Z.eqb_spec stages 1); [lia |].
  destruct (Z.eqb_spec stages 2); [lia |].
  destruct (Z.eqb_spec stages 3); [lia |].
  reflexivity.
- intros Hn Hp.
  replace (Z.to_nat stages) with 0%nat by lia.
  cbn [seq RocketOptimizer.initial_stages bind].
  unfold RocketOptimizer._estimate_altitude.
  cbn [RocketOptimizer.rocket RocketOptimizer.stages bind].
  unfold MultiStageRocket.get_total_delta_v, MultiStageRocket.get_total_mass.
  cbn [MultiStageRocket.__init__ MultiStageRocket.stages
       MultiStageRocket.payload_mass MultiStageRocket.delta_v_loop
       fold_left bind fst].
  rewrite truediv_ok by (unfold GRAVITY; nra). cbn [bind].
  destruct (Rlt_dec (0 / (payload * GRAVITY)) 1.2) as [_ | N].
  + cbn [bind app]. eexists. split; [reflexivity |]. split; reflexivity.
  + exfalso. apply N. unfold Rdiv. rewrite Rmult_0_l. lra.
- intros Hn ->.
  replace (Z.to_nat stages) with 0%nat by lia.
  cbn [seq RocketOptimizer.initial_stages bind].
  unfold RocketOptimizer._estimate_altitude.
  cbn [RocketOptimizer.rocket RocketOptimizer.stages bind].
  unfold MultiStageRocket.get_total_delta_v, MultiStageRocket.get_total_mass.
  cbn [MultiStageRocket.__init__ MultiStageRocket.stages
       MultiStageRocket.payload_mass MultiStageRocket.delta_v_loop
       fold_left bind fst].
  rewrite Rmult_0_l, truediv_zero. reflexivity.
Qed.

Lemma optimizer_stage_count_out_of_table_witness :
  RocketOptimizer.__init__ 400000 2000 "LOX/LH2" 4 3.0 1.2 = Raise KeyError
  /\ (exists o,
        RocketOptimizer.__init__ 400000 2000 "LOX/LH2" 0 3.0 1.2
        = Ok (o, [Warning_twr_too_low (0 / (2000 * GRAVITY));
                  Print_initial_configuration 0 (0 / 1000)])
        /\ RocketOptimizer.stages o = []
        /\ RocketOptimizer.max_altitude o = 0)
  /\ RocketOptimizer.__init__ 400000 0 "LOX/LH2" (-1) 3.0 1.2
     = Raise ZeroDivisionError.
Proof.
split; [| split].
- apply (proj1 (optimizer_stage_count_out_of_table
                  400000 2000 "LOX/LH2" 4 3.0 1.2)).
  lia.
- apply (proj1 (proj2 (optimizer_stage_count_out_of_table
                         400000 2000 "LOX/LH2" 0 3.0 1.2))).
  + lia.
  + lra.
- apply (proj2 (proj2 (optimizer_stage_count_out_of_table
                         400000 0 "LOX/LH2" (-1) 3.0 1.2))).
  + lia.
  + reflexivity.
Defined.

(** *** Wall thickness *)

(** X13. [_calculate_wall_thickness] raises IndexError past the last stage and
    ZeroDivisionError for a stage of diameter 0 or a safety factor of 0;
    otherwise it returns a thickness that is at least the practical minimum,
    hence at least 2 mm and at least 0.4 percent of the diameter. *)
Theorem wall_thickness_outcome (o : RocketOptimizer.t) (i : nat) :
  match nth_error (RocketOptimizer.stages o) i with
  | None => RocketOptimizer._calculate_wall_thickness o i = Raise IndexError
  | Some stage =>
      if Req_dec_T (Stage.diameter stage) 0 then
        RocketOptimizer._calculate_wall_thickness o i
        = Raise ZeroDivisionError
      else if Req_dec_T (RocketOptimizer.safety_factor o) 0 then
        RocketOptimizer._calculate_wall_thickness o i
        = Raise ZeroDivisionError
      else
        exists thickness,
          RocketOptimizer._calculate_wall_thickness o i = Ok thickness
          /\ RocketOptimizer.min_wall_thickness (Stage.diameter stage)
             <= thickness
          /\ 0.002 <= thickness
          /\ 0.004 * Stage.diameter stage <= thickness
  end.
Proof.
unfold RocketOptimizer._calculate_wall_thickness, RocketOptimizer.index.
destruct (nth_error (RocketOptimizer.stages o) i) as [stage |];
  [| reflexivity].
cbn [bind].
destruct (Req_dec_T (Stage.diameter stage) 0) as [Hd | Hd].
{ rewrite Hd.
  replace (PI * 0 ^ 2 / 4) with 0 by (simpl; lra).
  rewrite truediv_zero. reflexivity. }
assert (Harea : PI * Stage.diameter stage ^ 2 / 4 <> 0).
{ pose proof PI_RGT_0 as Hpi.
  assert (0 < Stage.diameter stage ^ 2) by (simpl; nra).
  nra. }
rewrite truediv_ok by exact Harea. cbn [bind].
destruct (Req_dec_T (RocketOptimizer.safety_factor o) 0) as [Hs | Hs].
{ rewrite Hs, truediv_zero. reflexivity. }
assert (Hallow : 270e6 / RocketOptimizer.safety_factor o <> 0).
{ unfold Rdiv. apply Rmult_integral_contrapositive_currified;
    [lra | now apply Rinv_neq_0_compat]. }
rewrite (truediv_ok 270e6) by exact Hs. cbn [bind].
rewrite !truediv_ok by exact Hallow. cbn [bind].
eexists. split; [reflexivity |].
unfold RocketOptimizer.min_wall_thickness, Py.max.
repeat match goal with
       | |- context [Rlt_dec ?a ?b] => destruct (Rlt_dec a b)
       end; repeat split; lra.
Qed.

End OptimizerExtras.

(* ===================================================================== *)
(** ** Mutation of the design by the optimizer *)
(* ===================================================================== *)

Section DesignMutation.

Import rocket_physics.
Import Spec.
Import rocket_optimizer.

(** *** Lists updated by index *)

Lemma index_Some {A : Type} (l : list A) (i : nat) (a : A) :
  nth_error l i = Some a -> RocketOptimizer.index l i = Ok a.
Proof. intros H. unfold RocketOptimizer.index. now rewrite H. Qed.

Lemma index_None {A : Type} (l : list A) (i : nat) :
  nth_error l i = None -> RocketOptimizer.index l i = Raise IndexError.
Proof. intros H. unfold RocketOptimizer.index. now rewrite H. Qed.

Lemma length_list_set {A : Type} (l : list A) (i : nat) (a : A) :
  List.length (RocketOptimizer.list_set l i a) = List.length l.
Proof.
revert i. induction l as [| x l IH]; intros [| i]; simpl; auto.
Qed.

Lemma nth_error_list_set_eq {A : Type} (l : list A) (i : nat) (a b : A) :
  nth_error l i = Some b ->
  nth_error (RocketOptimizer.list_set l i a) i = Some a.
Proof.
revert i. induction l as [| x l IH]; intros [| i]; simpl;
  try discriminate; auto.
Qed.

Lemma nth_error_list_set_neq {A : Type} (l : list A) (i j : nat) (a : A) :
  i <> j ->
  nth_error (RocketOptimizer.list_set l i a) j = nth_error l j.
Proof.
revert i j. induction l as [| x l IH]; intros [| i] [| j] H; simpl;
  try reflexivity; try congruence.
apply IH. congruence.
Qed.

Lemma list_set_list_set {A : Type} (l : list A) (i : nat) (a b : A) :
  RocketOptimizer.list_set (RocketOptimizer.list_set l i a) i b
  = RocketOptimizer.list_set l i b.
Proof.
revert i. induction l as [| x l IH]; intros [| i]; simpl;
  try reflexivity.
now rewrite IH.
Qed.

Lemma firstn_list_set {A : Type} (l : list A) (i k : nat) (a : A) :
  (k <= i)%nat ->
  firstn k (RocketOptimizer.list_set l i a) = firstn k l.
Proof.
revert i k. induction l as [| x l IH]; intros [| i] [| k] H; simpl;
  try reflexivity; try lia.
f_equal. apply IH. lia.
Qed.

Lemma list_set_nonempty {A : Type} (l : list A) (i : nat) (a : A) :
  l <> [] -> RocketOptimizer.list_set l i a <> [].
Proof. destruct l, i; simpl; congruence. Qed.

(** Replacing a stage by one that satisfies [P] keeps [Forall P]. *)
Lemma Forall_list_set {A : Type} (P : A -> Prop) (l : list A) (i : nat)
      (a : A) :
  Forall P l -> P a -> Forall P (RocketOptimizer.list_set l i a).
Proof.
intros Hl Ha. revert i.
induction Hl as [| x l Hx Hl IH]; intros [| i]; simpl; auto.
Qed.

Lemma Forall_nth_error {A : Type} (P : A -> Prop) (l : list A) (i : nat)
      (a : A) :
  Forall P l -> nth_error l i = Some a -> P a.
Proof.
intros Hl H. rewrite Forall_forall in Hl. apply Hl.
eapply nth_error_In. exact H.
Qed.

Lemma set_stages_set_stages (o : RocketOptimizer.t)
      (l l' : list Stage.t) :
  RocketOptimizer.set_stages (RocketOptimizer.set_stages o l) l'
  = RocketOptimizer.set_stages o l'.
Proof.
unfold RocketOptimizer.set_stages. simpl.
destruct (RocketOptimizer.rocket o); reflexivity.
Qed.

(** *** [_update_stage_mass] *)

(** What [_update_stage_mass] does to the stage at index [i]. *)
Lemma update_stage_mass_run
      (o : RocketOptimizer.t) (i : nat) (stage : Stage.t)
      (new_propellant_mass new_dry_mass : option R) :
  nth_error (RocketOptimizer.stages o) i = Some stage ->
  stage_propellant_ok stage ->
  0 <= Stage.thrust_vac stage ->
  let propellant_mass :=
    updated_mass new_propellant_mass (Stage.propellant_mass stage) in
  let dry_mass := updated_mass new_dry_mass (Stage.dry_mass stage) in
  let flow :=
    if Rlt_dec 0 (Stage.burn_time stage)
    then propellant_mass / Stage.burn_time stage else 0 in
  exists stage',
    RocketOptimizer._update_stage_mass o i new_propellant_mass new_dry_mass
    = Ok (RocketOptimizer.set_stages
            o (RocketOptimizer.list_set (RocketOptimizer.stages o) i stage'))
    /\ Stage.propellant_mass stage' = propellant_mass
    /\ Stage.dry_mass stage' = dry_mass
    /\ Stage.total_mass stage' = dry_mass + propellant_mass
    /\ Stage.mass_ratio stage'
       = (if Rlt_dec 0 dry_mass
          then (dry_mass + propellant_mass) / dry_mass else 1)
    /\ 0 <= Stage.thrust_vac stage'
    /\ (0 < propellant_mass ->
        Stage.propellant_flow_rate stage' = flow
        /\ Stage.thrust_vac stage'
           = flow * isp_vac (Stage.propellant stage) * GRAVITY
        /\ Stage.thrust_sl stage'
           = match i with
             | O => flow * isp_sl (Stage.propellant stage) * GRAVITY
             | _ => 0
             end)
    /\ (~ 0 < propellant_mass ->
        Stage.propellant_flow_rate stage' = Stage.propellant_flow_rate stage
        /\ Stage.thrust_vac stage' = Stage.thrust_vac stage
        /\ Stage.thrust_sl stage' = Stage.thrust_sl stage)
    /\ Stage.name stage' = Stage.name stage
    /\ Stage.burn_time stage' = Stage.burn_time stage
    /\ Stage.diameter stage' = Stage.diameter stage
    /\ Stage.length stage' = Stage.length stage
    /\ Stage.propellant stage' = Stage.propellant stage.
Proof.
intros Hi Hcat Htv propellant_mass dry_mass flow.
destruct (catalog_entry_sane _ Hcat) as (_ & _ & Hisp).
unfold RocketOptimizer._update_stage_mass.
rewrite (index_Some _ _ _ Hi). cbn [bind].
fold (updated_mass new_propellant_mass (Stage.propellant_mass stage)).
fold (updated_mass new_dry_mass (Stage.dry_mass stage)).
fold propellant_mass. fold dry_mass.
assert (Hratio :
  (if Rlt_dec 0 dry_mass
   then truediv (dry_mass + propellant_mass) dry_mass else Ok 1)
  = Ok (if Rlt_dec 0 dry_mass
        then (dry_mass + propellant_mass) / dry_mass else 1)).
{ destruct (Rlt_dec 0 dry_mass); [apply truediv_ok; lra | reflexivity]. }
rewrite Hratio. cbn [bind].
assert (Hflow :
  (if Rlt_dec 0 (Stage.burn_time stage)
   then truediv propellant_mass (Stage.burn_time stage) else Ok 0)
  = Ok flow).
{ unfold flow. destruct (Rlt_dec 0 (Stage.burn_time stage));
    [apply truediv_ok; lra | reflexivity]. }
destruct (Rlt_dec 0 propellant_mass) as [Hp | Hp].
- rewrite Hflow. cbn [bind].
  assert (Hflow0 : 0 <= flow).
  { unfold flow. destruct (Rlt_dec 0 (Stage.burn_time stage)); [| lra].
    left. now apply Rdiv_lt_0_compat. }
  rewrite engine_parameters_ok;
    [| exact Hcat
     | cbn [RocketOptimizer.set_masses Stage.thrust_vac Stage.propellant];
       unfold GRAVITY; nra].
  cbn [bind]. eexists. split; [reflexivity |].
  cbn [Stage.set_nozzle RocketOptimizer.set_masses Stage.propellant_mass
       Stage.dry_mass Stage.total_mass Stage.mass_ratio Stage.thrust_vac
       Stage.thrust_sl Stage.propellant_flow_rate Stage.name
       Stage.burn_time Stage.diameter Stage.length Stage.propellant].
  repeat split; try reflexivity; try contradiction.
  unfold GRAVITY; nra.
- cbn [bind].
  rewrite engine_parameters_ok; [| exact Hcat | exact Htv].
  cbn [bind]. eexists. split; [reflexivity |].
  cbn [Stage.set_nozzle RocketOptimizer.set_masses Stage.propellant_mass
       Stage.dry_mass Stage.total_mass Stage.mass_ratio Stage.thrust_vac
       Stage.thrust_sl Stage.propellant_flow_rate Stage.name
       Stage.burn_time Stage.diameter Stage.length Stage.propellant].
  repeat split; try reflexivity; try contradiction; assumption.
Qed.

Lemma updated_mass_given (v old : R) :
  100 <= updated_mass (Some v) old.
Proof.
unfold updated_mass, Py.max. destruct (Rlt_dec 100 v); lra.
Qed.

(** X14. [_update_stage_mass] raises IndexError past the last stage. On a
    stage with a catalog propellant and no negative vacuum thrust it returns:
    the stage at that index, and no other, is changed, the rocket sees the
    same stages as the optimizer, a mass that was given is stored raised to at
    least 100 kg and a mass that was not given is kept, the total mass is the
    sum of the two and the mass ratio times the dry mass is the total mass
    whenever the dry mass is positive. *)
Theorem update_stage_mass_postcondition
        (o : RocketOptimizer.t) (i : nat)
        (new_propellant_mass new_dry_mass : option R) :
  match nth_error (RocketOptimizer.stages o) i with
  | None =>
      RocketOptimizer._update_stage_mass o i new_propellant_mass new_dry_mass
      = Raise IndexError
  | Some stage =>
      stage_propellant_ok stage ->
      0 <= Stage.thrust_vac stage ->
      exists o' stage',
        RocketOptimizer._update_stage_mass
          o i new_propellant_mass new_dry_mass = Ok o'
        /\ nth_error (RocketOptimizer.stages o') i = Some stage'
        /\ (forall j, j <> i ->
              nth_error (RocketOptimizer.stages o') j
              = nth_error (RocketOptimizer.stages o) j)
        /\ (forall r, RocketOptimizer.rocket o = Some r ->
              RocketOptimizer.rocket o'
              = Some (MultiStageRocket.mk
                        (MultiStageRocket.name r)
                        (MultiStageRocket.payload_mass r)
                        (RocketOptimizer.stages o')))
        /\ Stage.propellant_mass stage'
           = updated_mass new_propellant_mass (Stage.propellant_mass stage)
        /\ Stage.dry_mass stage'
           = updated_mass new_dry_mass (Stage.dry_mass stage)
        /\ (forall v, new_propellant_mass = Some v ->
              100 <= Stage.propellant_mass stage'
              /\ v <= Stage.propellant_mass stage')
        /\ (forall v, new_dry_mass = Some v ->
              100 <= Stage.dry_mass stage' /\ v <= Stage.dry_mass stage')
        /\ Stage.total_mass stage'
           = Stage.dry_mass stage' + Stage.propellant_mass stage'
        /\ (0 < Stage.dry_mass stage' ->
            Stage.mass_ratio stage' * Stage.dry_mass stage'
            = Stage.total_mass stage')
  end.
Proof.
destruct (nth_error (RocketOptimizer.stages o) i) as [stage |] eqn:Hi.
2:{ unfold RocketOptimizer._update_stage_mass.
    now rewrite (index_None _ _ Hi). }
intros Hcat Htv.
destruct (update_stage_mass_run o i stage new_propellant_mass new_dry_mass
            Hi Hcat Htv)
  as (stage' & Hrun & Hp & Hd & Ht & Hr & _).
eexists. exists stage'. split; [exact Hrun |].
split; [| split; [| split; [| split; [| split; [| split; [| split;
  [| split]]]]]]].
- cbn [RocketOptimizer.set_stages RocketOptimizer.stages].
  eapply nth_error_list_set_eq. exact Hi.
- intros j Hj. cbn [RocketOptimizer.set_stages RocketOptimizer.stages].
  apply nth_error_list_set_neq. congruence.
- intros r Hr'. cbn [RocketOptimizer.set_stages RocketOptimizer.rocket
                     RocketOptimizer.stages].
  now rewrite Hr'.
- exact Hp.
- exact Hd.
- intros v ->. rewrite Hp. unfold updated_mass, Py.max.
  destruct (Rlt_dec 100 v); lra.
- intros v ->. rewrite Hd. unfold updated_mass, Py.max.
  destruct (Rlt_dec 100 v); lra.
- rewrite Ht, Hp, Hd. reflexivity.
- intros Hpos. rewrite Hr, Ht. rewrite Hd in Hpos |- *.
  destruct (Rlt_dec 0 _) as [_ | N]; [| contradiction].
  field. lra.
Qed.

Lemma update_stage_mass_postcondition_witness :
  exists o' stage',
    RocketOptimizer._update_stage_mass underpowered_optimizer 0
                                       (Some 50) None = Ok o'
    /\ nth_error (RocketOptimizer.stages o') 0 = Some stage'
    /\ Stage.propellant_mass stage' = 100
    /\ Stage.dry_mass stage' = 1000
    /\ Stage.total_mass stage' = 1100.
Proof.
pose proof (update_stage_mass_postcondition
              underpowered_optimizer 0 (Some 50) None) as H.
cbn [nth_error underpowered_optimizer RocketOptimizer.stages] in H.
destruct H as (o' & stage' & Hrun & Hi & _ & _ & Hp & Hd & _ & _ & Ht & _).
- unfold stage_propellant_ok. simpl. right. left. reflexivity.
- simpl. lra.
- exists o', stage'.
  assert (Hp' : Stage.propellant_mass stage' = 100).
  { rewrite Hp. unfold updated_mass, Py.max.
    destruct (Rlt_dec 100 50); lra. }
  assert (Hd' : Stage.dry_mass stage' = 1000).
  { rewrite Hd. simpl. reflexivity. }
  repeat split; try assumption.
  rewrite Ht, Hp', Hd'. lra.
Defined.

(** X15. Whenever the stage has propellant, or a propellant mass is given,
    [_update_stage_mass] recomputes both thrusts from the flow rate: a thrust
    assigned to the stage beforehand has no effect on the outcome. *)
Theorem update_stage_mass_discards_thrust
        (o : RocketOptimizer.t) (i : nat) (stage : Stage.t)
        (thrust_vac thrust_sl : R)
        (new_propellant_mass new_dry_mass : option R) :
  nth_error (RocketOptimizer.stages o) i = Some stage ->
  0 < updated_mass new_propellant_mass (Stage.propellant_mass stage) ->
  RocketOptimizer._update_stage_mass
    (RocketOptimizer.set_stages
       o (RocketOptimizer.list_set
            (RocketOptimizer.stages o) i
            (RocketOptimizer.set_thrust stage thrust_vac thrust_sl)))
    i new_propellant_mass new_dry_mass
  = RocketOptimizer._update_stage_mass o i new_propellant_mass new_dry_mass.
Proof.
intros Hi Hp.
unfold RocketOptimizer._update_stage_mass.
cbn [RocketOptimizer.set_stages RocketOptimizer.stages].
rewrite (index_Some _ _ _ (nth_error_list_set_eq _ _ _ _ Hi)).
rewrite (index_Some _ _ _ Hi). cbn [bind].
fold (RocketOptimizer.set_stages o
        (RocketOptimizer.list_set
           (RocketOptimizer.stages o) i
           (RocketOptimizer.set_thrust stage thrust_vac thrust_sl))).
cbn [RocketOptimizer.set_thrust RocketOptimizer.set_masses
     Stage.propellant_mass Stage.dry_mass Stage.burn_time Stage.propellant
     Stage.name Stage.diameter Stage.length Stage.throat_area
     Stage.throat_diameter Stage.expansion_ratio Stage.exit_area
     Stage.exit_diameter Stage.nozzle_length].
fold (updated_mass new_propellant_mass (Stage.propellant_mass stage)).
fold (updated_mass new_dry_mass (Stage.dry_mass stage)).
destruct (Rlt_dec 0 (updated_mass new_propellant_mass
                                  (Stage.propellant_mass stage)))
  as [_ | N]; [| contradiction].
destruct (if Rlt_dec 0 (updated_mass new_dry_mass (Stage.dry_mass stage))
          then _ else _) as [ratio | e]; [| reflexivity].
cbn [bind].
destruct (if Rlt_dec 0 (Stage.burn_time stage) then _ else _)
  as [flow | e]; [| reflexivity].
cbn [bind].
destruct (Stage._calculate_engine_parameters _) as [stage' | e];
  [| reflexivity].
cbn [bind].
rewrite list_set_list_set, set_stages_set_stages. reflexivity.
Qed.

Lemma update_stage_mass_discards_thrust_witness :
  RocketOptimizer._update_stage_mass
    (RocketOptimizer.set_stages
       underpowered_optimizer
       (RocketOptimizer.list_set
          (RocketOptimizer.stages underpowered_optimizer) 0
          (RocketOptimizer.set_thrust underpowered_stage 110000 97119)))
    0 None (Some 1200)
  = RocketOptimizer._update_stage_mass underpowered_optimizer 0
                                       None (Some 1200).
Proof.
apply (update_stage_mass_discards_thrust
         underpowered_optimizer 0 underpowered_stage).
- reflexivity.
- simpl. lra.
Defined.

(** *** Soundness of the design is kept *)

Lemma same_settings_refl (o : RocketOptimizer.t) : same_settings o o.
Proof. unfold same_settings. repeat split. Qed.

Lemma same_settings_trans (o1 o2 o3 : RocketOptimizer.t) :
  same_settings o1 o2 -> same_settings o2 o3 -> same_settings o1 o3.
Proof.
unfold same_settings.
intros (A1 & A2 & A3 & A4 & A5) (B1 & B2 & B3 & B4 & B5).
repeat split; congruence.
Qed.

Lemma same_settings_max_altitude (o : RocketOptimizer.t) (v : R) :
  same_settings o (RocketOptimizer.set_max_altitude o v).
Proof. unfold same_settings. repeat split. Qed.

Lemma optimizer_sound_max_altitude (o : RocketOptimizer.t) (v : R) :
  optimizer_sound o ->
  optimizer_sound (RocketOptimizer.set_max_altitude o v).
Proof. intros H. exact H. Qed.

(** Writing a sound stage over the stage at index [i]. *)
Lemma optimizer_sound_set_stage
      (o : RocketOptimizer.t) (i : nat) (stage' : Stage.t) :
  optimizer_sound o -> stage_sound stage' ->
  optimizer_sound
    (RocketOptimizer.set_stages
       o (RocketOptimizer.list_set (RocketOptimizer.stages o) i stage'))
  /\ same_settings
       o (RocketOptimizer.set_stages
            o (RocketOptimizer.list_set (RocketOptimizer.stages o) i stage')).
Proof.
intros (Hp & Hs & (name & Hr) & Hne & Hall) Hstage.
split.
- unfold optimizer_sound.
  cbn [RocketOptimizer.set_stages RocketOptimizer.payload_mass
       RocketOptimizer.safety_factor RocketOptimizer.rocket
       RocketOptimizer.stages].
  rewrite Hr.
  cbn [MultiStageRocket.name MultiStageRocket.payload_mass].
  repeat split.
  + exact Hp.
  + exact Hs.
  + exists name. reflexivity.
  + now apply list_set_nonempty.
  + now apply Forall_list_set.
- unfold same_settings.
  cbn [RocketOptimizer.set_stages RocketOptimizer.target_altitude
       RocketOptimizer.payload_mass RocketOptimizer.num_stages
       RocketOptimizer.safety_factor RocketOptimizer.stages].
  repeat split. apply length_list_set.
Qed.

Lemma nth_error_in_range {A : Type} (l : list A) (i : nat) :
  (i < List.length l)%nat -> exists a, nth_error l i = Some a.
Proof.
intros H. destruct (nth_error l i) as [a |] eqn:E; [now exists a |].
apply nth_error_None in E. lia.
Qed.

(** [_update_stage_mass] on a sound design returns a sound design. *)
Lemma update_stage_mass_sound
      (o : RocketOptimizer.t) (i : nat) (stage : Stage.t)
      (new_propellant_mass new_dry_mass : option R) :
  optimizer_sound o ->
  nth_error (RocketOptimizer.stages o) i = Some stage ->
  exists stage',
    RocketOptimizer._update_stage_mass o i new_propellant_mass new_dry_mass
    = Ok (RocketOptimizer.set_stages
            o (RocketOptimizer.list_set (RocketOptimizer.stages o) i stage'))
    /\ stage_sound stage'
    /\ Stage.propellant_mass stage'
       = updated_mass new_propellant_mass (Stage.propellant_mass stage)
    /\ Stage.dry_mass stage'
       = updated_mass new_dry_mass (Stage.dry_mass stage)
    /\ Stage.diameter stage' = Stage.diameter stage
    /\ Stage.length stage' = Stage.length stage
    /\ Stage.name stage' = Stage.name stage
    /\ Stage.propellant stage' = Stage.propellant stage.
Proof.
intros Hsound Hi.
pose proof Hsound as (_ & _ & _ & _ & Hall).
destruct (Forall_nth_error _ _ _ _ Hall Hi)
  as ((Hdry & Hprop & Htot) & Hcat & Htv & Hdia & Hlen).
destruct (update_stage_mass_run o i stage new_propellant_mass new_dry_mass
            Hi Hcat Htv)
  as (stage' & Hrun & Hp & Hd & Ht & _ & Htv' & _ & _ & Hn & _ & Hdi & Hl
      & Hpr).
exists stage'. split; [exact Hrun |].
assert (Hd' : 0 < updated_mass new_dry_mass (Stage.dry_mass stage)).
{ destruct new_dry_mass as [v |]; [| exact Hdry].
  pose proof (updated_mass_given v (Stage.dry_mass stage)). lra. }
assert (Hp' : 0 <= updated_mass new_propellant_mass
                                (Stage.propellant_mass stage)).
{ destruct new_propellant_mass as [v |]; [| exact Hprop].
  pose proof (updated_mass_given v (Stage.propellant_mass stage)). lra. }
repeat split; try assumption.
- rewrite Hd. exact Hd'.
- rewrite Hp. exact Hp'.
- rewrite Ht, Hp, Hd. reflexivity.
- unfold stage_propellant_ok. rewrite Hpr. exact Hcat.
- rewrite Hdi. exact Hdia.
- rewrite Hl. exact Hlen.
Qed.

(** *** [_adjust_stage_geometry] *)

Lemma engine_parameters_frame_ok (stage : Stage.t) :
  stage_propellant_ok stage -> 0 <= Stage.thrust_vac stage ->
  exists stage',
    Stage._calculate_engine_parameters stage = Ok stage'
    /\ Stage.name stage' = Stage.name stage
    /\ Stage.dry_mass stage' = Stage.dry_mass stage
    /\ Stage.propellant_mass stage' = Stage.propellant_mass stage
    /\ Stage.thrust_sl stage' = Stage.thrust_sl stage
    /\ Stage.thrust_vac stage' = Stage.thrust_vac stage
    /\ Stage.burn_time stage' = Stage.burn_time stage
    /\ Stage.diameter stage' = Stage.diameter stage
    /\ Stage.length stage' = Stage.length stage
    /\ Stage.propellant stage' = Stage.propellant stage
    /\ Stage.mass_ratio stage' = Stage.mass_ratio stage
    /\ Stage.total_mass stage' = Stage.total_mass stage
    /\ Stage.propellant_flow_rate stage' = Stage.propellant_flow_rate stage.
Proof.
intros Hcat Htv.
rewrite engine_parameters_ok by assumption.
eexists. split; [reflexivity |].
cbn [Stage.set_nozzle Stage.name Stage.dry_mass Stage.propellant_mass
     Stage.thrust_sl Stage.thrust_vac Stage.burn_time Stage.diameter
     Stage.length Stage.propellant Stage.mass_ratio Stage.total_mass
     Stage.propellant_flow_rate].
repeat split.
Qed.

(** What [_adjust_stage_geometry] does to the stage at index [i]. *)
Lemma adjust_stage_geometry_run
      (o : RocketOptimizer.t) (i : nat) (stage : Stage.t)
      (new_diameter new_length : option R) :
  nth_error (RocketOptimizer.stages o) i = Some stage ->
  stage_propellant_ok stage ->
  0 <= Stage.thrust_vac stage ->
  exists stage',
    RocketOptimizer._adjust_stage_geometry o i new_diameter new_length
    = Ok (RocketOptimizer.set_stages
            o (RocketOptimizer.list_set (RocketOptimizer.stages o) i stage'))
    /\ Stage.diameter stage'
       = match new_diameter with
         | Some d => Py.max 0.5 d
         | None => Stage.diameter stage
         end
    /\ Stage.length stage'
       = match new_length with
         | Some l => Py.max 1.0 l
         | None => Stage.length stage
         end
    /\ Stage.name stage' = Stage.name stage
    /\ Stage.dry_mass stage' = Stage.dry_mass stage
    /\ Stage.propellant_mass stage' = Stage.propellant_mass stage
    /\ Stage.total_mass stage' = Stage.total_mass stage
    /\ Stage.mass_ratio stage' = Stage.mass_ratio stage
    /\ Stage.thrust_sl stage' = Stage.thrust_sl stage
    /\ Stage.thrust_vac stage' = Stage.thrust_vac stage
    /\ Stage.burn_time stage' = Stage.burn_time stage
    /\ Stage.propellant stage' = Stage.propellant stage.
Proof.
intros Hi Hcat Htv.
unfold RocketOptimizer._adjust_stage_geometry.
rewrite (index_Some _ _ _ Hi). cbn [bind].
destruct new_diameter as [d |].
- destruct (engine_parameters_frame_ok
              (RocketOptimizer.set_diameter stage (Py.max 0.5 d)))
    as (s1 & E & Hn & Hdm & Hpm & Hsl & Hvac & Hbt & Hdi & Hle & Hpr & Hmr
        & Htm & _);
    [exact Hcat | exact Htv |].
  rewrite E. cbn [bind].
  cbn [RocketOptimizer.set_diameter Stage.name Stage.dry_mass
       Stage.propellant_mass Stage.thrust_sl Stage.thrust_vac
       Stage.burn_time Stage.diameter Stage.length Stage.propellant
       Stage.mass_ratio Stage.total_mass] in *.
  eexists. split; [reflexivity |].
  destruct new_length as [l |];
    cbn [RocketOptimizer.set_length Stage.name Stage.dry_mass
         Stage.propellant_mass Stage.thrust_sl Stage.thrust_vac
         Stage.burn_time Stage.diameter Stage.length Stage.propellant
         Stage.mass_ratio Stage.total_mass];
    repeat split; try assumption; reflexivity.
- cbn [bind]. eexists. split; [reflexivity |].
  destruct new_length as [l |];
    cbn [RocketOptimizer.set_length Stage.name Stage.dry_mass
         Stage.propellant_mass Stage.thrust_sl Stage.thrust_vac
         Stage.burn_time Stage.diameter Stage.length Stage.propellant
         Stage.mass_ratio Stage.total_mass];
    repeat split; reflexivity.
Qed.

(** X16. [_adjust_stage_geometry] raises IndexError past the last stage. On a
    stage with a catalog propellant and no negative vacuum thrust it returns:
    a diameter that was given is stored raised to at least 0.5 m and a length
    raised to at least 1 m, what was not given is kept, the masses and thrusts
    of the stage are untouched and no other stage is changed. *)
Theorem adjust_stage_geometry_postcondition
        (o : RocketOptimizer.t) (i : nat)
        (new_diameter new_length : option R) :
  match nth_error (RocketOptimizer.stages o) i with
  | None =>
      RocketOptimizer._adjust_stage_geometry o i new_diameter new_length
      = Raise IndexError
  | Some stage =>
      stage_propellant_ok stage ->
      0 <= Stage.thrust_vac stage ->
      exists o' stage',
        RocketOptimizer._adjust_stage_geometry o i new_diameter new_length
        = Ok o'
        /\ nth_error (RocketOptimizer.stages o') i = Some stage'
        /\ (forall j, j <> i ->
              nth_error (RocketOptimizer.stages o') j
              = nth_error (RocketOptimizer.stages o) j)
        /\ (forall d, new_diameter = Some d ->
              Stage.diameter stage' = Py.max 0.5 d
              /\ 0.5 <= Stage.diameter stage'
              /\ d <= Stage.diameter stage')
        /\ (new_diameter = None ->
            Stage.diameter stage' = Stage.diameter stage)
        /\ (forall l, new_length = Some l ->
              Stage.length stage' = Py.max 1.0 l
              /\ 1 <= Stage.length stage'
              /\ l <= Stage.length stage')
        /\ (new_length = None -> Stage.length stage' = Stage.length stage)
        /\ Stage.dry_mass stage' = Stage.dry_mass stage
        /\ Stage.propellant_mass stage' = Stage.propellant_mass stage
        /\ Stage.total_mass stage' = Stage.total_mass stage
        /\ Stage.thrust_sl stage' = Stage.thrust_sl stage
        /\ Stage.thrust_vac stage' = Stage.thrust_vac stage
  end.
Proof.
destruct (nth_error (RocketOptimizer.stages o) i) as [stage |] eqn:Hi.
2:{ unfold RocketOptimizer._adjust_stage_geometry.
    now rewrite (index_None _ _ Hi). }
intros Hcat Htv.
destruct (adjust_stage_geometry_run o i stage new_diameter new_length
            Hi Hcat Htv)
  as (stage' & Hrun & Hd & Hl & _ & Hdm & Hpm & Htm & _ & Hsl & Hvac & _).
eexists. exists stage'. split; [exact Hrun |].
split; [| split; [| split; [| split; [| split; [| split]]]]].
- cbn [RocketOptimizer.set_stages RocketOptimizer.stages].
  eapply nth_error_list_set_eq. exact Hi.
- intros j Hj. cbn [RocketOptimizer.set_stages RocketOptimizer.stages].
  apply nth_error_list_set_neq. congruence.
- intros d ->. rewrite Hd. unfold Py.max.
  destruct (Rlt_dec 0.5 d); repeat split; lra.
- intros ->. exact Hd.
- intros l ->. rewrite Hl. unfold Py.max.
  destruct (Rlt_dec 1.0 l); repeat split; lra.
- intros ->. exact Hl.
- repeat split; assumption.
Qed.

Lemma adjust_stage_geometry_postcondition_witness :
  exists o' stage',
    RocketOptimizer._adjust_stage_geometry underpowered_optimizer 0
                                           (Some 0.1) (Some 20) = Ok o'
    /\ nth_error (RocketOptimizer.stages o') 0 = Some stage'
    /\ Stage.diameter stage' = 0.5
    /\ Stage.length stage' = 20
    /\ Stage.dry_mass stage' = 1000.
Proof.
pose proof (adjust_stage_geometry_postcondition
              underpowered_optimizer 0 (Some 0.1) (Some 20)) as H.
cbn [nth_error underpowered_optimizer RocketOptimizer.stages] in H.
destruct H as (o' & stage' & Hrun & Hi & _ & Hd & _ & Hl & _ & Hdm & _).
- unfold stage_propellant_ok. simpl. right. left. reflexivity.
- simpl. lra.
- exists o', stage'.
  destruct (Hd 0.1 eq_refl) as (Hd' & _).
  destruct (Hl 20 eq_refl) as (Hl' & _).
  repeat split; try assumption.
  + rewrite Hd'. unfold Py.max. destruct (Rlt_dec 0.5 0.1); lra.
  + rewrite Hl'. unfold Py.max. destruct (Rlt_dec 1.0 20); lra.
Defined.

(** *** [_adjust_structural_mass] *)

(** On a stage of non-zero diameter, with a safety factor that is not 0, the
    wall thickness is computed and is at least 2 mm. *)
Lemma wall_thickness_returns
      (o : RocketOptimizer.t) (i : nat) (stage : Stage.t) :
  nth_error (RocketOptimizer.stages o) i = Some stage ->
  Stage.diameter stage <> 0 ->
  RocketOptimizer.safety_factor o <> 0 ->
  exists thickness,
    RocketOptimizer._calculate_wall_thickness o i = Ok thickness
    /\ 0.002 <= thickness.
Proof.
intros Hi Hd Hs.
unfold RocketOptimizer._calculate_wall_thickness.
rewrite (index_Some _ _ _ Hi). cbn [bind].
assert (Harea : PI * Stage.diameter stage ^ 2 / 4 <> 0).
{ pose proof PI_RGT_0 as Hpi.
  assert (0 < Stage.diameter stage ^ 2) by (simpl; nra).
  nra. }
rewrite truediv_ok by exact Harea. cbn [bind].
assert (Hallow : 270e6 / RocketOptimizer.safety_factor o <> 0).
{ unfold Rdiv. apply Rmult_integral_contrapositive_currified;
    [lra | now apply Rinv_neq_0_compat]. }
rewrite (truediv_ok 270e6) by exact Hs. cbn [bind].
rewrite !truediv_ok by exact Hallow. cbn [bind].
eexists. split; [reflexivity |].
unfold RocketOptimizer.min_wall_thickness.
match goal with
| |- _ <= Py.max ?a (Py.max _ ?b) => generalize a; generalize b
end.
intros b a. unfold Py.max.
destruct (Rlt_dec 0.002 b); destruct (Rlt_dec a _); lra.
Qed.

(** One step of the structural pass on a sound design. *)
Lemma structural_mass_step_sound
      (o : RocketOptimizer.t) (i : nat) (stage : Stage.t) :
  optimizer_sound o ->
  nth_error (RocketOptimizer.stages o) i = Some stage ->
  exists stage',
    RocketOptimizer.structural_mass_step o i
    = Ok (RocketOptimizer.set_stages
            o (RocketOptimizer.list_set (RocketOptimizer.stages o) i stage'))
    /\ stage_sound stage'
    /\ 100 <= Stage.dry_mass stage'
    /\ Stage.propellant_mass stage' = Stage.propellant_mass stage
    /\ Stage.diameter stage' = Stage.diameter stage
    /\ Stage.length stage' = Stage.length stage
    /\ Stage.name stage' = Stage.name stage
    /\ Stage.propellant stage' = Stage.propellant stage.
Proof.
intros Hsound Hi.
pose proof Hsound as (_ & Hsf & _ & _ & Hall).
destruct (Forall_nth_error _ _ _ _ Hall Hi)
  as (_ & _ & _ & Hdia & _).
destruct (wall_thickness_returns o i stage Hi) as (w & Hw & _);
  [lra | exact Hsf |].
unfold RocketOptimizer.structural_mass_step.
rewrite (index_Some _ _ _ Hi). cbn [bind].
rewrite Hw. cbn [bind].
match goal with
| |- context [RocketOptimizer._update_stage_mass o i None (Some ?d)] =>
    destruct (update_stage_mass_sound o i stage None (Some d) Hsound Hi)
      as (stage' & Hrun & Hs' & Hp & Hd & Hdi & Hl & Hn & Hpr);
    pose proof (updated_mass_given d (Stage.dry_mass stage)) as Hge
end.
exists stage'. split; [exact Hrun |].
split; [exact Hs' |].
split; [rewrite Hd; exact Hge |].
split; [exact Hp |].
repeat split; assumption.
Qed.

(** A loop over the indices [k, k + m) keeps an invariant that each step
    carries from its index to the next. *)
Lemma for_each_stage_seq
      (Inv : nat -> RocketOptimizer.t -> Prop)
      (body : RocketOptimizer.t -> nat -> result RocketOptimizer.t)
      (m : nat) :
  forall (k : nat) (o : RocketOptimizer.t),
    (forall i o, (k <= i < k + m)%nat -> Inv i o ->
                 exists o', body o i = Ok o' /\ Inv (S i) o') ->
    Inv k o ->
    exists o',
      RocketOptimizer.for_each_stage body (seq k m) o = Ok o'
      /\ Inv (k + m)%nat o'.
Proof.
induction m as [| m IH]; intros k o Hstep Hinv.
- exists o. split; [reflexivity |]. now rewrite Nat.add_0_r.
- cbn [seq RocketOptimizer.for_each_stage].
  destruct (Hstep k o ltac:(lia) Hinv) as (o1 & E & Hinv1).
  rewrite E. cbn [bind].
  destruct (IH (S k) o1) as (o' & E' & Hinv').
  + intros i o2 Hi. apply Hstep. lia.
  + exact Hinv1.
  + exists o'. split; [exact E' |].
    now replace (k + S m)%nat with (S k + m)%nat by lia.
Qed.

Lemma Forall2_nth_error {A B : Type} (R : A -> B -> Prop) :
  forall (l : list A) (l' : list B),
    List.length l = List.length l' ->
    (forall j a b, nth_error l j = Some a -> nth_error l' j = Some b ->
                   R a b) ->
    Forall2 R l l'.
Proof.
induction l as [| a l IH]; intros [| b l'] Hlen H; simpl in Hlen;
  try discriminate.
- constructor.
- constructor.
  + apply (H 0%nat); reflexivity.
  + apply IH; [congruence |].
    intros j a' b' Ha Hb. apply (H (S j)); assumption.
Qed.

Lemma adjust_structural_mass_sound (o : RocketOptimizer.t) :
  optimizer_sound o ->
  exists o',
    RocketOptimizer._adjust_structural_mass o = Ok o'
    /\ optimizer_sound o'
    /\ same_settings o o'
    /\ RocketOptimizer.max_altitude o' = RocketOptimizer.max_altitude o
    /\ Forall2 (fun s s' => restructured s s' /\ 100 <= Stage.dry_mass s')
               (RocketOptimizer.stages o) (RocketOptimizer.stages o').
Proof.
intros Hsound.
set (n := List.length (RocketOptimizer.stages o)).
set (Inv := fun (k : nat) (o' : RocketOptimizer.t) =>
  optimizer_sound o'
  /\ same_settings o o'
  /\ RocketOptimizer.max_altitude o' = RocketOptimizer.max_altitude o
  /\ forall j s s',
       nth_error (RocketOptimizer.stages o) j = Some s ->
       nth_error (RocketOptimizer.stages o') j = Some s' ->
       restructured s s' /\ ((j < k)%nat -> 100 <= Stage.dry_mass s')).
destruct (for_each_stage_seq Inv RocketOptimizer.structural_mass_step
                             n 0 o) as (o' & E & Hinv).
- intros i o1 Hi (Hs1 & Hsame & Hmax & Hrel).
  assert (Hlen : List.length (RocketOptimizer.stages o1) = n)
    by (destruct Hsame as (_ & _ & _ & _ & Hlen); exact Hlen).
  destruct (nth_error_in_range (RocketOptimizer.stages o1) i)
    as (stage & Hstage); [lia |].
  destruct (structural_mass_step_sound o1 i stage Hs1 Hstage)
    as (stage' & Hrun & Hs' & Hdry & Hp & Hd & Hl & Hn & Hpr).
  destruct (optimizer_sound_set_stage o1 i stage' Hs1 Hs')
    as (Hsound' & Hsame').
  eexists. split; [exact Hrun |].
  split; [exact Hsound' |].
  split; [eapply same_settings_trans; eassumption |].
  split; [exact Hmax |].
  intros j s s' Hj Hj'.
  cbn [RocketOptimizer.set_stages RocketOptimizer.stages] in Hj'.
  destruct (Nat.eq_dec i j) as [<- | Hne].
  + rewrite (nth_error_list_set_eq _ _ _ _ Hstage) in Hj'.
    injection Hj' as <-.
    destruct (Hrel i s stage Hj Hstage) as ((R1 & R2 & R3 & R4 & R5) & _).
    split; [| intros _; exact Hdry].
    unfold restructured. repeat split; congruence.
  + rewrite nth_error_list_set_neq in Hj' by exact Hne.
    destruct (Hrel j s s' Hj Hj') as (Hr & Hlt).
    split; [exact Hr |]. intros Hlt'. apply Hlt. lia.
- unfold Inv. split; [exact Hsound |].
  split; [apply same_settings_refl |]. split; [reflexivity |].
  intros j s s' Hj Hj'. rewrite Hj in Hj'. injection Hj' as <-.
  split; [unfold restructured; repeat split | lia].
- destruct Hinv as (Hs' & Hsame & Hmax & Hrel).
  exists o'. split; [exact E |].
  split; [exact Hs' |]. split; [exact Hsame |]. split; [exact Hmax |].
  apply Forall2_nth_error.
  + destruct Hsame as (_ & _ & _ & _ & Hlen). symmetry. exact Hlen.
  + intros j a b Ha Hb. destruct (Hrel j a b Ha Hb) as (Hr & Hlt).
    split; [exact Hr |]. apply Hlt.
    apply nth_error_Some. fold n in Ha |- *. simpl. congruence.
Qed.

Lemma Forall2_Forall_r {A B : Type} (R : A -> B -> Prop) (P : B -> Prop)
      (l : list A) (l' : list B) :
  Forall2 R l l' -> Forall P l' ->
  Forall2 (fun a b => R a b /\ P b) l l'.
Proof.
induction 1 as [| a b l l' Hab Hl IH]; intros HP.
- constructor.
- inversion HP; subst. constructor; auto.
Qed.

Lemma underpowered_optimizer_sound : optimizer_sound underpowered_optimizer.
Proof.
unfold optimizer_sound, underpowered_optimizer, underpowered_rocket.
cbn [RocketOptimizer.payload_mass RocketOptimizer.safety_factor
     RocketOptimizer.rocket RocketOptimizer.stages].
split; [lra |]. split; [lra |].
split; [eexists; reflexivity |]. split; [discriminate |].
constructor; [| constructor].
unfold stage_sound, stage_masses_ok, stage_propellant_ok. simpl.
repeat split; try lra. right. left. reflexivity.
Qed.

(** X17. On a design with a positive payload, a safety factor that is not 0
    and sound stages, the structural pass returns: the design stays sound,
    every stage ends with a dry mass of at least 100 kg and a total mass that
    is the sum of its two masses, and keeps its propellant mass, diameter and
    length. *)
Theorem adjust_structural_mass_postcondition (o : RocketOptimizer.t) :
  optimizer_sound o ->
  exists o',
    RocketOptimizer._adjust_structural_mass o = Ok o'
    /\ optimizer_sound o'
    /\ Forall2 (fun s s' =>
                  100 <= Stage.dry_mass s'
                  /\ Stage.propellant_mass s' = Stage.propellant_mass s
                  /\ Stage.total_mass s'
                     = Stage.dry_mass s' + Stage.propellant_mass s'
                  /\ Stage.diameter s' = Stage.diameter s
                  /\ Stage.length s' = Stage.length s)
               (RocketOptimizer.stages o) (RocketOptimizer.stages o').
Proof.
intros Hsound.
destruct (adjust_structural_mass_sound o Hsound)
  as (o' & E & Hs' & _ & _ & Hrel).
exists o'. split; [exact E |]. split; [exact Hs' |].
destruct Hs' as (_ & _ & _ & _ & Hall).
pose proof (Forall2_Forall_r _ _ _ _ Hrel Hall) as H.
eapply Forall2_impl; [| exact H].
intros s s' (((Hp & Hd & Hl & _) & Hdry) & ((_ & _ & Ht) & _)).
repeat split; assumption.
Qed.

Lemma adjust_structural_mass_postcondition_witness :
  exists o',
    RocketOptimizer._adjust_structural_mass underpowered_optimizer = Ok o'
    /\ optimizer_sound o'
    /\ Forall2 (fun s s' =>
                  100 <= Stage.dry_mass s'
                  /\ Stage.propellant_mass s' = Stage.propellant_mass s
                  /\ Stage.total_mass s'
                     = Stage.dry_mass s' + Stage.propellant_mass s'
                  /\ Stage.diameter s' = Stage.diameter s
                  /\ Stage.length s' = Stage.length s)
               (RocketOptimizer.stages underpowered_optimizer)
               (RocketOptimizer.stages o').
Proof.
exact (adjust_structural_mass_postcondition
         underpowered_optimizer underpowered_optimizer_sound).
Defined.

(** *** The altitude estimate and the reports on a sound design *)

Lemma fold_left_length_pos (stages : list Stage.t) (a : R) :
  Forall stage_sound stages -> 0 <= a -> stages <> [] ->
  0 < fold_left (fun height stage => height + Stage.length stage) stages a.
Proof.
intros Hall. revert a.
induction Hall as [| s rest Hs Hrest IH]; intros a Ha Hne;
  [congruence |].
cbn [fold_left].
destruct Hs as (_ & _ & _ & _ & Hl).
destruct rest as [| s1 rest].
- simpl. lra.
- apply IH; [lra | discriminate].
Qed.

Lemma Forall_stage_masses_ok (stages : list Stage.t) :
  Forall stage_sound stages -> Forall stage_masses_ok stages.
Proof.
intros H. eapply Forall_impl; [| exact H]. now intros s (Hm & _).
Qed.

Lemma estimate_altitude_sound (o : RocketOptimizer.t) :
  optimizer_sound o ->
  exists estimate out,
    RocketOptimizer._estimate_altitude o = Ok (estimate, out).
Proof.
intros (Hp & _ & (name & Hr) & Hne & Hall).
destruct (RocketOptimizer.stages o) as [| s0 rest] eqn:Hst;
  [congruence |].
destruct (estimate_altitude_returns o _ s0 rest Hr Hst)
  as ([estimate out] & E).
- exact Hp.
- now apply Forall_stage_masses_ok.
- inversion Hall as [| ? ? (_ & _ & _ & Hd & _) _]; subst. exact Hd.
- unfold MultiStageRocket.get_height.
  cbn [MultiStageRocket.stages].
  assert (0 < fold_left (fun height stage => height + Stage.length stage)
                        (s0 :: rest) 0)
    by (apply fold_left_length_pos; [exact Hall | lra | discriminate]).
  lra.
- now exists estimate, out.
Qed.

Lemma total_delta_v_sound (o : RocketOptimizer.t) (r : MultiStageRocket.t) :
  optimizer_sound o -> RocketOptimizer.rocket o = Some r ->
  MultiStageRocket.stages r = RocketOptimizer.stages o
  /\ MultiStageRocket.payload_mass r = RocketOptimizer.payload_mass o
  /\ 0 < MultiStageRocket.get_total_mass r
  /\ exists dv, MultiStageRocket.get_total_delta_v r = Ok dv.
Proof.
intros (Hp & _ & (name & Hr) & _ & Hall) Hr'.
rewrite Hr in Hr'. injection Hr' as <-.
cbn [MultiStageRocket.stages MultiStageRocket.payload_mass].
split; [reflexivity |]. split; [reflexivity |].
pose proof (Forall_stage_masses_ok _ Hall) as Hok.
split.
- rewrite get_total_mass_vehicle by exact Hok.
  now apply vehicle_mass_pos.
- eexists. apply get_total_delta_v_staged; assumption.
Qed.

Lemma the_rocket_sound (o : RocketOptimizer.t) :
  optimizer_sound o ->
  exists r, RocketOptimizer.rocket o = Some r
            /\ RocketOptimizer.the_rocket o = Ok r.
Proof.
intros (_ & _ & (name & Hr) & _).
eexists. split; [exact Hr |].
unfold RocketOptimizer.the_rocket. now rewrite Hr.
Qed.

Lemma record_state_sound (i : nat) (o : RocketOptimizer.t) :
  optimizer_sound o ->
  exists entry, RocketOptimizer.record_state i o = Ok entry.
Proof.
intros Hsound.
destruct (the_rocket_sound o Hsound) as (r & Hr & Hthe).
destruct (total_delta_v_sound o r Hsound Hr) as (_ & _ & _ & dv & Hdv).
unfold RocketOptimizer.record_state.
rewrite Hthe. cbn [bind]. rewrite Hdv. cbn [bind].
eexists. reflexivity.
Qed.

Lemma get_mass_fractions_payload (r : MultiStageRocket.t) :
  MultiStageRocket.get_total_mass r <> 0 ->
  exists fractions,
    MultiStageRocket.get_mass_fractions r = Ok fractions
    /\ getitem fractions "payload"
       = Ok (MultiStageRocket.payload_mass r
             / MultiStageRocket.get_total_mass r).
Proof.
intros HM. unfold MultiStageRocket.get_mass_fractions.
rewrite truediv_ok by exact HM. cbn [bind].
rewrite mass_fractions_loop_entries; [| exact HM |].
- eexists. split; reflexivity.
- intros k Hk. left. simpl in Hk.
  destruct (String.eqb_spec k "payload"); [assumption | discriminate].
Qed.

Lemma print_final_design_sound (o : RocketOptimizer.t) :
  optimizer_sound o ->
  exists out, RocketOptimizer._print_final_design o = Ok out.
Proof.
intros Hsound.
destruct (the_rocket_sound o Hsound) as (r & Hr & Hthe).
destruct (total_delta_v_sound o r Hsound Hr) as (_ & _ & Hm & dv & Hdv).
destruct (get_mass_fractions_payload r) as (fr & Hfr & Hpay); [lra |].
unfold RocketOptimizer._print_final_design.
rewrite Hthe. cbn [bind]. rewrite Hdv. cbn [bind].
rewrite Hfr. cbn [bind]. rewrite Hpay. cbn [bind].
eexists. reflexivity.
Qed.

(** *** The steps of the optimization run keep the design sound *)

(** A loop over all stages whose body keeps the design sound. *)
Lemma for_each_stage_sound
      (body : RocketOptimizer.t -> nat -> result RocketOptimizer.t) :
  (forall o i stage,
     optimizer_sound o ->
     nth_error (RocketOptimizer.stages o) i = Some stage ->
     exists o', body o i = Ok o' /\ optimizer_sound o'
                /\ same_settings o o') ->
  forall o,
    optimizer_sound o ->
    exists o',
      RocketOptimizer.for_each_stage
        body (seq 0 (List.length (RocketOptimizer.stages o))) o = Ok o'
      /\ optimizer_sound o' /\ same_settings o o'.
Proof.
intros Hbody o Hsound.
set (n := List.length (RocketOptimizer.stages o)).
destruct (for_each_stage_seq
            (fun _ o' => optimizer_sound o' /\ same_settings o o')
            body n 0 o) as (o' & E & Hinv).
- intros i o1 Hi (Hs1 & Hsame).
  destruct (nth_error_in_range (RocketOptimizer.stages o1) i)
    as (stage & Hstage).
  { destruct Hsame as (_ & _ & _ & _ & Hlen). rewrite Hlen. fold n. lia. }
  destruct (Hbody o1 i stage Hs1 Hstage) as (o2 & E & Hs2 & Hsame2).
  exists o2. split; [exact E |]. split; [exact Hs2 |].
  eapply same_settings_trans; eassumption.
- split; [exact Hsound | apply same_settings_refl].
- exists o'. split; [exact E | exact Hinv].
Qed.

Lemma stage_sound_set_thrust (stage : Stage.t) (thrust_vac thrust_sl : R) :
  stage_sound stage -> 0 <= thrust_vac ->
  stage_sound (RocketOptimizer.set_thrust stage thrust_vac thrust_sl).
Proof.
intros (Hm & Hcat & _ & Hd & Hl) Htv.
unfold stage_sound, stage_masses_ok, stage_propellant_ok in *.
cbn [RocketOptimizer.set_thrust RocketOptimizer.set_masses Stage.dry_mass
     Stage.propellant_mass Stage.total_mass Stage.propellant
     Stage.thrust_vac Stage.diameter Stage.length].
repeat split; tauto.
Qed.

Lemma update_stage_mass_keeps
      (o : RocketOptimizer.t) (i : nat) (stage : Stage.t)
      (new_propellant_mass new_dry_mass : option R) :
  optimizer_sound o ->
  nth_error (RocketOptimizer.stages o) i = Some stage ->
  exists o' stage',
    RocketOptimizer._update_stage_mass o i new_propellant_mass new_dry_mass
    = Ok o'
    /\ optimizer_sound o' /\ same_settings o o'
    /\ nth_error (RocketOptimizer.stages o') i = Some stage'
    /\ stage_sound stage'.
Proof.
intros Hsound Hi.
destruct (update_stage_mass_sound o i stage new_propellant_mass
                                  new_dry_mass Hsound Hi)
  as (stage' & Hrun & Hs' & _).
destruct (optimizer_sound_set_stage o i stage' Hsound Hs') as (H1 & H2).
eexists. exists stage'. split; [exact Hrun |].
split; [exact H1 |]. split; [exact H2 |].
split; [| exact Hs'].
cbn [RocketOptimizer.set_stages RocketOptimizer.stages].
eapply nth_error_list_set_eq. exact Hi.
Qed.

Lemma adjust_propellant_step_sound
      (altitude_error error_ratio adjustment_factor : R)
      (o : RocketOptimizer.t) (j : nat) (stage : Stage.t) :
  optimizer_sound o ->
  nth_error (RocketOptimizer.stages o) j = Some stage ->
  exists o',
    RocketOptimizer.adjust_propellant_step
      altitude_error error_ratio adjustment_factor o j = Ok o'
    /\ optimizer_sound o' /\ same_settings o o'.
Proof.
intros Hsound Hj.
unfold RocketOptimizer.adjust_propellant_step.
rewrite (index_Some _ _ _ Hj). cbn [bind].
match goal with
| |- context [RocketOptimizer._update_stage_mass o j (Some ?p) None] =>
    destruct (update_stage_mass_keeps o j stage (Some p) None Hsound Hj)
      as (o1 & stage1 & E1 & Hs1 & Hsame1 & Hj1 & Hst1)
end.
destruct (Rlt_dec 0 altitude_error).
- rewrite E1. cbn [bind].
  destruct (Rlt_dec 0.2 error_ratio).
  + rewrite (index_Some _ _ _ Hj1). cbn [bind].
    match goal with
    | |- context [RocketOptimizer.set_thrust stage1 ?tv ?tsl] =>
        destruct (optimizer_sound_set_stage
                    o1 j (RocketOptimizer.set_thrust stage1 tv tsl) Hs1)
          as (Hs2 & Hsame2)
    end.
    { apply stage_sound_set_thrust; [exact Hst1 |].
      destruct Hst1 as (_ & _ & Htv & _). lra. }
    eexists. split; [reflexivity |]. split; [exact Hs2 |].
    eapply same_settings_trans; eassumption.
  + exists o1. split; [reflexivity |]. split; assumption.
- rewrite E1. exists o1. split; [reflexivity |]. split; assumption.
Qed.

Lemma reduce_propellant_sound (count : nat) :
  forall (i : nat) (o : RocketOptimizer.t)
         (out : list RocketOptimizer.run_output),
    optimizer_sound o ->
    (i < List.length (RocketOptimizer.stages o))%nat ->
    exists o' out',
      RocketOptimizer.reduce_propellant count i o out = Ok (o', out')
      /\ optimizer_sound o' /\ same_settings o o'.
Proof.
induction count as [| count IH]; intros i o out Hsound Hi.
- exists o, out. split; [reflexivity |].
  split; [exact Hsound | apply same_settings_refl].
- cbn [RocketOptimizer.reduce_propellant].
  destruct (nth_error_in_range _ _ Hi) as (stage & Hstage).
  rewrite (index_Some _ _ _ Hstage). cbn [bind].
  match goal with
  | |- context [RocketOptimizer._update_stage_mass o i (Some ?p) None] =>
      destruct (update_stage_mass_keeps o i stage (Some p) None
                                        Hsound Hstage)
        as (o1 & stage1 & E1 & Hs1 & Hsame1 & Hi1 & Hst1)
  end.
  rewrite E1. cbn [bind].
  destruct (estimate_altitude_sound o1 Hs1) as (alt & eout & Eest).
  rewrite Eest. cbn [bind].
  rewrite (index_Some _ _ _ Hi1). cbn [bind].
  destruct (update_stage_mass_keeps
              o1 i stage1 (Some (Stage.propellant_mass stage)) None
              Hs1 Hi1)
    as (o2 & stage2 & E2 & Hs2 & Hsame2 & _).
  destruct (Rlt_dec alt (RocketOptimizer.target_altitude o1 * 0.95)).
  { rewrite E2. cbn [bind]. do 2 eexists. split; [reflexivity |].
    split; [exact Hs2 |]. eapply same_settings_trans; eassumption. }
  destruct (Rlt_dec 10 (Stage.mass_ratio stage1)).
  { rewrite E2. cbn [bind]. do 2 eexists. split; [reflexivity |].
    split; [exact Hs2 |]. eapply same_settings_trans; eassumption. }
  match goal with
  | |- context [RocketOptimizer.reduce_propellant count i ?o' ?out'] =>
      destruct (IH i o' out') as (o3 & out3 & E3 & Hs3 & Hsame3)
  end.
  + exact Hs1.
  + destruct Hsame1 as (_ & _ & _ & _ & Hlen).
    cbn [RocketOptimizer.set_max_altitude RocketOptimizer.stages].
    rewrite Hlen. exact Hi.
  + exists o3, out3. split; [exact E3 |]. split; [exact Hs3 |].
    eapply same_settings_trans; [exact Hsame1 |].
    eapply same_settings_trans; [| exact Hsame3].
    apply same_settings_max_altitude.
Qed.

Lemma optimize_mass_loop_sound (indices : list nat) :
  forall (o : RocketOptimizer.t) (out : list RocketOptimizer.run_output),
    optimizer_sound o ->
    Forall (fun i => (i < List.length (RocketOptimizer.stages o))%nat)
           indices ->
    exists o' out',
      RocketOptimizer.optimize_mass_loop indices o out = Ok (o', out')
      /\ optimizer_sound o' /\ same_settings o o'.
Proof.
induction indices as [| i rest IH]; intros o out Hsound Hall.
- exists o, out. split; [reflexivity |].
  split; [exact Hsound | apply same_settings_refl].
- inversion Hall as [| ? ? Hi Hrest]; subst.
  cbn [RocketOptimizer.optimize_mass_loop].
  destruct (reduce_propellant_sound 10 i o out Hsound Hi)
    as (o1 & out1 & E1 & Hs1 & Hsame1).
  rewrite E1. cbn [bind].
  destruct (IH o1 out1 Hs1) as (o2 & out2 & E2 & Hs2 & Hsame2).
  + destruct Hsame1 as (_ & _ & _ & _ & Hlen). rewrite Hlen. exact Hrest.
  + exists o2, out2. split; [exact E2 |]. split; [exact Hs2 |].
    eapply same_settings_trans; eassumption.
Qed.

Lemma seq_below (n : nat) : Forall (fun i => (i < n)%nat) (seq 0 n).
Proof.
apply Forall_forall. intros i Hi. apply in_seq in Hi. lia.
Qed.

Lemma optimize_mass_sound
      (o : RocketOptimizer.t) (out : list RocketOptimizer.run_output) :
  optimizer_sound o ->
  exists o' out',
    RocketOptimizer._optimize_mass o out = Ok (o', out')
    /\ optimizer_sound o' /\ same_settings o o'.
Proof.
intros Hsound.
unfold RocketOptimizer._optimize_mass.
match goal with
| |- context [RocketOptimizer.optimize_mass_loop ?l o ?out'] =>
    destruct (optimize_mass_loop_sound l o out' Hsound (seq_below _))
      as (o1 & out1 & E1 & Hs1 & Hsame1)
end.
rewrite E1. cbn [bind].
destruct (adjust_structural_mass_sound o1 Hs1)
  as (o2 & E2 & Hs2 & Hsame2 & _).
rewrite E2. cbn [bind].
destruct (estimate_altitude_sound o2 Hs2) as (alt & eout & Eest).
rewrite Eest. cbn [bind].
do 2 eexists. split; [reflexivity |]. split; [exact Hs2 |].
eapply same_settings_trans; [exact Hsame1 |].
eapply same_settings_trans; [exact Hsame2 |].
apply same_settings_max_altitude.
Qed.

(** *** [_adjust_geometry] *)

Lemma math_pow_pos (x y : R) : 0 < x -> math_pow x y = Ok (Rpower x y).
Proof.
intros H. unfold math_pow. destruct (Rlt_dec 0 x); [reflexivity | lra].
Qed.

Lemma Rpower_third_cubed (x : R) :
  0 < x -> Rpower x (1 / 3) * Rpower x (1 / 3) * Rpower x (1 / 3) = x.
Proof.
intros H. rewrite <- !Rpower_plus.
replace (1 / 3 + 1 / 3 + 1 / 3) with 1 by lra.
now apply Rpower_1.
Qed.

Lemma adjusted_l_to_d_bounds (error_ratio current : R) :
  3 <= adjusted_l_to_d error_ratio current <= 12.
Proof.
unfold adjusted_l_to_d, Py.max, Py.min.
destruct (Rlt_dec 0 error_ratio);
  repeat match goal with
         | |- context [Rlt_dec ?a ?b] => destruct (Rlt_dec a b)
         end; lra.
Qed.

Lemma getitem_int_table_set (table : list (Z * list R)) (k : Z) (i : nat)
      (a : R) (row : list R) :
  RocketOptimizer.getitem_int table k = Ok row ->
  RocketOptimizer.getitem_int (RocketOptimizer.table_set table k i a) k
  = Ok (RocketOptimizer.list_set row i a).
Proof.
induction table as [| [k' row'] rest IH]; intros H; simpl in *;
  [discriminate |].
destruct (Z.eqb_spec k k') as [-> | Hne].
- simpl. rewrite Z.eqb_refl. now injection H as ->.
- simpl. destruct (Z.eqb_spec k k'); [contradiction |]. now apply IH.
Qed.

Lemma stage_volume_pos (stage : Stage.t) :
  0 < Stage.diameter stage -> 0 < Stage.length stage ->
  0 < stage_volume stage.
Proof.
intros Hd Hl. unfold stage_volume. pose proof PI_RGT_0 as Hpi.
assert (0 < (Stage.diameter stage / 2) ^ 2) by (simpl; nra).
assert (0 < PI * (Stage.diameter stage / 2) ^ 2) by nra.
nra.
Qed.

(** One step of [_adjust_geometry] on a sound stage. *)
Lemma adjust_geometry_step_run
      (error_ratio : R) (o : RocketOptimizer.t) (table : list (Z * list R))
      (i : nat) (stage : Stage.t) (row : list R) (current : R) :
  nth_error (RocketOptimizer.stages o) i = Some stage ->
  stage_sound stage ->
  RocketOptimizer.getitem_int table (RocketOptimizer.num_stages o) = Ok row ->
  nth_error row i = Some current ->
  exists stage',
    RocketOptimizer.adjust_geometry_step error_ratio (o, table) i
    = Ok (RocketOptimizer.set_stages
            o (RocketOptimizer.list_set (RocketOptimizer.stages o) i stage'),
          RocketOptimizer.table_set
            table (RocketOptimizer.num_stages o) i
            (adjusted_l_to_d error_ratio current))
    /\ regeometried error_ratio current stage stage'
    /\ stage_sound stage'.
Proof.
intros Hi (Hm & Hcat & Htv & Hd & Hl) Hrow Hcur.
pose proof (adjusted_l_to_d_bounds error_ratio current) as Hld.
pose proof (stage_volume_pos stage Hd Hl) as Hvol.
pose proof PI_RGT_0 as Hpi.
unfold RocketOptimizer.adjust_geometry_step.
rewrite (index_Some _ _ _ Hi). cbn [bind].
rewrite Hrow. cbn [bind].
rewrite (index_Some _ _ _ Hcur). cbn [bind].
fold (adjusted_l_to_d error_ratio current).
fold (stage_volume stage).
set (ld := adjusted_l_to_d error_ratio current) in *.
assert (Harg : 0 < stage_volume stage * ld * 4 / PI).
{ apply Rdiv_lt_0_compat; [nra | exact Hpi]. }
rewrite math_pow_pos by exact Harg. cbn [bind].
fold (adjusted_length stage ld).
rewrite truediv_ok by lra. cbn [bind].
destruct (adjust_stage_geometry_run
            o i stage (Some (adjusted_length stage ld / ld))
            (Some (adjusted_length stage ld)) Hi Hcat Htv)
  as (stage' & Hrun & Hd' & Hl' & Hn & Hdm & Hpm & Htm & Hmr & Hsl & Hvac
      & Hbt & Hpr).
rewrite Hrun. cbn [bind].
cbn [RocketOptimizer.set_stages RocketOptimizer.num_stages].
rewrite Hrow. cbn [bind].
rewrite (index_Some _ _ _ Hcur). cbn [bind].
exists stage'. split; [reflexivity |].
split.
- unfold regeometried. fold ld. repeat split; assumption.
- destruct Hm as (Hm1 & Hm2 & Hm3).
  unfold stage_sound, stage_masses_ok, stage_propellant_ok.
  rewrite Hdm, Hpm, Htm, Hvac, Hpr, Hd', Hl'.
  repeat split; try assumption.
  + unfold Py.max. destruct (Rlt_dec 0.5 _); lra.
  + unfold Py.max. destruct (Rlt_dec 1.0 _); lra.
Qed.

(** The loop of [_adjust_geometry] over the indices [k, k + m) keeps an
    invariant that each step carries from its index to the next. *)
Lemma adjust_geometry_loop_seq
      (Inv : nat -> RocketOptimizer.t * list (Z * list R) -> Prop)
      (error_ratio : R) (m : nat) :
  forall (k : nat) (state : RocketOptimizer.t * list (Z * list R)),
    (forall i state, (k <= i < k + m)%nat -> Inv i state ->
       exists state',
         RocketOptimizer.adjust_geometry_step error_ratio state i = Ok state'
         /\ Inv (S i) state') ->
    Inv k state ->
    exists state',
      RocketOptimizer.adjust_geometry_loop error_ratio (seq k m) state
      = Ok state'
      /\ Inv (k + m)%nat state'.
Proof.
induction m as [| m IH]; intros k state Hstep Hinv.
- exists state. split; [reflexivity |]. now rewrite Nat.add_0_r.
- cbn [seq RocketOptimizer.adjust_geometry_loop].
  destruct (Hstep k state ltac:(lia) Hinv) as (st1 & E & Hinv1).
  rewrite E. cbn [bind].
  destruct (IH (S k) st1) as (st' & E' & Hinv').
  + intros i st2 Hi. apply Hstep. lia.
  + exact Hinv1.
  + exists st'. split; [exact E' |].
    now replace (k + S m)%nat with (S k + m)%nat by lia.
Qed.

(** [_adjust_geometry] on a sound design whose table has a row for it. *)
Lemma adjust_geometry_sound
      (error_ratio : R) (o : RocketOptimizer.t)
      (table : list (Z * list R)) (row : list R) :
  optimizer_sound o ->
  RocketOptimizer.getitem_int table (RocketOptimizer.num_stages o) = Ok row ->
  (List.length (RocketOptimizer.stages o) <= List.length row)%nat ->
  exists o' table' row',
    RocketOptimizer._adjust_geometry o table error_ratio = Ok (o', table')
    /\ optimizer_sound o'
    /\ same_settings o o'
    /\ RocketOptimizer.max_altitude o' = RocketOptimizer.max_altitude o
    /\ RocketOptimizer.getitem_int table' (RocketOptimizer.num_stages o)
       = Ok row'
    /\ List.length row' = List.length row
    /\ forall j stage current,
         nth_error (RocketOptimizer.stages o) j = Some stage ->
         nth_error row j = Some current ->
         exists stage',
           nth_error (RocketOptimizer.stages o') j = Some stage'
           /\ nth_error row' j = Some (adjusted_l_to_d error_ratio current)
           /\ regeometried error_ratio current stage stage'.
Proof.
intros Hsound Hrow Hlen.
set (n := List.length (RocketOptimizer.stages o)).
set (Inv := fun (k : nat) (st : RocketOptimizer.t * list (Z * list R)) =>
  optimizer_sound (fst st)
  /\ same_settings o (fst st)
  /\ RocketOptimizer.max_altitude (fst st) = RocketOptimizer.max_altitude o
  /\ exists row',
       RocketOptimizer.getitem_int (snd st) (RocketOptimizer.num_stages o)
       = Ok row'
       /\ List.length row' = List.length row
       /\ forall j,
            ((j < k)%nat ->
             forall stage current,
               nth_error (RocketOptimizer.stages o) j = Some stage ->
               nth_error row j = Some current ->
               exists stage',
                 nth_error (RocketOptimizer.stages (fst st)) j = Some stage'
                 /\ nth_error row' j
                    = Some (adjusted_l_to_d error_ratio current)
                 /\ regeometried error_ratio current stage stage')
            /\ ((k <= j)%nat ->
                nth_error (RocketOptimizer.stages (fst st)) j
                = nth_error (RocketOptimizer.stages o) j
                /\ nth_error row' j = nth_error row j)).
destruct (adjust_geometry_loop_seq Inv error_ratio n 0 (o, table))
  as ([o' table'] & E & Hinv).
- intros i [o1 t1] Hi (Hs1 & Hsame & Hmax & row1 & Hrow1 & Hlen1 & Hrel).
  cbn [fst snd] in *.
  destruct (Hrel i) as (_ & Hsame_i). destruct (Hsame_i (le_n i))
    as (Hst_i & Hrow_i).
  destruct (nth_error_in_range (RocketOptimizer.stages o) i)
    as (stage & Hstage); [fold n; lia |].
  destruct (nth_error_in_range row i) as (current & Hcur); [fold n in Hlen; lia |].
  rewrite Hstage in Hst_i. rewrite Hcur in Hrow_i.
  pose proof Hs1 as (_ & _ & _ & _ & Hall1).
  pose proof (Forall_nth_error _ _ _ _ Hall1 Hst_i) as Hss.
  assert (Hnum : RocketOptimizer.num_stages o1 = RocketOptimizer.num_stages o)
    by (destruct Hsame as (_ & _ & Hnum & _); exact Hnum).
  destruct (adjust_geometry_step_run error_ratio o1 t1 i stage row1 current
              Hst_i Hss) as (stage' & Hrun & Hre & Hss').
  { rewrite Hnum. exact Hrow1. }
  { exact Hrow_i. }
  destruct (optimizer_sound_set_stage o1 i stage' Hs1 Hss')
    as (Hs2 & Hsame2).
  eexists. split; [exact Hrun |].
  unfold Inv. cbn [fst snd].
  split; [exact Hs2 |].
  split; [eapply same_settings_trans; eassumption |].
  split; [exact Hmax |].
  exists (RocketOptimizer.list_set row1 i (adjusted_l_to_d error_ratio current)).
  split.
  { rewrite Hnum. apply getitem_int_table_set. exact Hrow1. }
  split; [rewrite length_list_set; exact Hlen1 |].
  intros j. cbn [RocketOptimizer.set_stages RocketOptimizer.stages].
  split.
  + intros Hj stage_j current_j Hsj Hcj.
    destruct (Nat.eq_dec i j) as [<- | Hne].
    * rewrite Hstage in Hsj. injection Hsj as <-.
      rewrite Hcur in Hcj. injection Hcj as <-.
      exists stage'.
      rewrite (nth_error_list_set_eq _ _ _ _ Hst_i).
      rewrite (nth_error_list_set_eq _ _ _ _ Hrow_i).
      split; [reflexivity |]. split; [reflexivity | exact Hre].
    * rewrite !nth_error_list_set_neq by exact Hne.
      destruct (Hrel j) as (Hdone & _).
      apply Hdone; [lia | assumption | assumption].
  + intros Hj.
    rewrite !nth_error_list_set_neq by lia.
    destruct (Hrel j) as (_ & Hkeep). apply Hkeep. lia.
- unfold Inv. cbn [fst snd].
  split; [exact Hsound |]. split; [apply same_settings_refl |].
  split; [reflexivity |].
  exists row. split; [exact Hrow |]. split; [reflexivity |].
  intros j. split; [lia | intros _; split; reflexivity].
- destruct Hinv as (Hs' & Hsame & Hmax & row' & Hrow' & Hlen' & Hrel).
  cbn [fst snd] in *.
  exists o', table', row'.
  split; [exact E |]. split; [exact Hs' |]. split; [exact Hsame |].
  split; [exact Hmax |]. split; [exact Hrow' |]. split; [exact Hlen' |].
  intros j stage current Hsj Hcj.
  destruct (Hrel j) as (Hdone & _).
  apply Hdone; [| assumption | assumption].
  apply nth_error_Some. fold n in Hsj |- *. simpl. congruence.
Qed.

Lemma Rpower_third_ge (a x : R) :
  0 < a -> a * a * a <= x -> a <= Rpower x (1 / 3).
Proof.
intros Ha Hx.
assert (Ha2 : 0 < a * a) by nra.
assert (Ha3 : 0 < a * a * a) by nra.
assert (Hx0 : 0 < x) by lra.
pose proof (Rpower_third_cubed x Hx0) as Hc.
pose proof (Rpower_pos x (1 / 3)) as Hr.
set (r := Rpower x (1 / 3)) in *.
destruct (Rle_lt_dec a r) as [H | H]; [exact H | exfalso].
assert (r * r < a * a) by nra.
assert (r * r * r < a * a * a) by nra.
lra.
Qed.

Lemma py_max_of_le (a b : R) : a <= b -> Py.max a b = b.
Proof. intros H. unfold Py.max. destruct (Rlt_dec a b); lra. Qed.

(** A stage that gets the geometry of [_adjust_geometry] with neither floor
    applied has the new length-to-diameter ratio and its volume divided by
    it. *)
Lemma regeometried_volume (error_ratio current : R) (stage stage' : Stage.t) :
  0 < Stage.diameter stage -> 0 < Stage.length stage ->
  regeometried error_ratio current stage stage' ->
  let l_to_d := adjusted_l_to_d error_ratio current in
  0.5 <= adjusted_length stage l_to_d / l_to_d ->
  1 <= adjusted_length stage l_to_d ->
  Stage.length stage' = l_to_d * Stage.diameter stage'
  /\ stage_volume stage' * l_to_d = stage_volume stage.
Proof.
intros Hd Hl (Hd' & Hl' & _) ld Hwide Hlong.
fold ld in Hd', Hl'.
pose proof (adjusted_l_to_d_bounds error_ratio current) as Hld. fold ld in Hld.
pose proof (stage_volume_pos stage Hd Hl) as Hvol.
pose proof PI_RGT_0 as Hpi.
rewrite py_max_of_le in Hd' by exact Hwide.
rewrite py_max_of_le in Hl' by lra.
assert (Harg : 0 < stage_volume stage * ld * 4 / PI).
{ apply Rdiv_lt_0_compat; [nra | exact Hpi]. }
pose proof (Rpower_third_cubed _ Harg) as Hcube.
fold (adjusted_length stage ld) in Hcube.
set (L := adjusted_length stage ld) in *.
split.
- rewrite Hd', Hl'. field. lra.
- unfold stage_volume at 1. rewrite Hd', Hl'.
  replace (PI * (L / ld / 2) ^ 2 * L * ld)
    with (PI / (4 * ld) * (L * L * L)) by (field; lra).
  rewrite Hcube. field. lra.
Qed.

(** X18. On a sound design whose table has a row for its stages,
    [_adjust_geometry] returns, and for every stage: the table entry moves by
    5 % and is kept within 3 and 12, the stage ends with a diameter of at
    least 0.5 m and a length of at least 1 m, its masses are untouched, and
    when neither floor applies the stage has the new length-to-diameter ratio
    and a volume that is the old volume divided by that ratio. *)
Theorem adjust_geometry_divides_volume
        (error_ratio : R) (o : RocketOptimizer.t)
        (table : list (Z * list R)) (row : list R) :
  optimizer_sound o ->
  RocketOptimizer.getitem_int table (RocketOptimizer.num_stages o) = Ok row ->
  (List.length (RocketOptimizer.stages o) <= List.length row)%nat ->
  exists o' table' row',
    RocketOptimizer._adjust_geometry o table error_ratio = Ok (o', table')
    /\ RocketOptimizer.getitem_int table' (RocketOptimizer.num_stages o)
       = Ok row'
    /\ forall j stage current,
         nth_error (RocketOptimizer.stages o) j = Some stage ->
         nth_error row j = Some current ->
         exists stage' l_to_d,
           nth_error (RocketOptimizer.stages o') j = Some stage'
           /\ nth_error row' j = Some l_to_d
           /\ l_to_d = adjusted_l_to_d error_ratio current
           /\ 3 <= l_to_d <= 12
           /\ 0.5 <= Stage.diameter stage'
           /\ 1 <= Stage.length stage'
           /\ Stage.dry_mass stage' = Stage.dry_mass stage
           /\ Stage.propellant_mass stage' = Stage.propellant_mass stage
           /\ (0.5 <= adjusted_length stage l_to_d / l_to_d ->
               1 <= adjusted_length stage l_to_d ->
               Stage.length stage' = l_to_d * Stage.diameter stage'
               /\ stage_volume stage' * l_to_d = stage_volume stage).
Proof.
intros Hsound Hrow Hlen.
destruct (adjust_geometry_sound error_ratio o table row Hsound Hrow Hlen)
  as (o' & table' & row' & E & _ & _ & _ & Hrow' & _ & Hrel).
exists o', table', row'. split; [exact E |]. split; [exact Hrow' |].
intros j stage current Hj Hc.
destruct (Hrel j stage current Hj Hc) as (stage' & Hj' & Hc' & Hre).
exists stage', (adjusted_l_to_d error_ratio current).
split; [exact Hj' |]. split; [exact Hc' |]. split; [reflexivity |].
split; [apply adjusted_l_to_d_bounds |].
pose proof Hre as (Hd' & Hl' & Hdm & Hpm & _).
split; [rewrite Hd'; unfold Py.max; destruct (Rlt_dec 0.5 _); lra |].
split; [rewrite Hl'; unfold Py.max; destruct (Rlt_dec 1.0 _); lra |].
split; [exact Hdm |]. split; [exact Hpm |].
destruct Hsound as (_ & _ & _ & _ & Hall).
destruct (Forall_nth_error _ _ _ _ Hall Hj) as (_ & _ & _ & Hd & Hl).
intros Hwide Hlong.
exact (regeometried_volume error_ratio current stage stage' Hd Hl Hre
                           Hwide Hlong).
Qed.

Lemma adjust_geometry_divides_volume_witness :
  exists o' table' stage',
    RocketOptimizer._adjust_geometry
      underpowered_optimizer RocketOptimizer.initial_stage_l_to_d 1
    = Ok (o', table')
    /\ nth_error (RocketOptimizer.stages o') 0 = Some stage'
    /\ Stage.length stage' = 7.6 * Stage.diameter stage'
    /\ stage_volume stage' * 7.6 = stage_volume underpowered_stage.
Proof.
destruct (adjust_geometry_divides_volume
            1 underpowered_optimizer RocketOptimizer.initial_stage_l_to_d
            [8.0] underpowered_optimizer_sound eq_refl (le_n 1))
  as (o' & table' & row' & E & _ & Hrel).
destruct (Hrel 0%nat underpowered_stage 8.0 eq_refl eq_refl)
  as (stage' & ld & Hj & _ & Hld & _ & _ & _ & _ & _ & Hvol).
assert (Hld' : ld = 7.6).
{ rewrite Hld. unfold adjusted_l_to_d, Py.max, Py.min.
  destruct (Rlt_dec 0 1); [| lra].
  destruct (Rlt_dec (8.0 * 0.95) 12.0); [| lra].
  destruct (Rlt_dec 3.0 (8.0 * 0.95)); lra. }
subst ld. rewrite Hld' in Hvol.
assert (Harg : stage_volume underpowered_stage * 7.6 * 4 / PI = 256.5).
{ unfold stage_volume, underpowered_stage. simpl.
  pose proof PI_RGT_0 as Hpi.
  assert (Hcancel : forall c, PI * c / PI = c) by (intros c; field; lra).
  rewrite <- (Hcancel 256.5). unfold Rdiv. lra. }
assert (Hlong : 3.8 <= adjusted_length underpowered_stage 7.6).
{ unfold adjusted_length. rewrite Harg.
  apply Rpower_third_ge; lra. }
destruct Hvol as (H1 & H2).
- apply (Rmult_le_reg_r 7.6); [lra |].
  unfold Rdiv. rewrite Rmult_assoc, Rinv_l by lra. lra.
- lra.
- exists o', table', stage'. repeat split; assumption.
Defined.

(** *** The optimization run *)

Lemma optimize_loop_sound (iterations : nat) (adjustment_factor : R)
      (remaining : list nat) :
  forall state : RocketOptimizer.run,
    optimizer_sound (RocketOptimizer.opt state) ->
    table_ready (RocketOptimizer.l_to_d state) (RocketOptimizer.opt state) ->
    RocketOptimizer.target_altitude (RocketOptimizer.opt state) <> 0 ->
    exists state',
      RocketOptimizer.optimize_loop iterations adjustment_factor
                                    remaining state = Ok state'
      /\ optimizer_sound (RocketOptimizer.opt state')
      /\ same_settings (RocketOptimizer.opt state)
                       (RocketOptimizer.opt state')
      /\ (List.length (RocketOptimizer.optimization_history state)
          <= List.length (RocketOptimizer.optimization_history state')
          <= List.length (RocketOptimizer.optimization_history state)
             + List.length remaining)%nat.
Proof.
induction remaining as [| i rest IH]; intros state Hsound Hready Htarget.
- exists state. split; [reflexivity |]. split; [exact Hsound |].
  split; [apply same_settings_refl | simpl; lia].
- cbn [RocketOptimizer.optimize_loop].
  rewrite truediv_ok by exact Htarget. cbn [bind].
  match goal with
  | |- context [Rlt_dec (Rabs ?e) 0.05] => set (error_ratio := e)
  end.
  destruct (Rlt_dec (Rabs error_ratio) 0.05).
  + match goal with
    | |- context [RocketOptimizer._optimize_mass ?o ?out] =>
        destruct (optimize_mass_sound o out Hsound)
          as (o1 & out1 & E1 & Hs1 & Hsame1)
    end.
    rewrite E1. cbn [bind].
    eexists. split; [reflexivity |].
    cbn [RocketOptimizer.opt RocketOptimizer.optimization_history].
    split; [exact Hs1 |]. split; [exact Hsame1 |]. simpl. lia.
  + match goal with
    | |- context [RocketOptimizer.for_each_stage ?body _ _] =>
        destruct (for_each_stage_sound body) with (o := RocketOptimizer.opt state)
          as (o1 & E1 & Hs1 & Hsame1)
    end.
    { intros o0 j stage Hs0 Hj.
      now apply (adjust_propellant_step_sound _ _ _ o0 j stage). }
    { exact Hsound. }
    rewrite E1. cbn [bind].
    destruct (adjust_structural_mass_sound o1 Hs1)
      as (o2 & E2 & Hs2 & Hsame2 & _).
    rewrite E2. cbn [bind].
    assert (Hsame12 : same_settings (RocketOptimizer.opt state) o2)
      by (eapply same_settings_trans; eassumption).
    assert (Hgeo :
      exists o3 table3,
        (if (i mod 3 =? 0)%nat
         then RocketOptimizer._adjust_geometry
                o2 (RocketOptimizer.l_to_d state) error_ratio
         else Ok (o2, RocketOptimizer.l_to_d state)) = Ok (o3, table3)
        /\ optimizer_sound o3 /\ same_settings o2 o3
        /\ table_ready table3 o3).
    { destruct Hready as (row & Hrow & Hlen).
      pose proof Hsame12 as (_ & _ & Hnum & _ & Hlen12).
      destruct (i mod 3 =? 0)%nat.
      - destruct (adjust_geometry_sound
                    error_ratio o2 (RocketOptimizer.l_to_d state) row Hs2)
          as (o3 & table3 & row3 & E3 & Hs3 & Hsame3 & _ & Hrow3 & Hlen3
              & _).
        { rewrite Hnum. exact Hrow. }
        { rewrite Hlen12. exact Hlen. }
        exists o3, table3. split; [exact E3 |]. split; [exact Hs3 |].
        split; [exact Hsame3 |].
        exists row3. destruct Hsame3 as (_ & _ & Hnum3 & _ & Hl3).
        split; [rewrite Hnum3; exact Hrow3 |].
        rewrite Hl3, Hlen3, Hlen12. exact Hlen.
      - exists o2, (RocketOptimizer.l_to_d state).
        split; [reflexivity |]. split; [exact Hs2 |].
        split; [apply same_settings_refl |].
        exists row. split; [rewrite Hnum; exact Hrow |].
        rewrite Hlen12. exact Hlen. }
    destruct Hgeo as (o3 & table3 & E3 & Hs3 & Hsame3 & Hready3).
    rewrite E3. cbn [bind].
    destruct (estimate_altitude_sound o3 Hs3) as (alt & eout & Eest).
    rewrite Eest. cbn [bind].
    destruct (record_state_sound
                i (RocketOptimizer.set_max_altitude o3 alt)
                (optimizer_sound_max_altitude o3 alt Hs3))
      as (entry & Eentry).
    rewrite Eentry. cbn [bind].
    match goal with
    | |- context [RocketOptimizer.optimize_loop _ _ rest ?st] =>
        destruct (IH st) as (state' & E' & Hs' & Hsame' & Hhist)
    end.
    * exact Hs3.
    * exact Hready3.
    * cbn [RocketOptimizer.opt RocketOptimizer.set_max_altitude
           RocketOptimizer.target_altitude].
      destruct Hsame3 as (Ht3 & _). destruct Hsame12 as (Ht12 & _).
      rewrite Ht3, Ht12. exact Htarget.
    * exists state'. split; [exact E' |]. split; [exact Hs' |].
      split.
      -- eapply same_settings_trans; [exact Hsame12 |].
         eapply same_settings_trans; [exact Hsame3 |].
         eapply same_settings_trans; [| exact Hsame'].
         apply same_settings_max_altitude.
      -- cbn [RocketOptimizer.optimization_history] in Hhist.
         rewrite length_app in Hhist. simpl in *. lia.
Qed.

Lemma Forall2_right {A B : Type} (P : B -> Prop) (R : A -> B -> Prop)
      (l : list A) (l' : list B) :
  Forall2 (fun a b => R a b /\ P b) l l' -> Forall P l'.
Proof. induction 1 as [| a b l l' (_ & Hb) _ IH]; constructor; auto. Qed.

Lemma optimize_to_altitude_sound
      (state : RocketOptimizer.run) (iterations : nat)
      (adjustment_factor : R) :
  optimizer_sound (RocketOptimizer.opt state) ->
  table_ready (RocketOptimizer.l_to_d state) (RocketOptimizer.opt state) ->
  RocketOptimizer.target_altitude (RocketOptimizer.opt state) <> 0 ->
  exists rocket state',
    RocketOptimizer.optimize_to_altitude state iterations adjustment_factor
    = Ok (rocket, state')
    /\ optimizer_sound (RocketOptimizer.opt state')
    /\ same_settings (RocketOptimizer.opt state) (RocketOptimizer.opt state')
    /\ RocketOptimizer.rocket (RocketOptimizer.opt state') = Some rocket
    /\ Forall (fun s => 100 <= Stage.dry_mass s)
              (RocketOptimizer.stages (RocketOptimizer.opt state'))
    /\ (List.length (RocketOptimizer.optimization_history state) + 1
        <= List.length (RocketOptimizer.optimization_history state')
        <= List.length (RocketOptimizer.optimization_history state) + 1
           + iterations)%nat.
Proof.
intros Hsound Hready Htarget.
unfold RocketOptimizer.optimize_to_altitude.
destruct (record_state_sound 0 _ Hsound) as (entry & Eentry).
rewrite Eentry. cbn [bind].
match goal with
| |- context [RocketOptimizer.optimize_loop _ _ ?l ?st] =>
    destruct (optimize_loop_sound iterations adjustment_factor l st)
      as (st1 & E1 & Hs1 & Hsame1 & Hhist)
end; [exact Hsound | exact Hready | exact Htarget |].
rewrite E1. cbn [bind].
destruct (adjust_structural_mass_sound _ Hs1)
  as (o2 & E2 & Hs2 & Hsame2 & _ & Hrel).
rewrite E2. cbn [bind].
destruct (print_final_design_sound o2 Hs2) as (fout & Ef).
rewrite Ef. cbn [bind].
destruct (the_rocket_sound o2 Hs2) as (r & Hr & Hthe).
rewrite Hthe. cbn [bind].
do 2 eexists. split; [reflexivity |].
cbn [RocketOptimizer.opt RocketOptimizer.optimization_history] in *.
split; [exact Hs2 |].
split; [eapply same_settings_trans; eassumption |].
split; [exact Hr |].
split; [exact (Forall2_right _ _ _ _ Hrel) |].
rewrite length_app, length_seq in Hhist. simpl in Hhist. lia.
Qed.

(** *** From the constructor to the optimized rocket *)

(** Every stage the constructor builds from a positive mass is sound. *)
Lemma initial_stage_sound (target tme : R) (n : Z) (i : nat)
      (fs : list R) (f : R) (ps : list string) (ptype : string) :
  RocketOptimizer.stage_mass_fractions n = Ok fs ->
  nth_error fs i = Some f ->
  RocketOptimizer.stage_propellants n = Ok ps ->
  nth_error ps i = Some ptype ->
  0 < tme * f ->
  exists s,
    RocketOptimizer.initial_stage target tme n i = Ok s /\ stage_sound s.
Proof.
intros Hfs Hf Hps Hp Hpos.
unfold RocketOptimizer.initial_stage.
rewrite Hfs. cbn [bind]. unfold RocketOptimizer.index at 1.
rewrite Hf. cbn [bind].
rewrite Hps. cbn [bind]. unfold RocketOptimizer.index.
rewrite Hp. cbn [bind].
set (base := if Rlt_dec target 100000 then 1.5
             else if Rlt_dec target 400000 then 3.7 else 8.4).
assert (Hbase : 0 < base).
{ unfold base. destruct (Rlt_dec target 100000); [lra |].
  destruct (Rlt_dec target 400000); lra. }
set (isp := if String.eqb ptype "LOX/RP1" then 340 else 450).
assert (Hisp : 0 < isp).
{ unfold isp. destruct (String.eqb ptype "LOX/RP1"); lra. }
assert (Hg : 0 < isp * GRAVITY) by (unfold GRAVITY; nra).
destruct i as [| [| i]];
  do 2 (match goal with
        | |- context [Rlt_dec 0 ?e] =>
            destruct (Rlt_dec 0 e) as [_ | N];
            [| exfalso; unfold GRAVITY in N; nra]
        end);
  rewrite (truediv_ok _ (isp * GRAVITY)) by lra; cbn [bind];
  (rewrite truediv_ok
     by (apply Rgt_not_eq, Rdiv_lt_0_compat; [unfold GRAVITY; nra | lra]));
  cbn [bind];
  rewrite Stage_init_ok by (unfold GRAVITY; nra);
  (eexists; split; [reflexivity |]);
  unfold stage_sound, stage_masses_ok, stage_propellant_ok;
  cbn [built_stage Stage.dry_mass Stage.propellant_mass Stage.total_mass
       Stage.propellant Stage.thrust_vac Stage.diameter Stage.length];
  (repeat split;
   [ nra | nra | apply resolved_propellant_in_catalog
   | unfold GRAVITY; nra | nra | nra ]).
Qed.

(** The optimizer the constructor returns for a positive payload and one,
    two or three stages. *)
Lemma optimizer_init_state (target payload : R) (propellant_type : string)
      (stages : Z) (initial_diameter safety_factor : R) :
  (1 <= stages <= 3)%Z -> 0 < payload ->
  exists o out,
    RocketOptimizer.__init__ target payload propellant_type stages
                             initial_diameter safety_factor = Ok (o, out)
    /\ RocketOptimizer.target_altitude o = target
    /\ RocketOptimizer.payload_mass o = payload
    /\ RocketOptimizer.num_stages o = stages
    /\ RocketOptimizer.safety_factor o = safety_factor
    /\ (exists name,
          RocketOptimizer.rocket o
          = Some (MultiStageRocket.mk name payload
                                      (RocketOptimizer.stages o)))
    /\ Forall stage_sound (RocketOptimizer.stages o)
    /\ Z.of_nat (List.length (RocketOptimizer.stages o)) = stages.
Proof.
intros Hn Hp.
pose proof (initial_mass_ratio_pos target) as Himr.
unfold RocketOptimizer.__init__, RocketOptimizer._initialize_rocket.
cbn [RocketOptimizer.target_altitude RocketOptimizer.payload_mass
     RocketOptimizer.num_stages RocketOptimizer.propellant_type
     RocketOptimizer.initial_diameter RocketOptimizer.safety_factor
     RocketOptimizer.max_altitude].
set (tme := payload * (if Rlt_dec target 100000 then 20
                       else if Rlt_dec target 400000 then 30 else 50)).
assert (Htme : 0 < tme) by (unfold tme; nra).
assert (Hcases : stages = 1%Z \/ stages = 2%Z \/ stages = 3%Z) by lia.
destruct Hcases as [-> | [-> | ->]].
- destruct (initial_stage_sound target tme 1 0 [1.0] 1.0 ["LOX/RP1"%string]
              "LOX/RP1" eq_refl eq_refl eq_refl eq_refl)
    as (s0 & E0 & Hs0); [lra |].
  change (Z.to_nat 1) with 1%nat.
  cbn [seq RocketOptimizer.initial_stages].
  rewrite E0. cbn [bind app].
  assert (Hall : Forall stage_sound [s0])
    by (repeat (apply Forall_cons; [assumption |]); apply Forall_nil).
  match goal with
  | |- context [RocketOptimizer._estimate_altitude ?o] =>
      destruct (estimate_altitude_returns o _ s0 [] eq_refl eq_refl)
        as [[alt printed] Hest]
  end;
    [exact Hp | now apply Forall_stage_masses_ok
     | destruct Hs0 as (_ & _ & _ & Hd & _); exact Hd
     | unfold MultiStageRocket.get_height;
       pose proof (fold_left_length_pos [s0] 0 Hall (Rle_refl 0)
                                        ltac:(discriminate));
       cbn [MultiStageRocket.__init__ MultiStageRocket.stages]; lra |].
  rewrite Hest. cbn [bind].
  do 2 eexists. split; [reflexivity |].
  cbn [RocketOptimizer.target_altitude RocketOptimizer.payload_mass
       RocketOptimizer.num_stages RocketOptimizer.safety_factor
       RocketOptimizer.rocket RocketOptimizer.stages].
  repeat split; [eexists; reflexivity | exact Hall].
- destruct (initial_stage_sound target tme 2 0 [0.80; 0.20] 0.80
              ["LOX/RP1"%string; "LOX/LH2"%string]
              "LOX/RP1" eq_refl eq_refl eq_refl eq_refl)
    as (s0 & E0 & Hs0); [lra |].
  destruct (initial_stage_sound target tme 2 1 [0.80; 0.20] 0.20
              ["LOX/RP1"%string; "LOX/LH2"%string]
              "LOX/LH2" eq_refl eq_refl eq_refl eq_refl)
    as (s1 & E1 & Hs1); [lra |].
  change (Z.to_nat 2) with 2%nat.
  cbn [seq RocketOptimizer.initial_stages].
  rewrite E0. cbn [bind app]. rewrite E1. cbn [bind app].
  assert (Hall : Forall stage_sound [s0; s1])
    by (repeat (apply Forall_cons; [assumption |]); apply Forall_nil).
  match goal with
  | |- context [RocketOptimizer._estimate_altitude ?o] =>
      destruct (estimate_altitude_returns o _ s0 [s1] eq_refl eq_refl)
        as [[alt printed] Hest]
  end;
    [exact Hp | now apply Forall_stage_masses_ok
     | destruct Hs0 as (_ & _ & _ & Hd & _); exact Hd
     | unfold MultiStageRocket.get_height;
       pose proof (fold_left_length_pos [s0; s1] 0 Hall (Rle_refl 0)
                                        ltac:(discriminate));
       cbn [MultiStageRocket.__init__ MultiStageRocket.stages]; lra |].
  rewrite Hest. cbn [bind].
  do 2 eexists. split; [reflexivity |].
  cbn [RocketOptimizer.target_altitude RocketOptimizer.payload_mass
       RocketOptimizer.num_stages RocketOptimizer.safety_factor
       RocketOptimizer.rocket RocketOptimizer.stages].
  repeat split; [eexists; reflexivity | exact Hall].
- destruct (initial_stage_sound target tme 3 0 [0.75; 0.20; 0.05] 0.75
              ["LOX/RP1"%string; "LOX/LH2"%string; "LOX/LH2"%string]
              "LOX/RP1" eq_refl eq_refl eq_refl eq_refl)
    as (s0 & E0 & Hs0); [lra |].
  destruct (initial_stage_sound target tme 3 1 [0.75; 0.20; 0.05] 0.20
              ["LOX/RP1"%string; "LOX/LH2"%string; "LOX/LH2"%string]
              "LOX/LH2" eq_refl eq_refl eq_refl eq_refl)
    as (s1 & E1 & Hs1); [lra |].
  destruct (initial_stage_sound target tme 3 2 [0.75; 0.20; 0.05] 0.05
              ["LOX/RP1"%string; "LOX/LH2"%string; "LOX/LH2"%string]
              "LOX/LH2" eq_refl eq_refl eq_refl eq_refl)
    as (s2 & E2 & Hs2); [lra |].
  change (Z.to_nat 3) with 3%nat.
  cbn [seq RocketOptimizer.initial_stages].
  rewrite E0. cbn [bind app]. rewrite E1. cbn [bind app].
  rewrite E2. cbn [bind app].
  assert (Hall : Forall stage_sound [s0; s1; s2])
    by (repeat (apply Forall_cons; [assumption |]); apply Forall_nil).
  match goal with
  | |- context [RocketOptimizer._estimate_altitude ?o] =>
      destruct (estimate_altitude_returns o _ s0 [s1; s2] eq_refl eq_refl)
        as [[alt printed] Hest]
  end;
    [exact Hp | now apply Forall_stage_masses_ok
     | destruct Hs0 as (_ & _ & _ & Hd & _); exact Hd
     | unfold MultiStageRocket.get_height;
       pose proof (fold_left_length_pos [s0; s1; s2] 0 Hall (Rle_refl 0)
                                        ltac:(discriminate));
       cbn [MultiStageRocket.__init__ MultiStageRocket.stages]; lra |].
  rewrite Hest. cbn [bind].
  do 2 eexists. split; [reflexivity |].
  cbn [RocketOptimizer.target_altitude RocketOptimizer.payload_mass
       RocketOptimizer.num_stages RocketOptimizer.safety_factor
       RocketOptimizer.rocket RocketOptimizer.stages].
  repeat split; [eexists; reflexivity | exact Hall].
Qed.

Lemma initial_table_ready (o : RocketOptimizer.t) :
  (1 <= RocketOptimizer.num_stages o <= 3)%Z ->
  Z.of_nat (List.length (RocketOptimizer.stages o))
  = RocketOptimizer.num_stages o ->
  table_ready RocketOptimizer.initial_stage_l_to_d o.
Proof.
intros Hn Hlen. unfold table_ready.
assert (Hcases : RocketOptimizer.num_stages o = 1%Z
                 \/ RocketOptimizer.num_stages o = 2%Z
                 \/ RocketOptimizer.num_stages o = 3%Z) by lia.
destruct Hcases as [E | [E | E]]; rewrite E in *;
  (eexists; split; [reflexivity | simpl; lia]).
Qed.

(** X19. Built for a positive payload, one, two or three stages, a safety
    factor that is not 0 and a target altitude that is not 0, the optimizer
    runs [optimize_to_altitude] to the end for any number of iterations:
    nothing is raised, the rocket returned is the optimizer's own, carries the
    payload and as many stages as asked for, every stage has a dry mass of at
    least 100 kg, a non-negative propellant mass and a total mass that is
    their sum, and the history holds the initial state and at most one entry
    per iteration. *)
Theorem optimizer_run_returns
        (target payload : R) (propellant_type : string)
        (stages : Z) (initial_diameter safety_factor : R)
        (iterations : nat) (adjustment_factor : R) :
  (1 <= stages <= 3)%Z -> 0 < payload ->
  safety_factor <> 0 -> target <> 0 ->
  exists o out rocket state',
    RocketOptimizer.__init__ target payload propellant_type stages
                             initial_diameter safety_factor = Ok (o, out)
    /\ RocketOptimizer.optimize_to_altitude
         (RocketOptimizer.constructed o out) iterations adjustment_factor
       = Ok (rocket, state')
    /\ RocketOptimizer.rocket (RocketOptimizer.opt state') = Some rocket
    /\ MultiStageRocket.stages rocket
       = RocketOptimizer.stages (RocketOptimizer.opt state')
    /\ MultiStageRocket.payload_mass rocket = payload
    /\ Z.of_nat (List.length (MultiStageRocket.stages rocket)) = stages
    /\ Forall (fun s => 100 <= Stage.dry_mass s
                        /\ 0 <= Stage.propellant_mass s
                        /\ Stage.total_mass s
                           = Stage.dry_mass s + Stage.propellant_mass s)
              (MultiStageRocket.stages rocket)
    /\ (1 <= List.length (RocketOptimizer.optimization_history state')
        <= 1 + iterations)%nat.
Proof.
intros Hn Hp Hsf Htarget.
destruct (optimizer_init_state target payload propellant_type stages
                               initial_diameter safety_factor Hn Hp)
  as (o & out & Einit & Ht & Hpay & Hnum & Hsafe & Hrocket & Hall & Hlen).
assert (Hsound : optimizer_sound o).
{ unfold optimizer_sound. rewrite Hpay, Hsafe.
  split; [exact Hp |]. split; [exact Hsf |]. split; [exact Hrocket |].
  split; [| exact Hall].
  intros E. rewrite E in Hlen. simpl in Hlen. lia. }
destruct (optimize_to_altitude_sound
            (RocketOptimizer.constructed o out) iterations adjustment_factor)
  as (rocket & state' & Erun & Hs' & Hsame & Hr & Hdry & Hhist).
- exact Hsound.
- apply initial_table_ready; cbn [RocketOptimizer.constructed
                                   RocketOptimizer.opt];
    rewrite Hnum; assumption.
- cbn [RocketOptimizer.constructed RocketOptimizer.opt].
  rewrite Ht. exact Htarget.
- cbn [RocketOptimizer.constructed RocketOptimizer.opt
       RocketOptimizer.optimization_history] in *.
  destruct (total_delta_v_sound _ rocket Hs' Hr) as (Hst & Hpm & _).
  destruct Hsame as (_ & Hpay' & _ & _ & Hlen').
  exists o, out, rocket, state'.
  split; [exact Einit |]. split; [exact Erun |]. split; [exact Hr |].
  split; [exact Hst |].
  split; [rewrite Hpm, Hpay', Hpay; reflexivity |].
  split; [rewrite Hst, Hlen'; exact Hlen |].
  split; [| simpl in Hhist; lia].
  rewrite Hst.
  destruct Hs' as (_ & _ & _ & _ & Hall').
  apply Forall_forall. intros s Hin.
  rewrite Forall_forall in Hdry, Hall'.
  destruct (Hall' s Hin) as ((_ & Hprop & Htot) & _).
  split; [apply Hdry; exact Hin |]. split; assumption.
Qed.

Lemma optimizer_run_returns_witness :
  exists o out rocket state',
    RocketOptimizer.__init__ 400000 2000 "LOX/LH2" 2 3.0 1.2 = Ok (o, out)
    /\ RocketOptimizer.optimize_to_altitude
         (RocketOptimizer.constructed o out) 10 0.2 = Ok (rocket, state')
    /\ MultiStageRocket.payload_mass rocket = 2000
    /\ List.length (MultiStageRocket.stages rocket) = 2%nat
    /\ Forall (fun s => 100 <= Stage.dry_mass s)
              (MultiStageRocket.stages rocket).
Proof.
destruct (optimizer_run_returns 400000 2000 "LOX/LH2" 2 3.0 1.2 10 0.2)
  as (o & out & rocket & state' & Einit & Erun & _ & _ & Hpay & Hlen
      & Hall & _); [lia | lra | lra | lra |].
exists o, out, rocket, state'.
split; [exact Einit |]. split; [exact Erun |]. split; [exact Hpay |].
split; [lia |].
eapply Forall_impl; [| exact Hall]. now intros s (H & _).
Defined.

(** X20. With a target altitude of 0, which the constructor accepts, the first
    iteration of [optimize_to_altitude] divides the altitude error by the
    target and raises ZeroDivisionError; with no iteration asked for nothing
    is divided. *)
Theorem optimizer_run_zero_target
        (payload : R) (propellant_type : string)
        (stages : Z) (initial_diameter safety_factor : R) :
  (1 <= stages <= 3)%Z -> 0 < payload ->
  exists o out,
    RocketOptimizer.__init__ 0 payload propellant_type stages
                             initial_diameter safety_factor = Ok (o, out)
    /\ forall (iterations : nat) (adjustment_factor : R),
         RocketOptimizer.optimize_to_altitude
           (RocketOptimizer.constructed o out) (S iterations)
           adjustment_factor
         = Raise ZeroDivisionError.
Proof.
intros Hn Hp.
destruct (optimizer_init_state 0 payload propellant_type stages
                               initial_diameter safety_factor Hn Hp)
  as (o & out & Einit & Ht & Hpay & _ & _ & (name & Hrocket) & Hall & _).
exists o, out. split; [exact Einit |].
intros iterations adjustment_factor.
unfold RocketOptimizer.optimize_to_altitude.
cbn [RocketOptimizer.constructed RocketOptimizer.opt
     RocketOptimizer.l_to_d RocketOptimizer.optimization_history
     RocketOptimizer.printed].
unfold RocketOptimizer.record_state, RocketOptimizer.the_rocket.
rewrite Hrocket. cbn [bind].
rewrite get_total_delta_v_staged;
  [| cbn [MultiStageRocket.payload_mass]; exact Hp
   | cbn [MultiStageRocket.stages]; now apply Forall_stage_masses_ok].
cbn [bind seq RocketOptimizer.optimize_loop RocketOptimizer.opt].
rewrite Ht, truediv_zero. reflexivity.
Qed.

Lemma optimizer_run_zero_target_witness :
  exists o out,
    RocketOptimizer.__init__ 0 2000 "LOX/LH2" 2 3.0 1.2 = Ok (o, out)
    /\ RocketOptimizer.optimize_to_altitude
         (RocketOptimizer.constructed o out) 10 0.2
       = Raise ZeroDivisionError.
Proof.
destruct (optimizer_run_zero_target 2000 "LOX/LH2" 2 3.0 1.2)
  as (o & out & Einit & Hrun); [lia | lra |].
exists o, out. split; [exact Einit |]. apply (Hrun 9%nat).
Defined.

End DesignMutation.

(* ===================================================================== *)
(** ** The altitude estimate as a function of the effective delta-v *)
(* ===================================================================== *)

Section EstimateExtras.

Import rocket_physics.
Import Spec.
Import rocket_optimizer.

Lemma capable_optimizer_sound : optimizer_sound capable_optimizer.
Proof.
unfold optimizer_sound, capable_optimizer.
cbn [RocketOptimizer.payload_mass RocketOptimizer.safety_factor
     RocketOptimizer.rocket RocketOptimizer.stages].
split; [lra |]. split; [lra |].
split; [eexists; reflexivity |]. split; [discriminate |].
constructor; [| constructor].
unfold stage_sound, stage_masses_ok, stage_propellant_ok. simpl.
repeat split; try lra. right. left. reflexivity.
Qed.

(** Past the liftoff check, a sound design gets an estimate and the
    effective delta-v it was computed from is printed. *)
Lemma estimate_altitude_prints (o : RocketOptimizer.t)
      (r : MultiStageRocket.t) :
  optimizer_sound o ->
  RocketOptimizer.rocket o = Some r ->
  ~ liftoff_twr o r < 1.2 ->
  exists estimate out v,
    RocketOptimizer._estimate_altitude o = Ok (estimate, out)
    /\ In (Print_effective_delta_v v) out.
Proof.
intros Hsound Hr Htwr.
pose proof Hsound as (Hp & _ & (name & Hr') & Hne & Hall).
destruct (total_delta_v_sound o r Hsound Hr) as (Hst & Hpay & Hm & dv & Hdv).
destruct (RocketOptimizer.stages o) as [| s0 rest] eqn:Hstages;
  [congruence |].
unfold RocketOptimizer._estimate_altitude.
rewrite Hr, Hstages. cbn [bind]. rewrite Hdv. cbn [bind].
rewrite truediv_ok by (unfold GRAVITY; nra). cbn [bind].
unfold liftoff_twr, first_stage_thrust_sl in Htwr. rewrite Hstages in Htwr.
destruct (Rlt_dec _ 1.2) as [Hlow | _]; [contradiction |].
rewrite truediv_ok by lra. cbn [bind].
unfold RocketOptimizer.index. cbn [nth_error bind].
inversion Hall as [| ? ? (_ & _ & _ & Hd & _) _]; subst.
rewrite truediv_ok by lra. cbn [bind].
assert (Hh : 0 < MultiStageRocket.get_height r).
{ unfold MultiStageRocket.get_height. rewrite Hst.
  assert (0 < fold_left (fun height stage => height + Stage.length stage)
                        (s0 :: rest) 0)
    by (apply fold_left_length_pos; [exact Hall | lra | discriminate]).
  lra. }
assert (Hfin : 0 < MultiStageRocket.get_height r / Stage.diameter s0)
  by now apply Rdiv_lt_0_compat.
rewrite truediv_ok by lra. cbn [bind].
match goal with
| |- context [Rle_dec ?e 0] => set (effective := e)
end.
destruct (Rle_dec effective 0).
{ do 3 eexists. split; [reflexivity |]. simpl. do 4 right. left.
  reflexivity. }
destruct (Rlt_dec effective 7800).
{ do 3 eexists. split; [reflexivity |]. simpl. do 4 right. left.
  reflexivity. }
rewrite truediv_ok by nra. cbn [bind].
do 3 eexists. split; [reflexivity |]. simpl. do 4 right. left.
reflexivity.
Qed.

(** X21. The estimate is a function of the effective delta-v that is printed
    with it: 0 up to 0 m/s, 85 % of the ballistic height v^2 / (2 g0) below
    7800 m/s, and from 7800 m/s on the height of the circular orbit flown at
    that speed, g0 R^2 / v^2 - R floored at 0. That height is below 174 km and
    is 0 from 7906 m/s on, so the estimate drops when the effective delta-v
    passes 7800 m/s. *)
Theorem estimate_altitude_by_effective_delta_v
        (o : RocketOptimizer.t) (estimate : R) (out : list output) (v : R) :
  RocketOptimizer._estimate_altitude o = Ok (estimate, out) ->
  In (Print_effective_delta_v v) out ->
  (v <= 0 -> estimate = 0)
  /\ (0 < v < 7800 -> estimate = v ^ 2 / (2 * GRAVITY) * 0.85)
  /\ (7800 <= v ->
      estimate = Py.max 0 (GRAVITY * EARTH_RADIUS ^ 2 / v ^ 2 - EARTH_RADIUS)
      /\ estimate < 174000)
  /\ (7906 <= v -> estimate = 0).
Proof.
unfold RocketOptimizer._estimate_altitude. intros H Hin.
apply bind_ok_inv in H. destruct H as (r & _ & H).
apply bind_ok_inv in H. destruct H as (dv & _ & H).
apply bind_ok_inv in H. destruct H as (twr & _ & H).
destruct (Rlt_dec twr 1.2).
{ injection H as _ <-. simpl in Hin. destruct Hin as [E | []].
  discriminate E. }
apply bind_ok_inv in H. destruct H as (q & _ & H).
apply bind_ok_inv in H. destruct H as (s0 & _ & H).
apply bind_ok_inv in H. destruct H as (fineness & _ & H).
apply bind_ok_inv in H. destruct H as (qf & _ & H).
match type of H with
| context [Rle_dec ?e 0] => set (effective := e) in *
end.
assert (Hv :
  In (Print_effective_delta_v v)
     [Print_delta_v dv; Print_twr twr;
      Print_gravity_losses (1500 * q);
      Print_drag_losses (300 * qf * (Stage.diameter s0 / 3.0));
      Print_effective_delta_v effective] -> v = effective).
{ intros Hin'. simpl in Hin'.
  destruct Hin' as [E | [E | [E | [E | [E | []]]]]]; try discriminate E.
  now injection E. }
destruct (Rle_dec effective 0) as [Hneg | Hpos].
{ injection H as <- <-. pose proof (Hv Hin) as ->.
  repeat split; intros; try reflexivity; exfalso; lra. }
destruct (Rlt_dec effective 7800) as [Hsub | Horb].
{ injection H as <- <-. pose proof (Hv Hin) as ->.
  repeat split; intros; try reflexivity; exfalso; lra. }
apply bind_ok_inv in H. destruct H as (radius & Hradius & H).
injection H as <- <-. pose proof (Hv Hin) as ->.
unfold truediv in Hradius.
destruct (Req_dec_T (effective ^ 2) 0) as [| Hnz]; [discriminate |].
injection Hradius as <-.
assert (Hmu : 0 < GRAVITY * EARTH_RADIUS ^ 2)
  by (unfold GRAVITY, EARTH_RADIUS; lra).
assert (Hbound : forall speed, 0 < speed -> speed <= effective ->
          GRAVITY * EARTH_RADIUS ^ 2 / effective ^ 2
          <= GRAVITY * EARTH_RADIUS ^ 2 / speed ^ 2).
{ intros speed Hs Hle. unfold Rdiv. apply Rmult_le_compat_l; [lra |].
  apply Rinv_le_contravar; [simpl; nra | simpl; nra]. }
split; [intros; exfalso; lra |].
split; [intros; exfalso; lra |].
split.
- intros _. split; [reflexivity |].
  pose proof (Hbound 7800 ltac:(lra) ltac:(lra)) as Hle.
  assert (Hnum : GRAVITY * EARTH_RADIUS ^ 2 / 7800 ^ 2 - EARTH_RADIUS
                 < 174000)
    by (unfold GRAVITY, EARTH_RADIUS; lra).
  unfold Py.max. cbn [pow] in *. destruct (Rlt_dec 0 _); lra.
- intros Hfast.
  pose proof (Hbound 7906 ltac:(lra) Hfast) as Hle.
  assert (Hnum : GRAVITY * EARTH_RADIUS ^ 2 / 7906 ^ 2 - EARTH_RADIUS <= 0)
    by (unfold GRAVITY, EARTH_RADIUS; lra).
  unfold Py.max. cbn [pow] in *. destruct (Rlt_dec 0 _); lra.
Qed.

Lemma estimate_altitude_by_effective_delta_v_witness :
  exists estimate out v,
    RocketOptimizer._estimate_altitude capable_optimizer
    = Ok (estimate, out)
    /\ In (Print_effective_delta_v v) out
    /\ (v <= 0 -> estimate = 0)
    /\ (7906 <= v -> estimate = 0).
Proof.
destruct (estimate_altitude_prints capable_optimizer _
            capable_optimizer_sound eq_refl)
  as (estimate & out & v & Hrun & Hin).
- unfold liftoff_twr, first_stage_thrust_sl,
    MultiStageRocket.get_total_mass, GRAVITY. simpl. lra.
- destruct (estimate_altitude_by_effective_delta_v
              capable_optimizer estimate out v Hrun Hin)
    as (H1 & _ & _ & H4).
  exists estimate, out, v. repeat split; assumption.
Defined.

(** *** The load on a tank wall *)

Lemma nth_error_firstn_S {A : Type} (l : list A) (i : nat) :
  nth_error (firstn (S i) l) i = nth_error l i.
Proof.
revert l. induction i as [| i IH]; intros [| a l]; try reflexivity.
simpl. apply (IH l).
Qed.

Lemma firstn_firstn_S {A : Type} (l : list A) (i : nat) :
  firstn i (firstn (S i) l) = firstn i l.
Proof. rewrite firstn_firstn. f_equal. lia. Qed.

(** X22. The wall thickness of the stage at index i is computed from the
    payload, the safety factor and the stages at the indices 0 to i only: the
    stages stacked on top of it, at the indices above i, have no effect on it. *)
Theorem wall_thickness_ignores_stages_above
        (o o' : RocketOptimizer.t) (i : nat) :
  firstn (S i) (RocketOptimizer.stages o')
  = firstn (S i) (RocketOptimizer.stages o) ->
  RocketOptimizer.payload_mass o' = RocketOptimizer.payload_mass o ->
  RocketOptimizer.safety_factor o' = RocketOptimizer.safety_factor o ->
  RocketOptimizer._calculate_wall_thickness o' i
  = RocketOptimizer._calculate_wall_thickness o i.
Proof.
intros Hstages Hp Hs.
unfold RocketOptimizer._calculate_wall_thickness, RocketOptimizer.index.
rewrite <- (nth_error_firstn_S (RocketOptimizer.stages o') i).
rewrite <- (nth_error_firstn_S (RocketOptimizer.stages o) i).
rewrite <- (firstn_firstn_S (RocketOptimizer.stages o') i).
rewrite <- (firstn_firstn_S (RocketOptimizer.stages o) i).
rewrite Hstages, Hp, Hs. reflexivity.
Qed.

Lemma wall_thickness_ignores_stages_above_witness :
  RocketOptimizer._calculate_wall_thickness stacked_optimizer 0
  = RocketOptimizer._calculate_wall_thickness underpowered_optimizer 0.
Proof.
apply (wall_thickness_ignores_stages_above
         underpowered_optimizer stacked_optimizer 0); reflexivity.
Defined.

End EstimateExtras.

(* ===================================================================== *)
(** ** Further properties of the performance analyzer *)
(* ===================================================================== *)

Section AnalysisExtras.

Import rocket_physics.
Import Spec.
Import performance_analysis.

(** *** Construction *)

Lemma analyzer_init_configured
      (rocket_config : list (string * R))
      (engine_config : list (string * list (string * R)))
      (propulsion_config : list (string * R))
      (pm bd ip it dt de : R) :
  configured engine_config propulsion_config pm bd ip it dt de ->
  RocketPerformanceAnalyzer.__init__ rocket_config engine_config
                                     propulsion_config
  = if Req_dec_T dt 0 then Raise ZeroDivisionError
    else Ok (constructed_analyzer rocket_config engine_config
                                  propulsion_config pm bd ip it dt de).
Proof.
intros (H1 & H2 & H3 & H4 & nozzle & H5 & H6 & H7).
unfold RocketPerformanceAnalyzer.__init__.
rewrite H1. cbn [bind]. rewrite H2. cbn [bind]. rewrite H3. cbn [bind].
rewrite H4. cbn [bind]. rewrite H5. cbn [bind]. rewrite H6. cbn [bind].
rewrite H7. cbn [bind].
pose proof PI_RGT_0 as Hpi.
destruct (Req_dec_T dt 0) as [-> | Hdt].
- replace (PI * (0 / 1000 / 2) ^ 2) with 0 by (simpl; lra).
  rewrite truediv_zero. reflexivity.
- rewrite truediv_ok; [reflexivity |].
  assert (0 < (dt / 1000 / 2) ^ 2) by (simpl; nra).
  nra.
Qed.

Lemma analyzer_init_inv
      (rocket_config : list (string * R))
      (engine_config : list (string * list (string * R)))
      (propulsion_config : list (string * R))
      (a : RocketPerformanceAnalyzer.t) :
  RocketPerformanceAnalyzer.__init__ rocket_config engine_config
                                     propulsion_config = Ok a ->
  exists pm bd ip it dt de,
    configured engine_config propulsion_config pm bd ip it dt de
    /\ dt <> 0
    /\ a = constructed_analyzer rocket_config engine_config
                                propulsion_config pm bd ip it dt de.
Proof.
intros H. pose proof H as H'.
unfold RocketPerformanceAnalyzer.__init__ in H.
apply bind_ok_inv in H. destruct H as (pm & H1 & H).
apply bind_ok_inv in H. destruct H as (bd & H2 & H).
apply bind_ok_inv in H. destruct H as (ip & H3 & H).
apply bind_ok_inv in H. destruct H as (it & H4 & H).
apply bind_ok_inv in H. destruct H as (nozzle & H5 & H).
apply bind_ok_inv in H. destruct H as (dt & H6 & H).
apply bind_ok_inv in H. destruct H as (nozzle' & H5' & H).
apply bind_ok_inv in H. destruct H as (de & H7 & _).
rewrite H5 in H5'. injection H5' as <-.
assert (Hc : configured engine_config propulsion_config pm bd ip it dt de).
{ unfold configured. repeat split; try assumption.
  exists nozzle. repeat split; assumption. }
rewrite (analyzer_init_configured _ _ _ _ _ _ _ _ _ Hc) in H'.
destruct (Req_dec_T dt 0); [discriminate |].
injection H' as <-.
exists pm, bd, ip, it, dt, de.
split; [exact Hc |]. split; [assumption | reflexivity].
Qed.

(** X23. When the seven configuration values it reads are present, the
    constructor raises ZeroDivisionError for a throat diameter of 0 and
    otherwise returns an analyzer with the standard constants, a dry mass of
    500 kg, a total mass of 500 kg plus the propellant, an expansion ratio
    that is the square of the ratio of the two diameters, no thrust recorded
    and no trajectory. *)
Theorem analyzer_init_outcome
        (rocket_config : list (string * R))
        (engine_config : list (string * list (string * R)))
        (propulsion_config : list (string * R))
        (pm bd ip it dt de : R) :
  configured engine_config propulsion_config pm bd ip it dt de ->
  (dt = 0 ->
   RocketPerformanceAnalyzer.__init__ rocket_config engine_config
                                      propulsion_config
   = Raise ZeroDivisionError)
  /\ (dt <> 0 ->
      exists a,
        RocketPerformanceAnalyzer.__init__ rocket_config engine_config
                                           propulsion_config = Ok a
        /\ standard_constants a
        /\ RocketPerformanceAnalyzer.dry_mass a = 500
        /\ RocketPerformanceAnalyzer.total_mass a = 500 + pm
        /\ RocketPerformanceAnalyzer.burn_time a = bd
        /\ RocketPerformanceAnalyzer.chamber_pressure a = ip * 1000000
        /\ RocketPerformanceAnalyzer.chamber_temperature a = it
        /\ RocketPerformanceAnalyzer.expansion_ratio a = (de / dt) ^ 2
        /\ RocketPerformanceAnalyzer.performance_metrics a = []
        /\ RocketPerformanceAnalyzer.trajectory_data a = None).
Proof.
intros Hc.
rewrite (analyzer_init_configured _ _ _ _ _ _ _ _ _ Hc).
split.
- intros ->. destruct (Req_dec_T 0 0); [reflexivity | congruence].
- intros Hdt. destruct (Req_dec_T dt 0); [contradiction |].
  eexists. split; [reflexivity |].
  unfold constructed_analyzer, standard_constants,
    RocketPerformanceAnalyzer._calculate_dry_mass.
  cbn [RocketPerformanceAnalyzer.g0 RocketPerformanceAnalyzer.R_air
       RocketPerformanceAnalyzer.p0 RocketPerformanceAnalyzer.T0
       RocketPerformanceAnalyzer.rho0 RocketPerformanceAnalyzer.dry_mass
       RocketPerformanceAnalyzer.total_mass
       RocketPerformanceAnalyzer.burn_time
       RocketPerformanceAnalyzer.chamber_pressure
       RocketPerformanceAnalyzer.chamber_temperature
       RocketPerformanceAnalyzer.expansion_ratio
       RocketPerformanceAnalyzer.performance_metrics
       RocketPerformanceAnalyzer.trajectory_data].
  pose proof PI_RGT_0 as Hpi.
  repeat split; try reflexivity; try lra.
  simpl. field. split; lra.
Qed.

Lemma demo_configured :
  configured (RocketPerformanceAnalyzer.engine_config demo_analyzer)
             (RocketPerformanceAnalyzer.propulsion_config demo_analyzer)
             100 10 2 500 20 60.
Proof.
unfold configured. repeat split.
eexists. repeat split.
Qed.

Lemma analyzer_init_outcome_witness :
  exists a,
    RocketPerformanceAnalyzer.__init__
      (RocketPerformanceAnalyzer.rocket_config demo_analyzer)
      (RocketPerformanceAnalyzer.engine_config demo_analyzer)
      (RocketPerformanceAnalyzer.propulsion_config demo_analyzer) = Ok a
    /\ RocketPerformanceAnalyzer.total_mass a = 500 + 100
    /\ RocketPerformanceAnalyzer.expansion_ratio a = (60 / 20) ^ 2
    /\ RocketPerformanceAnalyzer.performance_metrics a = [].
Proof.
destruct (proj2 (analyzer_init_outcome
                   (RocketPerformanceAnalyzer.rocket_config demo_analyzer)
                   _ _ 100 10 2 500 20 60 demo_configured))
  as (a & H & _ & _ & Ht & _ & _ & _ & He & Hm & _); [lra |].
exists a. repeat split; assumption.
Defined.

(** *** The atmosphere and the drag *)

Lemma scale_heights (h : R) :
  exp (- h / 7500) = exp (- h / 7000) * exp (h / 105000).
Proof.
rewrite <- exp_plus. f_equal. field.
Qed.

(** X24. From sea level up the atmosphere model returns, for an analyzer with
    the constants of the constructor: pressure and density fall off
    exponentially with scale heights of 7500 m and 7000 m, the three values
    satisfy the ideal-gas law, and the temperature, being pressure over
    density, grows with altitude as exp (h / 105000) from 101325 / (1.225 *
    287.05) K at sea level. *)
Theorem atmosphere_above_sea_level
        (self : RocketPerformanceAnalyzer.t) (h : R) :
  standard_constants self ->
  0 <= h <= 1000000 ->
  exists pressure density temperature,
    RocketPerformanceAnalyzer.atmospheric_properties self h
    = Ok (pressure, density, temperature)
    /\ pressure = 101325 * exp (- h / 7500)
    /\ density = 1.225 * exp (- h / 7000)
    /\ 0 < pressure <= 101325
    /\ 0 < density <= 1.225
    /\ pressure = density * 287.05 * temperature
    /\ temperature = 101325 / (1.225 * 287.05) * exp (h / 105000)
    /\ 288.15 < temperature.
Proof.
intros (_ & HR & Hp0 & _ & Hrho) (Hh & _).
unfold RocketPerformanceAnalyzer.atmospheric_properties.
destruct (Rlt_dec h 0) as [N | _]; [exfalso; lra |].
rewrite HR, Hp0, Hrho.
pose proof (exp_pos (- h / 7500)) as Hep.
pose proof (exp_pos (- h / 7000)) as Her.
pose proof (exp_pos (h / 105000)) as Het.
assert (Hep1 : exp (- h / 7500) <= 1).
{ rewrite <- exp_0.
  destruct (Req_dec h 0) as [-> | Hne];
    [right; f_equal; lra | left; apply exp_increasing; lra]. }
assert (Her1 : exp (- h / 7000) <= 1).
{ rewrite <- exp_0.
  destruct (Req_dec h 0) as [-> | Hne];
    [right; f_equal; lra | left; apply exp_increasing; lra]. }
assert (Het1 : 1 <= exp (h / 105000)).
{ rewrite <- exp_0.
  destruct (Req_dec h 0) as [-> | Hne];
    [right; f_equal; lra | left; apply exp_increasing; lra]. }
rewrite truediv_ok by nra. cbn [bind].
do 3 eexists. split; [reflexivity |].
split; [reflexivity |]. split; [reflexivity |].
split; [nra |]. split; [nra |].
split; [field; lra |].
assert (Ht : 101325 * exp (- h / 7500) / (1.225 * exp (- h / 7000) * 287.05)
             = 101325 / (1.225 * 287.05) * exp (h / 105000)).
{ rewrite scale_heights. field. lra. }
split; [exact Ht |].
rewrite Ht.
assert (288.15 < 101325 / (1.225 * 287.05)) by lra.
nra.
Qed.

Lemma demo_analyzer_standard : standard_constants demo_analyzer.
Proof. unfold standard_constants, demo_analyzer. simpl. repeat split. Qed.

Lemma atmosphere_above_sea_level_witness :
  exists pressure density temperature,
    RocketPerformanceAnalyzer.atmospheric_properties demo_analyzer 7000
    = Ok (pressure, density, temperature)
    /\ density = 1.225 * exp (- 7000 / 7000)
    /\ pressure = density * 287.05 * temperature
    /\ 288.15 < temperature.
Proof.
destruct (atmosphere_above_sea_level demo_analyzer 7000
                                     demo_analyzer_standard)
  as (p & rho & T & H & _ & Hrho & _ & _ & Hgas & _ & HT); [lra |].
exists p, rho, T. repeat split; assumption.
Defined.

(** At every altitude up to 1000 km the atmosphere model returns a positive
    density of at most 1.225 and a positive temperature. *)
Lemma atmosphere_positive (self : RocketPerformanceAnalyzer.t) (h : R) :
  standard_constants self -> h <= 1000000 ->
  exists pressure density temperature,
    RocketPerformanceAnalyzer.atmospheric_properties self h
    = Ok (pressure, density, temperature)
    /\ 0 < density <= 1.225
    /\ 0 < temperature.
Proof.
intros Hc Hh.
destruct (Rlt_dec h 0) as [Hneg | Hpos].
- rewrite atmosphere_below_zero by exact Hneg.
  destruct Hc as (_ & _ & _ & HT & Hrho).
  do 3 eexists. split; [reflexivity |]. rewrite HT, Hrho. lra.
- destruct Hc as (_ & HR & Hp0 & _ & Hrho).
  unfold RocketPerformanceAnalyzer.atmospheric_properties.
  destruct (Rlt_dec h 0) as [N | _]; [contradiction |].
  rewrite HR, Hp0, Hrho.
  pose proof (exp_pos (- h / 7500)) as Hep.
  pose proof (exp_pos (- h / 7000)) as Her.
  assert (Her1 : exp (- h / 7000) <= 1).
  { rewrite <- exp_0.
    destruct (Req_dec h 0) as [-> | Hne];
      [right; f_equal; lra | left; apply exp_increasing; lra]. }
  rewrite truediv_ok by nra. cbn [bind].
  do 3 eexists. split; [reflexivity |]. split; [nra |].
  apply Rdiv_lt_0_compat; nra.
Qed.

Lemma drag_coefficient_bounds (mach : R) :
  0.2 <= RocketPerformanceAnalyzer.drag_coefficient mach <= 0.6.
Proof.
unfold RocketPerformanceAnalyzer.drag_coefficient, Py.min.
destruct (Rlt_dec mach 0.8); [lra |].
destruct (Rlt_dec mach 1.2); [lra |].
destruct (Rlt_dec 3 (mach - 1.2)); lra.
Qed.

(** X25. With the constants of the constructor and up to 1000 km of altitude,
    [drag_force] raises KeyError when the rocket configuration has no
    "max_diameter"; otherwise it returns a force that never points along the
    velocity, is 0 at rest, and whose magnitude lies between 0.2 and 0.6 times
    the dynamic pressure on the reference area, hence is at most 0.3675 v^2
    times that area. *)
Theorem drag_force_opposes_velocity
        (self : RocketPerformanceAnalyzer.t) (h v : R) :
  standard_constants self -> h <= 1000000 ->
  match getitem (RocketPerformanceAnalyzer.rocket_config self)
                "max_diameter" with
  | Raise e => RocketPerformanceAnalyzer.drag_force self h v = Raise e
  | Ok d =>
      exists drag density,
        RocketPerformanceAnalyzer.drag_force self h v = Ok drag
        /\ drag * v <= 0
        /\ (v = 0 -> drag = 0)
        /\ 0 < density <= 1.225
        /\ 0.2 * (0.5 * density * v ^ 2 * (PI * (d / 1000 / 2) ^ 2))
           <= Rabs drag
           <= 0.6 * (0.5 * density * v ^ 2 * (PI * (d / 1000 / 2) ^ 2))
        /\ Rabs drag <= 0.3675 * v ^ 2 * (PI * (d / 1000 / 2) ^ 2)
  end.
Proof.
intros Hc Hh.
destruct (atmosphere_positive self h Hc Hh)
  as (p & rho & T & Hatm & Hrho & HT).
pose proof Hc as (_ & HR & _).
unfold RocketPerformanceAnalyzer.drag_force.
rewrite Hatm. cbn [bind]. rewrite HR.
rewrite math_sqrt_ok by nra. cbn [bind].
assert (Hsos : 0 < sqrt (1.4 * 287.05 * T)) by (apply sqrt_lt_R0; nra).
destruct (Rlt_dec 0 (sqrt (1.4 * 287.05 * T))) as [_ | N];
  [| contradiction].
rewrite truediv_ok by lra. cbn [bind].
destruct (getitem (RocketPerformanceAnalyzer.rocket_config self)
                  "max_diameter") as [d | e]; [| reflexivity].
cbn [bind].
set (cd := RocketPerformanceAnalyzer.drag_coefficient
             (Rabs v / sqrt (1.4 * 287.05 * T))).
pose proof (drag_coefficient_bounds (Rabs v / sqrt (1.4 * 287.05 * T)))
  as Hcd. fold cd in Hcd.
set (area := PI * (d / 1000 / 2) ^ 2).
assert (Harea : 0 <= area).
{ unfold area. pose proof PI_RGT_0.
  assert (0 <= (d / 1000 / 2) ^ 2) by (simpl; nra). nra. }
assert (Hv2 : 0 <= v ^ 2) by (simpl; nra).
set (q := 0.5 * rho * v ^ 2) in *.
assert (Hq : 0 <= q) by (unfold q; nra).
assert (Hqa : 0 <= q * area) by nra.
assert (Hdrag : 0 <= q * cd * area) by nra.
exists (- math_copysign (q * cd * area) v), rho.
split; [reflexivity |].
assert (Habs : Rabs (- math_copysign (q * cd * area) v) = q * cd * area).
{ unfold math_copysign. destruct (Rlt_dec v 0);
    rewrite ?Ropp_involutive, ?Rabs_Ropp, ?Rabs_Rabsolu;
    now apply Rabs_pos_eq. }
split; [| split; [| split; [exact Hrho | split]]].
- unfold math_copysign. rewrite (Rabs_pos_eq _ Hdrag).
  destruct (Rlt_dec v 0); nra.
- intros ->. unfold math_copysign, q.
  replace (0.5 * rho * 0 ^ 2 * cd * area) with 0 by (simpl; lra).
  rewrite Rabs_R0. destruct (Rlt_dec 0 0); lra.
- rewrite Habs. fold q.
  assert (0 <= q * area * (cd - 0.2)) by (apply Rmult_le_pos; lra).
  assert (0 <= q * area * (0.6 - cd)) by (apply Rmult_le_pos; lra).
  lra.
- rewrite Habs.
  assert (0 <= q * area * (0.6 - cd)) by (apply Rmult_le_pos; lra).
  assert (Hq' : q <= 0.6125 * v ^ 2) by (unfold q; nra).
  assert (0 <= (0.6125 * v ^ 2 - q) * area) by (apply Rmult_le_pos; lra).
  lra.
Qed.

Lemma drag_force_opposes_velocity_witness :
  exists drag,
    RocketPerformanceAnalyzer.drag_force demo_analyzer 2000 (-30) = Ok drag
    /\ drag * (-30) <= 0.
Proof.
pose proof (drag_force_opposes_velocity demo_analyzer 2000 (-30)
              demo_analyzer_standard ltac:(lra)) as H.
cbn [demo_analyzer RocketPerformanceAnalyzer.rocket_config getitem
     String.eqb Ascii.eqb Bool.eqb] in H.
destruct H as (drag & rho & Hrun & Hopp & _).
exists drag. split; assumption.
Defined.

(** *** Mass and thrust over time *)

(** X26. For an analyzer as constructed, with a positive burn duration and a
    non-negative propellant mass: during the burn the mass falls linearly from
    500 kg plus the propellant to 500 kg, the dry mass, which it keeps
    afterwards. A dry mass assigned later, as the payload search does, leaves
    the mass during the burn as it was and is the mass after it. *)
Theorem mass_function_profile
        (rocket_config : list (string * R))
        (engine_config : list (string * list (string * R)))
        (propulsion_config : list (string * R))
        (a : RocketPerformanceAnalyzer.t) (t new_dry_mass : R) :
  RocketPerformanceAnalyzer.__init__ rocket_config engine_config
                                     propulsion_config = Ok a ->
  0 < RocketPerformanceAnalyzer.burn_time a ->
  0 <= RocketPerformanceAnalyzer.propellant_mass a ->
  (0 <= t <= RocketPerformanceAnalyzer.burn_time a ->
   exists m,
     RocketPerformanceAnalyzer.mass_function a t = Ok m
     /\ m = 500 + RocketPerformanceAnalyzer.propellant_mass a
            * (1 - t / RocketPerformanceAnalyzer.burn_time a)
     /\ 500 <= m <= 500 + RocketPerformanceAnalyzer.propellant_mass a
     /\ RocketPerformanceAnalyzer.mass_function
          (RocketPerformanceAnalyzer.set_dry_mass a new_dry_mass) t = Ok m)
  /\ (RocketPerformanceAnalyzer.burn_time a < t ->
      RocketPerformanceAnalyzer.mass_function a t = Ok 500
      /\ RocketPerformanceAnalyzer.mass_function
           (RocketPerformanceAnalyzer.set_dry_mass a new_dry_mass) t
         = Ok new_dry_mass).
Proof.
intros Hinit Hbt Hpm.
apply analyzer_init_inv in Hinit.
destruct Hinit as (pm & bd & ip & it & dt & de & _ & _ & ->).
unfold RocketPerformanceAnalyzer.mass_function.
cbn [constructed_analyzer RocketPerformanceAnalyzer.set_dry_mass
     RocketPerformanceAnalyzer.burn_time
     RocketPerformanceAnalyzer.propellant_mass
     RocketPerformanceAnalyzer.total_mass
     RocketPerformanceAnalyzer.dry_mass] in *.
unfold RocketPerformanceAnalyzer._calculate_dry_mass.
split.
- intros (Ht0 & Ht).
  destruct (Rle_dec t bd) as [_ | N]; [| contradiction].
  rewrite truediv_ok by lra. cbn [bind].
  eexists. split; [reflexivity |].
  assert (Hfrac : 0 <= t / bd <= 1).
  { split; [apply Rmult_le_pos; [lra | left; now apply Rinv_0_lt_compat] |].
    apply (Rmult_le_reg_r bd); [lra |].
    unfold Rdiv. rewrite Rmult_assoc, Rinv_l by lra. lra. }
  assert (Heq : 200 + 100 + 50 + 150 + pm - pm / bd * t
                = 500 + pm * (1 - t / bd)) by (field; lra).
  split; [exact Heq |]. split; [rewrite Heq; nra | reflexivity].
- intros Ht.
  destruct (Rle_dec t bd) as [N | _]; [exfalso; lra |].
  split; [f_equal; lra | reflexivity].
Qed.

Lemma mass_function_profile_witness :
  exists a m,
    RocketPerformanceAnalyzer.__init__
      (RocketPerformanceAnalyzer.rocket_config demo_analyzer)
      (RocketPerformanceAnalyzer.engine_config demo_analyzer)
      (RocketPerformanceAnalyzer.propulsion_config demo_analyzer) = Ok a
    /\ RocketPerformanceAnalyzer.mass_function a 3 = Ok m
    /\ 500 <= m
    /\ RocketPerformanceAnalyzer.mass_function
         (RocketPerformanceAnalyzer.set_dry_mass a 525) 3 = Ok m.
Proof.
pose proof (analyzer_init_configured
              (RocketPerformanceAnalyzer.rocket_config demo_analyzer)
              _ _ 100 10 2 500 20 60 demo_configured) as Hinit.
destruct (Req_dec_T 20 0) as [E | _]; [exfalso; lra |].
destruct (proj1 (mass_function_profile _ _ _ _ 3 525 Hinit
                   ltac:(simpl; lra) ltac:(simpl; lra)))
  as (m & Hm & _ & (Hlow & _) & Hset); [simpl; lra |].
eexists. exists m. split; [exact Hinit |].
split; [exact Hm |]. split; [exact Hlow | exact Hset].
Defined.

(** X27. An analyzer has no thrust until [analyze_flow_properties] has run: as
    constructed, the equations of motion raise KeyError at any time up to
    burnout (the burn duration not being 0); once [analyze_flow_properties]
    has returned, the thrust up to burnout is the one it computed from its
    flow dictionary, the momentum thrust plus the pressure thrust against
    101325 Pa, and after burnout the thrust is 0 either way. *)
Theorem trajectory_needs_flow_analysis
        (rocket_config : list (string * R))
        (engine_config : list (string * list (string * R)))
        (propulsion_config : list (string * R))
        (a : RocketPerformanceAnalyzer.t) (t : R) (y : R * R) :
  RocketPerformanceAnalyzer.__init__ rocket_config engine_config
                                     propulsion_config = Ok a ->
  (t <= RocketPerformanceAnalyzer.burn_time a ->
   RocketPerformanceAnalyzer.thrust_function a t = Raise KeyError
   /\ (RocketPerformanceAnalyzer.burn_time a <> 0 ->
       RocketPerformanceAnalyzer.dynamics a t y = Raise KeyError))
  /\ (forall flow a',
        RocketPerformanceAnalyzer.analyze_flow_properties a = Ok (flow, a') ->
        RocketPerformanceAnalyzer.burn_time a'
        = RocketPerformanceAnalyzer.burn_time a
        /\ (t <= RocketPerformanceAnalyzer.burn_time a ->
            RocketPerformanceAnalyzer.thrust_function a' t
            = Ok (flow_mass_flow_rate flow * flow_exit_velocity flow
                  + (flow_exit_pressure flow - 101325)
                    * RocketPerformanceAnalyzer.exit_area a))
        /\ (RocketPerformanceAnalyzer.burn_time a < t ->
            RocketPerformanceAnalyzer.thrust_function a' t = Ok 0)).
Proof.
intros Hinit.
apply analyzer_init_inv in Hinit.
destruct Hinit as (pm & bd & ip & it & dt & de & _ & _ & ->).
split.
- intros Ht.
  assert (Hthrust :
    RocketPerformanceAnalyzer.thrust_function
      (constructed_analyzer rocket_config engine_config propulsion_config
                            pm bd ip it dt de) t = Raise KeyError).
  { unfold RocketPerformanceAnalyzer.thrust_function.
    destruct (Rle_dec t _) as [_ | N]; [reflexivity | contradiction]. }
  split; [exact Hthrust |].
  intros Hbd. unfold RocketPerformanceAnalyzer.dynamics.
  destruct y as [altitude velocity].
  unfold RocketPerformanceAnalyzer.mass_function.
  destruct (Rle_dec t _) as [_ | N]; [| contradiction].
  rewrite truediv_ok by exact Hbd. cbn [bind].
  rewrite Hthrust. reflexivity.
- intros flow a' H.
  unfold RocketPerformanceAnalyzer.analyze_flow_properties in H.
  repeat (apply bind_ok_inv in H;
          let x := fresh "x" in
          let E := fresh "E" in
          destruct H as (x & E & H)).
  injection H as <- <-.
  cbn [constructed_analyzer RocketPerformanceAnalyzer.set_performance_metric
       RocketPerformanceAnalyzer.burn_time
       RocketPerformanceAnalyzer.performance_metrics
       RocketPerformanceAnalyzer.p0 RocketPerformanceAnalyzer.exit_area
       flow_mass_flow_rate flow_exit_velocity flow_exit_pressure].
  split; [reflexivity |].
  unfold RocketPerformanceAnalyzer.thrust_function.
  cbn [constructed_analyzer RocketPerformanceAnalyzer.set_performance_metric
       RocketPerformanceAnalyzer.burn_time
       RocketPerformanceAnalyzer.performance_metrics setitem getitem
       String.eqb Ascii.eqb Bool.eqb].
  split; intros Ht.
  + destruct (Rle_dec t bd) as [_ | N]; [reflexivity | contradiction].
  + destruct (Rle_dec t bd) as [N | _]; [exfalso; lra | f_equal; lra].
Qed.

Lemma trajectory_needs_flow_analysis_witness :
  exists a,
    RocketPerformanceAnalyzer.__init__
      (RocketPerformanceAnalyzer.rocket_config demo_analyzer)
      (RocketPerformanceAnalyzer.engine_config demo_analyzer)
      (RocketPerformanceAnalyzer.propulsion_config demo_analyzer) = Ok a
    /\ RocketPerformanceAnalyzer.thrust_function a 3 = Raise KeyError
    /\ RocketPerformanceAnalyzer.dynamics a 3 (0, 0) = Raise KeyError.
Proof.
pose proof (analyzer_init_configured
              (RocketPerformanceAnalyzer.rocket_config demo_analyzer)
              _ _ 100 10 2 500 20 60 demo_configured) as Hinit.
destruct (Req_dec_T 20 0) as [E | _]; [exfalso; lra |].
destruct (proj1 (trajectory_needs_flow_analysis _ _ _ _ 3 (0, 0) Hinit))
  as (Hthrust & Hdyn); [simpl; lra |].
eexists. split; [exact Hinit |]. split; [exact Hthrust |].
apply Hdyn. simpl. lra.
Defined.

(** *** The flow through the nozzle *)

Lemma Rpower_ge_1 (x y : R) : 1 <= x -> 0 <= y -> 1 <= Rpower x y.
Proof.
intros Hx Hy. unfold Rpower. rewrite <- exp_0.
assert (Hln : 0 <= ln x).
{ rewrite <- ln_1. destruct Hx as [Hx | <-]; [left | right; reflexivity].
  apply ln_increasing; lra. }
assert (H : 0 <= y * ln x) by now apply Rmult_le_pos.
destruct H as [H | <-]; [left; now apply exp_increasing | right; reflexivity].
Qed.

Lemma Rpower_lt_1 (x y : R) : 0 < x < 1 -> 0 < y -> Rpower x y < 1.
Proof.
intros Hx Hy. unfold Rpower. rewrite <- exp_0.
apply exp_increasing.
assert (Hln : ln x < 0) by (rewrite <- ln_1; apply ln_increasing; lra).
nra.
Qed.

Lemma Rpower_inverse (x : R) : 0 < x -> Rpower x (-1) = / x.
Proof.
intros Hx. unfold Rpower.
replace (-1 * ln x) with (- ln x) by lra.
rewrite exp_Ropp, exp_ln by exact Hx. reflexivity.
Qed.

(** X28. For an analyzer as constructed with a positive chamber temperature,
    [analyze_flow_properties] raises ValueError when the expansion ratio is
    below 1 (the exit narrower than the throat), ZeroDivisionError when the
    chamber pressure is 0, and otherwise returns: the throat is sonic at 2 /
    2.3 of the chamber temperature, the exit Mach number is not negative, the
    exit temperature times 1 + 0.15 M^2 is the chamber temperature, the mass
    flow rate is not 0, and the three performance metrics are stored, the
    specific impulse being the thrust over the weight flow. *)
Theorem flow_properties_outcome
        (rocket_config : list (string * R))
        (engine_config : list (string * list (string * R)))
        (propulsion_config : list (string * R))
        (a : RocketPerformanceAnalyzer.t) :
  RocketPerformanceAnalyzer.__init__ rocket_config engine_config
                                     propulsion_config = Ok a ->
  0 < RocketPerformanceAnalyzer.chamber_temperature a ->
  (RocketPerformanceAnalyzer.expansion_ratio a < 1 ->
   RocketPerformanceAnalyzer.analyze_flow_properties a = Raise ValueError)
  /\ (1 <= RocketPerformanceAnalyzer.expansion_ratio a ->
      RocketPerformanceAnalyzer.chamber_pressure a = 0 ->
      RocketPerformanceAnalyzer.analyze_flow_properties a
      = Raise ZeroDivisionError)
  /\ (1 <= RocketPerformanceAnalyzer.expansion_ratio a ->
      RocketPerformanceAnalyzer.chamber_pressure a <> 0 ->
      exists flow a' thrust isp,
        RocketPerformanceAnalyzer.analyze_flow_properties a = Ok (flow, a')
        /\ flow_throat_mach flow = 1
        /\ flow_throat_temperature flow
           = RocketPerformanceAnalyzer.chamber_temperature a * (2 / 2.3)
        /\ 0 <= flow_exit_mach flow
        /\ flow_exit_temperature flow
           * (1 + 0.15 * flow_exit_mach flow ^ 2)
           = RocketPerformanceAnalyzer.chamber_temperature a
        /\ 0 <= flow_exit_velocity flow
        /\ flow_mass_flow_rate flow <> 0
        /\ getitem (RocketPerformanceAnalyzer.performance_metrics a')
                   "thrust" = Ok thrust
        /\ thrust = flow_mass_flow_rate flow * flow_exit_velocity flow
                    + (flow_exit_pressure flow - 101325)
                      * RocketPerformanceAnalyzer.exit_area a
        /\ getitem (RocketPerformanceAnalyzer.performance_metrics a')
                   "specific_impulse" = Ok isp
        /\ isp * (flow_mass_flow_rate flow * 9.81) = thrust
        /\ getitem (RocketPerformanceAnalyzer.performance_metrics a')
                   "exhaust_velocity" = Ok (flow_exit_velocity flow)).
Proof.
intros Hinit HT.
apply analyzer_init_inv in Hinit.
destruct Hinit as (pm & bd & ip & it & dt & de & _ & Hdt & ->).
unfold RocketPerformanceAnalyzer.analyze_flow_properties.
cbn [constructed_analyzer RocketPerformanceAnalyzer.gamma_steam
     RocketPerformanceAnalyzer.R_steam RocketPerformanceAnalyzer.g0
     RocketPerformanceAnalyzer.p0
     RocketPerformanceAnalyzer.chamber_pressure
     RocketPerformanceAnalyzer.chamber_temperature
     RocketPerformanceAnalyzer.throat_area
     RocketPerformanceAnalyzer.exit_area
     RocketPerformanceAnalyzer.expansion_ratio] in *.
pose proof PI_RGT_0 as Hpi.
set (At := PI * (dt / 1000 / 2) ^ 2).
set (Ae := PI * (de / 1000 / 2) ^ 2).
assert (HAt : 0 < At).
{ unfold At. assert (0 < (dt / 1000 / 2) ^ 2) by (simpl; nra). nra. }
assert (HAe : 0 <= Ae).
{ unfold Ae. assert (0 <= (de / 1000 / 2) ^ 2) by (simpl; nra). nra. }
fold At Ae.
assert (Heps : 0 <= Ae / At).
{ apply Rmult_le_pos; [exact HAe | left; now apply Rinv_0_lt_compat]. }
rewrite (truediv_ok 2 (1.3 + 1)) by lra. cbn [bind].
rewrite (truediv_ok 1.3 (1.3 - 1)) by lra. cbn [bind].
rewrite float_pow_pos by lra. cbn [bind].
rewrite math_sqrt_ok by nra. cbn [bind].
rewrite (truediv_ok 1.3 461.5) by lra. cbn [bind].
rewrite math_sqrt_ok by lra. cbn [bind].
rewrite (truediv_ok (1.3 + 1)) by lra. cbn [bind].
rewrite float_pow_pos by lra. cbn [bind].
rewrite math_sqrt_ok by lra. cbn [bind].
assert (HsT : 0 < sqrt it) by now apply sqrt_lt_R0.
rewrite truediv_ok by lra. cbn [bind].
rewrite (truediv_ok 2 (1.3 - 1)) by lra. cbn [bind].
rewrite (truediv_ok (1.3 - 1) 1.3) by lra. cbn [bind].
set (e4 := (1.3 - 1) / 1.3).
assert (He4 : 0 < e4) by (unfold e4; lra).
assert (Hconst : 0 < sqrt (1.3 / 461.5)
                     * Rpower ((1.3 + 1) / 2)
                              (- ((1.3 + 1) / (2 * (1.3 - 1))))).
{ apply Rmult_lt_0_compat; [apply sqrt_lt_R0; lra | apply Rpower_pos]. }
set (constant_term := sqrt (1.3 / 461.5)
                      * Rpower ((1.3 + 1) / 2)
                               (- ((1.3 + 1) / (2 * (1.3 - 1))))) in *.
split; [| split].
- (* exit narrower than the throat *)
  intros Hlt.
  destruct Heps as [Hpos | Hzero].
  + rewrite float_pow_pos by exact Hpos. cbn [bind].
    pose proof (Rpower_lt_1 (Ae / At) e4 (conj Hpos Hlt) He4) as Hp4.
    rewrite math_sqrt_domain_error; [reflexivity |].
    assert (0 < 2 / (1.3 - 1)) by lra. nra.
  + rewrite <- Hzero. unfold float_pow.
    destruct (Rlt_dec 0 0) as [N | _]; [exfalso; lra |].
    destruct (Req_dec_T 0 0) as [_ | N]; [| congruence].
    destruct (Req_dec_T e4 0) as [N | _]; [exfalso; lra |].
    destruct (Rlt_dec 0 e4) as [_ | N]; [| contradiction].
    cbn [bind].
    rewrite math_sqrt_domain_error; [reflexivity | lra].
- (* no chamber pressure *)
  intros Hge Hpc.
  rewrite float_pow_pos by lra. cbn [bind].
  pose proof (Rpower_ge_1 (Ae / At) e4 Hge (Rlt_le _ _ He4)) as Hp4.
  rewrite math_sqrt_ok
    by (apply Rmult_le_pos; [lra | lra]).
  cbn [bind].
  set (M := sqrt (2 / (1.3 - 1) * (Rpower (Ae / At) e4 - 1))).
  assert (HM : 0 <= M) by apply sqrt_pos.
  assert (Hbase : 1 <= 1 + (1.3 - 1) / 2 * M ^ 2) by (simpl; nra).
  rewrite (truediv_ok (Ropp 1.3)) by lra. cbn [bind].
  rewrite !float_pow_pos by lra. cbn [bind].
  rewrite math_sqrt_ok.
  2:{ rewrite Rpower_inverse by lra.
      assert (0 < / (1 + (1.3 - 1) / 2 * M ^ 2))
        by (apply Rinv_0_lt_compat; lra).
      nra. }
  cbn [bind].
  rewrite Hpc.
  replace (0 * At / sqrt it * constant_term * 9.81) with 0
    by (unfold Rdiv; ring).
  rewrite truediv_zero. reflexivity.
- (* the flow is computed *)
  intros Hge Hpc.
  rewrite float_pow_pos by lra. cbn [bind].
  pose proof (Rpower_ge_1 (Ae / At) e4 Hge (Rlt_le _ _ He4)) as Hp4.
  rewrite math_sqrt_ok
    by (apply Rmult_le_pos; [lra | lra]).
  cbn [bind].
  set (M := sqrt (2 / (1.3 - 1) * (Rpower (Ae / At) e4 - 1))).
  assert (HM : 0 <= M) by apply sqrt_pos.
  assert (Hbase : 1 <= 1 + (1.3 - 1) / 2 * M ^ 2) by (simpl; nra).
  rewrite (truediv_ok (Ropp 1.3)) by lra. cbn [bind].
  rewrite !float_pow_pos by lra. cbn [bind].
  assert (Hinv : 0 < / (1 + (1.3 - 1) / 2 * M ^ 2))
    by (apply Rinv_0_lt_compat; lra).
  rewrite math_sqrt_ok by (rewrite Rpower_inverse by lra; nra).
  cbn [bind].
  assert (Hmdot : ip * 1e6 * At / sqrt it * constant_term <> 0).
  { assert (H1 : ip * 1e6 * At <> 0)
      by (apply Rmult_integral_contrapositive_currified;
          [exact Hpc | lra]).
    assert (H2 : / sqrt it <> 0) by (apply Rinv_neq_0_compat; lra).
    unfold Rdiv. apply Rmult_integral_contrapositive_currified;
      [apply Rmult_integral_contrapositive_currified; assumption | lra]. }
  rewrite truediv_ok
    by (apply Rmult_integral_contrapositive_currified; [exact Hmdot | lra]).
  cbn [bind].
  do 4 eexists. split; [reflexivity |].
  cbn [flow_throat_mach flow_throat_temperature flow_exit_mach
       flow_exit_temperature flow_exit_velocity flow_mass_flow_rate
       flow_exit_pressure
       RocketPerformanceAnalyzer.set_performance_metric
       RocketPerformanceAnalyzer.performance_metrics setitem getitem
       String.eqb Ascii.eqb Bool.eqb].
  split; [lra |].
  split; [f_equal; lra |].
  split; [exact HM |].
  split.
  { rewrite Rpower_inverse by lra.
    replace (1 + 0.15 * M ^ 2) with (1 + (1.3 - 1) / 2 * M ^ 2) by lra.
    rewrite Rmult_assoc, Rinv_l by lra. lra. }
  split.
  { apply Rmult_le_pos; [apply sqrt_pos | exact HM]. }
  split; [exact Hmdot |].
  split; [reflexivity |]. split; [reflexivity |].
  split; [reflexivity |].
  split; [| reflexivity].
  match goal with
  | |- ?thrust / ?den * ?den' = _ =>
      replace den' with den by lra;
      unfold Rdiv at 1; rewrite Rmult_assoc, Rinv_l; [lra |]
  end.
  apply Rmult_integral_contrapositive_currified; [exact Hmdot | lra].
Qed.

Lemma flow_properties_outcome_witness :
  exists a flow a' thrust,
    RocketPerformanceAnalyzer.__init__
      (RocketPerformanceAnalyzer.rocket_config demo_analyzer)
      (RocketPerformanceAnalyzer.engine_config demo_analyzer)
      (RocketPerformanceAnalyzer.propulsion_config demo_analyzer) = Ok a
    /\ RocketPerformanceAnalyzer.analyze_flow_properties a = Ok (flow, a')
    /\ flow_throat_mach flow = 1
    /\ getitem (RocketPerformanceAnalyzer.performance_metrics a') "thrust"
       = Ok thrust.
Proof.
pose proof (analyzer_init_configured
              (RocketPerformanceAnalyzer.rocket_config demo_analyzer)
              _ _ 100 10 2 500 20 60 demo_configured) as Hinit.
destruct (Req_dec_T 20 0) as [E | _]; [exfalso; lra |].
pose proof PI_RGT_0 as Hpi.
assert (Hcancel : forall c1 c2, c2 <> 0 -> PI * c1 / (PI * c2) = c1 / c2)
  by (intros c1 c2 Hc2; field; split; [exact Hc2 | lra]).
destruct (proj2 (proj2 (flow_properties_outcome _ _ _ _ Hinit
                          ltac:(simpl; lra))))
  as (flow & a' & thrust & isp & Hrun & Hmach & _ & _ & _ & _ & _ & Hthrust
      & _).
- cbn [constructed_analyzer RocketPerformanceAnalyzer.expansion_ratio].
  rewrite Hcancel by (simpl; lra). simpl. lra.
- simpl. lra.
- eexists. exists flow, a', thrust.
  split; [exact Hinit |]. split; [exact Hrun |].
  split; [exact Hmach | exact Hthrust].
Defined.

(** *** The payload search *)

Section PayloadSearch.

Variable solve :
  (R -> R * R -> result (R * R)) ->
  (R -> result R) -> (R -> result R) ->
  (R -> R -> result R) -> (R -> result (R * R * R)) ->
  R -> R -> R * R -> R -> result Trajectory.

(** The analysis of an analyzer whose dry mass has just been assigned reads
    nothing but the vehicle and that dry mass. *)
Lemma analyze_flight (a : RocketPerformanceAnalyzer.t) (m : R) :
  RocketPerformanceAnalyzer.analyze_trajectory
    solve (RocketPerformanceAnalyzer.set_dry_mass a m) 0 0 500
  = match flight solve a m with
    | Ok trajectory =>
        Ok (trajectory,
            RocketPerformanceAnalyzer.set_trajectory_data
              (RocketPerformanceAnalyzer.set_dry_mass a m) trajectory)
    | Raise e => Raise e
    end.
Proof.
unfold flight, RocketPerformanceAnalyzer.analyze_trajectory.
change (RocketPerformanceAnalyzer.dynamics
          (RocketPerformanceAnalyzer.set_dry_mass (vehicle a) m))
  with (RocketPerformanceAnalyzer.dynamics
          (RocketPerformanceAnalyzer.set_dry_mass a m)).
change (RocketPerformanceAnalyzer.mass_function
          (RocketPerformanceAnalyzer.set_dry_mass (vehicle a) m))
  with (RocketPerformanceAnalyzer.mass_function
          (RocketPerformanceAnalyzer.set_dry_mass a m)).
change (RocketPerformanceAnalyzer.thrust_function
          (RocketPerformanceAnalyzer.set_dry_mass (vehicle a) m))
  with (RocketPerformanceAnalyzer.thrust_function
          (RocketPerformanceAnalyzer.set_dry_mass a m)).
change (RocketPerformanceAnalyzer.drag_force
          (RocketPerformanceAnalyzer.set_dry_mass (vehicle a) m))
  with (RocketPerformanceAnalyzer.drag_force
          (RocketPerformanceAnalyzer.set_dry_mass a m)).
change (RocketPerformanceAnalyzer.atmospheric_properties
          (RocketPerformanceAnalyzer.set_dry_mass (vehicle a) m))
  with (RocketPerformanceAnalyzer.atmospheric_properties
          (RocketPerformanceAnalyzer.set_dry_mass a m)).
cbn [vehicle RocketPerformanceAnalyzer.set_dry_mass
     RocketPerformanceAnalyzer.g0 RocketPerformanceAnalyzer.R_air].
destruct (solve _ _ _ _ _ _ _ _ _) as [trajectory | e]; reflexivity.
Qed.

Lemma analyze_flight_plain (a : RocketPerformanceAnalyzer.t) :
  RocketPerformanceAnalyzer.analyze_trajectory solve a 0 0 500
  = match flight solve a (RocketPerformanceAnalyzer.dry_mass a) with
    | Ok trajectory =>
        Ok (trajectory,
            RocketPerformanceAnalyzer.set_trajectory_data a trajectory)
    | Raise e => Raise e
    end.
Proof.
unfold flight, RocketPerformanceAnalyzer.analyze_trajectory.
change (RocketPerformanceAnalyzer.dynamics
          (RocketPerformanceAnalyzer.set_dry_mass
             (vehicle a) (RocketPerformanceAnalyzer.dry_mass a)))
  with (RocketPerformanceAnalyzer.dynamics a).
change (RocketPerformanceAnalyzer.mass_function
          (RocketPerformanceAnalyzer.set_dry_mass
             (vehicle a) (RocketPerformanceAnalyzer.dry_mass a)))
  with (RocketPerformanceAnalyzer.mass_function a).
change (RocketPerformanceAnalyzer.thrust_function
          (RocketPerformanceAnalyzer.set_dry_mass
             (vehicle a) (RocketPerformanceAnalyzer.dry_mass a)))
  with (RocketPerformanceAnalyzer.thrust_function a).
change (RocketPerformanceAnalyzer.drag_force
          (RocketPerformanceAnalyzer.set_dry_mass
             (vehicle a) (RocketPerformanceAnalyzer.dry_mass a)))
  with (RocketPerformanceAnalyzer.drag_force a).
change (RocketPerformanceAnalyzer.atmospheric_properties
          (RocketPerformanceAnalyzer.set_dry_mass
             (vehicle a) (RocketPerformanceAnalyzer.dry_mass a)))
  with (RocketPerformanceAnalyzer.atmospheric_properties a).
cbn [vehicle RocketPerformanceAnalyzer.set_dry_mass
     RocketPerformanceAnalyzer.g0 RocketPerformanceAnalyzer.R_air].
destruct (solve _ _ _ _ _ _ _ _ _) as [trajectory | e]; reflexivity.
Qed.

Lemma flight_same_vehicle (a b : RocketPerformanceAnalyzer.t) (m : R) :
  vehicle a = vehicle b -> flight solve a m = flight solve b m.
Proof. intros H. unfold flight. now rewrite H. Qed.

(** A step that is accepted is tested again, on the same vehicle with the
    same dry mass, and accepted again: the loop does not end. *)
Lemma search_repeats
      (maximize : bool) (target range original min_step step : R)
      (base : RocketPerformanceAnalyzer.t) (trajectory : Trajectory)
      (fuel : nat) :
  min_step <= step ->
  flight solve base (original + step) = Ok trajectory ->
  step_accepted maximize target range (apogee trajectory) ->
  forall (payload altitude : R) (self : RocketPerformanceAnalyzer.t),
    vehicle self = vehicle base ->
    RocketPerformanceAnalyzer.payload_search
      solve fuel maximize target range original min_step
      step payload altitude self = None.
Proof.
intros Hstep Hflight Hacc.
induction fuel as [| fuel IH]; intros payload altitude self Hv;
  [reflexivity |].
cbn [RocketPerformanceAnalyzer.payload_search].
destruct (Rle_dec min_step step) as [_ | N]; [| contradiction].
replace (original - payload + (payload + step)) with (original + step)
  by lra.
rewrite analyze_flight, (flight_same_vehicle self base _ Hv), Hflight.
unfold step_accepted in Hacc.
destruct maximize.
- destruct (Rle_dec target (apogee trajectory)) as [_ | N];
    [| contradiction].
  apply IH. exact Hv.
- destruct Hacc as (Hout & Habove).
  destruct (Rle_dec (Rabs (apogee trajectory - target)) range)
    as [Hin | _]; [contradiction |].
  destruct (Rlt_dec target (apogee trajectory)) as [_ | N];
    [| contradiction].
  apply IH. exact Hv.
Qed.

(** The payload the loop returns: the one it started from, or, in the search
    for a target altitude, that payload plus the one step it tested last. *)
Lemma search_result
      (maximize : bool) (target range original min_step : R) (fuel : nat) :
  0 < min_step ->
  forall (step payload altitude : R) (self : RocketPerformanceAnalyzer.t)
         (payload' altitude' : R) (self' : RocketPerformanceAnalyzer.t),
    RocketPerformanceAnalyzer.payload_search
      solve fuel maximize target range original min_step
      step payload altitude self = Some (Ok (payload', altitude', self')) ->
    (payload' = payload /\ altitude' = altitude)
    \/ (maximize = false
        /\ payload < payload' <= payload + step
        /\ Rabs (altitude' - target) <= range).
Proof.
intros Hmin.
induction fuel as [| fuel IH];
  intros step payload altitude self payload' altitude' self' H;
  [discriminate |].
cbn [RocketPerformanceAnalyzer.payload_search] in H.
destruct (Rle_dec min_step step) as [Hstep | _].
2:{ injection H as <- <- _. now left. }
replace (original - payload + (payload + step)) with (original + step)
  in H by lra.
rewrite analyze_flight in H.
destruct (flight solve self (original + step)) as [trajectory | e] eqn:Hf;
  [| discriminate].
destruct maximize.
- destruct (Rle_dec target (apogee trajectory)) as [Hacc | _].
  + rewrite (search_repeats true target range original min_step step
               self trajectory fuel Hstep Hf Hacc) in H by reflexivity.
    discriminate.
  + destruct (IH _ _ _ _ _ _ _ H) as [Hsame | (Hfalse & _)];
      [now left | discriminate].
- destruct (Rle_dec (Rabs (apogee trajectory - target)) range)
    as [Hin | Hout].
  + injection H as <- <- _. right.
    split; [reflexivity |]. split; [lra | exact Hin].
  + destruct (Rlt_dec target (apogee trajectory)) as [Habove | _].
    * rewrite (search_repeats false target range original min_step step
                 self trajectory fuel Hstep Hf (conj Hout Habove)) in H
        by reflexivity.
      discriminate.
    * destruct (IH _ _ _ _ _ _ _ H) as [Hsame | (_ & Hp & Ha)];
        [now left | right].
      split; [reflexivity |]. split; [lra | exact Ha].
Qed.

End PayloadSearch.

(** X29. Whenever [calculate_maximum_payload] returns, the payload it reports
    is between the 50 kg it starts from and 75 kg, the first payload it tests,
    and in the search for the maximum (no target altitude given) it is 50 kg
    with a target of 1000 m: the dry mass tested is always the original dry
    mass plus the current step, so a step that is accepted is tested and
    accepted again without end. In particular, when the vehicle reaches 1000 m
    with 25 kg more, the search for the maximum returns for no iteration
    bound. *)
Theorem payload_search_never_gains
        (solve : (R -> R * R -> result (R * R)) ->
                 (R -> result R) -> (R -> result R) ->
                 (R -> R -> result R) -> (R -> result (R * R * R)) ->
                 R -> R -> R * R -> R -> result Trajectory)
        (self : RocketPerformanceAnalyzer.t)
        (target_altitude altitude_range : option R) :
  (forall fuel info self',
     RocketPerformanceAnalyzer.calculate_maximum_payload
       solve fuel self target_altitude altitude_range
     = Some (Ok (info, self')) ->
     50 <= max_payload info <= 75
     /\ (target_altitude = None ->
         max_payload info = 50 /\ info_target_altitude info = 1000))
  /\ (forall trajectory0 a0 trajectory a,
        RocketPerformanceAnalyzer.analyze_trajectory solve self 0 0 500
        = Ok (trajectory0, a0) ->
        RocketPerformanceAnalyzer.analyze_trajectory
          solve
          (RocketPerformanceAnalyzer.set_dry_mass
             self (RocketPerformanceAnalyzer.dry_mass self + 25)) 0 0 500
        = Ok (trajectory, a) ->
        1000 <= apogee trajectory ->
        forall fuel,
          RocketPerformanceAnalyzer.calculate_maximum_payload
            solve fuel self None altitude_range = None).
Proof.
split.
- intros fuel info self' H.
  unfold RocketPerformanceAnalyzer.calculate_maximum_payload in H.
  destruct (RocketPerformanceAnalyzer.analyze_trajectory solve _ 0 0 500)
    as [[trajectory0 a0] | e]; [| discriminate].
  destruct target_altitude as [target |].
  + destruct (RocketPerformanceAnalyzer.payload_search _ _ _ _ _ _ _ _ _ _ _)
      as [[[[payload' altitude'] s'] | e] |] eqn:Hsearch;
      try discriminate.
    injection H as <- _.
    apply search_result in Hsearch; [| lra].
    cbn [max_payload].
    split; [| discriminate].
    destruct Hsearch as [(-> & _) | (_ & Hp & _)]; lra.
  + destruct (RocketPerformanceAnalyzer.payload_search _ _ _ _ _ _ _ _ _ _ _)
      as [[[[payload' altitude'] s'] | e] |] eqn:Hsearch;
      try discriminate.
    injection H as <- _.
    apply search_result in Hsearch; [| lra].
    cbn [max_payload info_target_altitude].
    destruct Hsearch as [(-> & _) | (Hfalse & _)]; [| discriminate].
    split; [lra |]. intros _. split; reflexivity.
- intros trajectory0 a0 trajectory a Hrun0 Hrun Hreach fuel.
  unfold RocketPerformanceAnalyzer.calculate_maximum_payload.
  rewrite analyze_flight_plain in Hrun0. rewrite analyze_flight.
  destruct (flight solve self (RocketPerformanceAnalyzer.dry_mass self))
    as [tr0 | e]; [| discriminate].
  rewrite analyze_flight in Hrun.
  destruct (flight solve self (RocketPerformanceAnalyzer.dry_mass self + 25))
    as [tr | e] eqn:Hf; [| discriminate].
  injection Hrun as <- _.
  rewrite (search_repeats solve true 1000 _
             (RocketPerformanceAnalyzer.dry_mass self) 0.1 25 self tr fuel);
    [reflexivity | lra | exact Hf | exact Hreach | reflexivity].
Qed.

Lemma payload_search_never_gains_witness :
  (exists info self',
     RocketPerformanceAnalyzer.calculate_maximum_payload
       heavier_is_lower 3 demo_analyzer (Some 1090) (Some 3)
     = Some (Ok (info, self'))
     /\ 50 <= max_payload info <= 75)
  /\ RocketPerformanceAnalyzer.calculate_maximum_payload
       heavier_is_lower 1000 demo_analyzer None None = None.
Proof.
split.
- destruct demo_search_returns as [self' Hrun].
  eexists. exists self'. split; [exact Hrun |].
  exact (proj1 (proj1 (payload_search_never_gains
                         heavier_is_lower demo_analyzer
                         (Some 1090) (Some 3)) _ _ _ Hrun)).
- eapply (proj2 (payload_search_never_gains
                   heavier_is_lower demo_analyzer None None)).
  + apply heavier_is_lower_analyze. simpl. lra.
  + apply heavier_is_lower_analyze. simpl. lra.
  + cbn [apogee flat_trajectory RocketPerformanceAnalyzer.dry_mass
         RocketPerformanceAnalyzer.set_dry_mass demo_analyzer].
    unfold RocketPerformanceAnalyzer._calculate_dry_mass. lra.
Defined.

End AnalysisExtras.
